(* ===== verification/_CoqProject ===== *)
-Q . S2P
Prelude.v
CLayout.v
Blocks.v
Memory.v
Kernel.v
Env.v
Lock.v
Connector.v
Protocol.v
DiskStructs.v
Vfs.v
Iops.v
Super.v
ConnectorThreads.v
ReadSpec.v
Sequential.v
RamInodes.v
PlanB.v
PlanA.v
PlanAThreads.v
PlanARuns.v
Ramfs.v
Userland.v
UserApp.v
PlanAHelper.v
System.v
