(* ===== verification/Prelude.v ===== *)
(** * SJFS, the San Jose Filesystem: a verification library

    The repository holds a Linux kernel module that is to forward every file-system
    call to a user-space program over a netlink connector, that program, two backup
    plans and a logging test module.  This library models their C code and proves what
    it does; where that is not what it is meant to do the theorem says what happens
    instead.

    ** The program and the files that model it

    - [src/include/blocks.h], [ipc.h]: sizes, on-disk structures, message.  [CLayout]
      is C's struct layout for the ABIs LP64 and ILP32 with little-endian encoding;
      [Blocks] has each struct as a list of fields, two of them with their values.
    - [src/kernel_space_module/sjfs.c], [sjfs.h], bottom up:
      "socket level" ([cn_callback], [sjfs_read_block], [sjfs_write_block]): [Connector],
      one caller at a time, and [ConnectorThreads], any number of callers and
      callbacks interleaved line by line; [ReadSpec] is what the level promises, and
      [Sequential] says that the two models are of one program;
      "data structures level" ([sjfs_get_disk_superblock], [sjfs_get_disk_inode],
      [sjfs_set_disk_inode]): [DiskStructs];
      file and inode operations ([sjfs_fops_*], [sjfs_iops_*], their tables): [Iops];
      super block, mount and module ([sjfs_fill_super], [sjfs_mount], [sjfs_kill_sb],
      [sjfs_init], [sjfs_exit]): [Super].
    - [src/user_space_application/main.c] ([format], [netlink_send], [do_work], [main]):
      [UserApp], over the C library and the frames of [Userland].
    - [src/backup_plans/a/sjfs.c], [ipc.h]: [PlanA], and [PlanAThreads] with its reads,
      writes and callbacks interleaved, and [PlanARuns] that relates the two; [sjfs_helper.c]: [PlanAHelper].
    - [src/backup_plans/b/sjfs.c]: [PlanB].
    - [src/ramfs_test/sjfs_ram.c]: [Ramfs].  The inode code that both plans and this
      module carry in three copies is [RamInodes], over a record of operation tables.
    - The programs together: [System] puts the kernel module in front of [main.c], and
      plan A in front of its helper, each the other's environment.  Messages of the
      module queue at the program's socket, the program runs while the module sleeps,
      and what it sends comes back as callbacks.

    Definitions keep the names of the source; a function that is long is cut into
    definitions named after its parts, composed in its own definition.  Names of the
    modules that clash stand in a Module named after the file ([PlanA], [PlanB],
    [Ramfs], [Helper]).

    ** State and effects

    A computation is a state-passing function that ends with a result or stops
    ([outcome], [M] below).  The reasons to stop are the undefined behaviour the code
    can run into, sleeping for ever, and running out of a loop's fuel.  A ["%s"] reads
    its bytes up to the first NUL ([c_string]); without one in the array a program stops
    out of bounds, while for [printk] the log has the bytes and a mark that it read on
    ([Kernel.POverread]): what follows a message in kernel memory is not modelled.

    The kernel modules run on [Kernel.kstate]: heap ([Memory], blocks of bytes with
    bounds), inodes, superblocks, the module's static variables, a log of [printk] lines
    and of messages sent.  The programs run on [Userland.ustate]: heap, files, streams,
    [errno], and the log.  Integers are [Z] with their wrap-around written out; sizes of
    allocations are reduced to [size_t].

    The thread models are step relations with three switches: [answering] lets the helper
    reply to a request on its way, [oom] lets [kzalloc] fail, [spurious] lets messages
    arrive that nobody asked for.  What a reply says is an argument ([serve], [file]).  No
    program under [src] ever replies, so that the system of the repository is
    [answering = false]; each theorem says for which switches it holds.

    ** Interfaces

    Code outside the repository is a type class over an abstract environment, with
    what the proofs rely on in a law class: [Semaphore], [Allocator], [Clock],
    [Connector], [Printf] ([Kernel]); [Vfs], [DentryFrame], [MountSingle], [MountNodev]
    ([Vfs]); [UserCopy] ([PlanA]); [KeepsTypes] ([RamInodes]); [Libc] ([Userland], which
    needs no laws).  [Protocol.Helper] is the contract between the socket level and the
    code above it - a helper that answers every request with the block it names - and
    [Protocol.read_block_from_disk] discharges it: under it [sjfs_read_block] is a
    function from addresses to blocks.  [System] discharges [Connector] and [Libc] for
    each other.  [Lock] is what the two thread models share: a section guarded by a
    semaphore.  [Env.sim] and [Userland.script] are concrete environments; only the
    witnesses use them.

    ** What is proved

    - [Connector]: an answered read hands out the reply; without one it sleeps for
      ever; without memory it returns stale data and frees a semaphore it does not
      hold; what the bytes of a request are, with three digits of the address at most;
      writing a block sends nothing.
    - [ConnectorThreads]: while allocations succeed, mutual exclusion whatever arrives;
      when besides only the helper sends, that every finished read has its block, that
      every run is finite, that all calls can return if the helper answers and that no
      read returns if it does not.  When an allocation fails, the count by which [cn_sem]
      is off, and a run that breaks mutual exclusion; with two stray messages, a run in
      which a read returns stale data; with neither, one in which two requests carry one
      number.  [ReadSpec]: while allocations succeed and only the helper sends, the level
      refines a disk that serves one read at a time.  [Sequential]: an answered call of
      [Connector] is a run of [ConnectorThreads].
    - [Blocks]: where the members of the disk structures lie.  [DiskStructs]: which inodes
      can be read, where an inode would be written, that nothing is saved, that no
      superblock is ever handed out.
    - [Iops]: exactly when the search of create ends and with what, the bit unlink
      clears.  [Super]: mounting never succeeds; from a valid superblock on, what is
      loaded and the root inode that is made; initialisation happens once.
    - [RamInodes]: the type invariant over any sequence of operations, what making a
      node, a directory and the root does.  [Ramfs]: making a node there refines it.
    - [PlanA], [PlanB], [PlanAHelper], [UserApp]: what reads, writes, messages and
      requests do, branch by branch; that neither user-space program ever answers, and
      how the first can fault; what formatting leaves on the disk.
    - [PlanAThreads]: mutual exclusion and distinct sequence numbers whatever fails or
      arrives; without stray messages, which calls return, and exactly which situations
      stop every caller for good.  [PlanARuns]: an answered read of [PlanA] is a run of it.
    - [System]: a request reaches the program intact and is not answered, so that, with
      memory, every read and every mount of the system as it stands sleeps for ever; plan
      A likewise, with or without.

    ** Bounds and fuel

    [Iops.search_fuel] is 1026: the bitmap has 1024 bytes and the search leaves it or
    ends before; [Super.load_bitmaps] gets one more than the number of blocks it is
    to load; [Kernel.decimal] ten digits, all a 32-bit number has; [UserApp.zero_loop]
    one more than the size asked for; its counter is an [int] and stops the run when it
    leaves the range.  That the fuel is enough is part of the theorems
    on these loops, which give the result.  The receive loops of the programs do not
    end by themselves; [UserApp.serve] and [Helper.serve] follow them for any number of
    turns and tell whether they have ended; in [System] they get one turn for every
    frame that waits.  Runs of the thread models are bounded by [ConnectorThreads.measure]
    and [PlanAThreads.work_left].

    ** Not modelled

    What the kernel and the C library do inside; concurrency other than at the socket
    level and in plan A's reads and writes; the connector's framing, which is an argument
    of [System]; the contents of directories; [test_sjfs_ram.c], which is four system calls;
    build files; what a [printk] reads past a message without NUL.  Names the source uses and does not declare ([BLOCK_SIZE],
    [SJFS_INODE_SIZE], [MIN_BLOCKS], [OPCODE_*], in [do_work] [address] and [opcode])
    are arguments. *)
From stdpp Require Export base tactics numbers list gmap strings.
From Stdlib Require Export ZArith Lia.

Open Scope Z_scope.

(** ** Machine integers

    A C integer is a [Z]; unsigned arithmetic of width [w] is arithmetic
    modulo [2^w], written out at every operation that can wrap. *)
Definition wrap (w z : Z) : Z := z mod 2 ^ w.
Definition u8 (z : Z) : Z := wrap 8 z.
Definition u16 (z : Z) : Z := wrap 16 z.
Definition u32 (z : Z) : Z := wrap 32 z.

(** Conversion to a signed type of width [w] (two's complement). *)
Definition swrap (w z : Z) : Z := (z + 2 ^ (w - 1)) mod 2 ^ w - 2 ^ (w - 1).
Definition s32 (z : Z) : Z := swrap 32 z.

(** A C condition: an integer is true when it is not zero. *)
Definition truth (z : Z) : bool := negb (z =? 0).

Definition is_byte (b : Z) : Prop := 0 <= b < 256.

(** ** Why a computation stops without a result

    The first four and [IntOverflow] - a signed counter that leaves its range - are
    undefined behaviour of C or of the kernel allocator;
    [Blocked] is a thread that sleeps for ever on a semaphore; [OutOfFuel] is
    an artefact of a bounded loop and is proved unreachable where it matters. *)
Inductive stop : Set :=
  | NullDeref
  | OutOfBounds
  | UseAfterFree
  | BadFree
  | IntOverflow
  | Blocked
  | OutOfFuel.

Inductive outcome (S A : Type) : Type :=
  | Ok (a : A) (s : S)
  | Stop (r : stop).
Arguments Ok {S A} a s.
Arguments Stop {S A} r.

(** ** The state monad with stops *)
Definition M (S A : Type) : Type := S → outcome S A.

#[export] Instance M_ret (S : Type) : MRet (M S) := λ A a s, Ok a s.
#[export] Instance M_bind (S : Type) : MBind (M S) := λ A B k m s,
  match m s with
  | Ok a s' => k a s'
  | Stop r => Stop r
  end.

Definition stop_with {S A} (r : stop) : M S A := λ _, Stop r.
Definition get {S} : M S S := λ s, Ok s s.
Definition gets {S A} (f : S → A) : M S A := λ s, Ok (f s) s.
Definition modify {S} (f : S → S) : M S unit := λ s, Ok tt (f s).
Definition when {S} (b : bool) (m : M S unit) : M S unit := if b then m else mret tt.
Definition from_option_stop {S A} (r : stop) (o : option A) : M S A :=
  match o with Some a => mret a | None => stop_with r end.

Fixpoint mfor_each {S A} (f : A → M S unit) (l : list A) : M S unit :=
  match l with
  | [] => mret tt
  | x :: l' => f x ;; mfor_each f l'
  end.

(** ** Weakest preconditions

    [wp m Q E s]: the run of [m] from [s] ends in a result satisfying [Q], or
    stops for a reason satisfying [E]: [no_stop] allows none, [any_stop] every one,
    [only_blocks] only sleeping. *)
Definition wp {S A} (m : M S A) (Q : A → S → Prop) (E : stop → Prop) (s : S) : Prop :=
  match m s with
  | Ok a s' => Q a s'
  | Stop r => E r
  end.

Definition no_stop (_ : stop) : Prop := False.
Definition any_stop (_ : stop) : Prop := True.
Definition only_blocks (r : stop) : Prop := r = Blocked.

Create HintDb wp.

Section wp_rules.
Context {S : Type}.
Implicit Types (E : stop → Prop) (s : S).

Lemma wp_ret {A} (a : A) (Q : A → S → Prop) E s : wp (mret a) Q E s ↔ Q a s.
Proof. done. Qed.

Lemma wp_bind {A B} (m : M S A) (k : A → M S B) (Q : B → S → Prop) E s :
  wp (m ≫= k) Q E s ↔ wp m (λ a s', wp (k a) Q E s') E s.
Proof. unfold wp, mbind, M_bind. by destruct (m s). Qed.

Lemma mbind_assoc {A B C} (m : M S A) (f : A → M S B) (g : B → M S C) s :
  ((m ≫= f) ≫= g) s = (m ≫= λ x, f x ≫= g) s.
Proof. unfold mbind, M_bind. by destruct (m s). Qed.

Lemma wp_stop {A} r (Q : A → S → Prop) E s : wp (stop_with r) Q E s ↔ E r.
Proof. done. Qed.

Lemma wp_get (Q : S → S → Prop) E s : wp get Q E s ↔ Q s s.
Proof. done. Qed.

Lemma wp_gets {A} (f : S → A) (Q : A → S → Prop) E s : wp (gets f) Q E s ↔ Q (f s) s.
Proof. done. Qed.

Lemma wp_modify (f : S → S) (Q : unit → S → Prop) E s : wp (modify f) Q E s ↔ Q tt (f s).
Proof. done. Qed.

Lemma wp_from_option {A} r (o : option A) (Q : A → S → Prop) E s :
  wp (from_option_stop r o) Q E s ↔ match o with Some a => Q a s | None => E r end.
Proof. by destruct o. Qed.

Lemma wp_mono {A} (m : M S A) (Q Q' : A → S → Prop) E E' s :
  wp m Q E s → (∀ a s', Q a s' → Q' a s') → (∀ r, E r → E' r) → wp m Q' E' s.
Proof. unfold wp. destruct (m s); eauto. Qed.

Lemma wp_run {A} (m : M S A) (Q : A → S → Prop) E s : wp m Q E s → ∀ a s', m s = Ok a s' → Q a s'.
Proof. unfold wp. intros H a s' Hm. by rewrite Hm in H. Qed.

Lemma wp_total {A} (m : M S A) (Q : A → S → Prop) s :
  wp m Q no_stop s ↔ ∃ a s', m s = Ok a s' ∧ Q a s'.
Proof.
  unfold wp, no_stop. destruct (m s) as [a s'|r]; split; [eauto| |done|].
  - by intros (? & ? & [= <- <-] & ?).
  - by intros (? & ? & ? & ?).
Qed.

Lemma wp_ok {A} (m : M S A) a s' (Q : A → S → Prop) E s : m s = Ok a s' → wp m Q E s ↔ Q a s'.
Proof. unfold wp. by intros ->. Qed.

(** Invariants are threaded through a loop over a list. *)
Lemma wp_for_each {A} (f : A → M S unit) (l : list A) (I : S → Prop) E s :
  I s → (∀ x s', x ∈ l → I s' → wp (f x) (λ _, I) E s') → wp (mfor_each f l) (λ _, I) E s.
Proof.
  revert s; induction l as [|x l IH]; intros s HI Hf; [done|]. simpl.
  apply wp_bind. eapply wp_mono; [apply Hf; [left|done]| |done].
  intros [] s' HI'. apply IH; [done|]. intros; apply Hf; [by right|done].
Qed.

Lemma bind_ok {A B} (m : M S A) (k : A → M S B) s a s' :
  m s = Ok a s' → (m ≫= k) s = k a s'.
Proof. unfold mbind, M_bind. by intros ->. Qed.

Lemma bind_stop {A B} (m : M S A) (k : A → M S B) s r :
  m s = Stop r → (m ≫= k) s = Stop r.
Proof. unfold mbind, M_bind. by intros ->. Qed.

Lemma bind_inv {A B} (m : M S A) (k : A → M S B) s b s' :
  (m ≫= k) s = Ok b s' → ∃ a s1, m s = Ok a s1 ∧ k a s1 = Ok b s'.
Proof. unfold mbind, M_bind. destruct (m s); [eauto|done]. Qed.
End wp_rules.

(** Reduce every structural monadic step of a [wp] goal or hypothesis. *)
Ltac wp_simpl :=
  repeat first
    [ progress rewrite ?wp_bind, ?wp_ret, ?wp_stop, ?wp_get, ?wp_gets, ?wp_modify, ?wp_from_option
    | progress cbn beta iota ].

(** ** Lists and arithmetic shared by the components *)
Lemma wrap_id w z : 0 <= z < 2 ^ w → wrap w z = z.
Proof. intros. unfold wrap. by apply Z.mod_small. Qed.

Lemma s32_id z : - 2 ^ 31 <= z < 2 ^ 31 → s32 z = z.
Proof.
  intros Hz. unfold s32, swrap. rewrite Z.mod_small by (change (2 ^ (32 - 1)) with (2 ^ 31); lia).
  lia.
Qed.

Lemma wrap_range w z : 0 <= w → 0 <= wrap w z < 2 ^ w.
Proof. intros. unfold wrap. apply Z.mod_pos_bound. lia. Qed.

(** The test [(b >> j) & 1] of C. *)
Lemma land_1_testbit b j : (Z.land (Z.shiftr b j) 1 =? 0) = negb (Z.testbit b j).
Proof.
  rewrite Z.testbit_odd. change 1 with (Z.ones 1). rewrite Z.land_ones by lia.
  change (2 ^ 1) with 2. rewrite Zmod_odd. by destruct (Z.odd _).
Qed.

Lemma lor_1_odd z : Z.testbit z 0 = true → Z.lor z 1 = z.
Proof.
  intros Hz. apply Z.bits_inj'. intros n Hn. rewrite Z.lor_spec.
  destruct (Z.eqb_spec n 0) as [->|]; [by rewrite Hz|].
  change 1 with (2 ^ 0). rewrite Z.pow2_bits_eqb by lia.
  rewrite (proj2 (Z.eqb_neq 0 n)) by lia. apply orb_false_r.
Qed.

(** The byte [b & ~(1 << j)] and the byte [b | (1 << j)]. *)
Lemma clear_bit_testbit b j k :
  0 <= j < 8 → 0 <= k < 8 →
  Z.testbit (u8 (Z.land b (Z.lnot (Z.shiftl 1 j)))) k = Z.testbit b k && negb (k =? j).
Proof.
  intros Hj Hk. unfold u8, wrap. rewrite Z.mod_pow2_bits_low by lia.
  rewrite Z.land_spec, Z.lnot_spec, Z.shiftl_1_l, Z.pow2_bits_eqb by lia. by rewrite Z.eqb_sym.
Qed.

Lemma set_bit_testbit b j k :
  0 <= j < 8 → 0 <= k < 8 →
  Z.testbit (u8 (Z.lor b (Z.shiftl 1 j))) k = Z.testbit b k || (k =? j).
Proof.
  intros Hj Hk. unfold u8, wrap. rewrite Z.mod_pow2_bits_low by lia.
  rewrite Z.lor_spec, Z.shiftl_1_l, Z.pow2_bits_eqb by lia. by rewrite Z.eqb_sym.
Qed.

(** Overwrite the bytes of [l] from position [n] on with [l'] (only used in
    bounds; the memory operations test the bounds first). *)
Definition splice {A} (n : nat) (l' l : list A) : list A :=
  take n l ++ l' ++ drop (n + length l') l.

Section splice.
Context {A : Type}.
Implicit Types (l k : list A) (n i : nat).
Local Open Scope nat_scope.

Lemma length_splice n l' l : n + length l' ≤ length l → length (splice n l' l) = length l.
Proof.
  intros. unfold splice. rewrite !length_app, length_take, length_drop. lia.
Qed.

Lemma splice_lookup_out n l' l i :
  n + length l' ≤ length l → i < n ∨ n + length l' ≤ i → splice n l' l !! i = l !! i.
Proof.
  intros Hl [Hi|Hi]; unfold splice.
  - rewrite lookup_app_l by (rewrite length_take; lia). by apply lookup_take_lt.
  - rewrite lookup_app_r by (rewrite length_take; lia).
    rewrite length_take, lookup_app_r by lia. rewrite lookup_drop. f_equal. lia.
Qed.

Lemma splice_lookup_in n l' l i :
  n + length l' ≤ length l → n ≤ i < n + length l' → splice n l' l !! i = l' !! (i - n).
Proof.
  intros Hl Hi. unfold splice.
  rewrite lookup_app_r by (rewrite length_take; lia).
  rewrite length_take, lookup_app_l by lia. f_equal. lia.
Qed.

(** What was written is what is read back. *)
Lemma splice_read n l' l :
  n + length l' ≤ length l → take (length l') (drop n (splice n l' l)) = l'.
Proof.
  intros. unfold splice. rewrite drop_app_length' by (rewrite length_take; lia).
  by rewrite take_app_length.
Qed.

Lemma splice_full l' l : length l' = length l → splice 0 l' l = l'.
Proof.
  intros. unfold splice. rewrite drop_ge by lia. by rewrite take_0, app_nil_r.
Qed.

Lemma splice_app_at n (pre rest l' : list A) :
  length pre = n → splice n l' (pre ++ rest) = pre ++ l' ++ drop (length l') rest.
Proof.
  intros <-. unfold splice. rewrite take_app_length, drop_app.
  rewrite (drop_ge pre) by lia. simpl. do 3 f_equal. lia.
Qed.

Lemma splice_nil n l : n ≤ length l → splice n [] l = l.
Proof. intros. unfold splice. simpl. by rewrite Nat.add_0_r, take_drop. Qed.

Lemma splice_one n x l : n < length l → splice n [x] l = <[n := x]> l.
Proof.
  intros. unfold splice. rewrite insert_take_drop by done. simpl. by rewrite Nat.add_1_r.
Qed.
End splice.

(** Summing a weight over a list one element of which changes. *)
Lemma sum_list_insert {A} (w : A → nat) (l : list A) i x y :
  l !! i = Some x → (sum_list (w <$> <[i := y]> l) + w x = sum_list (w <$> l) + w y)%nat.
Proof.
  revert i; induction l as [|z l IH]; intros [|i] Hi; simplify_eq/=; [lia|].
  specialize (IH i Hi). lia.
Qed.

(** A C string: the bytes before the first NUL of an array, if it has one. *)
Fixpoint c_string (bs : list Z) : option (list Z) :=
  match bs with
  | [] => None
  | c :: bs' => if c =? 0 then Some [] else cons c <$> c_string bs'
  end.

Lemma c_string_None bs : c_string bs = None ↔ 0 ∉ bs.
Proof.
  induction bs as [|c bs IH]; cbn; [split; [intros _ Hin; by apply elem_of_nil in Hin|done]|].
  rewrite not_elem_of_cons. destruct (Z.eqb_spec c 0) as [->|Hc]; [split; [done|tauto]|].
  rewrite fmap_None, IH. split; [intros Hn; split; [congruence|done]|by intros [_ ?]].
Qed.

Lemma c_string_app pre post : c_string pre ≠ None → c_string (pre ++ post) ≠ None.
Proof. rewrite !c_string_None. intros Hn Hnot. apply Hn. set_solver. Qed.

Create Rewrite HintDb len.
#[export] Hint Rewrite @length_splice @length_take @length_drop @length_replicate @length_app using lia : len.
