(* ===== verification/CLayout.v ===== *)
(** * C data layout

    Little-endian encoding of scalars and the layout of C structs (offsets,
    padding, size) as the language and the platform ABI fix them; the structs of
    [src/include] are instances in [Blocks].  A struct is a list of fields, a
    field a scalar type with an array length (1 for a plain member), and a struct
    value one list of scalars per field.  The ABI is a parameter with two
    instances, LP64 (x86-64) and ILP32 (i386), since the sources compile for both
    and use [sizeof] of structs that hold [unsigned long]s. *)
From S2P Require Import Prelude.

Inductive scalar : Set := SChar | SShort | SInt | SLong | SLongLong | SPtr.

Record abi : Set := Abi { long_size : nat; ptr_size : nat; llong_align : nat }.

Definition LP64 : abi := Abi 8 8 8.
Definition ILP32 : abi := Abi 4 4 4.

(** The two platforms the sources are built for. *)
Definition x86 (a : abi) : Prop := a = LP64 ∨ a = ILP32.

Record field : Set := Field { fname : string; fscalar : scalar; fcount : nat }.

#[export] Instance scalar_eq_dec : EqDecision scalar.
Proof. solve_decision. Defined.
#[export] Instance abi_eq_dec : EqDecision abi.
Proof. solve_decision. Defined.
#[export] Instance field_eq_dec : EqDecision field.
Proof. solve_decision. Defined.

(** ** Scalars *)
Fixpoint le_encode (n : nat) (z : Z) : list Z :=
  match n with
  | O => []
  | S n' => z mod 256 :: le_encode n' (z / 256)
  end.

Fixpoint le_decode (bs : list Z) : Z :=
  match bs with
  | [] => 0
  | b :: bs' => b + 256 * le_decode bs'
  end.

(** An array of scalars of [n] bytes each. *)
Definition encode_array (n : nat) (vs : list Z) : list Z := vs ≫= le_encode n.

Fixpoint decode_array (n count : nat) (bs : list Z) : list Z :=
  match count with
  | O => []
  | S c => le_decode (take n bs) :: decode_array n c (drop n bs)
  end.

(** ** Structs *)
Section layout.
Context (a : abi).
Local Open Scope nat_scope.

Definition scalar_size (t : scalar) : nat :=
  match t with
  | SChar => 1 | SShort => 2 | SInt => 4 | SLong => long_size a | SLongLong => 8
  | SPtr => ptr_size a
  end.

Definition scalar_align (t : scalar) : nat :=
  match t with SLongLong => llong_align a | _ => scalar_size t end.

Definition fsize (f : field) : nat := scalar_size (fscalar f) * fcount f.
Definition falign (f : field) : nat := scalar_align (fscalar f).

(** The first multiple of [al] that is not below [off]. *)
Definition align_up (off al : nat) : nat := ((off + al - 1) / al) * al.

Fixpoint layout_from (off : nat) (fs : list field) : list (field * nat) :=
  match fs with
  | [] => []
  | f :: fs' => let o := align_up off (falign f) in (f, o) :: layout_from (o + fsize f) fs'
  end.

Fixpoint struct_end (off : nat) (fs : list field) : nat :=
  match fs with
  | [] => off
  | f :: fs' => struct_end (align_up off (falign f) + fsize f) fs'
  end.

Definition struct_align (fs : list field) : nat := max_list (1 :: map falign fs).

(** [sizeof] of the struct with the fields [fs]. *)
Definition sizeof (fs : list field) : nat := align_up (struct_end 0 fs) (struct_align fs).

Fixpoint find_field (name : string) (l : list (field * nat)) : option (field * nat) :=
  match l with
  | [] => None
  | (f, o) :: l' => if decide (fname f = name) then Some (f, o) else find_field name l'
  end.

(** [offsetof] *)
Definition offsetof (fs : list field) (name : string) : option nat :=
  snd <$> find_field name (layout_from 0 fs).

Fixpoint encode_from (off : nat) (fs : list field) (vs : list (list Z)) : list Z :=
  match fs, vs with
  | f :: fs', v :: vs' =>
      let o := align_up off (falign f) in
      replicate (o - off) 0%Z ++ encode_array (scalar_size (fscalar f)) v
        ++ encode_from (o + fsize f) fs' vs'
  | _, _ => []
  end.

Definition encode_struct (fs : list field) (vs : list (list Z)) : list Z :=
  encode_from 0 fs vs ++ replicate (sizeof fs - struct_end 0 fs) 0%Z.

Definition decode_field (bs : list Z) (fo : field * nat) : list Z :=
  decode_array (scalar_size (fscalar fo.1)) (fcount fo.1) (drop fo.2 bs).

Definition decode_struct (fs : list field) (bs : list Z) : list (list Z) :=
  map (decode_field bs) (layout_from 0 fs).

(** [p->name] read from the bytes of the struct [p] points to. *)
Definition get_field (fs : list field) (name : string) (bs : list Z) : option (list Z) :=
  decode_field bs <$> find_field name (layout_from 0 fs).

(** A value fits its field: the right number of scalars, each in the range of
    the unsigned type of that size. *)
Definition fits (f : field) (v : list Z) : Prop :=
  length v = fcount f ∧
  Forall (λ z, 0 <= z < 256 ^ Z.of_nat (scalar_size (fscalar f)))%Z v.

#[export] Instance fits_dec f v : Decision (fits f v).
Proof. unfold fits. apply _. Defined.
End layout.

(** ** Scalar lemmas *)
Lemma length_le_encode n z : length (le_encode n z) = n.
Proof. revert z; induction n; simpl; auto. Qed.

Lemma le_decode_encode n z : le_decode (le_encode n z) = z mod 256 ^ Z.of_nat n.
Proof.
  revert z; induction n as [|n IH]; intros z; cbn [le_encode le_decode].
  - by rewrite Z.mod_1_r.
  - rewrite IH, Nat2Z.inj_succ, Z.pow_succ_r by lia.
    by rewrite Z.rem_mul_r by lia.
Qed.

Lemma length_encode_array n vs : length (encode_array n vs) = (n * length vs)%nat.
Proof.
  unfold encode_array. induction vs as [|v vs IH]; [simpl; lia|].
  rewrite bind_cons, length_app, length_le_encode, IH. simpl. lia.
Qed.

Lemma decode_encode_array n vs tail :
  Forall (λ z, 0 <= z < 256 ^ Z.of_nat n) vs →
  decode_array n (length vs) (encode_array n vs ++ tail) = vs.
Proof.
  unfold encode_array. induction 1 as [|v vs Hv Hvs IH]; [done|].
  rewrite bind_cons, <-app_assoc. cbn [length decode_array].
  rewrite take_app_length', drop_app_length' by (symmetry; apply length_le_encode).
  rewrite IH, le_decode_encode, Z.mod_small by done. done.
Qed.

(** ** Layout lemmas *)
Section layout_lemmas.
Context (a : abi) (Ha : x86 a).
Local Open Scope nat_scope.

Lemma align_up_ge off al : 0 < al → off ≤ align_up off al.
Proof.
  intros. unfold align_up.
  pose proof (Nat.div_mod_eq (off + al - 1) al).
  pose proof (Nat.mod_upper_bound (off + al - 1) al). lia.
Qed.

Lemma falign_pos f : 0 < falign a f.
Proof. destruct Ha as [-> | ->]; unfold falign; destruct (fscalar f); simpl; lia. Qed.

Lemma field_start off f : off ≤ align_up off (falign a f).
Proof. apply align_up_ge, falign_pos. Qed.

Lemma struct_end_ge off fs : off ≤ struct_end a off fs.
Proof.
  revert off; induction fs as [|f fs IH]; intros off; simpl; [done|].
  pose proof (field_start off f). specialize (IH (align_up off (falign a f) + fsize a f)). lia.
Qed.

Lemma struct_align_pos fs : 0 < struct_align a fs.
Proof. unfold struct_align. simpl. lia. Qed.

Lemma sizeof_ge fs : struct_end a 0 fs ≤ sizeof a fs.
Proof. apply align_up_ge, struct_align_pos. Qed.

Lemma length_encode_from off fs vs :
  Forall2 (fits a) fs vs → length (encode_from a off fs vs) = struct_end a off fs - off.
Proof.
  intros H; revert off; induction H as [|f v fs vs [Hl _] _ IH]; intros off; simpl; [lia|].
  rewrite !length_app, length_replicate, length_encode_array, IH, Hl.
  pose proof (field_start off f).
  pose proof (struct_end_ge (align_up off (falign a f) + fsize a f) fs).
  unfold fsize in *. lia.
Qed.

Lemma length_encode_struct fs vs :
  Forall2 (fits a) fs vs → length (encode_struct a fs vs) = sizeof a fs.
Proof.
  intros. unfold encode_struct.
  rewrite length_app, length_replicate, length_encode_from by done.
  pose proof (sizeof_ge fs). lia.
Qed.

(** Every field lies inside the struct. *)
Lemma layout_from_bounds off fs f o :
  (f, o) ∈ layout_from a off fs → off ≤ o ∧ o + fsize a f ≤ struct_end a off fs.
Proof.
  revert off; induction fs as [|g fs IH]; intros off; simpl; [by intros ?%elem_of_nil|].
  intros [[= -> ->]|Hin]%elem_of_cons.
  - split; [apply field_start|apply struct_end_ge].
  - apply IH in Hin. pose proof (field_start off g). lia.
Qed.

(** Decoding the bytes of an encoded struct, wherever the struct starts. *)
Lemma decode_encode_from off fs vs pre post :
  length pre = off → Forall2 (fits a) fs vs →
  map (decode_field a (pre ++ encode_from a off fs vs ++ post)) (layout_from a off fs) = vs.
Proof.
  intros Hpre H; revert off pre Hpre.
  induction H as [|f v fs vs [Hl Hv] _ IH]; intros off pre Hpre; simpl; [done|].
  pose proof (field_start off f) as Hs.
  set (o := align_up off (falign a f)) in *.
  set (body := encode_array (scalar_size a (fscalar f)) v).
  set (rest := encode_from a (o + fsize a f) fs vs).
  assert (Hlb : length body = fsize a f).
  { unfold body. rewrite length_encode_array, Hl. reflexivity. }
  f_equal.
  - unfold decode_field; simpl.
    rewrite <-(app_assoc (replicate _ _)), (app_assoc pre), drop_app_length'
      by (rewrite length_app, length_replicate; lia).
    rewrite <-Hl, <-app_assoc. by apply decode_encode_array.
  - transitivity (map (decode_field a ((pre ++ replicate (o - off) 0%Z ++ body) ++ rest ++ post))
      (layout_from a (o + fsize a f) fs)); [by rewrite <-!app_assoc|].
    apply IH. rewrite !length_app, length_replicate. lia.
Qed.

(** The whole struct decodes alike from any buffer that starts with it. *)
Lemma decode_encode_struct_app fs vs tail :
  Forall2 (fits a) fs vs → decode_struct a fs (encode_struct a fs vs ++ tail) = vs.
Proof.
  intros. unfold encode_struct. rewrite <-app_assoc. by apply (decode_encode_from 0 fs vs []).
Qed.

(** One scalar member, read from the bytes of an encoded struct. *)
Lemma encoded_member fs vs tail i f o v :
  Forall2 (fits a) fs vs → layout_from a 0 fs !! i = Some (f, o) → fcount f = 1%nat →
  vs !! i = Some [v] →
  le_decode (take (scalar_size a (fscalar f)) (drop o (encode_struct a fs vs ++ tail))) = v.
Proof.
  intros Hf Hl Hc Hv. pose proof (decode_encode_struct_app fs vs tail Hf) as Hd.
  rewrite <-Hd in Hv. unfold decode_struct in Hv.
  rewrite list_lookup_fmap, Hl in Hv. cbn in Hv. unfold decode_field in Hv. cbn in Hv.
  rewrite Hc in Hv. cbn in Hv. by injection Hv.
Qed.
End layout_lemmas.

(** Arithmetic in [size_t]. *)
Definition size_t (a : abi) (z : Z) : Z := wrap (8 * Z.of_nat (ptr_size a)) z.

Lemma size_t_small a z : x86 a → 0 <= z < 2 ^ 32 → size_t a z = z.
Proof.
  intros Ha Hz. unfold size_t. apply wrap_id. destruct Ha as [-> | ->]; simpl; lia.
Qed.
