(* ===== verification/Blocks.v ===== *)
(** * The on-disk structures and the message of [src/include]

    [blocks.h] fixes the block size and declares the superblock, the disk inode
    and the directory structures; [ipc.h] the message and its opcodes.  Each
    struct is a field list for [CLayout]; the superblock and the disk inode have a
    record of their values and an encoder.  [BLOCK_SIZE], which [blocks.h] uses without
    declaring it, is an argument. *)
From S2P Require Import Prelude CLayout.

(** ** Sizes ([blocks.h]) *)
Definition SJFS_BLOCKSIZE : Z := 1024.
Definition SJFS_POINTERSIZE : Z := 4.
Definition SJFS_DATABLOCKSIZE : Z := SJFS_BLOCKSIZE.
Definition SJFS_MIN_BLOCKS : Z := 6.
Definition SJFS_MAX_INODES (BLOCK_SIZE : Z) : Z := BLOCK_SIZE * 8.
Definition SJFS_DATABLOCKS_PER_BLOCK : Z := 1.
Definition SJFS_POINTERS_PER_BLOCK : Z := SJFS_BLOCKSIZE / SJFS_POINTERSIZE.
Definition SJFS_BLOCKS_PER_BITMAP : Z := SJFS_BLOCKSIZE * 8.
Definition SJFS_INODES_PER_BITMAP : Z := SJFS_BLOCKS_PER_BITMAP.
Definition SJFS_DATABLOCKS_PER_BITMAP : Z := SJFS_BLOCKS_PER_BITMAP.

(** [sjfs.h] *)
Definition SJFS_MAGIC : Z := 0x534A5346.

(** ** Structs *)
Definition superblock_t : list field :=
  [ Field "inode_blocks_count" SShort 1;
    Field "datablock_blocks_count" SLong 1;
    Field "mtime" SLong 1;
    Field "wtime" SLong 1;
    Field "mnt_count" SLong 1;
    Field "magic" SLong 1;
    Field "dirty" SChar 1;
    Field "reserved" SChar (Z.to_nat (SJFS_BLOCKSIZE - 23)) ].

Definition inode_t : list field :=
  [ Field "mode" SShort 1;
    Field "uid" SShort 1;
    Field "gid" SShort 1;
    Field "size" SLong 1;
    Field "atime" SLong 1;
    Field "ctime" SLong 1;
    Field "mtime" SLong 1;
    Field "links" SChar 1;
    Field "blocks" SLong 1;
    Field "dbp" SLong 12;
    Field "sidbp" SLong 1;
    Field "didbp" SLong 1;
    Field "reserved" SChar 25 ].

Definition indirect_pointer_block_t : list field :=
  [ Field "pointers" SLong (Z.to_nat (SJFS_BLOCKSIZE / SJFS_POINTERSIZE)) ].

Definition directory_entry_t : list field :=
  [ Field "inode_number" SLong 1; Field "name_len" SChar 1; Field "name" SPtr 1 ].

Definition directory_t : list field :=
  [ Field "entries_len" SShort 1; Field "entries" SPtr 1 ].

(** [ipc.h] *)
Definition sjfs_message : list field :=
  [ Field "opcode" SChar 1; Field "address" SLong 1; Field "data" SPtr 1 ].

Definition SJFS_OPCODE_READ : Z := 0.
Definition SJFS_OPCODE_WRITE : Z := 1.
Definition SJFS_OPCODE_NOTIFY : Z := 2.


(** ** Values *)
Record superblock : Type := SuperBlock {
  sb_inode_blocks_count : Z;
  sb_datablock_blocks_count : Z;
  sb_mtime : Z;
  sb_wtime : Z;
  sb_mnt_count : Z;
  sb_magic : Z;
  sb_dirty : Z;
  sb_reserved : list Z }.

Definition superblock_values (s : superblock) : list (list Z) :=
  [ [sb_inode_blocks_count s]; [sb_datablock_blocks_count s]; [sb_mtime s]; [sb_wtime s];
    [sb_mnt_count s]; [sb_magic s]; [sb_dirty s]; sb_reserved s ].

Record dinode : Type := DInode {
  di_mode : Z; di_uid : Z; di_gid : Z; di_size : Z; di_atime : Z; di_ctime : Z; di_mtime : Z;
  di_links : Z; di_blocks : Z; di_dbp : list Z; di_sidbp : Z; di_didbp : Z;
  di_reserved : list Z }.

Definition dinode_values (i : dinode) : list (list Z) :=
  [ [di_mode i]; [di_uid i]; [di_gid i]; [di_size i]; [di_atime i]; [di_ctime i]; [di_mtime i];
    [di_links i]; [di_blocks i]; di_dbp i; [di_sidbp i]; [di_didbp i]; di_reserved i ].

Section codec.
Context (a : abi).

Definition encode_superblock (s : superblock) : list Z :=
  encode_struct a superblock_t (superblock_values s).
Definition superblock_ok (s : superblock) : Prop :=
  Forall2 (fits a) superblock_t (superblock_values s).

Definition encode_inode (i : dinode) : list Z := encode_struct a inode_t (dinode_values i).
Definition inode_ok (i : dinode) : Prop := Forall2 (fits a) inode_t (dinode_values i).

#[export] Instance superblock_ok_dec s : Decision (superblock_ok s).
Proof. unfold superblock_ok. apply _. Defined.
#[export] Instance inode_ok_dec i : Decision (inode_ok i).
Proof. unfold inode_ok. apply _. Defined.
End codec.

(** ** Helper lemmas *)
Lemma sizeof_superblock_LP64 : sizeof LP64 superblock_t = 1056%nat.
Proof. vm_compute. reflexivity. Qed.
Lemma sizeof_superblock_ILP32 : sizeof ILP32 superblock_t = 1028%nat.
Proof. vm_compute. reflexivity. Qed.
Lemma sizeof_inode_LP64 : sizeof LP64 inode_t = 200%nat.
Proof. vm_compute. reflexivity. Qed.
Lemma sizeof_inode_ILP32 : sizeof ILP32 inode_t = 116%nat.
Proof. vm_compute. reflexivity. Qed.

#[export] Hint Rewrite sizeof_superblock_LP64 sizeof_superblock_ILP32
  sizeof_inode_LP64 sizeof_inode_ILP32 : len.

Lemma sizeof_inode_cases a :
  x86 a → sizeof a inode_t = 200%nat ∨ sizeof a inode_t = 116%nat.
Proof. intros [-> | ->]; autorewrite with len; lia. Qed.


(** ** Properties *)

