(* ===== verification/Memory.v ===== *)
(** * Heap blocks, pointers and [memcpy]

    The memory that [kmalloc], [kzalloc] and [calloc] hand out, as finitely many
    blocks of bytes.  A pointer is NULL or a block with an offset; loads and
    stores test the bounds and stop with the undefined behaviour they would be in
    C.  Block names are never reused, so that a use of freed memory is seen.
    A component's state gives access to its heap through [HasHeap]. *)
From S2P Require Import Prelude CLayout.

Record heap : Type := Heap { h_next : positive; h_map : gmap positive (list Z) }.

Inductive ptr : Set := Null | Ptr (b : positive) (o : Z).

#[export] Instance ptr_eq_dec : EqDecision ptr.
Proof. solve_decision. Defined.

Definition empty_heap : heap := Heap 1 ∅.

Definition is_null (p : ptr) : bool := match p with Null => true | Ptr _ _ => false end.

Definition ptr_add (p : ptr) (n : Z) : ptr :=
  match p with Null => Null | Ptr b o => Ptr b (o + n) end.

(** Block names handed out so far are below [h_next]. *)
Definition heap_wf (h : heap) : Prop := ∀ b, is_Some (h_map h !! b) → (b < h_next h)%positive.

Definition heap_insert (b : positive) (bs : list Z) (h : heap) : heap :=
  Heap (h_next h) (<[b := bs]> (h_map h)).
Definition heap_delete (b : positive) (h : heap) : heap := Heap (h_next h) (delete b (h_map h)).
Definition heap_alloc (bs : list Z) (h : heap) : heap :=
  Heap (Pos.succ (h_next h)) (<[h_next h := bs]> (h_map h)).

(** Blocks that are allocated in [h'] and not in [h]: what a call leaks. *)
Definition leaked (h h' : heap) : gset positive := dom (h_map h') ∖ dom (h_map h).

Class HasHeap (S : Type) := {
  heap_of : S → heap;
  with_heap : heap → S → S;
  heap_of_with : ∀ h s, heap_of (with_heap h s) = h;
  with_heap_of : ∀ s, with_heap (heap_of s) s = s;
  with_with : ∀ h h' s, with_heap h (with_heap h' s) = with_heap h s }.

Section memory.
Context {S : Type} `{!HasHeap S}.

Definition in_bounds (o n : Z) (bs : list Z) : Prop :=
  0 <= o ∧ 0 <= n ∧ o + n <= Z.of_nat (length bs).

#[global] Instance in_bounds_dec o n bs : Decision (in_bounds o n bs).
Proof. unfold in_bounds. apply _. Defined.

(** The [n] bytes at [p]. *)
Definition load (p : ptr) (n : Z) : M S (list Z) :=
  match p with
  | Null => stop_with NullDeref
  | Ptr b o => λ s,
      match h_map (heap_of s) !! b with
      | None => Stop UseAfterFree
      | Some bs =>
          if decide (in_bounds o n bs)
          then Ok (take (Z.to_nat n) (drop (Z.to_nat o) bs)) s
          else Stop OutOfBounds
      end
  end.

Definition store (p : ptr) (new : list Z) : M S unit :=
  match p with
  | Null => stop_with NullDeref
  | Ptr b o => λ s,
      match h_map (heap_of s) !! b with
      | None => Stop UseAfterFree
      | Some bs =>
          if decide (in_bounds o (Z.of_nat (length new)) bs)
          then Ok tt (with_heap (heap_insert b (splice (Z.to_nat o) new bs) (heap_of s)) s)
          else Stop OutOfBounds
      end
  end.

(** [memcpy(dst, src, n)] *)
Definition memcpy (dst src : ptr) (n : Z) : M S unit :=
  bs ← load src n;
  store dst bs.

(** [memcpy] out of an array that is not on the heap. *)
Definition load_array (bs : list Z) (n : Z) : M S (list Z) :=
  if decide (in_bounds 0 n bs) then mret (take (Z.to_nat n) bs) else stop_with OutOfBounds.

Definition alloc_block (bs : list Z) : M S ptr := λ s,
  Ok (Ptr (h_next (heap_of s)) 0) (with_heap (heap_alloc bs (heap_of s)) s).

(** [kfree(p)] and [free(p)]: nothing for NULL. *)
Definition kfree (p : ptr) : M S unit :=
  match p with
  | Null => mret tt
  | Ptr b o => λ s,
      match h_map (heap_of s) !! b with
      | Some _ => if o =? 0 then Ok tt (with_heap (heap_delete b (heap_of s)) s) else Stop BadFree
      | None => Stop BadFree
      end
  end.

Context (a : abi).

(** [p->name] and [p->name = v] for a scalar member. *)
Definition load_member (p : ptr) (fs : list field) (name : string) : M S Z :=
  fo ← from_option_stop OutOfBounds (find_field name (layout_from a 0 fs));
  bs ← load (ptr_add p (Z.of_nat fo.2)) (Z.of_nat (scalar_size a (fscalar fo.1)));
  mret (le_decode bs).

Definition store_member (p : ptr) (fs : list field) (name : string) (v : Z) : M S unit :=
  fo ← from_option_stop OutOfBounds (find_field name (layout_from a 0 fs));
  store (ptr_add p (Z.of_nat fo.2)) (le_encode (scalar_size a (fscalar fo.1)) v).
End memory.

(** ** Rules *)
Section memory_rules.
Context {S : Type} `{!HasHeap S}.
Implicit Types (s : S) (b : positive) (E : stop → Prop).

Lemma wp_load b o n bs (Q : list Z → S → Prop) E s :
  h_map (heap_of s) !! b = Some bs →
  wp (load (Ptr b o) n) Q E s ↔
    (in_bounds o n bs → Q (take (Z.to_nat n) (drop (Z.to_nat o) bs)) s) ∧
    (¬ in_bounds o n bs → E OutOfBounds).
Proof. intros Hb. unfold wp, load. rewrite Hb. case_decide; naive_solver. Qed.

Lemma wp_store b o new bs (Q : unit → S → Prop) E s :
  h_map (heap_of s) !! b = Some bs →
  wp (store (Ptr b o) new) Q E s ↔
    (in_bounds o (Z.of_nat (length new)) bs →
       Q tt (with_heap (heap_insert b (splice (Z.to_nat o) new bs) (heap_of s)) s)) ∧
    (¬ in_bounds o (Z.of_nat (length new)) bs → E OutOfBounds).
Proof. intros Hb. unfold wp, store. rewrite Hb. case_decide; naive_solver. Qed.

Lemma load_ok b o n bs s :
  h_map (heap_of s) !! b = Some bs → in_bounds o n bs →
  load (Ptr b o) n s = Ok (take (Z.to_nat n) (drop (Z.to_nat o) bs)) s.
Proof. intros Hb Hi. unfold load. rewrite Hb. by rewrite decide_True. Qed.

Lemma load_oob b o n bs s :
  h_map (heap_of s) !! b = Some bs → ¬ in_bounds o n bs → load (Ptr b o) n s = Stop OutOfBounds.
Proof. intros Hb Hi. unfold load. rewrite Hb. by rewrite decide_False. Qed.

Lemma store_ok b o new bs s :
  h_map (heap_of s) !! b = Some bs → in_bounds o (Z.of_nat (length new)) bs →
  store (Ptr b o) new s = Ok tt (with_heap (heap_insert b (splice (Z.to_nat o) new bs) (heap_of s)) s).
Proof. intros Hb Hi. unfold store. rewrite Hb. by rewrite decide_True. Qed.

Lemma store_oob b o new bs s :
  h_map (heap_of s) !! b = Some bs → ¬ in_bounds o (Z.of_nat (length new)) bs →
  store (Ptr b o) new s = Stop OutOfBounds.
Proof. intros Hb Hi. unfold store. rewrite Hb. by rewrite decide_False. Qed.

Lemma load_array_ok bs n s :
  in_bounds 0 n bs → load_array (S:=S) bs n s = Ok (take (Z.to_nat n) bs) s.
Proof. intros. unfold load_array. by rewrite decide_True. Qed.

Lemma load_array_oob bs n s : ¬ in_bounds 0 n bs → load_array (S:=S) bs n s = Stop OutOfBounds.
Proof. intros. unfold load_array. by rewrite decide_False. Qed.

Lemma kfree_ok b bs s :
  h_map (heap_of s) !! b = Some bs →
  kfree (Ptr b 0) s = Ok tt (with_heap (heap_delete b (heap_of s)) s).
Proof. intros Hb. unfold kfree. by rewrite Hb. Qed.
End memory_rules.

(** ** The heap invariant *)
Lemma heap_wf_empty : heap_wf empty_heap.
Proof. intros b [x Hx]. simpl in Hx. by rewrite lookup_empty in Hx. Qed.

Lemma heap_wf_fresh h : heap_wf h → h_map h !! h_next h = None.
Proof.
  intros Hwf. destruct (h_map h !! h_next h) eqn:E; [|done].
  assert (h_next h < h_next h)%positive by (apply Hwf; eauto). lia.
Qed.

Lemma heap_wf_insert h b bs : heap_wf h → is_Some (h_map h !! b) → heap_wf (heap_insert b bs h).
Proof.
  intros Hwf Hb c Hc. simpl in *. destruct (decide (b = c)) as [<-|]; [by apply Hwf|].
  apply Hwf. by rewrite lookup_insert_ne in Hc.
Qed.

Lemma heap_wf_delete h b : heap_wf h → heap_wf (heap_delete b h).
Proof. intros Hwf c [x Hc]. simpl in Hc. apply lookup_delete_Some in Hc as [_ Hc]. apply Hwf. eauto. Qed.

Lemma heap_wf_alloc h bs : heap_wf h → heap_wf (heap_alloc bs h).
Proof.
  intros Hwf c Hc. simpl in *. destruct (decide (h_next h = c)) as [<-|]; [lia|].
  rewrite lookup_insert_ne in Hc by done. specialize (Hwf _ Hc). lia.
Qed.

#[export] Hint Resolve heap_wf_empty heap_wf_insert heap_wf_delete heap_wf_alloc : core.

Lemma heap_insert_lookup b bs h : h_map (heap_insert b bs h) !! b = Some bs.
Proof. apply lookup_insert_eq. Qed.
Lemma heap_insert_lookup_ne b c bs h : b ≠ c → h_map (heap_insert b bs h) !! c = h_map h !! c.
Proof. apply lookup_insert_ne. Qed.
Lemma heap_alloc_lookup bs h : h_map (heap_alloc bs h) !! h_next h = Some bs.
Proof. apply lookup_insert_eq. Qed.
Lemma heap_alloc_lookup_old bs h b :
  heap_wf h → is_Some (h_map h !! b) → h_map (heap_alloc bs h) !! b = h_map h !! b.
Proof. intros Hwf Hb%Hwf. apply lookup_insert_ne. lia. Qed.

Lemma heap_insert_insert b bs bs' h : heap_insert b bs (heap_insert b bs' h) = heap_insert b bs h.
Proof. unfold heap_insert. simpl. by rewrite insert_insert_eq. Qed.
Lemma heap_insert_id b bs h : h_map h !! b = Some bs → heap_insert b bs h = h.
Proof. intros Hb. unfold heap_insert. rewrite insert_id by done. by destruct h. Qed.
Lemma heap_insert_comm b c bs bs' h :
  b ≠ c → heap_insert b bs (heap_insert c bs' h) = heap_insert c bs' (heap_insert b bs h).
Proof. intros. unfold heap_insert. simpl. by rewrite insert_insert_ne. Qed.
Lemma heap_delete_alloc bs h :
  heap_wf h → heap_delete (h_next h) (heap_alloc bs h) = Heap (Pos.succ (h_next h)) (h_map h).
Proof. intros Hwf. unfold heap_delete. simpl. by rewrite delete_insert_id by by apply heap_wf_fresh. Qed.

(** Loads and stores in a block whose contents are known, with the state kept in
    the form [with_heap (heap_insert b bs h) s]. *)
Section at_block.
Context {S : Type} `{!HasHeap S}.
Implicit Types (s : S) (h : heap) (b : positive).

Lemma store_at b o new bs h s :
  in_bounds o (Z.of_nat (length new)) bs →
  store (Ptr b o) new (with_heap (heap_insert b bs h) s)
  = Ok tt (with_heap (heap_insert b (splice (Z.to_nat o) new bs) h) s).
Proof.
  intros Hi. rewrite (store_ok b o new bs); [|rewrite heap_of_with; apply heap_insert_lookup|done].
  by rewrite heap_of_with, with_with, heap_insert_insert.
Qed.

Lemma load_at b o n bs h s :
  in_bounds o n bs →
  load (Ptr b o) n (with_heap (heap_insert b bs h) s)
  = Ok (take (Z.to_nat n) (drop (Z.to_nat o) bs)) (with_heap (heap_insert b bs h) s).
Proof. intros Hi. apply load_ok; [rewrite heap_of_with; apply heap_insert_lookup|done]. Qed.

Lemma load_member_at a b fs name f p bs h s :
  find_field name (layout_from a 0 fs) = Some (f, p) →
  (p + scalar_size a (fscalar f) ≤ length bs)%nat →
  load_member a (Ptr b 0) fs name (with_heap (heap_insert b bs h) s)
  = Ok (le_decode (take (scalar_size a (fscalar f)) (drop p bs)))
       (with_heap (heap_insert b bs h) s).
Proof.
  intros Hf Hl. unfold load_member. rewrite Hf. unfold from_option_stop.
  erewrite bind_ok; [|reflexivity]. cbn [fst snd ptr_add].
  rewrite Z.add_0_l. erewrite bind_ok; [|apply load_at; unfold in_bounds; lia].
  rewrite !Nat2Z.id. reflexivity.
Qed.

Lemma store_member_at a b fs name f p v bs h s :
  find_field name (layout_from a 0 fs) = Some (f, p) →
  (p + scalar_size a (fscalar f) ≤ length bs)%nat →
  store_member a (Ptr b 0) fs name v (with_heap (heap_insert b bs h) s)
  = Ok tt (with_heap (heap_insert b
      (splice p (le_encode (scalar_size a (fscalar f)) v) bs) h) s).
Proof.
  intros Hf Hl. unfold store_member. rewrite Hf. unfold from_option_stop.
  erewrite bind_ok; [|reflexivity]. cbn [fst snd ptr_add].
  rewrite Z.add_0_l, store_at, Nat2Z.id; [done|].
  unfold in_bounds. rewrite length_le_encode. lia.
Qed.
End at_block.
