(* ===== verification/Kernel.v ===== *)
(** * The kernel the modules run in

    The Linux functions the sources call are not part of the repository: they are
    the methods of the type classes below, over an abstract environment [W]
    (allocator, clock, connector, VFS), and what a proof relies on of them is
    stated by the law classes.  The objects the sources read and write themselves
    (heap blocks, [struct inode], [struct super_block], the module's static
    variables) are concrete, in the record [kstate]; [G] is the record of a
    module's static variables.  Calls to [printk] and messages handed to the
    connector are recorded, in order, in [k_log]. *)
From Stdlib Require Import Strings.Ascii.
From S2P Require Import Prelude CLayout Memory.

(** ** Error numbers and modes (errno(3), inode(7)) *)
Definition ENOMEM : Z := 12.
Definition EFAULT : Z := 14.
Definition EBUSY : Z := 16.
Definition ENOSPC : Z := 28.

Definition S_IFMT : Z := 0xF000.
Definition S_IFREG : Z := 0x8000.
Definition S_IFDIR : Z := 0x4000.
Definition S_IFLNK : Z := 0xA000.

(** ** Objects *)
Record timespec : Set := Timespec { tv_sec : Z; tv_nsec : Z }.

(** A pointer to one of the operation tables, by the name of the table. *)
Inductive table : Set := NoTable | Table (name : string).

Record inode : Set := Inode {
  i_ino : Z; i_mode : Z; i_uid : Z; i_gid : Z; i_size : Z; i_nlink : Z; i_blocks : Z;
  i_atime : timespec; i_mtime : timespec; i_ctime : timespec;
  i_op : table; i_fop : table; i_aops : table;
  i_private : ptr; i_sb : positive }.

Record super_block : Set := SuperBlk {
  s_blocksize_bits : Z; s_blocksize : Z; s_maxbytes : Z; s_time_gran : Z;
  s_op : table; s_magic : Z; s_fs_info : ptr; s_root : option positive }.

(** What a format is given: a number, a literal, or for [%s] the text up to the first NUL.
    [POverread bs] is a [%s] of bytes that hold none: they are printed, and then whatever
    lies behind them. *)
Inductive printk_arg : Type :=
  | PInt (z : Z)
  | PStr (s : string)
  | PBytes (bs : list Z)
  | POverread (bs : list Z).

Definition text_arg (bs : list Z) : printk_arg :=
  match c_string bs with Some text => PBytes text | None => POverread bs end.

Inductive event : Type :=
  | Printk (fmt : string) (args : list printk_arg)
  | NetlinkSend (bytes : list Z).

#[export] Instance timespec_eq_dec : EqDecision timespec.
Proof. solve_decision. Defined.
#[export] Instance table_eq_dec : EqDecision table.
Proof. solve_decision. Defined.
#[export] Instance inode_eq_dec : EqDecision inode.
Proof. solve_decision. Defined.
#[export] Instance super_block_eq_dec : EqDecision super_block.
Proof. solve_decision. Defined.
#[export] Instance printk_arg_eq_dec : EqDecision printk_arg.
Proof. solve_decision. Defined.
#[export] Instance event_eq_dec : EqDecision event.
Proof. solve_decision. Defined.

(** A message delivered by the connector ([struct cn_msg] with its payload). *)
Record cn_msg : Type := CnMsg {
  id_idx : Z; id_val : Z; msg_seq : Z; msg_ack : Z; msg_len : Z; msg_data : list Z }.

(** The header of [struct cn_msg] (linux/connector.h), 20 bytes. *)
Definition cn_msg_t : list field :=
  [ Field "idx" SInt 1; Field "val" SInt 1; Field "seq" SInt 1; Field "ack" SInt 1;
    Field "len" SShort 1; Field "flags" SShort 1 ].
Definition sizeof_cn_msg : Z := 20.

(** ** Semaphores *)
Class Semaphore := {
  sem : Type;
  sema_init : Z → sem;
  down : sem → option sem;            (** [None]: the caller sleeps *)
  up : sem → sem;
  down_trylock : sem → Z * sem        (** 0 when acquired *) }.

(** The counting behaviour documented in linux/semaphore.h. *)
Class SemaphoreLaws `{!Semaphore} := {
  sem_count : sem → nat;
  sem_count_init : ∀ n, 0 <= n → sem_count (sema_init n) = Z.to_nat n;
  down_free : ∀ s n, sem_count s = S n → ∃ s', down s = Some s' ∧ sem_count s' = n;
  down_busy : ∀ s, sem_count s = O → down s = None;
  up_count : ∀ s, sem_count (up s) = S (sem_count s);
  trylock_free : ∀ s n, sem_count s = S n → ∃ s', down_trylock s = (0, s') ∧ sem_count s' = n;
  trylock_busy : ∀ s, sem_count s = O →
    (down_trylock s).1 ≠ 0 ∧ sem_count (down_trylock s).2 = O }.
Arguments SemaphoreLaws : clear implicits.
Arguments SemaphoreLaws {_}.

(** A semaphore is its count. *)
#[export] Instance counting_semaphore : Semaphore := {|
  sem := nat;
  sema_init := Z.to_nat;
  down n := match n with O => None | S n' => Some n' end;
  up := S;
  down_trylock n := match n with O => (1, O) | S n' => (0, n') end |}.

#[export] Instance counting_semaphore_laws : SemaphoreLaws.
Proof.
  refine (Build_SemaphoreLaws counting_semaphore (λ n : nat, n) _ _ _ _ _ _); simpl.
  - done.
  - intros s n ->. by exists n.
  - by intros s ->.
  - done.
  - intros s n ->. by exists n.
  - by intros s ->.
Defined.

(** ** The environment *)

(** [k_malloc n]: [None] for NULL, otherwise the (uninitialised) contents. *)
Class Allocator (W : Type) := { k_malloc : Z → W → option (list Z) * W }.

Class Clock (W : Type) := { CURRENT_TIME : W → timespec * W }.

(** [cn_netlink_send] takes the bytes of the message; [cn_deliver] gives the
    messages whose callbacks the connector runs while a caller sleeps. *)
Class Connector (W : Type) := {
  CN_NETLINK_USERS : Z;
  cn_netlink_send : list Z → W → Z * W;
  cn_deliver : W → list cn_msg * W;
  cn_add_callback : Z * Z → string → W → Z * W;
  cn_del_callback : Z * Z → W → W }.

(** [snprintf]-style formatting: the bytes written and the value returned. *)
Class Printf := { scnprintf : Z → string → list printk_arg → list Z * Z }.

(** ** State *)
Record kstate (G W : Type) : Type := KState {
  k_heap : heap;
  k_inodes : gmap positive inode;
  k_next_inode : positive;
  k_supers : gmap positive super_block;
  k_glob : G;
  k_world : W;
  k_log : list event }.
Arguments KState {G W}.
Arguments k_heap {G W}.
Arguments k_inodes {G W}.
Arguments k_next_inode {G W}.
Arguments k_supers {G W}.
Arguments k_glob {G W}.
Arguments k_world {G W}.
Arguments k_log {G W}.

Section kstate.
Context {G W : Type}.
Abbreviation st := (kstate G W).

Definition with_kheap (h : heap) (s : st) : st :=
  KState h (k_inodes s) (k_next_inode s) (k_supers s) (k_glob s) (k_world s) (k_log s).
Definition with_inodes (m : gmap positive inode) (s : st) : st :=
  KState (k_heap s) m (k_next_inode s) (k_supers s) (k_glob s) (k_world s) (k_log s).
Definition with_next_inode (n : positive) (s : st) : st :=
  KState (k_heap s) (k_inodes s) n (k_supers s) (k_glob s) (k_world s) (k_log s).
Definition with_supers (m : gmap positive super_block) (s : st) : st :=
  KState (k_heap s) (k_inodes s) (k_next_inode s) m (k_glob s) (k_world s) (k_log s).
Definition with_glob (g : G) (s : st) : st :=
  KState (k_heap s) (k_inodes s) (k_next_inode s) (k_supers s) g (k_world s) (k_log s).
Definition with_world (w : W) (s : st) : st :=
  KState (k_heap s) (k_inodes s) (k_next_inode s) (k_supers s) (k_glob s) w (k_log s).
Definition with_log (l : list event) (s : st) : st :=
  KState (k_heap s) (k_inodes s) (k_next_inode s) (k_supers s) (k_glob s) (k_world s) l.

#[export] Instance kstate_heap : HasHeap st := {|
  heap_of := k_heap;
  with_heap := with_kheap;
  heap_of_with h s := eq_refl;
  with_heap_of s := match s with KState _ _ _ _ _ _ _ => eq_refl end;
  with_with h h' s := eq_refl |}.

(** A call into the environment. *)
Definition world {A} (f : W → A * W) : M st A := λ s,
  let '(a, w) := f (k_world s) in Ok a (with_world w s).

Definition get_glob {A} (f : G → A) : M st A := gets (λ s, f (k_glob s)).
Definition mod_glob (f : G → G) : M st unit := modify (λ s, with_glob (f (k_glob s)) s).

Definition emit (e : event) : M st unit := modify (λ s, with_log (k_log s ++ [e]) s).
Definition printk (fmt : string) (args : list printk_arg) : M st unit := emit (Printk fmt args).

(** Reading and writing a member of a [struct inode] or [struct super_block]. *)
Definition get_inode (i : positive) : M st inode := λ s,
  match k_inodes s !! i with Some x => Ok x s | None => Stop UseAfterFree end.
Definition upd_inode (i : positive) (f : inode → inode) : M st unit :=
  x ← get_inode i;
  modify (λ s, with_inodes (<[i := f x]> (k_inodes s)) s).

Definition get_super (i : positive) : M st super_block := λ s,
  match k_supers s !! i with Some x => Ok x s | None => Stop UseAfterFree end.
Definition upd_super (i : positive) (f : super_block → super_block) : M st unit :=
  x ← get_super i;
  modify (λ s, with_supers (<[i := f x]> (k_supers s)) s).

(** Block until the semaphore can be taken. *)
Definition down_on `{!Semaphore} (get_sem : G → sem) (set_sem : sem → G → G) : M st unit :=
  x ← get_glob get_sem;
  match down x with
  | Some x' => mod_glob (set_sem x')
  | None => stop_with Blocked
  end.
Definition up_on `{!Semaphore} (get_sem : G → sem) (set_sem : sem → G → G) : M st unit :=
  x ← get_glob get_sem;
  mod_glob (set_sem (up x)).
Definition down_trylock_on `{!Semaphore} (get_sem : G → sem) (set_sem : sem → G → G) : M st Z :=
  x ← get_glob get_sem;
  mod_glob (set_sem (down_trylock x).2) ;;
  mret (down_trylock x).1.

(** [kmalloc] and [kzalloc]: NULL, or a fresh block of exactly [n] bytes. *)
Definition kmalloc `{!Allocator W} (n : Z) : M st ptr :=
  r ← world (k_malloc n);
  match r with
  | None => mret Null
  | Some bs => alloc_block (resize (Z.to_nat n) 0 bs)
  end.
Definition kzalloc `{!Allocator W} (n : Z) : M st ptr :=
  r ← world (k_malloc n);
  match r with
  | None => mret Null
  | Some _ => alloc_block (replicate (Z.to_nat n) 0)
  end.
End kstate.

(** ** Messages *)
Section messages.
Context {G W : Type} `{!Connector W} (a : abi).

(** [cn_netlink_send(m, 0, 0, GFP_ATOMIC)]: the connector copies the header and
    [m->len] bytes of payload. *)
Definition send_msg (m : ptr) : M (kstate G W) unit :=
  len ← load_member a m cn_msg_t "len";
  bs ← load m (sizeof_cn_msg + len);
  emit (NetlinkSend bs) ;;
  _ ← world (cn_netlink_send bs);
  mret tt.

(** [if(nls && nls->sk_socket) sock_release(nls->sk_socket);] with [nls] NULL or a
    socket with its [sk_socket] pointer. *)
Definition nls_socket (nls : option (option positive)) : option positive :=
  match nls with Some (Some sk) => Some sk | _ => None end.

(** [test_and_set_bit(0, &once)] *)
Definition test_and_set_bit0 (get_word : G → Z) (set_word : Z → G → G) : M (kstate G W) bool :=
  o ← get_glob get_word;
  mod_glob (set_word (Z.lor o 1)) ;;
  mret (Z.testbit o 0).
End messages.

(** ** Formatting *)

(** ASCII decimal digits, most significant first. *)
Fixpoint digits (fuel : nat) (n : Z) (acc : list Z) : list Z :=
  match fuel with
  | O => acc
  | S f => if n <? 10 then (48 + n) :: acc else digits f (n / 10) ((48 + n mod 10) :: acc)
  end.
(** A 32-bit number has at most ten digits. *)
Definition decimal (n : Z) : list Z := digits 10 n [].

(** What [scnprintf] documents for the formats the sources give it: at most
    [size - 1] characters and a NUL, returning the characters written. *)
Definition ascii_bytes (s : string) : list Z :=
  (λ ch, Z.of_nat (Ascii.nat_of_ascii ch)) <$> String.list_ascii_of_string s.

Class PrintfLaws `{!Printf} := {
  scnprintf_cu : ∀ size c u, 0 < size →
    let out := take (Z.to_nat (size - 1)) (u8 c :: decimal u) in
    scnprintf size "%c%u" [PInt c; PInt u] = (out ++ [0], Z.of_nat (length out));
  scnprintf_counter : ∀ size u, 0 < size →
    let out := take (Z.to_nat (size - 1)) (ascii_bytes "counter = " ++ decimal u) in
    scnprintf size "counter = %u" [PInt u] = (out ++ [0], Z.of_nat (length out)) }.
Arguments PrintfLaws : clear implicits.
Arguments PrintfLaws {_}.

(** A formatter for the conversions [%c] and [%u]. *)
Fixpoint format_args (fmt : string) (args : list printk_arg) : list Z :=
  match fmt with
  | String "%"%char (String "c"%char rest) =>
      match args with PInt c :: args' => u8 c :: format_args rest args' | _ => [] end
  | String "%"%char (String "u"%char rest) =>
      match args with PInt u :: args' => decimal u ++ format_args rest args' | _ => [] end
  | String ch rest => Z.of_nat (Ascii.nat_of_ascii ch) :: format_args rest args
  | EmptyString => []
  end.

#[export] Instance simple_printf : Printf := {|
  scnprintf size fmt args :=
    let out := take (Z.to_nat (size - 1)) (format_args fmt args) in
    (out ++ [0], Z.of_nat (length out)) |}.

#[export] Instance simple_printf_laws : PrintfLaws.
Proof. constructor; intros; simpl; by rewrite app_nil_r. Qed.

Lemma digits_S f n acc :
  digits (S f) n acc
  = if n <? 10 then (48 + n) :: acc else digits f (n / 10) ((48 + n mod 10) :: acc).
Proof. reflexivity. Qed.

Lemma length_digits f n acc : (length acc ≤ length (digits f n acc))%nat.
Proof.
  revert n acc; induction f as [|f IH]; intros n acc; [done|]. rewrite digits_S.
  destruct (n <? 10); simpl; [lia|]. etrans; [|apply IH]. simpl. lia.
Qed.

Lemma length_digits_le f n acc : (length (digits f n acc) ≤ f + length acc)%nat.
Proof.
  revert n acc; induction f as [|f IH]; intros n acc; [done|]. rewrite digits_S.
  destruct (n <? 10); simpl; [lia|]. etrans; [apply IH|]. simpl. lia.
Qed.

Lemma length_decimal_le n : (length (decimal n) ≤ 10)%nat.
Proof. etrans; [apply length_digits_le|]. simpl. lia. Qed.

Lemma length_decimal_pos n : (1 ≤ length (decimal n))%nat.
Proof.
  unfold decimal. rewrite digits_S. destruct (n <? 10); [simpl; lia|].
  etrans; [|apply length_digits]. simpl. lia.
Qed.

Lemma digits_acc f n acc : digits f n acc = digits f n [] ++ acc.
Proof.
  revert n acc; induction f as [|f IH]; intros n acc; [done|]. rewrite !digits_S.
  destruct (n <? 10); [done|]. rewrite IH, (IH _ [_]), <-app_assoc. done.
Qed.

Lemma digits_fuel f n acc : n < 10 ^ Z.of_nat (S f) → digits (S (S f)) n acc = digits (S f) n acc.
Proof.
  revert n acc; induction f as [|f IH]; intros n acc Hn.
  - rewrite !digits_S. destruct (Z.ltb_spec n 10); [done|]. simpl in Hn. lia.
  - rewrite (digits_S _ n), (digits_S (S f) n). destruct (Z.ltb_spec n 10); [done|]. apply IH.
    apply Z.div_lt_upper_bound; [lia|]. rewrite <-Z.pow_succ_r by lia. by rewrite <-Nat2Z.inj_succ.
Qed.

(** The digits of a number of at least two digits are those of its tenth and one more. *)
Lemma decimal_step n : 10 <= n < 10 ^ 10 → decimal n = decimal (n / 10) ++ [48 + n mod 10].
Proof.
  intros Hn. unfold decimal at 1. rewrite digits_S.
  destruct (Z.ltb_spec n 10); [lia|]. rewrite digits_acc. f_equal. symmetry. apply digits_fuel.
  apply Z.div_lt_upper_bound; [lia|]. change (10 * 10 ^ Z.of_nat 9) with (10 ^ 10). lia.
Qed.

Lemma length_decimal_ge3 n : 100 <= n < 10 ^ 10 → (3 ≤ length (decimal n))%nat.
Proof.
  intros Hn. assert (10 <= n / 10) by (apply Z.div_le_lower_bound; lia).
  assert (n / 10 < 10 ^ 10) by (apply Z.div_lt_upper_bound; lia).
  rewrite decimal_step, (decimal_step (n / 10)), !length_app by lia.
  pose proof (length_decimal_pos (n / 10 / 10)). simpl. lia.
Qed.

(** ** Rules for the primitives *)
Section kernel_rules.
Context {G W : Type} `{!Allocator W}.
Abbreviation st := (kstate G W).
Implicit Types (s : st).

Lemma wp_world {A} (f : W → A * W) (Q : A → st → Prop) E s :
  wp (world f) Q E s ↔ Q (f (k_world s)).1 (with_world (f (k_world s)).2 s).
Proof. unfold wp, world. by destruct (f (k_world s)). Qed.

Lemma world_eq {A} (f : W → A * W) s :
  world f s = Ok (f (k_world s)).1 (with_world (f (k_world s)).2 s).
Proof. unfold world. by destruct (f (k_world s)). Qed.

Lemma upd_super_ok i f x s :
  k_supers s !! i = Some x →
  upd_super i f s = Ok tt (with_supers (<[i := f x]> (k_supers s)) s).
Proof. intros Hx. unfold upd_super, get_super, mbind, M_bind. by rewrite Hx. Qed.

Lemma kmalloc_null n w' s :
  k_malloc n (k_world s) = (None, w') → kmalloc n s = Ok Null (with_world w' s).
Proof. intros H. unfold kmalloc, mbind, M_bind, world. by rewrite H. Qed.

Lemma kmalloc_ok n bs w' s :
  k_malloc n (k_world s) = (Some bs, w') →
  kmalloc n s = Ok (Ptr (h_next (k_heap s)) 0)
    (with_kheap (heap_alloc (resize (Z.to_nat n) 0 bs) (k_heap s)) (with_world w' s)).
Proof. intros H. unfold kmalloc, mbind, M_bind, world. by rewrite H. Qed.

Lemma kzalloc_null n w' s :
  k_malloc n (k_world s) = (None, w') → kzalloc n s = Ok Null (with_world w' s).
Proof. intros H. unfold kzalloc, mbind, M_bind, world. by rewrite H. Qed.

Lemma kzalloc_ok n bs w' s :
  k_malloc n (k_world s) = (Some bs, w') →
  kzalloc n s = Ok (Ptr (h_next (k_heap s)) 0)
    (with_kheap (heap_alloc (replicate (Z.to_nat n) 0) (k_heap s)) (with_world w' s)).
Proof. intros H. unfold kzalloc, mbind, M_bind, world. by rewrite H. Qed.

(** The same with the new block in front, the form the loads and stores keep. *)
Lemma kzalloc_inserted n bs w' s :
  k_malloc n (k_world s) = (Some bs, w') →
  kzalloc n s = Ok (Ptr (h_next (k_heap s)) 0)
    (with_kheap (heap_insert (h_next (k_heap s)) (replicate (Z.to_nat n) 0)
       (heap_alloc (replicate (Z.to_nat n) 0) (k_heap s))) (with_world w' s)).
Proof.
  intros H. rewrite (heap_insert_id _ _ _ (heap_alloc_lookup _ _)). by eapply kzalloc_ok.
Qed.

Lemma wp_get_glob {A} (f : G → A) (Q : A → st → Prop) E s :
  wp (get_glob f) Q E s ↔ Q (f (k_glob s)) s.
Proof. done. Qed.

Lemma wp_mod_glob (f : G → G) (Q : unit → st → Prop) E s :
  wp (mod_glob f) Q E s ↔ Q tt (with_glob (f (k_glob s)) s).
Proof. done. Qed.

Lemma wp_printk fmt args (Q : unit → st → Prop) E s :
  wp (printk fmt args) Q E s ↔ Q tt (with_log (k_log s ++ [Printk fmt args]) s).
Proof. done. Qed.

Lemma wp_down_on `{!Semaphore} f g (Q : unit → st → Prop) E s :
  wp (down_on f g) Q E s ↔
    match down (f (k_glob s)) with
    | Some x => Q tt (with_glob (g x (k_glob s)) s)
    | None => E Blocked
    end.
Proof.
  unfold wp, down_on, get_glob, gets, mbind, M_bind. by destruct (down (f (k_glob s))).
Qed.

Lemma wp_up_on `{!Semaphore} f g (Q : unit → st → Prop) E s :
  wp (up_on f g) Q E s ↔ Q tt (with_glob (g (up (f (k_glob s))) (k_glob s)) s).
Proof. done. Qed.

Lemma wp_get_inode i (Q : inode → st → Prop) E s :
  wp (get_inode i) Q E s ↔
    match k_inodes s !! i with Some x => Q x s | None => E UseAfterFree end.
Proof. unfold wp, get_inode. by destruct (k_inodes s !! i). Qed.

Lemma wp_upd_inode i f (Q : unit → st → Prop) E s :
  wp (upd_inode i f) Q E s ↔
    match k_inodes s !! i with
    | Some x => Q tt (with_inodes (<[i := f x]> (k_inodes s)) s)
    | None => E UseAfterFree
    end.
Proof. unfold wp, upd_inode, get_inode, mbind, M_bind. by destruct (k_inodes s !! i). Qed.

Lemma wp_upd_super i f (Q : unit → st → Prop) E s :
  wp (upd_super i f) Q E s ↔
    match k_supers s !! i with
    | Some x => Q tt (with_supers (<[i := f x]> (k_supers s)) s)
    | None => E UseAfterFree
    end.
Proof. unfold wp, upd_super, get_super, mbind, M_bind. by destruct (k_supers s !! i). Qed.
End kernel_rules.

(** Semaphore operations by count. *)
Section semaphore_rules.
Context {G W : Type} `{!Semaphore, !SemaphoreLaws}.
Implicit Types (s : kstate G W).

Lemma down_on_ok (f : G → sem) (g : sem → G → G) s n :
  sem_count (f (k_glob s)) = S n →
  ∃ x, down_on f g s = Ok tt (with_glob (g x (k_glob s)) s) ∧ sem_count x = n.
Proof.
  intros Hn. destruct (down_free _ _ Hn) as (x & Hx & Hc). exists x. split; [|done].
  unfold down_on, mbind, M_bind, get_glob, gets. by rewrite Hx.
Qed.

Lemma down_on_blocked (f : G → sem) (g : sem → G → G) s :
  sem_count (f (k_glob s)) = O → down_on f g s = Stop Blocked.
Proof.
  intros Hn. unfold down_on, mbind, M_bind, get_glob, gets. by rewrite (down_busy _ Hn).
Qed.

Lemma down_trylock_busy (f : G → sem) (g : sem → G → G) s :
  sem_count (f (k_glob s)) = O →
  ∃ r x, down_trylock_on f g s = Ok r (with_glob (g x (k_glob s)) s) ∧
    truth r = true ∧ sem_count x = O.
Proof.
  intros Hn. destruct (trylock_busy _ Hn) as (Hr & Hc).
  exists (down_trylock (f (k_glob s))).1, (down_trylock (f (k_glob s))).2.
  split; [done|]. split; [|done]. unfold truth. by apply negb_true_iff, Z.eqb_neq.
Qed.
End semaphore_rules.

(** Sending a message whose bytes are known. *)
Section message_rules.
Context {G W : Type} `{!Connector W} (a : abi).
Implicit Types (s : kstate G W).

Lemma len_field :
  find_field "len" (layout_from a 0 cn_msg_t) = Some (Field "len" SShort 1, 16%nat).
Proof. reflexivity. Qed.

Lemma send_msg_bytes b bs n h s :
  le_decode (take 2 (drop 16 bs)) = n → 0 <= n → (20 + Z.to_nat n ≤ length bs)%nat →
  send_msg a (Ptr b 0) (with_kheap (heap_insert b bs h) s)
  = Ok tt (with_log (k_log s ++ [NetlinkSend (take (20 + Z.to_nat n) bs)])
      (with_world (cn_netlink_send (take (20 + Z.to_nat n) bs) (k_world s)).2
        (with_kheap (heap_insert b bs h) s))).
Proof.
  intros Hn Hp Hl. unfold send_msg. change with_kheap with (with_heap (S:=kstate G W)).
  erewrite bind_ok; [|eapply load_member_at; [apply len_field|simpl; lia]].
  cbn [scalar_size fscalar]. rewrite Hn.
  erewrite bind_ok; [|apply load_at; unfold in_bounds, sizeof_cn_msg; lia].
  rewrite drop_0. replace (Z.to_nat (sizeof_cn_msg + n)) with (20 + Z.to_nat n)%nat
    by (unfold sizeof_cn_msg; lia).
  unfold emit, modify, world, mbind, M_bind, mret, M_ret. cbn -[take].
  by destruct (cn_netlink_send _ _).
Qed.
End message_rules.

(** One symbolic step of a kernel program under [wp]. *)
Ltac kstep :=
  first
    [ rewrite wp_bind | rewrite wp_ret | rewrite wp_world | rewrite wp_get_glob
    | rewrite wp_mod_glob | rewrite wp_printk | rewrite wp_up_on | rewrite wp_down_on
    | rewrite wp_stop | rewrite wp_get_inode | rewrite wp_upd_inode | rewrite wp_upd_super ].
Ltac ksteps := repeat (kstep; cbv beta).
