(* ===== verification/Env.v ===== *)
(** * A concrete environment

    One instance of the environment classes of [Kernel]: an allocator that fails
    when told to, a clock that ticks, a connector whose replies are a script.  The
    theorems never mention it; it shows that their hypotheses can hold, and the
    witnesses run the model in it. *)
From S2P Require Import Prelude CLayout Memory Kernel.

Record sim : Type := Sim {
  sim_allocs : list bool;              (** outcomes of the next allocations, then success *)
  sim_replies : list (list cn_msg);    (** callbacks delivered at the next waits, then none *)
  sim_clock : Z;
  sim_new_inodes : list bool;          (** outcomes of the next [new_inode], then success *)
  sim_next_ino : Z;
  sim_dcache : gmap positive positive; (** the inode a dentry is bound to *)
  sim_dcount : gmap positive Z         (** dentry reference counts *) }.

Definition sim0 : sim := Sim [] [] 0 [] 1 ∅ ∅.

Definition sim_with_replies (r : list (list cn_msg)) : sim := Sim [] r 0 [] 1 ∅ ∅.

#[export] Instance sim_allocator : Allocator sim := {|
  k_malloc _ w :=
    let w' := Sim (tail (sim_allocs w)) (sim_replies w) (sim_clock w) (sim_new_inodes w)
                (sim_next_ino w) (sim_dcache w) (sim_dcount w) in
    match sim_allocs w with
    | false :: _ => (None, w')
    | _ => (Some [], w')
    end |}.

#[export] Instance sim_clock_inst : Clock sim := {|
  CURRENT_TIME w :=
    (Timespec (sim_clock w) 0,
     Sim (sim_allocs w) (sim_replies w) (sim_clock w + 1) (sim_new_inodes w) (sim_next_ino w)
       (sim_dcache w) (sim_dcount w)) |}.

#[export] Instance sim_connector : Connector sim := {|
  CN_NETLINK_USERS := 11;
  cn_netlink_send _ w := (0, w);
  cn_deliver w :=
    (default [] (head (sim_replies w)),
     Sim (sim_allocs w) (tail (sim_replies w)) (sim_clock w) (sim_new_inodes w) (sim_next_ino w)
       (sim_dcache w) (sim_dcount w));
  cn_add_callback _ _ w := (0, w);
  cn_del_callback _ w := w |}.
