(* ===== verification/Lock.v ===== *)
(** * A section guarded by a semaphore of one unit

    The thread models share one argument: a list of threads, a predicate that says
    which of them are between [down] and [up], and the count of the semaphore.  [held]
    says that the section has one owner or none and that the count agrees; each line
    of a thread either keeps it, takes the semaphore or gives it back. *)
From S2P Require Import Prelude.

Section lock.
Context {T : Type} (inside : T → Prop).
Implicit Types (ts : list T) (h : option nat) (n : nat).

Definition held h ts n : Prop :=
  n = match h with None => 1%nat | Some _ => 0%nat end ∧
  (∀ i, h = Some i → is_Some (ts !! i)) ∧
  ∀ i t, ts !! i = Some t → inside t ↔ h = Some i.

(** At most one thread is inside, and the semaphore is taken exactly when one is. *)
Definition exclusive ts n : Prop :=
  (∀ i j t u, ts !! i = Some t → ts !! j = Some u → inside t → inside u → i = j) ∧
  (n = 0%nat ↔ Exists inside ts) ∧ (n ≤ 1)%nat.

Lemma held_exclusive h ts n : held h ts n → exclusive ts n.
Proof.
  intros (-> & Hsome & Hin). split; [|split].
  - intros i j t u Ht Hu Hit Hiu. apply (Hin i t Ht) in Hit. apply (Hin j u Hu) in Hiu. congruence.
  - rewrite Exists_exists. split.
    + intros H0. destruct h as [i|]; [|done]. destruct (Hsome i eq_refl) as [t Ht].
      exists t. split; [by eapply list_elem_of_lookup_2|]. by apply (Hin i t Ht).
    + intros (t & Ht & Hit). apply list_elem_of_lookup_1 in Ht as [i Hi].
      by apply (Hin i t Hi) in Hit as ->.
  - destruct h; lia.
Qed.

Lemma held_start ts : Forall (λ t, ¬ inside t) ts → held None ts 1.
Proof.
  intros Hts. split; [done|]. split; [done|]. intros i t Hi.
  by pose proof (Forall_lookup_1 _ _ _ _ Hts Hi).
Qed.

Lemma held_keep h ts n i t t' :
  held h ts n → ts !! i = Some t → (inside t' ↔ inside t) → held h (<[i := t']> ts) n.
Proof.
  intros (Hn & Hsome & Hin) Hi Ht. split; [done|]. split.
  - intros j Hj. apply Hsome in Hj as [u Hu]. apply lookup_lt_is_Some.
    rewrite length_insert. apply lookup_lt_is_Some. eauto.
  - intros j u. destruct (decide (i = j)) as [<-|].
    + rewrite list_lookup_insert_eq by (by eapply lookup_lt_Some).
      intros [= <-]. rewrite Ht. by apply Hin.
    + rewrite list_lookup_insert_ne by done. apply Hin.
Qed.

Lemma held_acquire h ts n i t t' :
  held h ts (S n) → ts !! i = Some t → inside t' → h = None ∧ held (Some i) (<[i := t']> ts) n.
Proof.
  intros (Hn & _ & Hin) Hi Ht. destruct h as [j|]; [done|]. split; [done|].
  pose proof (lookup_lt_Some _ _ _ Hi) as Hlt. split; [congruence|]. split.
  - intros j [= <-]. apply lookup_lt_is_Some. by rewrite length_insert.
  - intros j u. destruct (decide (i = j)) as [<-|Hne].
    + rewrite list_lookup_insert_eq by done. by intros [= <-].
    + rewrite list_lookup_insert_ne by done. intros Hu. rewrite (Hin j u Hu). naive_solver.
Qed.

Lemma held_release h ts n i t t' :
  held h ts n → ts !! i = Some t → inside t → ¬ inside t' →
  h = Some i ∧ held None (<[i := t']> ts) (S n).
Proof.
  intros (Hn & _ & Hin) Hi Ht Ht'.
  assert (h = Some i) as -> by (by apply (Hin i t)). split; [done|].
  pose proof (lookup_lt_Some _ _ _ Hi) as Hlt. split; [lia|]. split; [done|].
  intros j u. destruct (decide (i = j)) as [<-|Hne].
  - rewrite list_lookup_insert_eq by done. by intros [= <-].
  - rewrite list_lookup_insert_ne by done. intros Hu. rewrite (Hin j u Hu). naive_solver.
Qed.

(** A line of a thread in terms of the lock: it stays inside, enters or leaves. *)
Definition lock_line (t : T) n (t' : T) n' : Prop :=
  (inside t ∧ inside t' ∧ n' = n) ∨ (¬ inside t ∧ inside t' ∧ n = S n') ∨
  (inside t ∧ ¬ inside t' ∧ n' = S n).

(** The thread in the section, if any. *)
Definition owner h ts : option T := h ≫= λ i, ts !! i.

Context `{!∀ t, Decision (inside t)}.
Definition if_inside (t : T) : option T := if decide (inside t) then Some t else None.

(** Only the thread in the section, or one that enters a free one, executes a line. *)
Lemma held_line h ts n i t t' n' :
  held h ts n → ts !! i = Some t → lock_line t n t' n' →
  owner h ts = if_inside t ∧
  ∃ h', held h' (<[i := t']> ts) n' ∧ owner h' (<[i := t']> ts) = if_inside t'.
Proof.
  intros Hh Hi Hline. pose proof (lookup_lt_Some _ _ _ Hi) as Hlt. unfold if_inside.
  assert (∀ h' : option nat, h' = Some i → owner h' (<[i := t']> ts) = Some t') as Hnew
    by (intros h' ->; by apply list_lookup_insert_eq).
  destruct Hline as [(Ht & Ht' & ->)|[(Ht & Ht' & ->)|(Ht & Ht' & ->)]].
  - assert (h = Some i) as -> by (by apply (proj2 (proj2 Hh) i t Hi)).
    rewrite !decide_True by done. split; [done|]. exists (Some i). split; [|by apply Hnew].
    by eapply held_keep.
  - destruct (held_acquire _ _ _ _ _ _ Hh Hi Ht') as [-> Hh'].
    rewrite decide_False, decide_True by done. split; [done|]. exists (Some i). eauto.
  - destruct (held_release _ _ _ _ _ _ Hh Hi Ht Ht') as [-> Hh'].
    rewrite decide_True, decide_False by done. split; [done|]. by exists None.
Qed.
End lock.

(** What [down] does to a count: [None] while the caller sleeps. *)
Definition take_sem (n : nat) : option nat := match n with O => None | S n' => Some n' end.

Lemma take_sem_Some n k : take_sem n = Some k ↔ n = S k.
Proof. destruct n; simpl; split; congruence. Qed.
