(* ===== verification/Connector.v ===== *)
(** * Socket level of the kernel module ([kernel_space_module/sjfs.c], [sjfs.h])

    [cn_callback], [sjfs_read_block] and [sjfs_write_block] with the static
    variables of [sjfs.h].  A read sends a request over the netlink connector and
    sleeps on [cb_sem] until a callback has filled [read_block_buffer]; [cn_sem]
    serialises the readers.  Here one thread runs to completion and the callbacks
    the connector delivers ([cn_deliver]) run while it sleeps; [ConnectorThreads]
    has the interleavings. *)
From S2P Require Import Prelude CLayout Blocks Memory Kernel Env.

(** The static variables of the module ([sjfs.h] and [sjfs_init]).  [nls] is
    NULL or a socket with its [sk_socket] pointer. *)
Record globals `{!Semaphore} : Type := Globals {
  cn_sem : sem;
  cb_sem : sem;
  cn_counter : Z;
  nls : option (option positive);
  read_block_buffer : list Z;
  inodes_bitmaps_cache : ptr;
  datablocks_bitmaps_cache : ptr;
  once : Z }.
Arguments Globals {_}.

Section connector.
Context `{!Semaphore} {W : Type} `{!Allocator W, !Connector W, !Printf} (a : abi).

Abbreviation st := (kstate globals W).

Definition set_cn_sem (x : sem) (g : globals) : globals :=
  Globals x (cb_sem g) (cn_counter g) (nls g) (read_block_buffer g)
    (inodes_bitmaps_cache g) (datablocks_bitmaps_cache g) (once g).
Definition set_cb_sem (x : sem) (g : globals) : globals :=
  Globals (cn_sem g) x (cn_counter g) (nls g) (read_block_buffer g)
    (inodes_bitmaps_cache g) (datablocks_bitmaps_cache g) (once g).
Definition set_cn_counter (n : Z) (g : globals) : globals :=
  Globals (cn_sem g) (cb_sem g) n (nls g) (read_block_buffer g)
    (inodes_bitmaps_cache g) (datablocks_bitmaps_cache g) (once g).
Definition set_read_block_buffer (bs : list Z) (g : globals) : globals :=
  Globals (cn_sem g) (cb_sem g) (cn_counter g) (nls g) bs
    (inodes_bitmaps_cache g) (datablocks_bitmaps_cache g) (once g).
Definition set_inodes_bitmaps_cache (p : ptr) (g : globals) : globals :=
  Globals (cn_sem g) (cb_sem g) (cn_counter g) (nls g) (read_block_buffer g)
    p (datablocks_bitmaps_cache g) (once g).
Definition set_datablocks_bitmaps_cache (p : ptr) (g : globals) : globals :=
  Globals (cn_sem g) (cb_sem g) (cn_counter g) (nls g) (read_block_buffer g)
    (inodes_bitmaps_cache g) p (once g).
Definition set_once (z : Z) (g : globals) : globals :=
  Globals (cn_sem g) (cb_sem g) (cn_counter g) (nls g) (read_block_buffer g)
    (inodes_bitmaps_cache g) (datablocks_bitmaps_cache g) z.

(** [cn_id] *)
Definition cn_id : Z * Z := (CN_NETLINK_USERS + 3, 0x456).
Definition cn_name : string := "sjfs".

Definition cn_callback (msg : cn_msg) : M st unit :=
  rc ← down_trylock_on cb_sem set_cb_sem;
  if negb (truth rc) then
    up_on cb_sem set_cb_sem
  else
    bs ← load_array (msg_data msg)
           (if msg_len msg >? SJFS_BLOCKSIZE then SJFS_BLOCKSIZE else msg_len msg);
    mod_glob (λ g, set_read_block_buffer (splice 0 bs (read_block_buffer g)) g) ;;
    up_on cb_sem set_cb_sem ;;
    printk "cn_callback %s: idx=%x, val=%x, seq=%u, ack=%u, len=%d: %s."
      [PStr "cn_callback"; PInt (id_idx msg); PInt (id_val msg); PInt (msg_seq msg);
       PInt (msg_ack msg); PInt (msg_len msg);
       if truth (msg_len msg) then text_arg (msg_data msg) else PBytes []].

(** Filling in the message [m] (lines 42 to 46): [data] is the five-byte array
    the request is formatted into. *)
Definition fill_request (m : ptr) (address : Z) : M st unit :=
  store m (le_encode 4 cn_id.1 ++ le_encode 4 cn_id.2) ;;
  seq ← get_glob cn_counter;
  store_member a m cn_msg_t "seq" seq ;;
  let '(data, written) := scnprintf 5 "%c%u" [PInt SJFS_OPCODE_READ; PInt address] in
  store_member a m cn_msg_t "len" (u16 (written + 1)) ;;
  len ← load_member a m cn_msg_t "len";
  bs ← load_array (resize 5 0 data) len;
  store (ptr_add m sizeof_cn_msg) bs.

(** The sleeping [down(&cb_sem)] of line 59: the callbacks that are delivered
    meanwhile run first. *)
Definition wait_callback : M st unit :=
  msgs ← world cn_deliver;
  mfor_each cn_callback msgs ;;
  down_on cb_sem set_cb_sem.

(** [sjfs_read_block] up to the copy into the caller's block (lines 36 to 60). *)
Definition request_and_wait (address : Z) : M st unit :=
  m ← kzalloc (sizeof_cn_msg + 5);
  when (negb (is_null m))
    (fill_request m address ;;
     down_on cn_sem set_cn_sem ;;
     down_on cb_sem set_cb_sem ;;
     send_msg a m ;;
     kfree m) ;;
  mod_glob (λ g, set_cn_counter (u32 (cn_counter g + 1)) g) ;;
  wait_callback ;;
  up_on cb_sem set_cb_sem.

Definition sjfs_read_block (address : Z) (block : ptr) : M st Z :=
  request_and_wait address ;;
  buf ← get_glob read_block_buffer;
  bs ← load_array buf SJFS_BLOCKSIZE;
  store block bs ;;
  up_on cn_sem set_cn_sem ;;
  mret 0.

Definition sjfs_write_block (address : Z) (block : ptr) : M st Z :=
  down_on cn_sem set_cn_sem ;;
  up_on cn_sem set_cn_sem ;;
  mret 0.

(** ** Specification vocabulary *)

(** The payload of a read request as the five-byte array cuts it: opcode, at most
    three digits of the address, NUL. *)
Definition request_payload (address : Z) : list Z :=
  take 4 (u8 SJFS_OPCODE_READ :: decimal address) ++ [0].

(** The address a request of three digits can carry: the leading digits.  Eight
    divisions take any 32-bit number below 1000. *)
Fixpoint wire_address (fuel : nat) (address : Z) : Z :=
  match fuel with
  | O => address
  | S f => if address <? 1000 then address else wire_address f (address / 10)
  end.
Definition sent_address (address : Z) : Z := wire_address 8 address.

(** The bytes of the message handed to the connector. *)
Definition request_bytes (counter address : Z) : list Z :=
  le_encode 4 cn_id.1 ++ le_encode 4 cn_id.2 ++ le_encode 4 counter ++ [0; 0; 0; 0]
  ++ le_encode 2 (Z.of_nat (length (request_payload address))) ++ [0; 0]
  ++ request_payload address.

(** What a reply leaves in the block buffer. *)
Definition received (msg : cn_msg) (buf : list Z) : list Z :=
  splice 0 (take (Z.to_nat (Z.min (msg_len msg) SJFS_BLOCKSIZE)) (msg_data msg)) buf.

Definition msg_ok (msg : cn_msg) : Prop := 0 <= msg_len msg <= Z.of_nat (length (msg_data msg)).

(** The static variables hold: the buffer has the size of a block. *)
Definition globals_ok (g : globals) : Prop := length (read_block_buffer g) = 1024%nat.

(** What the callback logs. *)
Definition callback_line (msg : cn_msg) : event :=
  Printk "cn_callback %s: idx=%x, val=%x, seq=%u, ack=%u, len=%d: %s."
    [PStr "cn_callback"; PInt (id_idx msg); PInt (id_val msg); PInt (msg_seq msg);
     PInt (msg_ack msg); PInt (msg_len msg);
     if truth (msg_len msg) then text_arg (msg_data msg) else PBytes []].
End connector.

(** ** Lemmas *)
Section connector_lemmas.
Context `{!Semaphore, !SemaphoreLaws} {W : Type}
  `{!Allocator W, !Connector W, !Printf, !PrintfLaws} (a : abi).

Abbreviation st := (kstate globals W).
Implicit Types (s : st) (msg : cn_msg).

Lemma callback_length n :
  (if n >? SJFS_BLOCKSIZE then SJFS_BLOCKSIZE else n) = Z.min n SJFS_BLOCKSIZE.
Proof. destruct (Z.gtb_spec n SJFS_BLOCKSIZE); lia. Qed.

(** A callback that finds [cb_sem] free changes nothing but the semaphore, whose
    count is back where it was. *)
Lemma callback_idle msg s n :
  sem_count (cb_sem (k_glob s)) = S n →
  ∃ x, cn_callback msg s = Ok tt (with_glob (set_cb_sem x (k_glob s)) s) ∧ sem_count x = S n.
Proof.
  intros Hn. destruct (trylock_free _ _ Hn) as (y & Hy & Hc).
  exists (up y). split; [|by rewrite up_count, Hc].
  unfold cn_callback, down_trylock_on, up_on, mbind, M_bind, get_glob, mod_glob, gets, modify,
    mret, M_ret. rewrite Hy. reflexivity.
Qed.

(** A callback that finds [cb_sem] taken stores its payload and frees it. *)
Lemma callback_busy msg s :
  sem_count (cb_sem (k_glob s)) = O → msg_ok msg →
  ∃ x, cn_callback msg s
    = Ok tt (with_log (k_log s ++ [callback_line msg])
        (with_glob (set_cb_sem x (set_read_block_buffer
           (received msg (read_block_buffer (k_glob s))) (k_glob s))) s))
    ∧ sem_count x = 1%nat.
Proof.
  intros Hn Hm. destruct (trylock_busy _ Hn) as (Hr & Hc).
  exists (up (down_trylock (cb_sem (k_glob s))).2). split; [|by rewrite up_count, Hc].
  unfold cn_callback, down_trylock_on, up_on, mbind, M_bind, get_glob, mod_glob, gets, modify,
    mret, M_ret. simpl.
  replace (truth (down_trylock (cb_sem (k_glob s))).1) with true
    by (symmetry; unfold truth; by apply negb_true_iff, Z.eqb_neq).
  simpl. rewrite callback_length, load_array_ok; [reflexivity|].
  unfold in_bounds, msg_ok, SJFS_BLOCKSIZE in *. lia.
Qed.

Lemma length_received msg buf :
  msg_ok msg → length buf = 1024%nat → length (received msg buf) = 1024%nat.
Proof.
  unfold msg_ok, received, SJFS_BLOCKSIZE. intros Hm Hb.
  rewrite length_splice; [done|]. rewrite length_take. lia.
Qed.

(** Callbacks that come while nobody waits are dropped. *)
Lemma callbacks_idle msgs s n :
  sem_count (cb_sem (k_glob s)) = S n →
  ∃ x, mfor_each cn_callback msgs s = Ok tt (with_glob (set_cb_sem x (k_glob s)) s)
    ∧ sem_count x = S n.
Proof.
  revert s; induction msgs as [|m ms IH]; intros s Hn.
  - exists (cb_sem (k_glob s)). split; [|done]. by destruct s as [????[]].
  - destruct (callback_idle m s n Hn) as (x & Hx & Hcx).
    destruct (IH (with_glob (set_cb_sem x (k_glob s)) s) Hcx) as (y & Hy & Hcy).
    exists y. split; [|done]. simpl. by rewrite (bind_ok _ _ _ _ _ Hx), Hy.
Qed.

(** While a reader waits, the first callback delivers and the others are dropped. *)
Lemma callbacks_busy m ms s :
  sem_count (cb_sem (k_glob s)) = O → msg_ok m →
  ∃ x, mfor_each cn_callback (m :: ms) s
    = Ok tt (with_log (k_log s ++ [callback_line m])
        (with_glob (set_cb_sem x (set_read_block_buffer
           (received m (read_block_buffer (k_glob s))) (k_glob s))) s))
    ∧ sem_count x = 1%nat.
Proof.
  intros Hn Hm. destruct (callback_busy m s Hn Hm) as (x & Hx & Hcx).
  match type of Hx with _ = Ok tt ?s1 => destruct (callbacks_idle ms s1 0 Hcx) as (y & Hy & Hcy) end.
  exists y. split; [|done]. cbn [mfor_each]. by rewrite (bind_ok _ _ _ _ _ Hx), Hy.
Qed.

Lemma length_request_payload address :
  (3 ≤ length (request_payload address) ≤ 5)%nat.
Proof.
  unfold request_payload. rewrite length_app, length_take. cbn [length].
  pose proof (length_decimal_pos address). lia.
Qed.

Lemma length_request_bytes counter address :
  length (request_bytes counter address) = (20 + length (request_payload address))%nat.
Proof. unfold request_bytes. rewrite !length_app, !length_le_encode. simpl. lia. Qed.

Lemma seq_field : find_field "seq" (layout_from a 0 cn_msg_t) = Some (Field "seq" SInt 1, 8%nat).
Proof. reflexivity. Qed.
(** The message is built inside its 25 bytes. *)
Lemma fill_request_ok b address h s :
  fill_request a (Ptr b 0) address (with_kheap (heap_insert b (replicate 25 0) h) s)
  = Ok tt (with_kheap (heap_insert b (request_bytes (cn_counter (k_glob s)) address
      ++ replicate (5 - length (request_payload address)) 0) h) s).
Proof.
  unfold fill_request. change with_kheap with (with_heap (S:=st)).
  erewrite bind_ok; [|apply store_at; unfold in_bounds; by vm_compute].
  cbn [get_glob gets]. erewrite bind_ok; [|reflexivity].
  erewrite bind_ok; [|eapply store_member_at; [apply seq_field|]; simpl; lia].
  rewrite scnprintf_cu by lia. unfold request_bytes, request_payload.
  pose proof (length_decimal_pos address) as Hd.
  destruct (decimal address) as [|d1 ds]; [simpl in Hd; lia|]. clear Hd.
  change (Z.to_nat (5 - 1)) with 4%nat.
  destruct ds as [|d2 [|d3 ds]].
  all: erewrite bind_ok; [|eapply store_member_at; [apply len_field|]; simpl; lia].
  all: erewrite bind_ok; [|eapply load_member_at; [apply len_field|]; simpl; lia].
  all: erewrite bind_ok; [|apply load_array_ok; unfold in_bounds; by vm_compute].
  all: cbn [ptr_add]; erewrite store_at; [reflexivity|unfold in_bounds; by vm_compute].
Qed.

Lemma send_msg_ok b address counter pad h s :
  (length pad = 5 - length (request_payload address))%nat →
  send_msg a (Ptr b 0) (with_kheap (heap_insert b (request_bytes counter address ++ pad) h) s)
  = Ok tt (with_log (k_log s ++ [NetlinkSend (request_bytes counter address)])
      (with_world (cn_netlink_send (request_bytes counter address) (k_world s)).2
        (with_kheap (heap_insert b (request_bytes counter address ++ pad) h) s))).
Proof.
  intros Hpad. pose proof (length_request_bytes counter address) as Hl.
  pose proof (length_request_payload address) as Hp.
  rewrite (send_msg_bytes a b _ (Z.of_nat (length (request_payload address)))).
  - by rewrite Nat2Z.id, take_app_length' by lia.
  - unfold request_bytes. generalize dependent (length (request_payload address)).
    intros n _ _ Hn. rewrite <-!app_assoc.
    transitivity (le_decode (le_encode 2 (Z.of_nat n))); [reflexivity|].
    rewrite le_decode_encode. apply Z.mod_small. lia.
  - lia.
  - rewrite length_app, Hl. lia.
Qed.

(** *** The request phase *)

(** What the request phase leaves behind, all cases together: [x], [y] the two
    semaphores, [buf] the buffer, [next] the next block name. *)
Definition after_read s (next : positive) (x y : sem) (buf : list Z) (w : W) (new : list event)
    : st :=
  KState (Heap next (h_map (k_heap s))) (k_inodes s) (k_next_inode s) (k_supers s)
    (Globals x y (u32 (cn_counter (k_glob s) + 1)) (nls (k_glob s)) buf
       (inodes_bitmaps_cache (k_glob s)) (datablocks_bitmaps_cache (k_glob s)) (once (k_glob s)))
    w (k_log s ++ new).

Lemma request_sent address s junk w1 :
  heap_wf (k_heap s) →
  k_malloc 25 (k_world s) = (Some junk, w1) →
  sem_count (cn_sem (k_glob s)) = 1%nat → sem_count (cb_sem (k_glob s)) = 1%nat →
  let req := request_bytes (cn_counter (k_glob s)) address in
  ∃ x y, sem_count x = O ∧ sem_count y = O ∧
  request_and_wait a address s
  = (wait_callback ;; up_on cb_sem set_cb_sem)
      (after_read s (Pos.succ (h_next (k_heap s))) x y (read_block_buffer (k_glob s))
         (cn_netlink_send req w1).2 [NetlinkSend req]).
Proof.
  intros Hwf Hm Hcn Hcb req.
  destruct (down_free _ _ Hcn) as (x & Hx & Hcx), (down_free _ _ Hcb) as (y & Hy & Hcy).
  exists x, y. do 2 (split; [done|]).
  unfold request_and_wait. erewrite bind_ok; [|by eapply kzalloc_inserted].
  cbn [is_null negb when].
  erewrite bind_ok.
  2: { erewrite bind_ok; [|apply fill_request_ok].
       erewrite bind_ok.
       2: { unfold down_on, mbind, M_bind, get_glob, gets. simpl. rewrite Hx. reflexivity. }
       erewrite bind_ok.
       2: { unfold down_on, mbind, M_bind, get_glob, gets. simpl. rewrite Hy. reflexivity. }
       erewrite bind_ok.
       2: { match goal with |- send_msg _ _ ?t = _ =>
              let g := eval cbn in (k_glob t) in
              change t with (with_kheap (k_heap t) (with_glob g (with_world w1 s))) end.
            apply send_msg_ok. apply length_replicate. }
       apply kfree_ok with (bs := req ++ replicate (5 - length (request_payload address)) 0).
       apply heap_insert_lookup. }
  unfold mod_glob, modify. erewrite bind_ok; [|reflexivity].
  f_equal. cbn. unfold after_read. f_equal.
  unfold heap_delete. cbn. f_equal.
  rewrite delete_insert_eq. rewrite delete_insert_id; [done|]. by apply heap_wf_fresh.
Qed.

Lemma wait_reply s m ms w3 :
  sem_count (cb_sem (k_glob s)) = O → cn_deliver (k_world s) = (m :: ms, w3) → msg_ok m →
  ∃ y, sem_count y = 1%nat ∧
  (wait_callback ;; up_on cb_sem set_cb_sem) s
  = Ok tt (with_log (k_log s ++ [callback_line m])
      (with_glob (set_cb_sem y (set_read_block_buffer
         (received m (read_block_buffer (k_glob s))) (k_glob s))) (with_world w3 s))).
Proof.
  intros Hc Hd Hm. set (s1 := with_world w3 s).
  destruct (callbacks_busy m ms s1 Hc Hm) as (y1 & Hy1 & Hcy1).
  destruct (down_free y1 0 Hcy1) as (y2 & Hy2 & Hcy2).
  exists (up y2). split; [by rewrite up_count, Hcy2|].
  erewrite bind_ok.
  2: { unfold wait_callback, world. unfold mbind at 1, M_bind at 1. rewrite Hd.
       erewrite bind_ok; [|apply Hy1].
       unfold down_on, get_glob, gets, mbind, M_bind. cbn. rewrite Hy2. reflexivity. }
  reflexivity.
Qed.

(** No callback comes: the reader sleeps for ever. *)
Lemma wait_no_reply s w3 :
  sem_count (cb_sem (k_glob s)) = O → cn_deliver (k_world s) = ([], w3) →
  (wait_callback ;; up_on cb_sem set_cb_sem) s = Stop Blocked.
Proof.
  intros Hc Hd. apply bind_stop. unfold wait_callback, world.
  unfold mbind at 1, M_bind at 1. rewrite Hd. cbn [mfor_each].
  erewrite bind_ok; [|reflexivity]. by apply down_on_blocked.
Qed.

Lemma wait_idle s msgs w3 n :
  sem_count (cb_sem (k_glob s)) = S n → cn_deliver (k_world s) = (msgs, w3) →
  ∃ y, sem_count y = S n ∧
  (wait_callback ;; up_on cb_sem set_cb_sem) s
  = Ok tt (with_glob (set_cb_sem y (k_glob s)) (with_world w3 s)).
Proof.
  intros Hc Hd. set (s1 := with_world w3 s).
  destruct (callbacks_idle msgs s1 n Hc) as (y1 & Hy1 & Hcy1).
  destruct (down_free y1 n Hcy1) as (y2 & Hy2 & Hcy2).
  exists (up y2). split; [by rewrite up_count, Hcy2|].
  erewrite bind_ok.
  2: { unfold wait_callback, world. unfold mbind at 1, M_bind at 1. rewrite Hd.
       erewrite bind_ok; [|apply Hy1].
       unfold down_on, get_glob, gets, mbind, M_bind. cbn. rewrite Hy2. reflexivity. }
  reflexivity.
Qed.

(** The allocation of the message fails: nothing is locked, nothing is sent, the
    reader passes [cb_sem] without waiting. *)
Lemma request_not_sent address s w1 msgs w3 n :
  k_malloc 25 (k_world s) = (None, w1) →
  sem_count (cb_sem (k_glob s)) = S n → cn_deliver w1 = (msgs, w3) →
  ∃ y, sem_count y = S n ∧
  request_and_wait a address s
  = Ok tt (after_read s (h_next (k_heap s)) (cn_sem (k_glob s)) y
      (read_block_buffer (k_glob s)) w3 []).
Proof.
  intros Hm Hcb Hd.
  set (s1 := after_read s (h_next (k_heap s)) (cn_sem (k_glob s)) (cb_sem (k_glob s))
      (read_block_buffer (k_glob s)) w1 []).
  destruct (wait_idle s1 msgs w3 n Hcb Hd) as (y & Hy & Hrun).
  exists y. split; [done|]. unfold request_and_wait.
  erewrite bind_ok; [|by eapply kzalloc_null]. cbn [is_null negb when].
  erewrite bind_ok; [|reflexivity]. unfold mod_glob, modify.
  erewrite bind_ok; [|reflexivity].
  match goal with |- _ ?t = _ => assert (t = s1) as -> end.
  { unfold s1, after_read. rewrite app_nil_r. by destruct s as [[]]. }
  rewrite Hrun. reflexivity.
Qed.

(** The copy out of the buffer, from any state. *)
Lemma copy_out b o bs s :
  globals_ok (k_glob s) → h_map (k_heap s) !! b = Some bs → in_bounds o 1024 bs →
  (buf ← get_glob read_block_buffer;
   d ← load_array buf SJFS_BLOCKSIZE;
   store (Ptr b o) d ;; up_on cn_sem set_cn_sem ;; mret 0) s
  = Ok 0 (with_glob (set_cn_sem (up (cn_sem (k_glob s))) (k_glob s))
      (with_kheap (heap_insert b (splice (Z.to_nat o) (read_block_buffer (k_glob s)) bs)
        (k_heap s)) s)).
Proof.
  intros Hg Hb Hi. unfold globals_ok in Hg.
  unfold get_glob, gets. erewrite bind_ok; [|reflexivity].
  erewrite bind_ok; [|apply load_array_ok; unfold in_bounds, SJFS_BLOCKSIZE; lia].
  rewrite take_ge by (unfold SJFS_BLOCKSIZE; lia).
  erewrite bind_ok; [|apply store_ok; [exact Hb|]].
  2: { rewrite Hg. unfold in_bounds in *. lia. }
  reflexivity.
Qed.

Lemma copy_out_oob b o bs s :
  globals_ok (k_glob s) → h_map (k_heap s) !! b = Some bs → ¬ in_bounds o 1024 bs →
  (buf ← get_glob read_block_buffer;
   d ← load_array buf SJFS_BLOCKSIZE;
   store (Ptr b o) d ;; up_on cn_sem set_cn_sem ;; mret 0) s = Stop OutOfBounds.
Proof.
  intros Hg Hb Hi. unfold globals_ok in Hg.
  unfold get_glob, gets. erewrite bind_ok; [|reflexivity].
  erewrite bind_ok; [|apply load_array_ok; unfold in_bounds, SJFS_BLOCKSIZE; lia].
  rewrite take_ge by (unfold SJFS_BLOCKSIZE; lia).
  erewrite bind_stop; [done|]. eapply store_oob; [exact Hb|].
  rewrite Hg. exact Hi.
Qed.

(** *** Frames: what the socket level can change, whatever happens *)

(** The only ways the socket level stops: asleep, or on a malformed message. *)
Definition conn_stop (r : stop) : Prop := r = Blocked ∨ r = OutOfBounds.

Definition cb_frame s s' : Prop :=
  ∃ y buf new, length buf = 1024%nat ∧
    s' = with_log (k_log s ++ new)
      (with_glob (set_cb_sem y (set_read_block_buffer buf (k_glob s))) s).

Lemma cb_frame_refl s : globals_ok (k_glob s) → cb_frame s s.
Proof.
  intros Hg. exists (cb_sem (k_glob s)), (read_block_buffer (k_glob s)), [].
  split; [done|]. unfold with_log. rewrite app_nil_r. by destruct s as [????[]].
Qed.

Lemma cb_frame_trans s1 s2 s3 : cb_frame s1 s2 → cb_frame s2 s3 → cb_frame s1 s3.
Proof.
  intros (y & buf & new & Hl & ->) (y' & buf' & new' & Hl' & ->).
  exists y', buf', (new ++ new'). split; [done|]. unfold with_log. cbn.
  by rewrite app_assoc.
Qed.

Lemma cb_frame_ok s s' : cb_frame s s' → globals_ok (k_glob s').
Proof. by intros (y & buf & new & Hl & ->). Qed.

Lemma callback_frame msg s :
  globals_ok (k_glob s) → wp (cn_callback msg) (λ _, cb_frame s) conn_stop s.
Proof.
  intros Hg. unfold wp, cn_callback, down_trylock_on, up_on, get_glob, mod_glob, gets, modify,
    mbind, M_bind, mret, M_ret. cbn.
  destruct (negb (truth _)).
  - cbn. exists (up (down_trylock (cb_sem (k_glob s))).2), (read_block_buffer (k_glob s)), [].
    split; [done|]. unfold with_log. by rewrite app_nil_r.
  - unfold load_array. rewrite callback_length. case_decide as Hi; cbn; [|by right].
    eexists _, (splice 0 _ (read_block_buffer (k_glob s))), [_].
    split; [|reflexivity]. rewrite length_splice; [done|].
    unfold globals_ok, in_bounds, SJFS_BLOCKSIZE in *. rewrite length_take. lia.
Qed.

Lemma callbacks_frame msgs s :
  globals_ok (k_glob s) → wp (mfor_each cn_callback msgs) (λ _, cb_frame s) conn_stop s.
Proof.
  intros Hg. apply wp_for_each; [by apply cb_frame_refl|]. intros m s' _ Hs'.
  eapply wp_mono; [apply callback_frame; by eapply cb_frame_ok| |done].
  intros [] s2. by apply cb_frame_trans.
Qed.

(** Whatever the environment does, the request phase changes no allocated block
    and none of the bitmaps. *)
Lemma request_frame address s :
  heap_wf (k_heap s) → globals_ok (k_glob s) →
  wp (request_and_wait a address)
    (λ _ s', ∃ next x y buf w new, s' = after_read s next x y buf w new ∧
       (h_next (k_heap s) ≤ next)%positive ∧ length buf = 1024%nat) conn_stop s.
Proof.
  intros Hwf Hg.
  assert (∀ s1 next x y0 buf w new, s1 = after_read s next x y0 buf w new →
    (h_next (k_heap s) ≤ next)%positive → length buf = 1024%nat →
    wp (wait_callback ;; up_on cb_sem set_cb_sem)
      (λ _ s', ∃ next x y buf w new, s' = after_read s next x y buf w new ∧
       (h_next (k_heap s) ≤ next)%positive ∧ length buf = 1024%nat) conn_stop s1) as Hwait.
  { intros s1 next x y0 buf w new -> Hn Hb. unfold wait_callback. rewrite !wp_bind, wp_world, wp_bind.
    eapply wp_mono; [by apply callbacks_frame| |done].
    intros [] s2 (y & buf2 & new2 & Hl2 & ->).
    unfold wp, down_on, up_on, get_glob, gets, mod_glob, modify, mbind, M_bind. cbn.
    destruct (down y) as [y'|]; [|by left]. cbn.
    eexists next, x, _, buf2, _, (new ++ new2). split; [|by split].
    unfold with_log, after_read. cbn. by rewrite <-app_assoc. }
  unfold request_and_wait.
  destruct (k_malloc (sizeof_cn_msg + 5) (k_world s)) as [[junk|] w1] eqn:Hm.
  - rewrite wp_bind, (wp_ok _ _ _ _ _ _ (kzalloc_inserted _ _ _ _ Hm)).
    cbn [is_null negb when]. change (Z.to_nat (sizeof_cn_msg + 5)) with 25%nat.
    rewrite wp_bind, wp_bind, (wp_ok _ _ _ _ _ _ (fill_request_ok _ _ _ _)), wp_bind, wp_down_on.
    destruct (down _) as [x|]; [|by left]. rewrite wp_bind, wp_down_on.
    destruct (down _) as [y|]; [|by left]. rewrite wp_bind.
    erewrite wp_ok.
    2: { match goal with |- send_msg _ _ ?t = _ =>
           change t with (with_kheap (k_heap t) (with_glob (k_glob t) (with_world w1 s))) end.
         apply send_msg_ok, length_replicate. }
    erewrite wp_ok; [|eapply kfree_ok, heap_insert_lookup].
    rewrite wp_bind, wp_mod_glob.
    eapply (Hwait _ (Pos.succ (h_next (k_heap s))) x y (read_block_buffer (k_glob s)) _
      [NetlinkSend (request_bytes (cn_counter (k_glob s)) address)]); [|lia|done].
    unfold after_read, heap_delete. cbn. do 2 f_equal.
    by rewrite delete_insert_eq, delete_insert_id by by apply heap_wf_fresh.
  - rewrite wp_bind, (wp_ok _ _ _ _ _ _ (kzalloc_null _ _ _ Hm)).
    cbn [is_null negb when]. rewrite wp_bind, wp_ret, wp_bind, wp_mod_glob.
    eapply (Hwait _ (h_next (k_heap s)) (cn_sem (k_glob s)) (cb_sem (k_glob s))
         (read_block_buffer (k_glob s)) w1 []); [|lia|done].
    unfold after_read. rewrite app_nil_r. by destruct s as [[]].
Qed.
(** What the socket level leaves alone. *)
Record quiet (s s' : st) : Prop := Quiet {
  quiet_inodes : k_inodes s' = k_inodes s;
  quiet_next_inode : k_next_inode s' = k_next_inode s;
  quiet_supers : k_supers s' = k_supers s;
  quiet_inodes_cache : inodes_bitmaps_cache (k_glob s') = inodes_bitmaps_cache (k_glob s);
  quiet_datablocks_cache :
    datablocks_bitmaps_cache (k_glob s') = datablocks_bitmaps_cache (k_glob s);
  quiet_next : (h_next (k_heap s) ≤ h_next (k_heap s'))%positive }.

#[export] Instance quiet_refl : Reflexive quiet.
Proof. intros s. by constructor. Qed.
#[export] Instance quiet_trans : Transitive quiet.
Proof. intros s1 s2 s3 [] []. constructor; try congruence. lia. Qed.

(** A read that is answered, step by step. *)
Lemma read_block_answered (s : st) (address : Z) (b : positive) (o : Z) (bs junk : list Z)
    (w1 w3 : W) (m : cn_msg) (ms : list cn_msg) :
  let req := request_bytes (cn_counter (k_glob s)) address in
  let data := received m (read_block_buffer (k_glob s)) in
  heap_wf (k_heap s) → globals_ok (k_glob s) →
  sem_count (cn_sem (k_glob s)) = 1%nat → sem_count (cb_sem (k_glob s)) = 1%nat →
  k_malloc 25 (k_world s) = (Some junk, w1) →
  cn_deliver (cn_netlink_send req w1).2 = (m :: ms, w3) → msg_ok m →
  h_map (k_heap s) !! b = Some bs → in_bounds o SJFS_BLOCKSIZE bs →
  ∃ s', sjfs_read_block a address (Ptr b o) s = Ok 0 s' ∧ quiet s s' ∧
    h_map (k_heap s') = <[b := splice (Z.to_nat o) data bs]> (h_map (k_heap s)) ∧
    heap_wf (k_heap s') ∧ read_block_buffer (k_glob s') = data ∧
    sem_count (cn_sem (k_glob s')) = 1%nat ∧ sem_count (cb_sem (k_glob s')) = 1%nat ∧
    cn_counter (k_glob s') = u32 (cn_counter (k_glob s) + 1) ∧
    k_log s' = k_log s ++ [NetlinkSend req; callback_line m].
Proof.
  intros req data Hwf Hg Hcn Hcb Hm Hd Hok Hb Hi.
  destruct (request_sent address s junk w1 Hwf Hm Hcn Hcb) as (x & y & Hx & Hy & Hrun).
  fold req in Hrun.
  match type of Hrun with _ = _ ?t =>
    destruct (wait_reply t m ms w3 Hy Hd Hok) as (y' & Hy' & Hrun') end.
  rewrite Hrun' in Hrun. clear Hrun'.
  unfold sjfs_read_block. erewrite bind_ok; [|exact Hrun].
  erewrite copy_out; [|by apply length_received|exact Hb|exact Hi].
  eexists. split; [reflexivity|]. split; [constructor; cbn; (done || lia)|]. cbn. rewrite up_count, Hx.
  split; [done|]. split.
  - intros c Hc. simpl in *.
    destruct (decide (b = c)) as [<-|]; [|rewrite lookup_insert_ne in Hc by done].
    + assert (b < h_next (k_heap s))%positive by eauto. lia.
    + apply Hwf in Hc. lia.
  - repeat split; try done. by rewrite <-app_assoc.
Qed.
End connector_lemmas.

(** ** Properties *)
Section connector_properties.
Context `{!Semaphore, !SemaphoreLaws} {W : Type}
  `{!Allocator W, !Connector W, !Printf, !PrintfLaws} (a : abi).

Abbreviation st := (kstate globals W).

(** C5: A block read that is answered.  With the message allocated, nobody else in
    the protocol and at least one callback delivered while the reader sleeps,
    [sjfs_read_block] returns 0; exactly the request for [address] was sent; the
    caller's block holds the payload of the first callback (cut to a block, over
    what the buffer held) and no other block changed; the message was freed, both
    semaphores are free again and the sequence number advanced. *)
Theorem read_block_delivers (s : st) (address : Z) (b : positive) (o : Z) (bs junk : list Z)
    (w1 w3 : W) (m : cn_msg) (ms : list cn_msg) :
  let req := request_bytes (cn_counter (k_glob s)) address in
  let data := received m (read_block_buffer (k_glob s)) in
  heap_wf (k_heap s) → globals_ok (k_glob s) →
  sem_count (cn_sem (k_glob s)) = 1%nat → sem_count (cb_sem (k_glob s)) = 1%nat →
  k_malloc 25 (k_world s) = (Some junk, w1) →
  cn_deliver (cn_netlink_send req w1).2 = (m :: ms, w3) → msg_ok m →
  h_map (k_heap s) !! b = Some bs → in_bounds o SJFS_BLOCKSIZE bs →
  ∃ s', sjfs_read_block a address (Ptr b o) s = Ok 0 s' ∧
    h_map (k_heap s') = <[b := splice (Z.to_nat o) data bs]> (h_map (k_heap s)) ∧
    heap_wf (k_heap s') ∧ read_block_buffer (k_glob s') = data ∧
    sem_count (cn_sem (k_glob s')) = 1%nat ∧ sem_count (cb_sem (k_glob s')) = 1%nat ∧
    cn_counter (k_glob s') = u32 (cn_counter (k_glob s) + 1) ∧
    k_log s' = k_log s ++ [NetlinkSend req; callback_line m].
Proof.
  intros req data Hwf Hg Hcn Hcb Hm Hd Hok Hb Hi.
  destruct (read_block_answered a s address b o bs junk w1 w3 m ms Hwf Hg Hcn Hcb Hm Hd Hok Hb Hi)
    as (s' & Hrun & _ & Hrest). by exists s'.
Qed.

(** No callback, no return: when the reply does not come, the reader that sent
    the request sleeps for ever ("TODO: make this call do a timeout"). *)
Theorem read_block_starves (s : st) (address : Z) (block : ptr) (junk : list Z) (w1 w3 : W) :
  heap_wf (k_heap s) →
  sem_count (cn_sem (k_glob s)) = 1%nat → sem_count (cb_sem (k_glob s)) = 1%nat →
  k_malloc 25 (k_world s) = (Some junk, w1) →
  cn_deliver (cn_netlink_send (request_bytes (cn_counter (k_glob s)) address) w1).2 = ([], w3) →
  sjfs_read_block a address block s = Stop Blocked.
Proof.
  intros Hwf Hcn Hcb Hm Hd.
  destruct (request_sent a address s junk w1 Hwf Hm Hcn Hcb) as (x & y & Hx & Hy & Hrun).
  unfold sjfs_read_block. apply bind_stop. rewrite Hrun. eapply wait_no_reply; [exact Hy|exact Hd].
Qed.

(** When the message cannot be allocated, [sjfs_read_block] still reports
    success: it sends nothing, hands out whatever the buffer held, and frees
    [cn_sem] without having taken it, so that the mutex admits one reader too many. *)
Theorem read_block_no_memory (s : st) (address : Z) (b : positive) (o : Z) (bs : list Z)
    (w1 w3 : W) (msgs : list cn_msg) (n k : nat) :
  globals_ok (k_glob s) →
  sem_count (cn_sem (k_glob s)) = n → sem_count (cb_sem (k_glob s)) = S k →
  k_malloc 25 (k_world s) = (None, w1) → cn_deliver w1 = (msgs, w3) →
  h_map (k_heap s) !! b = Some bs → in_bounds o SJFS_BLOCKSIZE bs →
  ∃ s', sjfs_read_block a address (Ptr b o) s = Ok 0 s' ∧
    h_map (k_heap s')
      = <[b := splice (Z.to_nat o) (read_block_buffer (k_glob s)) bs]> (h_map (k_heap s)) ∧
    sem_count (cn_sem (k_glob s')) = S n ∧ sem_count (cb_sem (k_glob s')) = S k ∧
    k_log s' = k_log s.
Proof.
  intros Hg Hcn Hcb Hm Hd Hb Hi.
  destruct (request_not_sent a address s w1 msgs w3 k Hm Hcb Hd) as (y & Hy & Hrun).
  unfold sjfs_read_block. erewrite bind_ok; [|exact Hrun].
  erewrite copy_out; [|exact Hg|exact Hb|exact Hi].
  eexists. split; [reflexivity|]. cbn. rewrite up_count, Hcn, app_nil_r. done.
Qed.

Lemma payload_div n : 1000 <= n < 2 ^ 32 → request_payload n = request_payload (n / 10).
Proof.
  intros Hn. assert (100 <= n / 10) by (apply Z.div_le_lower_bound; lia).
  assert (n / 10 < 10 ^ 10) by (apply Z.div_lt_upper_bound; lia).
  unfold request_payload. rewrite (decimal_step n) by lia. cbn [take].
  by rewrite take_app_le by (by apply length_decimal_ge3).
Qed.

Lemma payload_wire f n :
  0 <= n < 2 ^ 32 → n < 1000 * 10 ^ Z.of_nat f →
  request_payload n = request_payload (wire_address f n) ∧ 0 <= wire_address f n < 1000.
Proof.
  revert n; induction f as [|f IH]; intros n Hn Hf; cbn [wire_address]; [split; [done|simpl in Hf; lia]|].
  destruct (Z.ltb_spec n 1000) as [|Hge]; [split; [done|lia]|].
  rewrite payload_div by lia. rewrite Nat2Z.inj_succ, Z.pow_succ_r in Hf by lia.
  apply IH; [|apply Z.div_lt_upper_bound; lia].
  split; [apply Z.div_pos; lia|apply Z.div_lt_upper_bound; lia].
Qed.

(** The digits kept are the leading ones. *)
Lemma wire_leading f n :
  0 <= n < 1000 * 10 ^ Z.of_nat f →
  (∃ k, 0 <= k <= Z.of_nat f ∧ wire_address f n = n / 10 ^ k) ∧ (100 <= n → 100 <= wire_address f n).
Proof.
  revert n; induction f as [|f IH]; intros n Hn; cbn [wire_address].
  - split; [exists 0; by rewrite Z.div_1_r|done].
  - destruct (Z.ltb_spec n 1000) as [|Hge]; [split; [exists 0; rewrite Z.div_1_r; lia|done]|].
    rewrite Nat2Z.inj_succ, Z.pow_succ_r in Hn by lia.
    assert (100 <= n / 10) by (apply Z.div_le_lower_bound; lia).
    destruct (IH (n / 10)) as [(k & Hk & ->) Hlead].
    { split; [lia|apply Z.div_lt_upper_bound; lia]. }
    split; [exists (Z.succ k)|auto]. split; [lia|].
    assert (0 < 10 ^ k) by (by apply Z.pow_pos_nonneg; lia).
    rewrite Z.pow_succ_r, Z.div_div by lia. done.
Qed.

Lemma small_payload n :
  0 <= n < 1000 → request_payload n = [SJFS_OPCODE_READ] ++ decimal n ++ [0].
Proof.
  intros Hn. unfold request_payload. cbn [take app].
  change (u8 SJFS_OPCODE_READ) with SJFS_OPCODE_READ. do 2 f_equal. apply take_ge.
  assert (forallb (λ n, (length (decimal n) <=? 3)%nat) (seqZ 0 1000) = true) as Hall by by vm_compute.
  rewrite forallb_forall in Hall. apply Nat.leb_le, Hall, list_elem_of_In, elem_of_seqZ. lia.
Qed.

(** C33: What a read request says.  [fill_request], run on the zeroed message of 25 bytes,
    leaves in it the connector's id, the sequence number, the length of the payload and
    the payload: the opcode, decimal digits and a NUL in at most five bytes.  The digits
    are those of the address when it is below 1000; otherwise they are its three leading
    digits, so that the request names another block. *)
Theorem request_address (s : st) (b : positive) (h : heap) (address : Z) :
  0 <= address < 2 ^ 32 →
  let n := sent_address address in
  let payload := [SJFS_OPCODE_READ] ++ decimal n ++ [0] in
  let len := length payload in
  fill_request a (Ptr b 0) address (with_kheap (heap_insert b (replicate 25 0) h) s)
  = Ok tt (with_kheap (heap_insert b
      (le_encode 4 (CN_NETLINK_USERS + 3) ++ le_encode 4 0x456 ++ le_encode 4 (cn_counter (k_glob s))
       ++ [0; 0; 0; 0] ++ [Z.of_nat len; 0] ++ [0; 0] ++ payload ++ replicate (5 - len) 0) h) s) ∧
  (len ≤ 5)%nat ∧ 0 <= n < 1000 ∧ (n = address ↔ address < 1000) ∧
  (∃ k, 0 <= k <= 8 ∧ n = address / 10 ^ k) ∧ (1000 <= address → 100 <= n).
Proof.
  intros Hn n payload len. destruct (payload_wire 8 address Hn) as [Hp Hr]; [simpl; lia|].
  fold (sent_address address) in Hp, Hr. fold n in Hp, Hr.
  rewrite (small_payload n Hr) in Hp. fold payload in Hp.
  pose proof (length_request_payload address) as Hlen. rewrite Hp in Hlen. fold len in Hlen.
  destruct (wire_leading 8 address) as [Hk Hlead]; [simpl; lia|].
  split; [|split; [lia|split; [done|split; [|split; [exact Hk|]]]]].
  - rewrite fill_request_ok. unfold request_bytes. rewrite Hp. fold len.
    assert (le_encode 2 (Z.of_nat len) = [Z.of_nat len; 0]) as ->.
    { assert (len = 3 ∨ len = 4 ∨ len = 5)%nat as Hc by lia. by destruct Hc as [->|[->| ->]]. }
    by rewrite <-!app_assoc.
  - split; [lia|]. intros Hlt. unfold n, sent_address. cbn [wire_address].
    by rewrite (proj2 (Z.ltb_lt _ _)).
  - intros Hge. apply Hlead. lia.
Qed.

(** [sjfs_write_block] transmits nothing: it takes and frees [cn_sem] and
    reports success with the heap, the log and the environment as they were, so no
    block ever reaches the disk. *)
Theorem write_block_transmits_nothing (s : st) (address : Z) (block : ptr) :
  match sjfs_write_block (W:=W) address block s with
  | Ok r s' => r = 0 ∧ k_heap s' = k_heap s ∧ k_log s' = k_log s ∧ k_world s' = k_world s ∧
      sem_count (cn_sem (k_glob s')) = sem_count (cn_sem (k_glob s))
  | Stop r => r = Blocked ∧ sem_count (cn_sem (k_glob s)) = O
  end.
Proof.
  destruct (sem_count (cn_sem (k_glob s))) as [|n] eqn:Hn.
  - unfold sjfs_write_block. by rewrite (bind_stop _ _ _ _ (down_on_blocked _ _ _ Hn)).
  - destruct (down_on_ok cn_sem set_cn_sem s n Hn) as (x & Hx & Hcx).
    unfold sjfs_write_block. rewrite (bind_ok _ _ _ _ _ Hx).
    unfold up_on, get_glob, gets, mod_glob, modify, mbind, M_bind. cbn.
    by rewrite up_count, Hcx.
Qed.
End connector_properties.

(** ** A helper for the witnesses

    The number a request carries, for the environments that answer: the digits up to the
    NUL. *)
Fixpoint read_digits (acc : Z) (bs : list Z) : Z :=
  match bs with
  | [] => acc
  | c :: bs' => if c =? 0 then acc else read_digits (10 * acc + (c - 48)) bs'
  end.
Definition named_address (request : list Z) : Z := read_digits 0 (drop 1 request).

Lemma small_requests_name :
  forallb (λ n, named_address (request_payload n) =? n) (seqZ 0 1000) = true.
Proof. vm_compute. reflexivity. Qed.

Lemma request_names address :
  0 <= address < 2 ^ 32 → named_address (request_payload address) = sent_address address.
Proof.
  intros Hn. destruct (payload_wire 8 address Hn) as [Hp Hr]; [simpl; lia|].
  unfold sent_address. rewrite Hp. pose proof small_requests_name as Hall.
  rewrite forallb_forall in Hall. apply Z.eqb_eq, Hall. apply list_elem_of_In, elem_of_seqZ. lia.
Qed.

(** ** Witnesses *)

(** The state [sjfs_init] leaves, with one block of 1024 bytes allocated. *)
Definition demo_globals : globals := Globals 1%nat 1%nat 0 None (replicate 1024 0) Null Null 0.
Definition demo_heap : heap := Heap 2 {[1%positive := replicate 1024 7]}.
Definition demo_state (w : sim) : kstate globals sim :=
  KState demo_heap ∅ 1 ∅ demo_globals w [].
Definition demo_msg : cn_msg := CnMsg 14 0x456 9 0 3 [65; 66; 67].

Lemma demo_heap_wf : heap_wf demo_heap.
Proof. intros b [x Hb]. unfold demo_heap in *. cbn [h_map h_next] in *.
  apply lookup_singleton_Some in Hb as [<- _]. lia. Qed.

Lemma read_block_delivers_witness :
  ∃ s', sjfs_read_block LP64 42 (Ptr 1 0) (demo_state (sim_with_replies [[demo_msg]])) = Ok 0 s' ∧
    h_map (k_heap s')
      = <[1%positive := splice 0 (received demo_msg (replicate 1024 0)) (replicate 1024 7)]>
          (h_map demo_heap) ∧
    heap_wf (k_heap s') ∧
    read_block_buffer (k_glob s') = received demo_msg (replicate 1024 0) ∧
    sem_count (cn_sem (k_glob s')) = 1%nat ∧ sem_count (cb_sem (k_glob s')) = 1%nat ∧
    cn_counter (k_glob s') = u32 (0 + 1) ∧
    k_log s' = [] ++ [NetlinkSend (request_bytes (W:=sim) 0 42); callback_line demo_msg].
Proof.
  apply (read_block_delivers LP64 (demo_state (sim_with_replies [[demo_msg]])) 42 1 0
    (replicate 1024 7) [] (sim_with_replies [[demo_msg]]) sim0 demo_msg []);
    try reflexivity; [apply demo_heap_wf | vm_compute; split; congruence | ].
  unfold in_bounds. rewrite length_replicate. vm_compute. repeat split; congruence.
Defined.

Lemma read_block_starves_witness :
  sjfs_read_block LP64 42 (Ptr 1 0) (demo_state sim0) = Stop Blocked.
Proof.
  apply (read_block_starves LP64 (demo_state sim0) 42 (Ptr 1 0) [] sim0 sim0);
    try reflexivity. apply demo_heap_wf.
Defined.

Lemma read_block_no_memory_witness :
  let w := Sim [false] [] 0 [] 1 ∅ ∅ in
  ∃ s', sjfs_read_block LP64 42 (Ptr 1 0) (demo_state w) = Ok 0 s' ∧
    h_map (k_heap s')
      = <[1%positive := splice 0 (replicate 1024 0) (replicate 1024 7)]> (h_map demo_heap) ∧
    sem_count (cn_sem (k_glob s')) = 2%nat ∧ sem_count (cb_sem (k_glob s')) = 1%nat ∧
    k_log s' = [].
Proof.
  intros w. apply (read_block_no_memory LP64 (demo_state w) 42 1 0
    (replicate 1024 7) sim0 sim0 [] 1 0); try reflexivity.
  unfold in_bounds. rewrite length_replicate. vm_compute. repeat split; congruence.
Defined.

(** The request for block 1234 asks for block 123. *)
Lemma request_address_witness :
  fill_request LP64 (Ptr 1 0) 1234
    (with_kheap (heap_insert 1 (replicate 25 0) empty_heap) (demo_state sim0))
  = Ok tt (with_kheap (heap_insert 1
      ([14; 0; 0; 0] ++ [0x56; 0x4; 0; 0] ++ [0; 0; 0; 0] ++ [0; 0; 0; 0] ++ [5; 0] ++ [0; 0]
       ++ [SJFS_OPCODE_READ; 49; 50; 51; 0] ++ []) empty_heap) (demo_state sim0)).
Proof.
  destruct (request_address LP64 (demo_state sim0) 1 empty_heap 1234) as [Hfill _]; [lia|].
  exact Hfill.
Defined.
