(* ===== verification/Protocol.v ===== *)
(** * The read protocol with a working helper

    What the file-system code above the socket level relies on: as long as memory
    is available and the user-space helper answers every request with the block it
    names, [sjfs_read_block] is a function from addresses to blocks.  [Helper] is
    that assumption, as an interface; [served] is an environment that meets it. *)
From S2P Require Import Prelude CLayout Blocks Memory Kernel Env Connector.

(** [disk n] is the block the helper sends for a request whose digits are [n]. *)
Class Helper {W : Type} `{!Allocator W, !Connector W} (disk : Z → list Z) := {
  helper_memory : ∀ n w, is_Some (k_malloc n w).1;
  helper_block : ∀ n, length (disk n) = 1024%nat;
  helper_answers : ∀ counter address w, 0 <= address < 2 ^ 32 →
    ∃ m ms w', cn_deliver (cn_netlink_send (request_bytes counter address) w).2 = (m :: ms, w') ∧
      msg_len m = 1024 ∧ msg_data m = disk (sent_address address) }.

Section protocol.
Context `{!Semaphore, !SemaphoreLaws} {W : Type}
  `{!Allocator W, !Connector W, !Printf, !PrintfLaws} (a : abi).
Abbreviation st := (kstate globals W).
Implicit Types (s : st).

(** Nobody is in the protocol and memory is well formed. *)
Definition ready (s : st) : Prop :=
  heap_wf (k_heap s) ∧ globals_ok (k_glob s) ∧
  sem_count (cn_sem (k_glob s)) = 1%nat ∧ sem_count (cb_sem (k_glob s)) = 1%nat.

Lemma ready_world w s : ready s → ready (with_world w s).
Proof. done. Qed.

Lemma ready_alloc bs w s :
  ready s → ready (with_kheap (heap_alloc bs (k_heap s)) (with_world w s)).
Proof. intros (Hwf & ?). split; [by apply heap_wf_alloc|done]. Qed.

Lemma quiet_alloc bs w s : quiet s (with_kheap (heap_alloc bs (k_heap s)) (with_world w s)).
Proof. constructor; try done. cbn. lia. Qed.

Lemma ready_insert b bs s :
  ready s → is_Some (h_map (k_heap s) !! b) → ready (with_kheap (heap_insert b bs (k_heap s)) s).
Proof. intros (Hwf & ?) Hb. split; [by apply heap_wf_insert|done]. Qed.

Lemma quiet_insert b bs s : quiet s (with_kheap (heap_insert b bs (k_heap s)) s).
Proof. by constructor. Qed.

Lemma quiet_world w s : quiet s (with_world w s).
Proof. by constructor. Qed.

Lemma ready_fresh s b : ready s → is_Some (h_map (k_heap s) !! b) → (b < h_next (k_heap s))%positive.
Proof. intros (Hwf & _) Hb. by apply Hwf. Qed.

Lemma write_block_ready address p s :
  ready s → ∃ x, sjfs_write_block address p s = Ok 0 (with_glob (set_cn_sem x (k_glob s)) s) ∧
    sem_count x = 1%nat.
Proof.
  intros (_ & _ & Hcn & _). destruct (down_on_ok cn_sem set_cn_sem s 0 Hcn) as (x & Hx & Hc).
  exists (up x). split; [|by rewrite up_count, Hc].
  unfold sjfs_write_block. by rewrite (bind_ok _ _ _ _ _ Hx).
Qed.

(** The answered read as a function of the disk. *)
Lemma read_block_from_disk disk `{!Helper disk} s address b o bs :
  ready s → 0 <= address < 2 ^ 32 →
  h_map (k_heap s) !! b = Some bs → in_bounds o SJFS_BLOCKSIZE bs →
  ∃ s', sjfs_read_block a address (Ptr b o) s = Ok 0 s' ∧ ready s' ∧ quiet s s' ∧
    h_map (k_heap s')
      = <[b := splice (Z.to_nat o) (disk (sent_address address)) bs]> (h_map (k_heap s)) ∧
    read_block_buffer (k_glob s') = disk (sent_address address) ∧
    cn_counter (k_glob s') = u32 (cn_counter (k_glob s) + 1) ∧
    ∃ m, k_log s' = k_log s ++ [NetlinkSend (request_bytes (cn_counter (k_glob s)) address);
      callback_line m].
Proof.
  intros (Hwf & Hg & Hcn & Hcb) Ha Hb Hi.
  destruct (helper_memory 25 (k_world s)) as [junk Hj].
  destruct (k_malloc 25 (k_world s)) as [r w1] eqn:Hm. cbn in Hj. subst r.
  destruct (helper_answers (cn_counter (k_glob s)) address w1 Ha)
    as (m & ms & w3 & Hd & Hlen & Hdata).
  assert (msg_ok m) as Hok.
  { unfold msg_ok. rewrite Hlen, Hdata, (helper_block (disk:=disk)). lia. }
  assert (received m (read_block_buffer (k_glob s)) = disk (sent_address address)) as Hrec.
  { unfold received. rewrite Hlen, Hdata, take_ge; [apply splice_full|].
    - by rewrite (helper_block (disk:=disk)).
    - rewrite (helper_block (disk:=disk)). done. }
  destruct (read_block_answered a s address b o bs junk w1 w3 m ms Hwf Hg Hcn Hcb Hm Hd Hok Hb Hi)
    as (s' & Hrun & Hq & Hmap & Hwf' & Hbuf & Hcn' & Hcb' & Hct & Hlog).
  rewrite Hrec in Hmap, Hbuf. exists s'. split; [exact Hrun|].
  split; [|by repeat (split; [done|]); exists m].
  split; [done|]. split; [|done]. unfold globals_ok. rewrite Hbuf. apply (helper_block (disk:=disk)).
Qed.
End protocol.

(** ** A helper that answers *)

(** The request in flight, if any. *)
Record served : Type := Served { pending : option (list Z) }.

Definition reply_for (disk : Z → list Z) (req : list Z) : cn_msg :=
  CnMsg 14 0x456 0 0 1024
    (disk (named_address (drop 20 req))).

#[export] Instance served_allocator : Allocator served := {| k_malloc _ w := (Some [], w) |}.
#[export] Instance served_clock : Clock served := {| CURRENT_TIME w := (Timespec 1700 5, w) |}.

Definition served_connector (disk : Z → list Z) : Connector served := {|
  CN_NETLINK_USERS := 11;
  cn_netlink_send bs w := (0, Served (Some bs));
  cn_deliver w :=
    (match pending w with Some req => [reply_for disk req] | None => [] end, Served None);
  cn_add_callback _ _ w := (0, w);
  cn_del_callback _ w := w |}.

Definition served_helper (disk : Z → list Z) (Hdisk : ∀ n, length (disk n) = 1024%nat) :
  @Helper served _ (served_connector disk) disk.
Proof.
  refine (@Build_Helper _ _ (served_connector disk) _ _ Hdisk _).
  - intros n w. by eexists.
  - intros counter address w Ha. eexists _, [], (Served None). split; [reflexivity|].
    split; [done|]. cbn [msg_data reply_for].
    assert (drop 20 (request_bytes (Connector0:=served_connector disk) counter address)
      = request_payload address) as -> by reflexivity.
    by rewrite (request_names address Ha).
Defined.

(** A served state with the given heap and nothing else. *)
Definition served_state (h : heap) : kstate globals served :=
  KState h ∅ 1 ∅ demo_globals (Served None) [].

Lemma served_ready h : heap_wf h → ready (served_state h).
Proof. intros Hwf. split; [exact Hwf|]. split; [reflexivity|done]. Qed.
