(* ===== verification/DiskStructs.v ===== *)
(** * Data structures level of the kernel module ([kernel_space_module/sjfs.c])

    [sjfs_get_disk_superblock], [sjfs_get_disk_inode] and [sjfs_set_disk_inode]:
    reading a block, picking a structure out of it, and the read-modify-write of an
    inode, with every [kmalloc], [memcpy] and [kfree] of the source and its index
    arithmetic at the widths of [size_t] and [unsigned int]. *)
From S2P Require Import Prelude CLayout Blocks Memory Kernel Env Connector Protocol.

(** [sizeof(SJFS_BLOCKSIZE)]: the macro expands to an [int] constant. *)
Definition sizeof_int : Z := 4.

Section disk_structs.
Context `{!Semaphore} {W : Type} `{!Allocator W, !Clock W, !Connector W, !Printf} (a : abi).
Abbreviation st := (kstate globals W).


Definition sizeof_inode : Z := Z.of_nat (sizeof a inode_t).

Definition sjfs_get_disk_superblock : M st ptr :=
  block_zero_buffer ← kmalloc sizeof_int;
  if is_null block_zero_buffer then mret Null else
  rc ← sjfs_read_block a 0 block_zero_buffer;
  if rc <? 0 then mret Null else
  disk_sb ← kmalloc (Z.of_nat (sizeof a superblock_t));
  memcpy disk_sb block_zero_buffer (Z.of_nat (sizeof a superblock_t)) ;;
  kfree block_zero_buffer ;;
  mret disk_sb.

(** The block an inode is read from, as the argument of [sjfs_read_block]. *)
Definition inode_block (inode_number : Z) : Z :=
  u32 (size_t a (2 + size_t a (inode_number * sizeof_inode) / SJFS_BLOCKSIZE)).

Definition sjfs_get_disk_inode (inode_number : Z) : M st ptr :=
  block_buffer ← kmalloc SJFS_BLOCKSIZE;
  if is_null block_buffer then mret Null else
  rc ← sjfs_read_block a (inode_block inode_number) block_buffer;
  if rc <? 0 then mret Null else
  disk_inode ← kmalloc sizeof_inode;
  memcpy disk_inode (ptr_add block_buffer (size_t a (inode_number * sizeof_inode))) sizeof_inode ;;
  mret disk_inode.

(** The offset [sjfs_set_disk_inode] writes at (line 139). *)
Definition set_block_offset (i_ino : Z) : Z := u32 (i_ino mod SJFS_BLOCKSIZE).

Definition with_ctime (now : timespec) (i : inode) : inode :=
  Inode (i_ino i) (i_mode i) (i_uid i) (i_gid i) (i_size i) (i_nlink i) (i_blocks i) (i_atime i)
    (i_mtime i) now (i_op i) (i_fop i) (i_aops i) (i_private i) (i_sb i).

Definition sjfs_set_disk_inode (ip : positive) : M st unit :=
  now ← world CURRENT_TIME;
  upd_inode ip (with_ctime now) ;;
  i ← get_inode ip;
  store_member a (i_private i) inode_t "ctime" (tv_sec (i_ctime i)) ;;
  let block_number := inode_block (i_ino i) in
  block_buffer ← kmalloc SJFS_BLOCKSIZE;
  if is_null block_buffer then mret tt else
  rc ← sjfs_read_block a block_number block_buffer;
  if rc <? 0 then mret tt else
  let block_offset := set_block_offset (i_ino i) in
  memcpy (ptr_add block_buffer block_offset) (i_private i) sizeof_inode ;;
  _ ← sjfs_write_block block_number block_buffer;
  mret tt.

(** ** Specification: where inode [n] lives on the disk (the comment of
    [sjfs_get_disk_inode]: block 2 and following, packed) *)
Definition spec_block (n : Z) : Z := 2 + (n * sizeof_inode) / SJFS_BLOCKSIZE.
Definition spec_offset (n : Z) : Z := (n * sizeof_inode) mod SJFS_BLOCKSIZE.

(** The bytes of an [inode_t] with another [ctime]. *)
Definition stamp (t : Z) (bs : list Z) : list Z :=
  splice (default 0%nat (offsetof a inode_t "ctime")) (le_encode (scalar_size a SLong) t) bs.
End disk_structs.

(** ** Lemmas *)
Section disk_structs_lemmas.
Context `{!Semaphore, !SemaphoreLaws} {W : Type}
  `{!Allocator W, !Clock W, !Connector W, !Printf, !PrintfLaws} (a : abi).
Abbreviation st := (kstate globals W).
Implicit Types (s : st).

Lemma sizeof_inode_bounds : x86 a → 100 < sizeof_inode a <= 200.
Proof. intros Ha. unfold sizeof_inode. destruct (sizeof_inode_cases a Ha) as [-> | ->]; lia. Qed.

Lemma sizeof_inode_odd : x86 a → Z.gcd (sizeof_inode a - 1) SJFS_BLOCKSIZE = 1.
Proof.
  intros Ha. unfold sizeof_inode. destruct (sizeof_inode_cases a Ha) as [-> | ->]; reflexivity.
Qed.

(** An inode that lies inside the first inode block. *)
Definition in_first_block (n : Z) : Prop := 0 <= n ∧ (n + 1) * sizeof_inode a <= SJFS_BLOCKSIZE.

Lemma first_block_addr n : x86 a → in_first_block n →
  inode_block a n = spec_block a n ∧ spec_block a n = 2 ∧
  size_t a (n * sizeof_inode a) = spec_offset a n ∧ spec_offset a n = n * sizeof_inode a ∧
  spec_offset a n + sizeof_inode a <= SJFS_BLOCKSIZE.
Proof.
  intros Ha [Hn Hb]. pose proof (sizeof_inode_bounds Ha) as Hs.
  unfold inode_block, spec_block, spec_offset, SJFS_BLOCKSIZE in *.
  rewrite (size_t_small a (n * _)) by (try done; nia).
  rewrite Z.div_small, Z.mod_small by nia. rewrite size_t_small by (try done; lia).
  repeat split; try reflexivity. nia.
Qed.

Lemma kmalloc_available disk `{!Helper disk} n s :
  ∃ bs w', kmalloc n s = Ok (Ptr (h_next (k_heap s)) 0)
    (with_kheap (heap_alloc bs (k_heap s)) (with_world w' s)) ∧ length bs = Z.to_nat n.
Proof.
  destruct (helper_memory n (k_world s)) as [junk Hj].
  destruct (k_malloc n (k_world s)) as [r w'] eqn:Hm. cbn in Hj. subst r.
  eexists _, w'. split; [by eapply kmalloc_ok|]. apply length_resize.
Qed.

(** [sjfs_read_block] into a block that cannot hold 1024 bytes never returns. *)
Lemma read_block_small address b o bs s :
  heap_wf (k_heap s) → globals_ok (k_glob s) →
  h_map (k_heap s) !! b = Some bs → ¬ in_bounds o SJFS_BLOCKSIZE bs →
  wp (sjfs_read_block a address (Ptr b o)) (λ _ _, False) conn_stop s.
Proof.
  intros Hwf Hg Hb Hi. unfold sjfs_read_block. rewrite wp_bind.
  eapply wp_mono; [by apply request_frame| |done].
  intros [] s' (next & x & y & buf & w & new & -> & _ & Hl).
  unfold wp. erewrite copy_out_oob; [by right|exact Hl|exact Hb|exact Hi].
Qed.

Lemma ctime_field : x86 a → ∃ p,
  find_field "ctime" (layout_from a 0 inode_t) = Some (Field "ctime" SLong 1, p) ∧
  offsetof a inode_t "ctime" = Some p ∧ (p + scalar_size a SLong ≤ sizeof a inode_t)%nat.
Proof. intros [-> | ->]; eexists; (split; [reflexivity|]); (split; [reflexivity|]); apply Nat.leb_le; vm_compute; reflexivity. Qed.

Lemma length_stamp t bs : x86 a → length bs = sizeof a inode_t → length (stamp a t bs) = length bs.
Proof.
  intros Ha Hl. destruct (ctime_field Ha) as (p & _ & Hp & Hb).
  unfold stamp. rewrite Hp. cbn. apply length_splice. rewrite length_le_encode. cbn in Hb. lia.
Qed.

(** The structure behind [i_private] gets its new time stamp. *)
Lemma store_ctime q t bs s :
  x86 a → h_map (k_heap s) !! q = Some bs → length bs = sizeof a inode_t →
  store_member a (Ptr q 0) inode_t "ctime" t s
  = Ok tt (with_kheap (heap_insert q (stamp a t bs) (k_heap s)) s).
Proof.
  intros Ha Hq Hl. destruct (ctime_field Ha) as (p & Hf & Hp & Hb).
  assert (s = with_heap (heap_insert q bs (k_heap s)) s) as Hs.
  { rewrite heap_insert_id by done. by destruct s. }
  rewrite Hs at 1. erewrite store_member_at; [|exact Hf|cbn in *; lia].
  unfold stamp. rewrite Hp. reflexivity.
Qed.
End disk_structs_lemmas.

(** ** The accessors themselves *)
Section disk_structs_accessors.
Context `{!Semaphore, !SemaphoreLaws} {W : Type}
  `{!Allocator W, !Clock W, !Connector W, !Printf, !PrintfLaws} (a : abi).
Abbreviation st := (kstate globals W).
Implicit Types (s : st).

Lemma get_superblock_fails (s : st) :
  heap_wf (k_heap s) → globals_ok (k_glob s) →
  wp (sjfs_get_disk_superblock a)
    (λ p s', p = Null ∧ k_heap s' = k_heap s) conn_stop s.
Proof.
  intros Hwf Hg. unfold sjfs_get_disk_superblock. rewrite wp_bind.
  destruct (k_malloc sizeof_int (k_world s)) as [[junk|] w'] eqn:Hm.
  - rewrite (wp_ok _ _ _ _ _ _ (kmalloc_ok _ _ _ _ Hm)). cbn [is_null]. rewrite wp_bind.
    eapply wp_mono; [eapply read_block_small| |done]; cbn.
    + by apply heap_wf_alloc.
    + exact Hg.
    + apply lookup_insert_eq.
    + unfold in_bounds. rewrite length_resize. by intros (_ & _ & ?).
    + done.
  - rewrite (wp_ok _ _ _ _ _ _ (kmalloc_null _ _ _ Hm)). done.
Qed.

Lemma get_inode_read (disk : Z → list Z) `{!Helper disk} (s : st) (n : Z) :
  x86 a → ready s → in_first_block a n →
  ∃ s' p leak, sjfs_get_disk_inode a n s = Ok (Ptr p 0) s' ∧ ready s' ∧ quiet s s' ∧
    h_map (k_heap s) !! p = None ∧ h_map (k_heap s) !! leak = None ∧ p ≠ leak ∧
    h_map (k_heap s') =
      <[p := take (Z.to_nat (sizeof_inode a))
               (drop (Z.to_nat (spec_offset a n)) (disk (spec_block a n)))]>
      (<[leak := disk (spec_block a n)]> (h_map (k_heap s))).
Proof.
  intros Ha Hr Hn. destruct (first_block_addr a n Ha Hn) as (Hblk & Htwo & Hoff & _ & Hfit).
  pose proof (sizeof_inode_bounds a Ha) as Hsz. pose proof (proj1 Hr) as Hwf.
  unfold sjfs_get_disk_inode.
  destruct (kmalloc_available disk SJFS_BLOCKSIZE s) as (bs1 & w1 & Hk1 & Hl1).
  erewrite bind_ok; [|exact Hk1]. cbn [is_null].
  set (b := h_next (k_heap s)) in *. set (s1 := with_kheap _ _).
  assert (ready s1) as Hr1 by (by apply ready_alloc).
  destruct (read_block_from_disk a disk s1 (inode_block a n) b 0 bs1)
    as (s2 & Hrun & Hr2 & Hq2 & Hm2 & _); [done| | | |].
  { rewrite Hblk, Htwo. lia. }
  { apply lookup_insert_eq. }
  { unfold in_bounds. rewrite Hl1. by vm_compute. }
  erewrite bind_ok; [|exact Hrun]. cbn [Z.ltb Z.compare].
  rewrite splice_full in Hm2 by (rewrite Hl1; apply (helper_block (disk:=disk))).
  destruct (kmalloc_available disk (sizeof_inode a) s2) as (bs3 & w3 & Hk3 & Hl3).
  erewrite bind_ok; [|exact Hk3].
  set (p := h_next (k_heap s2)) in *. set (s3 := with_kheap _ _).
  assert (b < p)%positive as Hbp.
  { apply (ready_fresh s2 b Hr2). rewrite Hm2, lookup_insert_eq. eauto. }
  assert (h_map (k_heap s3) !! b = Some (disk 2)) as Hb3.
  { unfold s3. cbn. rewrite lookup_insert_ne by (intros ?; lia).
    rewrite Hm2, Hblk, Htwo. apply lookup_insert_eq. }
  unfold memcpy. cbn [ptr_add]. rewrite Z.add_0_l, Hoff.
  erewrite bind_ok.
  2: { erewrite bind_ok; [|apply load_ok; [exact Hb3|]].
       2: { unfold in_bounds. rewrite (helper_block (disk:=disk)).
            unfold spec_offset, SJFS_BLOCKSIZE in *.
            pose proof (Z.mod_pos_bound (n * sizeof_inode a) 1024). lia. }
       apply store_ok; [apply lookup_insert_eq|].
       unfold in_bounds. rewrite Hl3, length_take, length_drop, (helper_block (disk:=disk)). lia. }
  rewrite Htwo. eexists _, p, b. split; [reflexivity|].
  split; [|split; [|split; [|split; [|split]]]].
  - apply ready_insert; [by apply ready_alloc|].
    eexists. apply lookup_insert_eq.
  - transitivity s1; [apply quiet_alloc|]. transitivity s2; [done|].
    transitivity s3; [apply quiet_alloc|]. apply quiet_insert.
  - apply eq_None_not_Some. intros Hp. apply Hwf in Hp. fold b in Hp. lia.
  - by apply heap_wf_fresh.
  - intros Heq. lia.
  - cbn. rewrite insert_insert_eq, splice_full.
    + rewrite Hm2, Hblk, Htwo. cbn. by rewrite insert_insert_eq.
    + rewrite Hl3, length_take, length_drop, (helper_block (disk:=disk)).
      unfold SJFS_BLOCKSIZE in *. lia.
Qed.
End disk_structs_accessors.

(** ** Properties *)
Section disk_structs_properties.
Context `{!Semaphore, !SemaphoreLaws} {W : Type}
  `{!Allocator W, !Clock W, !Connector W, !Printf, !PrintfLaws} (a : abi).
Abbreviation st := (kstate globals W).

(** [sjfs_get_disk_superblock] never hands out a superblock.  Its buffer has the
    size of the integer constant [SJFS_BLOCKSIZE], not of a block, so that whatever
    the allocator, the helper and the other threads do the call returns NULL
    (nothing was allocated), sleeps for ever or writes out of bounds. *)
Theorem get_superblock_never_succeeds (s : st) :
  heap_wf (k_heap s) → globals_ok (k_glob s) →
  wp (sjfs_get_disk_superblock a)
    (λ p s', p = Null ∧ k_heap s' = k_heap s) conn_stop s.
Proof. apply get_superblock_fails. Qed.

(** C11: With a working helper, an inode inside the first inode block is read from
    the place the on-disk format gives it: the call returns a fresh structure
    holding the [sizeof(inode_t)] bytes at the inode's offset in its block.  It
    also leaves the block buffer allocated. *)
Theorem get_inode_in_first_block (disk : Z → list Z) `{!Helper disk} (s : st) (n : Z) :
  x86 a → ready s → in_first_block a n →
  ∃ s' p leak, sjfs_get_disk_inode a n s = Ok (Ptr p 0) s' ∧ ready s' ∧ quiet s s' ∧
    h_map (k_heap s) !! p = None ∧ h_map (k_heap s) !! leak = None ∧ p ≠ leak ∧
    h_map (k_heap s') =
      <[p := take (Z.to_nat (sizeof_inode a))
               (drop (Z.to_nat (spec_offset a n)) (disk (spec_block a n)))]>
      (<[leak := disk (spec_block a n)]> (h_map (k_heap s))).
Proof. by apply get_inode_read. Qed.

(** C12: Beyond the first inode block the index into the buffer is not reduced to the
    block: for every inode that ends past the first 1024 bytes of the table (the
    sixth inode on x86-64, the ninth on i386) [sjfs_get_disk_inode] never returns an inode,
    whatever the environment does. *)
Theorem get_inode_past_first_block (s : st) (n : Z) :
  x86 a → heap_wf (k_heap s) → globals_ok (k_glob s) →
  0 <= n < 2 ^ 24 → SJFS_BLOCKSIZE < (n + 1) * sizeof_inode a →
  wp (sjfs_get_disk_inode a n) (λ p _, p = Null) conn_stop s.
Proof.
  intros Ha Hwf Hg Hn Hbig. pose proof (sizeof_inode_bounds a Ha) as Hsz.
  unfold sjfs_get_disk_inode. rewrite wp_bind.
  destruct (k_malloc SJFS_BLOCKSIZE (k_world s)) as [[junk|] w'] eqn:Hm.
  2: { by rewrite (wp_ok _ _ _ _ _ _ (kmalloc_null _ _ _ Hm)). }
  rewrite (wp_ok _ _ _ _ _ _ (kmalloc_ok _ _ _ _ Hm)). cbn [is_null].
  set (b := h_next (k_heap s)). set (s1 := with_kheap _ _). rewrite wp_bind.
  unfold sjfs_read_block. rewrite wp_bind.
  eapply wp_mono; [eapply request_frame; [by apply heap_wf_alloc|done]| |done].
  intros [] s2 (next & x & y & buf & w & new & -> & Hnext & Hl).
  unfold wp at 1. erewrite copy_out; [|exact Hl|apply lookup_insert_eq|].
  2: { unfold in_bounds. rewrite length_resize. by vm_compute. }
  cbn [Z.ltb Z.compare]. set (s3 := with_glob _ _).
  assert (h_map (k_heap s3) !! b = Some buf) as Hb.
  { cbn. rewrite lookup_insert_eq, splice_full; [done|]. by rewrite length_resize. }
  rewrite wp_bind.
  assert (∀ (q : ptr) (t : st), h_map (k_heap t) !! b = Some buf →
    wp (memcpy q (ptr_add (Ptr b 0) (size_t a (n * sizeof_inode a))) (sizeof_inode a)
      ≫= λ _, mret q) (λ p _, p = Null) conn_stop t) as Hcopy.
  { intros q t Ht. rewrite wp_bind. unfold memcpy. rewrite wp_bind.
    unfold wp at 1. cbn [ptr_add]. erewrite load_oob; [by right|exact Ht|].
    rewrite size_t_small by (try done; nia).
    unfold in_bounds, SJFS_BLOCKSIZE in *. rewrite Hl. lia. }
  destruct (k_malloc (sizeof_inode a) (k_world s3)) as [[junk2|] w2] eqn:Hm2.
  - rewrite (wp_ok _ _ _ _ _ _ (kmalloc_ok _ _ _ _ Hm2)). apply Hcopy.
    cbn. rewrite lookup_insert_ne; [exact Hb|]. cbn in Hnext. intros ?. lia.
  - rewrite (wp_ok _ _ _ _ _ _ (kmalloc_null _ _ _ Hm2)). by apply Hcopy.
Qed.

(** The two accessors disagree on where an inode lives.  In its block,
    [sjfs_set_disk_inode] uses the offset [i_ino % SJFS_BLOCKSIZE]; the format puts
    the inode at [(i_ino * sizeof(inode_t)) % SJFS_BLOCKSIZE].  On both platforms
    they are the same only for multiples of the block size (the root inode 0 the
    first), so every other inode is written over its neighbours. *)
Theorem set_inode_offset (n : Z) :
  x86 a → 0 <= n →
  (set_block_offset n = spec_offset a n ↔ n mod SJFS_BLOCKSIZE = 0).
Proof.
  intros Ha Hn. pose proof (sizeof_inode_odd a Ha) as Hodd.
  pose proof (Z.mod_pos_bound n SJFS_BLOCKSIZE) as Hb.
  unfold set_block_offset, u32. rewrite wrap_id by (unfold SJFS_BLOCKSIZE in *; lia).
  unfold spec_offset. split.
  - intros Heq. apply Z.mod_divide; [done|].
    apply (Z.gauss _ (sizeof_inode a - 1)); [|by rewrite Z.gcd_comm].
    apply Z.mod_divide; [done|].
    replace ((sizeof_inode a - 1) * n) with (n * sizeof_inode a - n) by lia.
    rewrite Zminus_mod, <-Heq, Z.sub_diag. done.
  - intros H0'. rewrite H0'. symmetry. apply Z.mod_divide; [done|].
    apply Z.divide_mul_l. by apply Z.mod_divide.
Qed.

(** The call up to the copy: the inode is stamped and its block read. *)
Lemma set_inode_reads (disk : Z → list Z) `{!Helper disk} (s : st) (ip q : positive)
    (i : inode) (old : list Z) (now : timespec) (w1 : W) :
  let blk := inode_block a (i_ino i) in
  let new := stamp a (tv_sec now) old in
  let b := h_next (k_heap s) in
  CURRENT_TIME (k_world s) = (now, w1) →
  x86 a → ready s → k_inodes s !! ip = Some i → 0 <= i_ino i →
  i_private i = Ptr q 0 → h_map (k_heap s) !! q = Some old → length old = sizeof a inode_t →
  ∃ s4 m, sjfs_set_disk_inode a ip s =
      (memcpy (Ptr b (i_ino i mod SJFS_BLOCKSIZE)) (Ptr q 0) (sizeof_inode a) ;;
       _ ← sjfs_write_block blk (Ptr b 0); mret tt) s4 ∧
    ready s4 ∧ k_inodes s4 = <[ip := with_ctime now i]> (k_inodes s) ∧ b ≠ q ∧
    h_map (k_heap s4) = <[b := disk (sent_address blk)]> (<[q := new]> (h_map (k_heap s))) ∧
    k_log s4 = k_log s ++ [NetlinkSend (request_bytes (cn_counter (k_glob s)) blk); callback_line m].
Proof.
  intros blk new b Ht Ha Hr Hip Hn Hp Hq Hl.
  pose proof (Z.mod_pos_bound (i_ino i) SJFS_BLOCKSIZE) as Hoff.
  set (s1 := with_inodes (<[ip := with_ctime now i]> (k_inodes s)) (with_world w1 s)).
  set (s2 := with_kheap (heap_insert q new (k_heap s1)) s1).
  assert (ready s2) as Hr2 by (apply (ready_insert q new s1); [done|by exists old]).
  destruct (kmalloc_available disk SJFS_BLOCKSIZE s2) as (bs3 & w3 & Hk3 & Hl3).
  set (s3 := with_kheap (heap_alloc bs3 (k_heap s2)) (with_world w3 s2)) in *.
  destruct (read_block_from_disk a disk s3 blk b 0 bs3)
    as (s4 & Hrun & Hr4 & Hq4 & Hm4 & _ & _ & m & Hlog); [by apply ready_alloc| | | |].
  { split; [apply Z.mod_pos_bound; lia|]. apply Z.mod_pos_bound. lia. }
  { apply lookup_insert_eq. }
  { unfold in_bounds. rewrite Hl3. by vm_compute. }
  rewrite splice_full in Hm4 by (rewrite Hl3; apply (helper_block (disk:=disk))).
  exists s4, m. split; [|split; [done|split; [|split; [|split; [|exact Hlog]]]]].
  - unfold sjfs_set_disk_inode, world at 1. unfold mbind at 1, M_bind at 1. rewrite Ht.
    erewrite bind_ok; [|unfold upd_inode, get_inode, mbind, M_bind; cbn; rewrite Hip; reflexivity].
    erewrite bind_ok; [|unfold get_inode; cbn; rewrite lookup_insert_eq; reflexivity].
    cbn [with_ctime i_private i_ctime i_ino]. rewrite Hp.
    erewrite bind_ok; [|by apply store_ctime].
    erewrite bind_ok; [|exact Hk3]. cbn [is_null].
    erewrite bind_ok; [|exact Hrun]. cbn [Z.ltb Z.compare ptr_add].
    unfold set_block_offset, u32. rewrite wrap_id by (unfold SJFS_BLOCKSIZE in *; lia). reflexivity.
  - by rewrite (quiet_inodes _ _ Hq4).
  - assert (q < h_next (k_heap s))%positive by (apply (ready_fresh s); eauto).
    unfold b. intros ?. lia.
  - rewrite Hm4. cbn. by rewrite insert_insert_eq.
Qed.

(** C13: With a working helper, [sjfs_set_disk_inode] on an inode whose private
    structure is allocated stamps inode and structure with the current time, reads
    the inode's block, and then either runs past the block buffer (when the offset
    it computes is too close to the end) or edits its copy of the block.  The copy
    is leaked and nothing but the read request ever goes to the helper. *)
Theorem set_inode_never_saves (disk : Z → list Z) `{!Helper disk} (s : st) (ip q : positive)
    (i : inode) (old : list Z) (now : timespec) (w1 : W) :
  let blk := inode_block a (i_ino i) in
  let off := i_ino i mod SJFS_BLOCKSIZE in
  let new := stamp a (tv_sec now) old in
  CURRENT_TIME (k_world s) = (now, w1) →
  x86 a → ready s → k_inodes s !! ip = Some i → 0 <= i_ino i →
  i_private i = Ptr q 0 → h_map (k_heap s) !! q = Some old → length old = sizeof a inode_t →
  (off + sizeof_inode a <= SJFS_BLOCKSIZE →
    ∃ s' leak m, sjfs_set_disk_inode a ip s = Ok tt s' ∧ ready s' ∧
      k_inodes s' = <[ip := with_ctime now i]> (k_inodes s) ∧
      h_map (k_heap s) !! leak = None ∧
      h_map (k_heap s') = <[leak := splice (Z.to_nat off) new (disk (sent_address blk))]>
                            (<[q := new]> (h_map (k_heap s))) ∧
      k_log s' = k_log s ++ [NetlinkSend (request_bytes (cn_counter (k_glob s)) blk);
                             callback_line m]) ∧
  (SJFS_BLOCKSIZE < off + sizeof_inode a → sjfs_set_disk_inode a ip s = Stop OutOfBounds).
Proof.
  intros blk off new Ht Ha Hr Hip Hn Hp Hq Hl.
  pose proof (Z.mod_pos_bound (i_ino i) SJFS_BLOCKSIZE) as Hoff. fold off in Hoff.
  pose proof (sizeof_inode_bounds a Ha) as Hsz.
  destruct (set_inode_reads disk s ip q i old now w1 Ht Ha Hr Hip Hn Hp Hq Hl)
    as (s4 & m & -> & Hr4 & Hi4 & Hbq & Hm4 & Hlog). fold blk new off in Hm4, Hlog |- *.
  set (b := h_next (k_heap s)) in *.
  assert (h_map (k_heap s4) !! b = Some (disk (sent_address blk))) as Hb4
    by (rewrite Hm4; apply lookup_insert_eq).
  assert (h_map (k_heap s4) !! q = Some new) as Hq4
    by (rewrite Hm4, lookup_insert_ne by done; apply lookup_insert_eq).
  assert (length new = sizeof a inode_t) as Hln by (unfold new; by rewrite length_stamp).
  assert (load (Ptr q 0) (sizeof_inode a) s4 = Ok new s4) as Hload.
  { erewrite load_ok; [|exact Hq4|unfold in_bounds, sizeof_inode; lia].
    unfold sizeof_inode. by rewrite drop_0, Nat2Z.id, take_ge by lia. }
  pose proof (helper_block (disk:=disk) (sent_address blk)) as Hld.
  unfold memcpy. split; intros Hfit.
  - erewrite bind_ok; [|erewrite bind_ok; [|exact Hload]; apply store_ok; [exact Hb4|]].
    2: { unfold in_bounds, SJFS_BLOCKSIZE, sizeof_inode in *. rewrite Hld. lia. }
    set (s5 := with_heap _ _).
    assert (ready s5) as Hr5 by (apply ready_insert; [done|eauto]).
    destruct (write_block_ready blk (Ptr b 0) s5 Hr5) as (x & Hx & Hc).
    erewrite bind_ok; [|exact Hx].
    eexists _, b, m. split; [reflexivity|]. split; [|split; [done|split; [|split; [|exact Hlog]]]].
    + destruct Hr5 as (? & ? & _ & ?). split; [done|]. split; [done|]. by split.
    + apply (heap_wf_fresh (k_heap s)), Hr.
    + cbn. by rewrite Hm4, insert_insert_eq.
  - apply bind_stop. erewrite bind_ok; [|exact Hload].
    eapply store_oob; [exact Hb4|]. unfold in_bounds, SJFS_BLOCKSIZE, sizeof_inode in *.
    rewrite Hld. lia.
Qed.
End disk_structs_properties.

(** ** Witnesses *)

(** A disk whose block [n] holds the bytes [n], [n + 1], ... (modulo 256). *)
Definition demo_disk (n : Z) : list Z := (λ k, (n + k) mod 256) <$> seqZ 0 1024.

Lemma length_demo_disk n : length (demo_disk n) = 1024%nat.
Proof. reflexivity. Qed.

#[export] Instance demo_connector : Connector served := served_connector demo_disk.
#[export] Instance demo_helper : Helper demo_disk := served_helper demo_disk length_demo_disk.

Lemma get_superblock_never_succeeds_witness :
  wp (sjfs_get_disk_superblock LP64) (λ p s', p = Null ∧ k_heap s' = demo_heap) conn_stop
    (served_state demo_heap).
Proof.
  apply (get_superblock_never_succeeds LP64 (served_state demo_heap));
    [apply demo_heap_wf|reflexivity].
Defined.

Lemma get_inode_in_first_block_witness :
  let s := served_state empty_heap in
  ∃ s' p leak, sjfs_get_disk_inode LP64 3 s = Ok (Ptr p 0) s' ∧ ready s' ∧ quiet s s' ∧
    h_map (k_heap s) !! p = None ∧ h_map (k_heap s) !! leak = None ∧ p ≠ leak ∧
    h_map (k_heap s') =
      <[p := take (Z.to_nat (sizeof_inode LP64))
               (drop (Z.to_nat (spec_offset LP64 3)) (demo_disk (spec_block LP64 3)))]>
      (<[leak := demo_disk (spec_block LP64 3)]> (h_map (k_heap s))).
Proof.
  intros s. apply (get_inode_in_first_block LP64 demo_disk s 3);
    [by left|by apply served_ready|]. vm_compute. split; congruence.
Defined.

Lemma get_inode_past_first_block_witness :
  wp (sjfs_get_disk_inode LP64 5) (λ p _, p = Null) conn_stop (served_state demo_heap).
Proof.
  apply (get_inode_past_first_block LP64 (served_state demo_heap) 5);
    [by left|apply demo_heap_wf|reflexivity|lia|reflexivity].
Defined.

Lemma set_inode_offset_witness :
  set_block_offset 7 = spec_offset ILP32 7 ↔ 7 mod SJFS_BLOCKSIZE = 0.
Proof. apply (set_inode_offset ILP32 7); [by right|lia]. Defined.

(** Inode 9 with its private structure in block 1. *)
Definition demo_inode : inode :=
  Inode 9 S_IFREG 0 0 0 1 0 (Timespec 1 0) (Timespec 1 0) (Timespec 1 0) NoTable NoTable NoTable
    (Ptr 1 0) 1.
Definition inode_heap : heap := Heap 2 {[1%positive := replicate 200 0]}.
Definition inode_state : kstate globals served :=
  with_inodes {[1%positive := demo_inode]} (served_state inode_heap).

Lemma inode_heap_wf : heap_wf inode_heap.
Proof.
  intros b [x Hb]. unfold inode_heap in *. cbn [h_map h_next] in *.
  apply lookup_singleton_Some in Hb as [<- _]. lia.
Qed.

Lemma set_inode_never_saves_witness :
  ∃ s' leak m, sjfs_set_disk_inode LP64 1 inode_state = Ok tt s' ∧ ready s' ∧
    k_inodes s' = <[1%positive := with_ctime (Timespec 1700 5) demo_inode]> (k_inodes inode_state) ∧
    h_map (k_heap inode_state) !! leak = None ∧
    h_map (k_heap s') =
      <[leak := splice 9 (stamp LP64 1700 (replicate 200 0)) (demo_disk 3)]>
      (<[1%positive := stamp LP64 1700 (replicate 200 0)]> (h_map (k_heap inode_state))) ∧
    k_log s' = [] ++ [NetlinkSend (request_bytes (W:=served) 0 3); callback_line m].
Proof.
  apply (set_inode_never_saves LP64 demo_disk inode_state 1 1 demo_inode (replicate 200 0)
    (Timespec 1700 5) (Served None)); try reflexivity; try (vm_compute; congruence).
  - by left.
  - apply served_ready, inode_heap_wf.
Defined.
