(* ===== verification/Vfs.v ===== *)
(** * The VFS the modules plug into

    The VFS functions the sources call, as the methods of [Vfs].  Functions that
    set fields of the inode they are given are functions on inodes; functions on
    the dentry cache act on the environment; everything the sources only pass their
    arguments on to goes through [kernel_call], by name.  [VfsLaws] states what the
    kernel documents of those the proofs need. *)
From S2P Require Import Prelude CLayout Memory Kernel Env.

(** An argument of a kernel function. *)
Inductive karg : Type :=
  | KInt (z : Z)
  | KInode (i : option positive)
  | KDentry (d : option positive)
  | KObj (name : string) (o : positive)   (** any other kernel object *)
  | KStr (s : string)
  | KNull.

Class Vfs (W : Type) := {
  new_inode : positive → W → option inode * W;
  get_next_ino : W → Z * W;
  inode_init_owner : option inode → Z → inode → inode;
  inc_nlink : inode → inode;
  set_nlink : Z → inode → inode;
  i_uid_write : Z → inode → inode;
  i_gid_write : Z → inode → inode;
  i_size_write : Z → inode → inode;
  init_special_inode : Z → Z → inode → inode;
  d_instantiate : positive → positive → W → W;
  dget : positive → W → W;
  d_inode : positive → W → option positive;
  d_name : positive → W → option string;
  mapping_set_gfp_mask : positive → W → W;
  mapping_set_unevictable : positive → W → W;
  d_make_root : option positive → W → option positive * W;
  kernel_call : string → list karg → gmap positive inode → W → Z * (gmap positive inode * W) }.

(** ** Setting the members of an inode that the sources assign *)
Definition with_ino (n : Z) (i : inode) : inode :=
  Inode n (i_mode i) (i_uid i) (i_gid i) (i_size i) (i_nlink i) (i_blocks i) (i_atime i)
    (i_mtime i) (i_ctime i) (i_op i) (i_fop i) (i_aops i) (i_private i) (i_sb i).
Definition with_mode (m : Z) (i : inode) : inode :=
  Inode (i_ino i) m (i_uid i) (i_gid i) (i_size i) (i_nlink i) (i_blocks i) (i_atime i)
    (i_mtime i) (i_ctime i) (i_op i) (i_fop i) (i_aops i) (i_private i) (i_sb i).
Definition with_blocks (n : Z) (i : inode) : inode :=
  Inode (i_ino i) (i_mode i) (i_uid i) (i_gid i) (i_size i) (i_nlink i) n (i_atime i)
    (i_mtime i) (i_ctime i) (i_op i) (i_fop i) (i_aops i) (i_private i) (i_sb i).
Definition with_times (at_ mt ct : timespec) (i : inode) : inode :=
  Inode (i_ino i) (i_mode i) (i_uid i) (i_gid i) (i_size i) (i_nlink i) (i_blocks i) at_ mt ct
    (i_op i) (i_fop i) (i_aops i) (i_private i) (i_sb i).
Definition with_op (t : table) (i : inode) : inode :=
  Inode (i_ino i) (i_mode i) (i_uid i) (i_gid i) (i_size i) (i_nlink i) (i_blocks i) (i_atime i)
    (i_mtime i) (i_ctime i) t (i_fop i) (i_aops i) (i_private i) (i_sb i).
Definition with_fop (t : table) (i : inode) : inode :=
  Inode (i_ino i) (i_mode i) (i_uid i) (i_gid i) (i_size i) (i_nlink i) (i_blocks i) (i_atime i)
    (i_mtime i) (i_ctime i) (i_op i) t (i_aops i) (i_private i) (i_sb i).
Definition with_aops (t : table) (i : inode) : inode :=
  Inode (i_ino i) (i_mode i) (i_uid i) (i_gid i) (i_size i) (i_nlink i) (i_blocks i) (i_atime i)
    (i_mtime i) (i_ctime i) (i_op i) (i_fop i) t (i_private i) (i_sb i).
Definition with_private (p : ptr) (i : inode) : inode :=
  Inode (i_ino i) (i_mode i) (i_uid i) (i_gid i) (i_size i) (i_nlink i) (i_blocks i) (i_atime i)
    (i_mtime i) (i_ctime i) (i_op i) (i_fop i) (i_aops i) p (i_sb i).
Definition with_nlink (n : Z) (i : inode) : inode :=
  Inode (i_ino i) (i_mode i) (i_uid i) (i_gid i) (i_size i) n (i_blocks i) (i_atime i)
    (i_mtime i) (i_ctime i) (i_op i) (i_fop i) (i_aops i) (i_private i) (i_sb i).
Definition with_owner (mode uid gid : Z) (i : inode) : inode :=
  Inode (i_ino i) mode uid gid (i_size i) (i_nlink i) (i_blocks i) (i_atime i)
    (i_mtime i) (i_ctime i) (i_op i) (i_fop i) (i_aops i) (i_private i) (i_sb i).

(** [dir->i_mtime = dir->i_ctime = t] *)
Definition with_mctime (t : timespec) (i : inode) : inode := with_times (i_atime i) t t i.

(** The file type bits of a mode. *)
Definition ftype (mode : Z) : Z := Z.land mode S_IFMT.

(** Documented behaviour (fs/inode.c, fs/dcache.c): a new inode has one link;
    [inode_init_owner] sets owner and mode and keeps the file type; [inc_nlink]
    adds a link; [init_special_inode] sets the mode and the file operations;
    [d_instantiate] binds the dentry it is given and no other; [dget] counts a
    reference and binds nothing; setting a mapping's flags touches no dentry. *)
Class VfsLaws (W : Type) `{!Vfs W} := {
  d_count : positive → W → Z;
  new_inode_nlink : ∀ sb w i w', new_inode sb w = (Some i, w') → i_nlink i = 1 ∧ i_sb i = sb;
  init_owner : ∀ dir mode i, ∃ mode' uid gid,
    inode_init_owner dir mode i = with_owner mode' uid gid i ∧ ftype mode' = ftype mode;
  inc_nlink_spec : ∀ i, inc_nlink i = with_nlink (u32 (i_nlink i + 1)) i;
  init_special_spec : ∀ mode dev i, ∃ t,
    init_special_inode mode dev i = with_fop t (with_mode mode i);
  d_instantiate_same : ∀ d i w, d_inode d (d_instantiate d i w) = Some i;
  d_instantiate_other : ∀ d d' i w, d ≠ d' → d_inode d' (d_instantiate d i w) = d_inode d' w;
  d_instantiate_count : ∀ d d' i w, d_count d' (d_instantiate d i w) = d_count d' w;
  set_gfp_inode : ∀ i d w, d_inode d (mapping_set_gfp_mask i w) = d_inode d w;
  set_gfp_count : ∀ i d w, d_count d (mapping_set_gfp_mask i w) = d_count d w;
  set_unevictable_inode : ∀ i d w, d_inode d (mapping_set_unevictable i w) = d_inode d w;
  set_unevictable_count : ∀ i d w, d_count d (mapping_set_unevictable i w) = d_count d w;
  dget_inode : ∀ d d' w, d_inode d' (dget d w) = d_inode d' w;
  dget_count : ∀ d d' w, d_count d' (dget d w) = if decide (d = d') then d_count d' w + 1
                                                else d_count d' w }.
Arguments VfsLaws : clear implicits.
Arguments VfsLaws W {_}.

(** Two environments with the same dentries. *)
Definition same_dentries {W} `{!Vfs W, !VfsLaws W} (w w' : W) : Prop :=
  ∀ d, d_inode d w' = d_inode d w ∧ d_count d w' = d_count d w.

#[export] Instance same_dentries_refl {W} `{!Vfs W, !VfsLaws W} : Reflexive (same_dentries (W:=W)).
Proof. by intros w d. Qed.
#[export] Instance same_dentries_trans {W} `{!Vfs W, !VfsLaws W} : Transitive (same_dentries (W:=W)).
Proof. intros w1 w2 w3 H12 H23 d. destruct (H12 d), (H23 d). split; congruence. Qed.

(** Reading the clock and allocating inodes and inode numbers touches no dentry. *)
Class DentryFrame (W : Type) `{!Clock W, !Vfs W, !VfsLaws W} := {
  clock_dentries : ∀ w, same_dentries w (CURRENT_TIME w).2;
  new_inode_dentries : ∀ sb w, same_dentries w (new_inode sb w).2;
  next_ino_dentries : ∀ w, same_dentries w (get_next_ino w).2 }.
Arguments DentryFrame : clear implicits.
Arguments DentryFrame W {_ _ _}.

Section vfs.
Context {G W : Type} `{!Vfs W}.
Abbreviation st := (kstate G W).

Definition add_inode (i : inode) : M st positive := λ s,
  Ok (k_next_inode s)
    (with_next_inode (Pos.succ (k_next_inode s))
       (with_inodes (<[k_next_inode s := i]> (k_inodes s)) s)).

(** [new_inode(sb)]: a fresh inode, or NULL. *)
Definition alloc_inode (sb : positive) : M st (option positive) :=
  r ← world (new_inode sb);
  match r with
  | None => mret None
  | Some i => p ← add_inode i; mret (Some p)
  end.

(** A call the sources pass their arguments on to. *)
Definition kcall (name : string) (args : list karg) : M st Z := λ s,
  let '(r, (m, w)) := kernel_call name args (k_inodes s) (k_world s) in
  Ok r (with_world w (with_inodes m s)).

(** A call that only acts on the environment. *)
Definition world_ (f : W → W) : M st unit := modify (λ s, with_world (f (k_world s)) s).

(** Reading an inode through a pointer that may be NULL. *)
Definition deref (o : option positive) : M st positive := from_option_stop NullDeref o.

(** Inode names handed out so far are below [k_next_inode]. *)
Definition inodes_wf (s : st) : Prop :=
  ∀ i, is_Some (k_inodes s !! i) → (i < k_next_inode s)%positive.

Lemma wp_alloc_inode sb (Q : option positive → st → Prop) E s :
  wp (alloc_inode sb) Q E s ↔
    match new_inode sb (k_world s) with
    | (None, w') => Q None (with_world w' s)
    | (Some i, w') =>
        Q (Some (k_next_inode s))
          (with_next_inode (Pos.succ (k_next_inode s))
            (with_inodes (<[k_next_inode s := i]> (k_inodes s)) (with_world w' s)))
    end.
Proof.
  unfold wp, alloc_inode, world, mbind, M_bind.
  by destruct (new_inode sb (k_world s)) as [[i|] w'].
Qed.

Lemma alloc_inode_null sb w' (s : st) :
  new_inode sb (k_world s) = (None, w') → alloc_inode sb s = Ok None (with_world w' s).
Proof. intros Hn. unfold alloc_inode, world, mbind, M_bind. by rewrite Hn. Qed.

Lemma alloc_inode_ok sb i w' (s : st) :
  new_inode sb (k_world s) = (Some i, w') →
  alloc_inode sb s = Ok (Some (k_next_inode s))
    (with_next_inode (Pos.succ (k_next_inode s))
      (with_inodes (<[k_next_inode s := i]> (k_inodes s)) (with_world w' s))).
Proof. intros Hn. unfold alloc_inode, world, mbind, M_bind. by rewrite Hn. Qed.

Lemma wp_kcall name args (Q : Z → st → Prop) E s :
  wp (kcall name args) Q E s ↔
    let '(r, (m, w)) := kernel_call name args (k_inodes s) (k_world s) in
    Q r (with_world w (with_inodes m s)).
Proof.
  unfold wp, kcall. by destruct (kernel_call name args (k_inodes s) (k_world s)) as [r [m w]].
Qed.

Lemma kcall_eq name args (s : st) :
  kcall name args s = let k := kernel_call name args (k_inodes s) (k_world s) in
    Ok k.1 (with_world k.2.2 (with_inodes k.2.1 s)).
Proof.
  unfold kcall. by destruct (kernel_call name args (k_inodes s) (k_world s)) as [r [m w]].
Qed.

Lemma wp_world_ f (Q : unit → st → Prop) E s :
  wp (world_ f) Q E s ↔ Q tt (with_world (f (k_world s)) s).
Proof. done. Qed.

Lemma wp_deref o (Q : positive → st → Prop) E s :
  wp (deref o) Q E s ↔ match o with Some i => Q i s | None => E NullDeref end.
Proof. by destruct o. Qed.
End vfs.

Ltac vstep :=
  first [ kstep | rewrite wp_alloc_inode | rewrite wp_kcall | rewrite wp_world_ | rewrite wp_deref ].
Ltac vsteps := repeat (vstep; cbv beta).

(** ** Superblocks and mounting *)

(** Setting members of a [struct super_block]. *)
Definition with_static (bits blocksize maxbytes gran : Z) (op : table) (x : super_block)
    : super_block :=
  SuperBlk bits blocksize maxbytes gran op (s_magic x) (s_fs_info x) (s_root x).
Definition with_magic (m : Z) (x : super_block) : super_block :=
  SuperBlk (s_blocksize_bits x) (s_blocksize x) (s_maxbytes x) (s_time_gran x) (s_op x) m
    (s_fs_info x) (s_root x).
Definition with_fs_info (p : ptr) (x : super_block) : super_block :=
  SuperBlk (s_blocksize_bits x) (s_blocksize x) (s_maxbytes x) (s_time_gran x) (s_op x)
    (s_magic x) p (s_root x).
Definition with_root (d : option positive) (x : super_block) : super_block :=
  SuperBlk (s_blocksize_bits x) (s_blocksize x) (s_maxbytes x) (s_time_gran x) (s_op x)
    (s_magic x) (s_fs_info x) d.

(** What [mount] returns: NULL, an error pointer or a dentry. *)
Inductive dptr : Type := DNull | ErrPtr (e : Z) | Dentry (d : positive).

Class MountSingle (G W : Type) := {
  mount_single : string → Z → karg → (positive → karg → Z → M (kstate G W) Z) →
    M (kstate G W) dptr }.

Class MountNodev (G W : Type) := {
  mount_nodev : string → Z → karg → (positive → karg → Z → M (kstate G W) Z) →
    M (kstate G W) dptr }.

(** No superblock has a root yet. *)
Definition not_mounted {G W} (s : kstate G W) : Prop :=
  ∀ sb x, k_supers s !! sb = Some x → s_root x = None.

(** fs/super.c: on the first mount [mount_single] gets a superblock (or fails) and
    calls [fill_super]; an error of it is returned as an error pointer, and on
    success the root of the superblock is. *)
Class MountLaws (G W : Type) `{!MountSingle G W} := {
  mount_single_spec : ∀ fs flags data fill (s : kstate G W), not_mounted s →
    (∃ e s', mount_single fs flags data fill s = Ok (ErrPtr e) s') ∨
    (∃ sb silent s1, k_heap s1 = k_heap s ∧ k_glob s1 = k_glob s ∧ is_Some (k_supers s1 !! sb) ∧
      match fill sb data silent s1 with
      | Stop r => mount_single fs flags data fill s = Stop r
      | Ok e s2 => ∃ r s3, mount_single fs flags data fill s = Ok r s3 ∧
          (e ≠ 0 → r = ErrPtr e) ∧
          (∀ x d, e = 0 → k_supers s2 !! sb = Some x → s_root x = Some d → r = Dentry d)
      end) }.
Arguments MountLaws : clear implicits.
Arguments MountLaws G W {_}.

(** ** The concrete environment *)
Definition fresh_inode (sb : positive) : inode :=
  Inode 0 0 0 0 0 1 0 (Timespec 0 0) (Timespec 0 0) (Timespec 0 0) NoTable NoTable NoTable Null sb.

Definition sim_set_dentries (c : gmap positive positive) (n : gmap positive Z) (w : sim) : sim :=
  Sim (sim_allocs w) (sim_replies w) (sim_clock w) (sim_new_inodes w) (sim_next_ino w) c n.

#[export] Instance sim_vfs : Vfs sim := {|
  new_inode sb w :=
    let w' := Sim (sim_allocs w) (sim_replies w) (sim_clock w) (tail (sim_new_inodes w))
                (sim_next_ino w) (sim_dcache w) (sim_dcount w) in
    match sim_new_inodes w with
    | false :: _ => (None, w')
    | _ => (Some (fresh_inode sb), w')
    end;
  get_next_ino w :=
    (sim_next_ino w,
     Sim (sim_allocs w) (sim_replies w) (sim_clock w) (sim_new_inodes w) (sim_next_ino w + 1)
       (sim_dcache w) (sim_dcount w));
  inode_init_owner _ mode i := with_owner mode 0 0 i;
  inc_nlink i := with_nlink (u32 (i_nlink i + 1)) i;
  set_nlink n i := with_nlink n i;
  i_uid_write u i := with_owner (i_mode i) u (i_gid i) i;
  i_gid_write g i := with_owner (i_mode i) (i_uid i) g i;
  i_size_write n i :=
    Inode (i_ino i) (i_mode i) (i_uid i) (i_gid i) n (i_nlink i) (i_blocks i) (i_atime i)
      (i_mtime i) (i_ctime i) (i_op i) (i_fop i) (i_aops i) (i_private i) (i_sb i);
  init_special_inode mode dev i := with_fop (Table "def_chr_fops") (with_mode mode i);
  d_instantiate d i w := sim_set_dentries (<[d := i]> (sim_dcache w)) (sim_dcount w) w;
  dget d w :=
    sim_set_dentries (sim_dcache w) (<[d := default 0 (sim_dcount w !! d) + 1]> (sim_dcount w)) w;
  d_inode d w := sim_dcache w !! d;
  d_name d w := Some "f";
  mapping_set_gfp_mask _ w := w;
  mapping_set_unevictable _ w := w;
  d_make_root o w := (o, w);
  kernel_call _ _ m w := (0, (m, w)) |}.

#[export] Instance sim_vfs_laws : VfsLaws sim.
Proof.
  refine {| d_count d w := default 0 (sim_dcount w !! d) |}.
  - intros sb w i w'. simpl. by destruct (sim_new_inodes w) as [|[] l]; intros [= <- _].
  - intros dir mode i. by exists mode, 0, 0.
  - done.
  - intros mode dev i. by eexists.
  - intros d i w. apply lookup_insert_eq.
  - intros d d' i w Hd. by apply lookup_insert_ne.
  - done.
  - done.
  - done.
  - done.
  - done.
  - done.
  - intros d d' w. simpl. case_decide as Hd; [subst; by rewrite lookup_insert_eq|].
    by rewrite lookup_insert_ne.
Defined.

#[export] Instance sim_dentry_frame : DentryFrame sim.
Proof.
  constructor; [done| |done]. intros sb w d. simpl. by destruct (sim_new_inodes w) as [|[] l].
Defined.
