(* ===== verification/Iops.v ===== *)
(** * File and inode operations of the kernel module ([kernel_space_module/sjfs.c])

    The [sjfs_fops_*] handlers, the root directory's inode operations (create with
    its search of the inode bitmap, unlink, rename, lookup), the shared ones, and
    the operation tables.  The bitmap is the heap block [inodes_bitmaps_cache]
    points to.  [SJFS_INODE_SIZE], which [sjfs_iops_create] uses and no header
    declares, is an argument; [inode_bit] and [inode_byte] of [sjfs_iops_create],
    which are not declared there, have the type they have in [sjfs_iops_unlink]. *)
From S2P Require Import Prelude CLayout Blocks Memory Kernel Env Connector Protocol DiskStructs Vfs.

(** ** Operation tables: the slots a table fills and the handlers in them *)
Definition optable : Type := list (string * string).

Definition sjfs_file_fops : optable :=
  [ ("llseek", "sjfs_fops_llseek"); ("read", "sjfs_fops_read"); ("write", "sjfs_fops_write");
    ("poll", "sjfs_fops_poll"); ("open", "sjfs_fops_open"); ("release", "sjfs_fops_release");
    ("lock", "sjfs_fops_lock"); ("check_flags", "sjfs_fops_check_flags");
    ("flock", "sjfs_fops_flock"); ("setlease", "sjfs_fops_setlease");
    ("fallocate", "sjfs_fops_fallocate"); ("show_fdinfo", "sjfs_fops_show_fdinfo") ].

Definition sjfs_file_iops : optable :=
  [ ("permission", "sjfs_iops_permission"); ("setattr", "sjfs_iops_setattr");
    ("getattr", "sjfs_iops_getattr"); ("update_time", "sjfs_iops_update_time") ].

Definition sjfs_root_dir_fops : optable :=
  [ ("llseek", "sjfs_fops_llseek"); ("read", "sjfs_fops_read"); ("write", "sjfs_fops_write");
    ("iterate", "sjfs_fops_iterate"); ("poll", "sjfs_fops_poll"); ("open", "sjfs_fops_open");
    ("flush", "sjfs_fops_flush"); ("release", "sjfs_fops_release"); ("lock", "sjfs_fops_lock");
    ("check_flags", "sjfs_fops_check_flags"); ("flock", "sjfs_fops_flock");
    ("setlease", "sjfs_fops_setlease"); ("fallocate", "sjfs_fops_fallocate");
    ("show_fdinfo", "sjfs_fops_show_fdinfo") ].

Definition sjfs_root_dir_iops : optable :=
  [ ("lookup", "sjfs_iops_lookup"); ("permission", "sjfs_iops_permission");
    ("create", "sjfs_iops_create"); ("unlink", "sjfs_iops_unlink");
    ("rename", "sjfs_iops_rename"); ("setattr", "sjfs_iops_setattr");
    ("getattr", "sjfs_iops_getattr"); ("update_time", "sjfs_iops_update_time") ].

Definition slot (name : string) (t : optable) : option string := (list_to_map t : gmap string string) !! name.

(** The table an inode's [i_op] points to; a table of the kernel's own has no slot
    this module looks at. *)
Definition iops_table (t : table) : optable :=
  match t with
  | Table n =>
      if decide (n = "sjfs_file_iops") then sjfs_file_iops
      else if decide (n = "sjfs_root_dir_iops") then sjfs_root_dir_iops else []
  | NoTable => []
  end.

Definition S_ATIME : Z := 1.
Definition S_MTIME : Z := 2.
Definition S_CTIME : Z := 4.

Section iops.
Context `{!Semaphore} {W : Type}
  `{!Allocator W, !Clock W, !Connector W, !Printf, !Vfs W} (a : abi) (SJFS_INODE_SIZE : Z).
Abbreviation st := (kstate globals W).

(** ** File operations: every handler logs its name and reports 0 *)
Definition fop_stub (name : string) : M st Z := printk name [] ;; mret 0.

Definition sjfs_fops_llseek (l i : Z) : M st Z := fop_stub "sjfs_fops_llseek".
Definition sjfs_fops_read (count ppos : Z) : M st Z := fop_stub "sjfs_fops_read".
Definition sjfs_fops_write (from : list Z) (count ppos : Z) : M st Z := fop_stub "sjfs_fops_write".
Definition sjfs_fops_read_iter : M st Z := fop_stub "sjfs_fops_read_iter".
Definition sjfs_fops_write_iter : M st Z := fop_stub "sjfs_fops_write_iter".
Definition sjfs_fops_iterate : M st Z := fop_stub "sjfs_fops_iterate".
Definition sjfs_fops_poll : M st Z := fop_stub "sjfs_fops_poll".
Definition sjfs_fops_unlocked_ioctl (ui ul : Z) : M st Z := fop_stub "sjfs_fops_unlocked_ioctl".
Definition sjfs_fops_compat_ioctl (ui ul : Z) : M st Z := fop_stub "sjfs_fops_compat_ioctl".
Definition sjfs_fops_mmap : M st Z := fop_stub "sjfs_fops_mmap".
Definition sjfs_fops_mremap : M st Z := fop_stub "sjfs_fops_mremap".
Definition sjfs_fops_open : M st Z := fop_stub "sjfs_fops_open".
Definition sjfs_fops_flush : M st Z := fop_stub "sjfs_fops_flush".
Definition sjfs_fops_release : M st Z := fop_stub "sjfs_fops_release".
Definition sjfs_fops_fsync (l l2 datasync : Z) : M st Z := fop_stub "sjfs_fops_fsync".
Definition sjfs_fops_aio_fsync (datasync : Z) : M st Z := fop_stub "sjfs_fops_aio_fsync".
Definition sjfs_fops_fasync (i i2 : Z) : M st Z := fop_stub "sjfs_fops_fasync".
Definition sjfs_fops_lock (i : Z) : M st Z := fop_stub "sjfs_fops_lock".
Definition sjfs_fops_sendpage (i s i2 : Z) : M st Z := fop_stub "sjfs_fops_sendpage".
Definition sjfs_fops_get_unmapped_area (ul ul2 ul3 ul4 : Z) : M st Z :=
  fop_stub "sjfs_fops_get_unmapped_area".
Definition sjfs_fops_check_flags (i : Z) : M st Z := fop_stub "sjfs_fops_check_flags".
Definition sjfs_fops_flock (i : Z) : M st Z := fop_stub "sjfs_fops_flock".
Definition sjfs_fops_splice_write (s ui : Z) : M st Z := fop_stub "sjfs_fops_splice_write".
Definition sjfs_fops_splice_read (s ui : Z) : M st Z := fop_stub "sjfs_fops_splice_read".
Definition sjfs_fops_setlease (l : Z) : M st Z := fop_stub "sjfs_fops_setlease".
Definition sjfs_fops_fallocate (mode offset len : Z) : M st Z := fop_stub "sjfs_fops_fallocate".
Definition sjfs_fops_show_fdinfo : M st unit := printk "sjfs_fops_show_fdinfo" [].
Definition sjfs_fops_mmap_capabilities : M st Z := fop_stub "sjfs_fops_mmap_capabilities".

(** All of them that return a number, by name and at any arguments. *)
Definition fops_handlers (x y z u : Z) (buf : list Z) : list (string * M st Z) :=
  [ ("sjfs_fops_llseek", sjfs_fops_llseek x y); ("sjfs_fops_read", sjfs_fops_read x y);
    ("sjfs_fops_write", sjfs_fops_write buf x y); ("sjfs_fops_read_iter", sjfs_fops_read_iter);
    ("sjfs_fops_write_iter", sjfs_fops_write_iter); ("sjfs_fops_iterate", sjfs_fops_iterate);
    ("sjfs_fops_poll", sjfs_fops_poll); ("sjfs_fops_unlocked_ioctl", sjfs_fops_unlocked_ioctl x y);
    ("sjfs_fops_compat_ioctl", sjfs_fops_compat_ioctl x y); ("sjfs_fops_mmap", sjfs_fops_mmap);
    ("sjfs_fops_mremap", sjfs_fops_mremap); ("sjfs_fops_open", sjfs_fops_open);
    ("sjfs_fops_flush", sjfs_fops_flush); ("sjfs_fops_release", sjfs_fops_release);
    ("sjfs_fops_fsync", sjfs_fops_fsync x y z); ("sjfs_fops_aio_fsync", sjfs_fops_aio_fsync x);
    ("sjfs_fops_fasync", sjfs_fops_fasync x y); ("sjfs_fops_lock", sjfs_fops_lock x);
    ("sjfs_fops_sendpage", sjfs_fops_sendpage x y z);
    ("sjfs_fops_get_unmapped_area", sjfs_fops_get_unmapped_area x y z u);
    ("sjfs_fops_check_flags", sjfs_fops_check_flags x); ("sjfs_fops_flock", sjfs_fops_flock x);
    ("sjfs_fops_splice_write", sjfs_fops_splice_write x y);
    ("sjfs_fops_splice_read", sjfs_fops_splice_read x y);
    ("sjfs_fops_setlease", sjfs_fops_setlease x);
    ("sjfs_fops_fallocate", sjfs_fops_fallocate x y z);
    ("sjfs_fops_mmap_capabilities", sjfs_fops_mmap_capabilities) ].

(** ** Inode operations *)
Definition sjfs_iops_lookup (dir dentry : positive) (flags : Z) : M st Z :=
  printk "sjfs_iops_lookup" [] ;;
  kcall "simple_lookup" [KInode (Some dir); KDentry (Some dentry); KInt flags].

Definition sjfs_iops_rename (old_dir old_dentry new_dir new_dentry : positive) : M st Z :=
  printk "sjfs_iops_rename" [] ;;
  mret 0.

Definition sjfs_iops_permission (ip : positive) (mask : Z) : M st Z :=
  i ← get_inode ip;
  printk "sjfs_iops_permission -> generic_permission(i=%lu, m=%#010x)"
    [PInt (i_ino i); PInt mask] ;;
  kcall "generic_permission" [KInode (Some ip); KInt mask].

Definition sjfs_iops_setattr (dentry iattr : positive) : M st Z :=
  printk "sjfs_iops_setattr -> simple_setattr (for testing only)" [] ;;
  kcall "simple_setattr" [KDentry (Some dentry); KObj "iattr" iattr].

Definition sjfs_iops_getattr (mnt dentry stat : positive) : M st Z :=
  printk "sjfs_iops_getattr -> simple_getattr" [] ;;
  kcall "simple_getattr" [KObj "vfsmount" mnt; KDentry (Some dentry); KObj "kstat" stat].

Definition sjfs_iops_update_time (ip : positive) (time : timespec) (flags : Z) : M st Z :=
  printk "sjfs_iops_update_time" [] ;;
  mret 0.

(** [if (dir->i_op->update_time) { time = CURRENT_TIME; dir->i_op->update_time(dir, &time, flags); }] *)
Definition touch_dir (dir : positive) (flags : Z) : M st unit :=
  d ← get_inode dir;
  match slot "update_time" (iops_table (i_op d)) with
  | Some _ =>
      time ← world CURRENT_TIME;
      _ ← sjfs_iops_update_time dir time flags;
      mret tt
  | None => mret tt
  end.

(** The inner loop of the search: the first clear bit of a byte. *)
Fixpoint first_clear (fuel : nat) (j byte : Z) : option Z :=
  match fuel with
  | O => None
  | S f => if Z.land (Z.shiftr byte j) 1 =? 0 then Some j else first_clear f (j + 1) byte
  end.

(** The outer loop (line 209). *)
Fixpoint find_inode_number (fuel : nat) (i inode_number : Z) : M st Z :=
  match fuel with
  | O => stop_with OutOfFuel
  | S f =>
      if (i <? sizeof_int) || (0 <? inode_number) then
        cache ← get_glob inodes_bitmaps_cache;
        bs ← load (ptr_add cache i) 1;
        find_inode_number f (i + 1)
          (match first_clear 8 0 (le_decode bs) with
           | Some j => 8 * i + j
           | None => inode_number
           end)
      else mret inode_number
  end.

(** The bitmap has 1024 bytes; one more access is out of bounds. *)
Definition search_fuel : nat := 1026.

(** [inodes_bitmaps_cache[inode_byte] = f(...)] for one byte. *)
Definition update_bitmap_byte (inode_byte : Z) (f : Z → Z) : M st unit :=
  cache ← get_glob inodes_bitmaps_cache;
  bs ← load (ptr_add cache inode_byte) 1;
  store (ptr_add cache inode_byte) [u8 (f (le_decode bs))].

Definition inode_bit_of (i_ino : Z) : Z := s32 (i_ino mod 8).
Definition inode_byte_of (i_ino : Z) : Z := s32 (i_ino - inode_bit_of i_ino).

Definition sjfs_iops_create (dir dentry : positive) (mode : Z) (excl : bool) : M st Z :=
  d ← get_inode dir;
  inode ← alloc_inode (i_sb d);
  printk "sjfs_iops_create" [] ;;
  match inode with
  | None => mret (- ENOSPC)
  | Some ip =>
      inode_number ← find_inode_number search_fuel 0 0;
      if inode_number =? 0 then mret (- ENOSPC) else
      upd_inode ip (with_ino inode_number) ;;
      d ← get_inode dir;
      upd_inode ip (inode_init_owner (Some d) S_IFREG) ;;
      now ← world CURRENT_TIME;
      upd_inode ip (with_times now now now) ;;
      private ← kzalloc SJFS_INODE_SIZE;
      upd_inode ip (with_private private) ;;
      sjfs_set_disk_inode a ip ;;
      i ← get_inode ip;
      let inode_bit := inode_bit_of (i_ino i) in
      let inode_byte := inode_byte_of (i_ino i) in
      update_bitmap_byte inode_byte (λ b, Z.lor b (Z.shiftl 1 inode_bit)) ;;
      cache ← get_glob inodes_bitmaps_cache;
      _ ← sjfs_write_block 1 cache;
      upd_inode ip (with_op (Table "sjfs_file_iops")) ;;
      upd_inode ip (with_fop (Table "sjfs_file_fops")) ;;
      world_ (d_instantiate dentry ip) ;;
      world_ (dget dentry) ;;
      touch_dir dir (Z.lor S_CTIME S_MTIME) ;;
      mret 0
  end.

Definition sjfs_iops_unlink (dir dentry : positive) : M st Z :=
  inode ← gets (λ s, d_inode dentry (k_world s));
  printk "sjfs_iops_unlink" [] ;;
  ip ← deref inode;
  i ← get_inode ip;
  let inode_bit := inode_bit_of (i_ino i) in
  let inode_byte := inode_byte_of (i_ino i) in
  update_bitmap_byte inode_byte (λ b, Z.land b (Z.lnot (Z.shiftl 1 inode_bit))) ;;
  cache ← get_glob inodes_bitmaps_cache;
  _ ← sjfs_write_block 1 cache;
  touch_dir dir (Z.lor S_CTIME S_ATIME) ;;
  i ← get_inode ip;
  kfree (i_private i) ;;
  kcall "simple_unlink" [KInode (Some dir); KDentry (Some dentry)].

(** ** Specification: the bitmap as a set of inode numbers *)

(** Bit [n] of a bitmap: bit [n mod 8] of byte [n / 8], as the search reads it. *)
Definition bitmap_bit (bitmap : list Z) (n : Z) : bool :=
  match bitmap !! Z.to_nat (n / 8) with Some b => Z.testbit b (n mod 8) | None => false end.

(** The bit that create and unlink touch for inode [n]: bit [n mod 8] of the byte
    with the index [n - n mod 8]. *)
Definition touched_bit (n : Z) : Z := 8 * (n - n mod 8) + n mod 8.

(** No inode number from 8 to 31 is free, and either inode 0 is (the search stops
    there and takes it for "none") or none below 8 is. *)
Definition search_exhausted (bitmap : list Z) : Prop :=
  (∀ n, 8 <= n < 32 → bitmap_bit bitmap n = true) ∧
  (bitmap_bit bitmap 0 = false ∨ ∀ n, 0 <= n < 8 → bitmap_bit bitmap n = true).
End iops.

(** ** Lemmas *)
Section iops_lemmas.
Context `{!Semaphore, !SemaphoreLaws} {W : Type}
  `{!Allocator W, !Clock W, !Connector W, !Printf, !PrintfLaws, !Vfs W}
  (a : abi) (SJFS_INODE_SIZE : Z).
Abbreviation st := (kstate globals W).
Implicit Types (s : st).

Lemma first_clear_some f j byte k :
  first_clear f j byte = Some k →
  j <= k < j + Z.of_nat f ∧ Z.testbit byte k = false ∧
  ∀ l, j <= l < k → Z.testbit byte l = true.
Proof.
  revert j; induction f as [|f IH]; intros j; cbn [first_clear]; [done|].
  rewrite land_1_testbit. destruct (Z.testbit byte j) eqn:Hb; cbn [negb].
  - intros Hk. apply IH in Hk as (? & ? & Hl). split; [lia|]. split; [done|].
    intros l Hjl. destruct (decide (l = j)) as [->|]; [done|]. apply Hl. lia.
  - intros [= <-]. split; [lia|]. split; [done|]. lia.
Qed.

Lemma first_clear_none f j byte :
  first_clear f j byte = None → ∀ l, j <= l < j + Z.of_nat f → Z.testbit byte l = true.
Proof.
  revert j; induction f as [|f IH]; intros j; cbn [first_clear]; [lia|].
  rewrite land_1_testbit. destruct (Z.testbit byte j) eqn:Hb; cbn [negb]; [|done].
  intros Hn l Hl. destruct (decide (l = j)) as [->|]; [done|]. apply (IH _ Hn). lia.
Qed.

(** The search ends only with 0, whatever memory looks like. *)
Lemma find_inode_number_zero fuel i n s :
  0 <= i → 0 <= n → wp (find_inode_number fuel i n) (λ m s', m = 0 ∧ s' = s) any_stop s.
Proof.
  revert i n; induction fuel as [|f IH]; intros i n Hi Hn; cbn [find_inode_number]; [done|].
  destruct ((i <? sizeof_int) || (0 <? n)) eqn:Hc.
  - rewrite wp_bind, wp_get_glob, wp_bind.
    assert (∀ bs, wp (find_inode_number f (i + 1)
      (match first_clear 8 0 (le_decode bs) with Some j => 8 * i + j | None => n end))
      (λ m s', m = 0 ∧ s' = s) any_stop s) as Hrec.
    { intros bs. apply IH; [lia|]. destruct (first_clear _ _ _) eqn:Hf; [|done].
      apply first_clear_some in Hf. lia. }
    unfold wp at 1, load. destruct (ptr_add _ _) as [|b o]; [done|].
    destruct (h_map _ !! b); [|done]. by case_decide.
  - apply orb_false_iff in Hc as [_ Hc]. rewrite wp_ret. split; [|done].
    apply Z.ltb_ge in Hc. lia.
Qed.

Section with_bitmap.
Context (c : positive) (bitmap : list Z) (s : st).
Context (Hcache : inodes_bitmaps_cache (k_glob s) = Ptr c 0)
  (Hblock : h_map (k_heap s) !! c = Some bitmap) (Hlen : length bitmap = 1024%nat).

(** The byte of the bitmap at index [i]. *)
Definition byte_at (i : Z) : Z := default 0 (bitmap !! Z.to_nat i).

Lemma load_bitmap i :
  load (ptr_add (inodes_bitmaps_cache (k_glob s)) i) 1 s
  = if decide (0 <= i < 1024) then Ok [byte_at i] s else Stop OutOfBounds.
Proof.
  rewrite Hcache. cbn [ptr_add]. rewrite Z.add_0_l. case_decide as Hi.
  - erewrite load_ok; [|exact Hblock|unfold in_bounds; lia]. f_equal. unfold byte_at.
    destruct (lookup_lt_is_Some_2 bitmap (Z.to_nat i)) as [b Hb]; [lia|].
    rewrite Hb. change (Z.to_nat 1) with 1%nat. rewrite (drop_S _ b) by done. done.
  - eapply load_oob; [exact Hblock|]. unfold in_bounds. lia.
Qed.

(** One iteration of the search. *)
Definition next_number (i n : Z) : Z :=
  match first_clear 8 0 (byte_at i) with Some j => 8 * i + j | None => n end.

Lemma search_step f i n :
  0 <= i < 1024 → i < sizeof_int ∨ 0 < n →
  find_inode_number (S f) i n s = find_inode_number f (i + 1) (next_number i n) s.
Proof.
  intros Hi Hc. cbn [find_inode_number].
  replace ((i <? sizeof_int) || (0 <? n)) with true.
  2: { symmetry. apply orb_true_iff. destruct Hc as [Hc|Hc]; [left|right]; by apply Z.ltb_lt. }
  unfold get_glob, gets. erewrite bind_ok; [|reflexivity].
  erewrite bind_ok; [|rewrite load_bitmap, decide_True by done; reflexivity].
  cbn [le_decode]. rewrite Z.mul_0_r, Z.add_0_r. reflexivity.
Qed.

Lemma next_number_nonneg i n : 0 <= i → 0 <= n → 0 <= next_number i n.
Proof.
  unfold next_number. intros Hi Hn. destruct (first_clear _ _ _) eqn:Hf; [|done].
  apply first_clear_some in Hf. lia.
Qed.

Lemma next_number_pos i n : 0 < i → 0 < n → 0 < next_number i n.
Proof.
  unfold next_number. intros Hi Hn. destruct (first_clear _ _ _) eqn:Hf; [|done].
  apply first_clear_some in Hf. lia.
Qed.

(** Once a number is found the search runs on to the end of the bitmap. *)
Lemma search_runs_off f i n :
  0 < i <= 1024 → 0 < n → (1024 - Z.to_nat i < f)%nat →
  find_inode_number f i n s = Stop OutOfBounds.
Proof.
  revert i n; induction f as [|f IH]; intros i n Hi Hn Hf; [lia|].
  destruct (decide (i = 1024)) as [->|Hne].
  - cbn [find_inode_number]. replace ((1024 <? sizeof_int) || (0 <? n)) with true
      by (symmetry; apply orb_true_iff; right; by apply Z.ltb_lt).
    unfold get_glob, gets. erewrite bind_ok; [|reflexivity].
    apply bind_stop. by rewrite load_bitmap, decide_False by lia.
  - rewrite search_step by lia. apply IH; [lia| |lia]. apply next_number_pos; lia.
Qed.

(** The number after the four iterations the first condition allows. *)
Definition number4 : Z := next_number 3 (next_number 2 (next_number 1 (next_number 0 0))).

Lemma search_result :
  find_inode_number search_fuel 0 0 s = if number4 =? 0 then Ok 0 s else Stop OutOfBounds.
Proof.
  assert (0 <= number4) by (unfold number4; repeat apply next_number_nonneg; lia).
  unfold search_fuel. do 4 (rewrite search_step by (unfold sizeof_int; lia)).
  change (0 + 1 + 1 + 1 + 1) with 4. change (0 + 1 + 1 + 1) with 3. change (0 + 1 + 1) with 2.
  change (0 + 1) with 1. fold number4.
  destruct (Z.eqb_spec number4 0) as [->|]; [done|]. apply search_runs_off; lia.
Qed.
End with_bitmap.

Lemma bitmap_bit_byte bitmap i j :
  0 <= i → 0 <= j < 8 → (Z.to_nat i < length bitmap)%nat →
  bitmap_bit bitmap (8 * i + j) = Z.testbit (byte_at bitmap i) j.
Proof.
  intros Hi Hj Hl. unfold bitmap_bit, byte_at.
  replace ((8 * i + j) / 8) with i by (apply (Z.div_unique _ _ _ j); lia).
  replace ((8 * i + j) mod 8) with j by (apply (Z.mod_unique _ _ i); lia).
  destruct (lookup_lt_is_Some_2 bitmap (Z.to_nat i) Hl) as [b ->]. done.
Qed.

Lemma byte_full bitmap i :
  0 <= i → (Z.to_nat i < length bitmap)%nat →
  first_clear 8 0 (byte_at bitmap i) = None ↔
  ∀ n, 8 * i <= n < 8 * i + 8 → bitmap_bit bitmap n = true.
Proof.
  intros Hi Hl. split.
  - intros Hf n Hn. replace n with (8 * i + (n - 8 * i)) by lia.
    rewrite bitmap_bit_byte by lia. apply (first_clear_none _ _ _ Hf). lia.
  - intros Hall. destruct (first_clear 8 0 _) as [j|] eqn:Hf; [|done].
    apply first_clear_some in Hf as (Hj & Hb & _).
    rewrite <-bitmap_bit_byte, Hall in Hb by lia. done.
Qed.

Lemma number4_zero bitmap :
  length bitmap = 1024%nat → number4 bitmap = 0 ↔ search_exhausted bitmap.
Proof.
  intros Hl.
  assert (∀ i n, 0 < i → 0 <= n →
    next_number bitmap i n = 0 ↔ first_clear 8 0 (byte_at bitmap i) = None ∧ n = 0) as Hnext.
  { intros i n Hi Hn. unfold next_number. destruct (first_clear 8 0 _) as [j|] eqn:Hf; [|naive_solver].
    apply first_clear_some in Hf. split; [lia|]. by intros [? _]. }
  pose proof (next_number_nonneg bitmap) as Hp.
  unfold number4, search_exhausted. rewrite !Hnext, !byte_full by (repeat apply Hp; lia).
  assert (next_number bitmap 0 0 = 0 ↔
    bitmap_bit bitmap 0 = false ∨ ∀ n, 0 <= n < 8 → bitmap_bit bitmap n = true) as ->.
  { unfold next_number.
    assert (bitmap_bit bitmap 0 = Z.testbit (byte_at bitmap 0) 0) as ->
      by (apply (bitmap_bit_byte bitmap 0 0); lia).
    rewrite <-(byte_full bitmap 0) by lia.
    destruct (first_clear 8 0 _) as [j|] eqn:Hf; [|naive_solver].
    apply first_clear_some in Hf as (Hj & Hb & Hall). split.
    - intros ?. left. by assert (j = 0) as -> by lia.
    - intros [Hz|?]; [|done]. destruct (decide (j = 0)) as [->|]; [done|].
      rewrite (Hall 0) in Hz by lia. done. }
  split.
  - intros (Hb3 & Hb2 & Hb1 & Hz). split; [|done]. intros n Hn.
    destruct (decide (n < 16)); [apply Hb1; lia|]. destruct (decide (n < 24)); [apply Hb2|apply Hb3]; lia.
  - intros (Hn & Hz). repeat split; [| | |done]; intros n Hi; apply Hn; lia.
Qed.

(** Clearing the bit of inode [n] in the byte the code picks. *)
Lemma bitmap_cleared bitmap n k :
  0 <= n → n - n mod 8 < 1024 → length bitmap = 1024%nat → 0 <= k →
  bitmap_bit (<[Z.to_nat (n - n mod 8) :=
    u8 (Z.land (byte_at bitmap (n - n mod 8)) (Z.lnot (Z.shiftl 1 (n mod 8))))]> bitmap) k
  = bitmap_bit bitmap k && negb (k =? touched_bit n).
Proof.
  intros Hn Hb Hl Hk. set (i := n - n mod 8) in *. set (j := n mod 8).
  assert (0 <= j < 8) by (apply Z.mod_pos_bound; lia).
  assert (0 <= i) by (unfold i; pose proof (Z.mod_le n 8); lia).
  pose proof (Z.div_mod k 8). pose proof (Z.mod_pos_bound k 8).
  assert (0 <= k / 8) by (apply Z.div_pos; lia).
  unfold touched_bit. fold i j. unfold bitmap_bit at 1.
  destruct (decide (k / 8 = i)) as [<-|Hne].
  - rewrite list_lookup_insert_eq by lia. rewrite clear_bit_testbit by lia.
    rewrite <-bitmap_bit_byte by lia. f_equal; [f_equal; lia|]. f_equal.
    destruct (Z.eqb_spec (k mod 8) j), (Z.eqb_spec k (8 * (k / 8) + j)); lia.
  - rewrite list_lookup_insert_ne by lia. fold (bitmap_bit bitmap k).
    replace (k =? 8 * i + j) with false; [by rewrite andb_true_r|].
    symmetry. apply Z.eqb_neq. lia.
Qed.
Lemma touched_bit_same n : 0 <= n → touched_bit n = n ↔ n < 8.
Proof.
  intros Hn. unfold touched_bit. pose proof (Z.div_mod n 8). pose proof (Z.mod_pos_bound n 8).
  split; intros; [lia|]. rewrite Z.mod_small by lia. lia.
Qed.

Lemma touch_dir_ok dir d flags s :
  k_inodes s !! dir = Some d →
  ∃ l w, touch_dir dir flags s = Ok tt (with_log l (with_world w s)).
Proof.
  intros Hd. unfold touch_dir, get_inode, mbind at 1, M_bind at 1. rewrite Hd.
  destruct (slot _ _).
  - unfold world, mbind, M_bind. destruct (CURRENT_TIME (k_world s)) as [time w].
    by exists (k_log s ++ [Printk "sjfs_iops_update_time" []]), w.
  - exists (k_log s), (k_world s). by destruct s.
Qed.

(** The byte index of an inode number is a plain integer below 2^31. *)
Lemma inode_byte_small n :
  0 <= n < 2 ^ 31 → inode_bit_of n = n mod 8 ∧ inode_byte_of n = n - n mod 8 ∧
  0 <= n - n mod 8 ∧ 0 <= n mod 8 < 8.
Proof.
  intros Hn. pose proof (Z.mod_pos_bound n 8) as Hm. pose proof (Z.mod_le n 8) as Hle.
  unfold inode_byte_of, inode_bit_of. rewrite (s32_id (n mod 8)) by lia.
  rewrite s32_id by lia. lia.
Qed.

(** [inodes_bitmaps_cache[i] = f(inodes_bitmaps_cache[i])], in and out of bounds. *)
Lemma update_bitmap_ok c bitmap i f s :
  inodes_bitmaps_cache (k_glob s) = Ptr c 0 → h_map (k_heap s) !! c = Some bitmap →
  length bitmap = 1024%nat → 0 <= i < 1024 →
  update_bitmap_byte i f s
  = Ok tt (with_kheap (heap_insert c (<[Z.to_nat i := u8 (f (byte_at bitmap i))]> bitmap)
      (k_heap s)) s).
Proof.
  intros Hc Hb Hl Hi. unfold update_bitmap_byte. erewrite bind_ok; [|reflexivity]. cbv beta.
  erewrite bind_ok; [|rewrite (load_bitmap c bitmap s Hc Hb Hl), decide_True by lia; reflexivity].
  rewrite Hc. cbn [ptr_add]. rewrite Z.add_0_l.
  erewrite store_ok; [|exact Hb|unfold in_bounds; cbn [length]; lia].
  rewrite splice_one by lia. cbn [le_decode]. by rewrite Z.mul_0_r, Z.add_0_r.
Qed.

Lemma update_bitmap_oob c bitmap i f s :
  inodes_bitmaps_cache (k_glob s) = Ptr c 0 → h_map (k_heap s) !! c = Some bitmap →
  length bitmap = 1024%nat → 1024 <= i → update_bitmap_byte i f s = Stop OutOfBounds.
Proof.
  intros Hc Hb Hl Hi. unfold update_bitmap_byte. erewrite bind_ok; [|reflexivity]. cbv beta.
  apply bind_stop. by rewrite (load_bitmap c bitmap s Hc Hb Hl), decide_False by lia.
Qed.
End iops_lemmas.

(** ** Properties *)
Section iops_properties.
Context `{!Semaphore, !SemaphoreLaws} {W : Type}
  `{!Allocator W, !Clock W, !Connector W, !Printf, !PrintfLaws, !Vfs W}
  (a : abi) (SJFS_INODE_SIZE : Z).
Abbreviation st := (kstate globals W).

(** [sjfs_iops_create] never creates a file.  From any state, whatever memory,
    allocator and VFS do, a call that returns reports [-ENOSPC], has written no
    block, changed no static variable and bound no dentry: the search loop can only
    be left with the number 0. *)
Theorem create_never_succeeds (s : st) (dir dentry : positive) (mode : Z) (excl : bool) :
  wp (sjfs_iops_create a SJFS_INODE_SIZE dir dentry mode excl)
    (λ r s', r = - ENOSPC ∧ k_heap s' = k_heap s ∧ k_glob s' = k_glob s ∧
       (∃ sb, k_world s' = (new_inode sb (k_world s)).2) ∧
       k_log s' = k_log s ++ [Printk "sjfs_iops_create" []]) any_stop s.
Proof.
  unfold sjfs_iops_create. rewrite wp_bind, wp_get_inode.
  destruct (k_inodes s !! dir) as [d|]; [|done]. rewrite wp_bind, wp_alloc_inode.
  destruct (new_inode (i_sb d) (k_world s)) as [[i|] w'] eqn:Hw; rewrite wp_bind, wp_printk.
  - rewrite wp_bind. eapply wp_mono; [by apply find_inode_number_zero| |done].
    intros n s' [-> ->]. change (0 =? 0) with true. cbv iota. rewrite wp_ret.
    repeat split; try done. exists (i_sb d). by rewrite Hw.
  - rewrite wp_ret. repeat split; try done. exists (i_sb d). by rewrite Hw.
Qed.

(** C14: What [sjfs_iops_create] does with a bitmap of 1024 bytes, exactly: it
    reports [-ENOSPC] when no inode could be allocated or the first 32 inode
    numbers are exhausted, and otherwise - when there is a free one - its search
    never stops and reads past the end of the bitmap.  The fuel is enough. *)
Theorem create_outcome (s : st) (dir dentry : positive) (mode : Z) (excl : bool)
    (d : inode) (c : positive) (bitmap : list Z) :
  k_inodes s !! dir = Some d →
  inodes_bitmaps_cache (k_glob s) = Ptr c 0 → h_map (k_heap s) !! c = Some bitmap →
  length bitmap = 1024%nat →
  let run := sjfs_iops_create a SJFS_INODE_SIZE dir dentry mode excl s in
  (∃ s', run = Ok (- ENOSPC) s' ∧
     ((new_inode (i_sb d) (k_world s)).1 = None ∨ search_exhausted bitmap)) ∨
  (run = Stop OutOfBounds ∧ is_Some (new_inode (i_sb d) (k_world s)).1 ∧
     ¬ search_exhausted bitmap).
Proof.
  intros Hd Hc Hb Hl run. unfold run, sjfs_iops_create.
  erewrite bind_ok; [|unfold get_inode; rewrite Hd; reflexivity].
  destruct (new_inode (i_sb d) (k_world s)) as [[i|] w'] eqn:Hw; cbn [fst].
  - erewrite bind_ok; [|by eapply alloc_inode_ok].
    erewrite bind_ok; [|reflexivity].
    match goal with |- context [(find_inode_number _ _ _ ≫= _) ?t] =>
      pose proof (search_result c bitmap t Hc Hb Hl) as Hs end.
    revert Hs.
    destruct (Z.eqb_spec (number4 bitmap) 0) as [Hz|Hz]; intros Hs.
    + left. erewrite bind_ok; [|exact Hs]. eexists. split; [reflexivity|].
      right. by apply number4_zero.
    + right. split; [by apply bind_stop|]. split; [by eexists|]. by rewrite <-number4_zero.
  - left. erewrite bind_ok; [|by eapply alloc_inode_null].
    eexists. split; [reflexivity|]. by left.
Qed.
(** Every file operation is inert: it logs its name, reports 0 and touches
    nothing, so that reads find the end of the file and writes take nothing; the
    two tables of file operations name only these handlers. *)
Theorem file_ops_inert (s : st) (x y z u : Z) (buf : list Z) :
  Forall (λ nh, nh.2 s = Ok 0 (with_log (k_log s ++ [Printk nh.1 []]) s))
    (fops_handlers x y z u buf) ∧
  sjfs_fops_show_fdinfo s
    = Ok tt (with_log (k_log s ++ [Printk "sjfs_fops_show_fdinfo" []]) s) ∧
  Forall (λ sh, sh.2 ∈ "sjfs_fops_show_fdinfo" :: (fops_handlers (W:=W) x y z u buf).*1)
    (sjfs_file_fops ++ sjfs_root_dir_fops).
Proof.
  split; [|split; [reflexivity|]].
  - unfold fops_handlers. repeat (apply Forall_cons; split; [reflexivity|]). by apply Forall_nil.
  - unfold fops_handlers. cbn [fmap list_fmap fst].
    apply (bool_decide_unpack _). vm_compute. reflexivity.
Qed.

(** C15: [sjfs_iops_unlink] clears one bit of the bitmap, but bit [i_ino % 8] of the
    byte with the index [i_ino - i_ino % 8]: the bit of the inode's own number only
    below 8; for a number whose index is past the bitmap it reads out of bounds.
    When it is not, the private structure is freed and the rest is [simple_unlink]. *)
Theorem unlink_outcome (s : st) (dir dentry ip c q : positive) (i d : inode) (bitmap : list Z) :
  let run := sjfs_iops_unlink dir dentry s in
  let n := i_ino i in
  ready s → d_inode dentry (k_world s) = Some ip →
  k_inodes s !! ip = Some i → k_inodes s !! dir = Some d → 0 <= n < 2 ^ 31 →
  inodes_bitmaps_cache (k_glob s) = Ptr c 0 → h_map (k_heap s) !! c = Some bitmap →
  length bitmap = 1024%nat →
  i_private i = Ptr q 0 → q ≠ c → is_Some (h_map (k_heap s) !! q) →
  (n - n mod 8 < 1024 →
    ∃ t bitmap', run = kcall "simple_unlink" [KInode (Some dir); KDentry (Some dentry)] t ∧
      ready t ∧ quiet s t ∧
      h_map (k_heap t) = delete q (<[c := bitmap']> (h_map (k_heap s))) ∧
      length bitmap' = 1024%nat ∧
      ∀ k, 0 <= k → bitmap_bit bitmap' k = bitmap_bit bitmap k && negb (k =? touched_bit n)) ∧
  (1024 <= n - n mod 8 → run = Stop OutOfBounds) ∧
  (touched_bit n = n ↔ n < 8).
Proof.
  intros run n Hr Hdn Hip Hdir Hn Hc Hb Hl Hp Hqc [qs Hq].
  destruct (inode_byte_small n Hn) as (Hbit & Hbyte & Hpos & Hmod).
  set (s1 := with_log (k_log s ++ [Printk "sjfs_iops_unlink" []]) s).
  set (f := λ b, Z.land b (Z.lnot (Z.shiftl 1 (n mod 8)))).
  assert (run = (update_bitmap_byte (n - n mod 8) f ;;
    cache ← get_glob inodes_bitmaps_cache;
    _ ← sjfs_write_block 1 cache;
    touch_dir dir (Z.lor S_CTIME S_ATIME) ;;
    i ← get_inode ip;
    kfree (i_private i) ;;
    kcall "simple_unlink" [KInode (Some dir); KDentry (Some dentry)]) s1) as Hrun.
  { unfold run, sjfs_iops_unlink. erewrite bind_ok; [|reflexivity].
    erewrite bind_ok; [|reflexivity]. rewrite Hdn. erewrite bind_ok; [|reflexivity].
    erewrite bind_ok; [|unfold get_inode; cbn; rewrite Hip; reflexivity].
    cbv zeta. fold n. by rewrite Hbit, Hbyte. }
  split; [|split; [|by apply touched_bit_same; lia]]; intros Hin; rewrite Hrun.
  2: { apply bind_stop. by apply (update_bitmap_oob c bitmap). }
  set (bitmap' := <[Z.to_nat (n - n mod 8) := u8 (f (byte_at bitmap (n - n mod 8)))]> bitmap).
  set (s2 := with_kheap (heap_insert c bitmap' (k_heap s1)) s1).
  assert (ready s2) as Hr2 by (apply (ready_insert c bitmap' s1); [done|by exists bitmap]).
  destruct (write_block_ready 1 (Ptr c 0) s2 Hr2) as (x & Hx & Hcx).
  set (s3 := with_glob (set_cn_sem x (k_glob s2)) s2) in *.
  destruct (touch_dir_ok dir d (Z.lor S_CTIME S_ATIME) s3 Hdir) as (l & w & Ht).
  set (s4 := with_log l (with_world w s3)) in *.
  assert (h_map (k_heap s4) !! q = Some qs) as Hq4 by (cbn; by rewrite lookup_insert_ne).
  exists (with_kheap (heap_delete q (k_heap s4)) s4), bitmap'.
  split; [|split; [|split; [|split; [|split]]]].
  - erewrite bind_ok; [|by apply (update_bitmap_ok c bitmap)]. fold bitmap' s2.
    erewrite bind_ok; [|reflexivity]. cbn [k_glob s2 with_kheap s1 with_log]. rewrite Hc.
    erewrite bind_ok; [|exact Hx]. fold s3. erewrite bind_ok; [|exact Ht].
    erewrite bind_ok; [|unfold get_inode; cbn; rewrite Hip; reflexivity]. rewrite Hp.
    erewrite bind_ok; [|by eapply kfree_ok]. reflexivity.
  - destruct Hr2 as (Hwf & Hg & _ & Hcb). split; [by apply heap_wf_delete|].
    split; [exact Hg|]. by split.
  - constructor; try done.
  - reflexivity.
  - unfold bitmap'. by rewrite length_insert.
  - intros k Hk. apply bitmap_cleared; [lia..|done|lia].
Qed.
End iops_properties.


(** ** Witnesses *)

(** A mounted state: block 1 is the inode bitmap, block 2 the private structure of
    inode 9, which the dentry 1 names; inode 5 is the root directory. *)
Definition mounted_heap (bitmap : list Z) : heap :=
  Heap 3 (<[1%positive := bitmap]> {[2%positive := replicate 200 0]}).
Definition root_inode : inode :=
  Inode 0 S_IFDIR 0 0 0 2 0 (Timespec 1 0) (Timespec 1 0) (Timespec 1 0)
    (Table "sjfs_root_dir_iops") (Table "sjfs_root_dir_fops") NoTable Null 1.
Definition file_inode (n : Z) : inode :=
  Inode n S_IFREG 0 0 0 1 0 (Timespec 1 0) (Timespec 1 0) (Timespec 1 0)
    (Table "sjfs_file_iops") (Table "sjfs_file_fops") NoTable (Ptr 2 0) 1.
Definition mounted_globals : globals :=
  Globals 1%nat 1%nat 0 None (replicate 1024 0) (Ptr 1 0) Null 1.
Definition mounted_state (bitmap : list Z) (n : Z) : kstate globals sim :=
  KState (mounted_heap bitmap) (<[5%positive := root_inode]> {[6%positive := file_inode n]}) 7 ∅
    mounted_globals (sim_set_dentries {[1%positive := 6%positive]} ∅ sim0) [].

Lemma mounted_ready bitmap n : ready (mounted_state bitmap n).
Proof.
  split; [|split; [reflexivity|done]]. intros b [x Hb]. cbn in *.
  apply lookup_insert_Some in Hb as [[<- _]|[_ Hb]]; [lia|].
  apply lookup_singleton_Some in Hb as [<- _]. lia.
Qed.

Lemma create_outcome_witness :
  let bitmap := replicate 1024 255 in
  let run := sjfs_iops_create LP64 64 5 1 420 false (mounted_state bitmap 9) in
  (∃ s', run = Ok (- ENOSPC) s' ∧ ((new_inode (i_sb root_inode) (k_world (mounted_state bitmap 9))).1 = None ∨
     search_exhausted bitmap)) ∨
  (run = Stop OutOfBounds ∧ is_Some (new_inode (i_sb root_inode) (k_world (mounted_state bitmap 9))).1 ∧ ¬ search_exhausted bitmap).
Proof.
  intros bitmap. apply (create_outcome LP64 64 (mounted_state bitmap 9) 5 1 420 false root_inode 1
    bitmap); reflexivity.
Defined.

(** With inode 9 taken and inode 10 free the search leaves the bitmap. *)
Example create_crashes :
  sjfs_iops_create LP64 64 5 1 420 false (mounted_state (replicate 1024 251) 9) = Stop OutOfBounds.
Proof. vm_compute. reflexivity. Qed.

Lemma unlink_outcome_witness :
  let bitmap := replicate 1024 255 in
  let s := mounted_state bitmap 9 in
  let run := sjfs_iops_unlink 5 1 s in
  (9 - 9 mod 8 < 1024 →
    ∃ t bitmap', run = kcall "simple_unlink" [KInode (Some 5%positive); KDentry (Some 1%positive)] t ∧
      ready t ∧ quiet s t ∧
      h_map (k_heap t) = delete 2%positive (<[1%positive := bitmap']> (h_map (k_heap s))) ∧
      length bitmap' = 1024%nat ∧
      ∀ k, 0 <= k → bitmap_bit bitmap' k = bitmap_bit bitmap k && negb (k =? touched_bit 9)) ∧
  (1024 <= 9 - 9 mod 8 → run = Stop OutOfBounds) ∧
  (touched_bit 9 = 9 ↔ 9 < 8).
Proof.
  intros bitmap s. apply (unlink_outcome s 5 1 6 1 2 (file_inode 9) root_inode bitmap);
    try reflexivity; try done; apply mounted_ready.
Defined.
