(* ===== verification/Super.v ===== *)
(** * Super block, file-system type and module levels of the kernel module
    ([kernel_space_module/sjfs.c])

    [sjfs_fill_super] with its loop over the data-block bitmaps and its error
    paths, [sjfs_mount], [sjfs_kill_sb], [sjfs_init] and [sjfs_exit].
    [sjfs_fill_super] is cut where the superblock has been fetched
    ([fill_super_from]) and where the root inode's disk structure is at hand
    ([attach_root]), so that each part has its own contract.  [mount_single], which
    calls [sjfs_fill_super] back, is the class [MountSingle] of [Vfs]. *)
From S2P Require Import Prelude CLayout Blocks Memory Kernel Env Connector Protocol DiskStructs Vfs Iops.

Definition sjfs_sops : optable :=
  [ ("drop_inode", "generic_delete_inode"); ("statfs", "simple_statfs");
    ("show_options", "generic_show_options") ].

Definition sjfs_fs_type : optable :=
  [ ("name", "sjfs"); ("mount", "sjfs_mount"); ("kill_sb", "sjfs_kill_sb") ].

Definition UMH_WAIT_EXEC : Z := 1.
Definition helper_argv : list string := ["/usr/local/bin/sjfs_helper"; "/tmp/sjfs.img"].

(** [inode->i_atime.tv_sec = at] and so on for the three times. *)
Definition with_secs (at_ mt ct : Z) (i : inode) : inode :=
  with_times (Timespec at_ (tv_nsec (i_atime i))) (Timespec mt (tv_nsec (i_mtime i)))
    (Timespec ct (tv_nsec (i_ctime i))) i.

Section super.
Context `{!Semaphore} {W : Type}
  `{!Allocator W, !Clock W, !Connector W, !Printf, !Vfs W, !MountSingle globals W}
  (a : abi) (MAX_LFS_FILESIZE : Z).
Abbreviation st := (kstate globals W).

(** A [long] of the platform. *)
Definition slong (z : Z) : Z := swrap (8 * Z.of_nat (ptr_size a)) z.

(** [i < datablocks_bitmaps_offset + disk_sb->datablock_blocks_count], in
    [unsigned long], with one block read per turn (lines 411 to 413). *)
Fixpoint load_bitmaps (fuel : nat) (disk_sb : ptr) (i offset : Z) : M st unit :=
  match fuel with
  | O => stop_with OutOfFuel
  | S f =>
      count ← load_member a disk_sb superblock_t "datablock_blocks_count";
      if size_t a i <? size_t a (offset + count) then
        cache ← get_glob datablocks_bitmaps_cache;
        _ ← sjfs_read_block a (u32 i) (ptr_add cache (s32 (s32 (i - offset) * SJFS_BLOCKSIZE)));
        load_bitmaps f disk_sb (i + 1) offset
      else mret tt
  end.

(** The root inode and dentry (lines 421 to 448). *)
Definition attach_root (sb : positive) (disk_root_inode : ptr) : M st Z :=
  inode ← alloc_inode sb;
  match inode with
  | None => mret (- ENOMEM)
  | Some ip =>
      upd_inode ip (with_ino 0) ;;
      upd_inode ip (with_op (Table "sjfs_root_dir_iops")) ;;
      upd_inode ip (with_fop (Table "sjfs_root_dir_fops")) ;;
      mode ← load_member a disk_root_inode inode_t "mode";
      upd_inode ip (with_mode mode) ;;
      uid ← load_member a disk_root_inode inode_t "uid";
      upd_inode ip (i_uid_write uid) ;;
      gid ← load_member a disk_root_inode inode_t "gid";
      upd_inode ip (i_gid_write gid) ;;
      size ← load_member a disk_root_inode inode_t "size";
      upd_inode ip (i_size_write (swrap 64 size)) ;;
      at_ ← load_member a disk_root_inode inode_t "atime";
      mt ← load_member a disk_root_inode inode_t "mtime";
      ct ← load_member a disk_root_inode inode_t "ctime";
      upd_inode ip (with_secs (slong at_) (slong mt) (slong ct)) ;;
      links ← load_member a disk_root_inode inode_t "links";
      upd_inode ip (set_nlink links) ;;
      blocks ← load_member a disk_root_inode inode_t "blocks";
      upd_inode ip (with_blocks blocks) ;;
      upd_inode ip (with_private disk_root_inode) ;;
      root ← world (d_make_root (Some ip));
      match root with
      | None => mret (- ENOMEM)
      | Some d => upd_super sb (with_root (Some d)) ;; mret 0
      end
  end.

(** Filling the caches and fetching the root's disk inode (lines 404 to 416). *)
Definition load_tables (disk_sb : ptr) : M st ptr :=
  inodes_bitmaps ← kmalloc SJFS_BLOCKSIZE;
  mod_glob (set_inodes_bitmaps_cache inodes_bitmaps) ;;
  _ ← sjfs_read_block a 1 inodes_bitmaps;
  count ← load_member a disk_sb superblock_t "datablock_blocks_count";
  datablocks_bitmaps ← kmalloc (size_t a (SJFS_BLOCKSIZE * count));
  mod_glob (set_datablocks_bitmaps_cache datablocks_bitmaps) ;;
  let datablocks_bitmaps_offset := 2 + SJFS_INODES_PER_BITMAP * 1 in
  load_bitmaps (S (Z.to_nat count)) disk_sb datablocks_bitmaps_offset datablocks_bitmaps_offset ;;
  sjfs_get_disk_inode a 0.

(** The rest once the superblock is in memory (lines 387 to 448). *)
Definition fill_super_from (sb : positive) (data : karg) (disk_sb : ptr) : M st Z :=
  upd_super sb (with_static 8 SJFS_BLOCKSIZE MAX_LFS_FILESIZE 1 (Table "sjfs_sops")) ;;
  magic ← load_member a disk_sb superblock_t "magic";
  if negb (magic =? SJFS_MAGIC) then mret (- ENOMEM) else
  upd_super sb (with_magic magic) ;;
  upd_super sb (with_fs_info disk_sb) ;;
  _ ← kcall "save_mount_options" [KObj "super_block" sb; data];
  disk_root_inode ← load_tables disk_sb;
  if is_null disk_root_inode then mret (- ENOMEM) else
  cache ← get_glob inodes_bitmaps_cache;
  byte ← load cache 1;
  if negb (truth (Z.shiftr (le_decode byte) 7)) then mret (- ENOMEM) else
  attach_root sb disk_root_inode.

Definition sjfs_fill_super (sb : positive) (data : karg) (silent : Z) : M st Z :=
  disk_sb ← sjfs_get_disk_superblock a;
  if is_null disk_sb then mret (- ENOMEM) else fill_super_from sb data disk_sb.

Definition release_nls : M st unit :=
  n ← get_glob nls;
  match nls_socket n with
  | Some sk => _ ← kcall "sock_release" [KObj "socket" sk]; mret tt
  | None => mret tt
  end.

Definition sjfs_mount (fs_type : string) (flags : Z) (dev_name : string) (data : karg) : M st dptr :=
  err ← world (cn_add_callback cn_id cn_name);
  if truth err then
    release_nls ;;
    mret DNull
  else mount_single fs_type flags data sjfs_fill_super.

Definition sjfs_kill_sb (sb : positive) : M st unit :=
  _ ← kcall "kill_litter_super" [KObj "super_block" sb];
  world_ (cn_del_callback cn_id) ;;
  release_nls.

Definition test_and_set_once : M st bool := test_and_set_bit0 once set_once.

Definition sjfs_init : M st Z :=
  busy ← test_and_set_once;
  if busy : bool then mret (- EBUSY) else
  mod_glob (set_cn_sem (sema_init 1)) ;;
  mod_glob (set_cb_sem (sema_init 1)) ;;
  _ ← kcall "call_usermodehelper" ((KStr <$> helper_argv) ++ [KNull; KInt UMH_WAIT_EXEC]);
  kcall "register_filesystem" [KStr "sjfs"].

Definition sjfs_exit : M st unit :=
  _ ← kcall "unregister_filesystem" [KStr "sjfs"];
  mret tt.

(** ** Specification *)

(** The in-memory root inode for a disk inode. *)
Definition root_of (p : ptr) (di : dinode) (i : inode) : inode :=
  with_private p (with_blocks (di_blocks di) (set_nlink (di_links di)
    (with_secs (slong (di_atime di)) (slong (di_mtime di)) (slong (di_ctime di))
      (i_size_write (swrap 64 (di_size di)) (i_gid_write (di_gid di) (i_uid_write (di_uid di)
        (with_mode (di_mode di) (with_fop (Table "sjfs_root_dir_fops")
          (with_op (Table "sjfs_root_dir_iops") (with_ino 0 i)))))))))).

(** The superblock after a successful body. *)
Definition super_of (magic : Z) (p : ptr) (x : super_block) : super_block :=
  with_fs_info p (with_magic magic
    (with_static 8 SJFS_BLOCKSIZE MAX_LFS_FILESIZE 1 (Table "sjfs_sops") x)).

(** The [count] data-block bitmaps, as the requests for their blocks reach the helper. *)
Definition data_bitmaps (disk : Z → list Z) (count : nat) : list Z :=
  mjoin ((λ k, disk (sent_address (2 + SJFS_INODES_PER_BITMAP + k))) <$> seqZ 0 (Z.of_nat count)).
End super.

(** ** Lemmas *)
Section super_lemmas.
Context `{!Semaphore, !SemaphoreLaws} {W : Type}
  `{!Allocator W, !Clock W, !Connector W, !Printf, !PrintfLaws, !Vfs W, !MountSingle globals W}
  (a : abi) (MAX_LFS_FILESIZE : Z).
Abbreviation st := (kstate globals W).
Implicit Types (s : st).

(** A scalar member of a structure on the heap. *)
Lemma load_member_encoded b fs vs name i f o v s :
  Forall2 (fits a) fs vs → x86 a →
  h_map (k_heap s) !! b = Some (encode_struct a fs vs) →
  find_field name (layout_from a 0 fs) = Some (f, o) →
  layout_from a 0 fs !! i = Some (f, o) → fcount f = 1%nat → vs !! i = Some [v] →
  load_member a (Ptr b 0) fs name s = Ok v s.
Proof.
  intros Hf Ha Hb Hn Hl Hc Hv. unfold load_member. rewrite Hn.
  erewrite bind_ok; [|reflexivity]. cbn [fst snd ptr_add]. rewrite Z.add_0_l.
  pose proof (list_elem_of_lookup_2 _ _ _ Hl) as Hin.
  apply (layout_from_bounds a Ha) in Hin as [_ Hend].
  pose proof (sizeof_ge a fs). pose proof (length_encode_struct a Ha fs vs Hf) as Hlen.
  unfold fsize in Hend. rewrite Hc in Hend.
  erewrite bind_ok; [|apply (load_ok (S:=st)); [exact Hb|unfold in_bounds; lia]].
  rewrite !Nat2Z.id. pose proof (encoded_member a Ha fs vs [] i f o v Hf Hl Hc Hv) as Hm.
  rewrite app_nil_r in Hm. by rewrite Hm.
Qed.

Lemma load_magic d sbv s :
  x86 a → superblock_ok a sbv → h_map (k_heap s) !! d = Some (encode_superblock a sbv) →
  load_member a (Ptr d 0) superblock_t "magic" s = Ok (sb_magic sbv) s.
Proof.
  intros Ha Hok Hd. eapply (load_member_encoded d _ _ _ 5); [exact Hok|exact Ha|exact Hd|..]; reflexivity.
Qed.

Lemma load_count d sbv s :
  x86 a → superblock_ok a sbv → h_map (k_heap s) !! d = Some (encode_superblock a sbv) →
  load_member a (Ptr d 0) superblock_t "datablock_blocks_count" s
  = Ok (sb_datablock_blocks_count sbv) s.
Proof.
  intros Ha Hok Hd. eapply (load_member_encoded d _ _ _ 1); [exact Hok|exact Ha|exact Hd|..]; reflexivity.
Qed.

(** The members of the disk inode [attach_root] reads, by name. *)
Definition dinode_member (name : string) (di : dinode) : option Z :=
  (list_to_map [("mode", di_mode di); ("uid", di_uid di); ("gid", di_gid di);
    ("size", di_size di); ("atime", di_atime di); ("ctime", di_ctime di);
    ("mtime", di_mtime di); ("links", di_links di); ("blocks", di_blocks di)]
    : gmap string Z) !! name.

Lemma load_dinode p di name v s :
  x86 a → inode_ok a di → h_map (k_heap s) !! p = Some (encode_inode a di) →
  dinode_member name di = Some v →
  load_member a (Ptr p 0) inode_t name s = Ok v s.
Proof.
  intros Ha Hok Hp Hv.
  assert (∃ i f o, find_field name (layout_from a 0 inode_t) = Some (f, o) ∧
    layout_from a 0 inode_t !! i = Some (f, o) ∧ fcount f = 1%nat ∧
    dinode_values di !! i = Some [v]) as (i & f & o & Hf & Hl & Hc & Hi).
  { unfold dinode_member in Hv. apply elem_of_list_to_map_2 in Hv. rewrite !elem_of_cons in Hv.
    destruct Hv as [[= -> ->]|[[= -> ->]|[[= -> ->]|[[= -> ->]|[[= -> ->]|[[= -> ->]|
      [[= -> ->]|[[= -> ->]|[[= -> ->]|Hv]]]]]]]]]; [exists 0%nat|exists 1%nat|exists 2%nat|
      exists 3%nat|exists 4%nat|exists 5%nat|exists 6%nat|exists 7%nat|exists 8%nat|
      by apply elem_of_nil in Hv].
    all: eexists _, _; (split; [reflexivity|]); split; [reflexivity|split; reflexivity]. }
  by eapply load_member_encoded.
Qed.

(** The loop over the data-block bitmaps fills its buffer and stops. *)
Lemma load_bitmaps_ok disk `{!Helper disk} (m : nat) : ∀ (f k : nat) d dm sbv pre rest s,
  x86 a → superblock_ok a sbv → ready s → d ≠ dm →
  h_map (k_heap s) !! d = Some (encode_superblock a sbv) →
  h_map (k_heap s) !! dm = Some (pre ++ rest) →
  datablocks_bitmaps_cache (k_glob s) = Ptr dm 0 →
  sb_datablock_blocks_count sbv = Z.of_nat (k + m) → 1024 * Z.of_nat (k + m) < 2 ^ 31 →
  length pre = (1024 * k)%nat → length rest = (1024 * m)%nat → (m < f)%nat →
  let off := 2 + SJFS_INODES_PER_BITMAP * 1 in
  ∃ s', load_bitmaps a f (Ptr d 0) (off + Z.of_nat k) off s = Ok tt s' ∧ ready s' ∧ quiet s s' ∧
    h_map (k_heap s') = <[dm := pre ++
      mjoin ((λ j, disk (sent_address (off + j))) <$> seqZ (Z.of_nat k) (Z.of_nat m))]>
      (h_map (k_heap s)).
Proof.
  induction m as [|m IH]; intros f k d dm sbv pre rest s Ha Hok Hr Hne Hd Hdm Hc Hcnt Hsmall
    Hpre Hrest Hf off; (destruct f as [|f]; [lia|]); cbn [load_bitmaps].
  - rewrite (bind_ok _ _ _ _ _ (load_count d sbv s Ha Hok Hd)). rewrite Hcnt, Nat.add_0_r.
    rewrite Z.ltb_irrefl. exists s. split; [reflexivity|]. split; [done|]. split; [done|].
    apply nil_length_inv in Hrest as ->. rewrite seqZ_nil by lia. cbn. by rewrite insert_id.
  - rewrite (bind_ok _ _ _ _ _ (load_count d sbv s Ha Hok Hd)), Hcnt.
    assert (0 <= off <= 10000) as Hoff by (vm_compute; split; congruence).
    assert (off + Z.of_nat (k + S m) < 2 ^ 32) by lia.
    rewrite !size_t_small by (done || lia).
    rewrite (proj2 (Z.ltb_lt _ _)) by lia.
    erewrite bind_ok; [|reflexivity]. cbv beta. rewrite Hc. cbn [ptr_add].
    rewrite Z.add_0_l. replace (off + Z.of_nat k - off) with (Z.of_nat k) by lia.
    rewrite (s32_id (Z.of_nat k)), s32_id by (unfold SJFS_BLOCKSIZE; lia).
    unfold u32. rewrite wrap_id by lia.
    destruct (read_block_from_disk a disk s (off + Z.of_nat k) dm (Z.of_nat k * SJFS_BLOCKSIZE)
      (pre ++ rest)) as (s1 & Hrun & Hr1 & Hq1 & Hm1 & _); [done|lia|done| |].
    { unfold in_bounds, SJFS_BLOCKSIZE. rewrite length_app, Hpre, Hrest. lia. }
    rewrite (bind_ok _ _ _ _ _ Hrun).
    set (blk := disk (sent_address (off + Z.of_nat k))) in *.
    assert (length blk = 1024%nat) as Hblk by apply (helper_block (disk:=disk)).
    rewrite splice_app_at in Hm1 by (unfold SJFS_BLOCKSIZE; lia). rewrite Hblk in Hm1.
    replace (off + Z.of_nat k + 1) with (off + Z.of_nat (S k)) by lia.
    destruct (IH f (S k) d dm sbv (pre ++ blk) (drop 1024 rest) s1)
      as (s2 & Hrun2 & Hr2 & Hq2 & Hm2); try done.
    + by rewrite Hm1, lookup_insert_ne.
    + rewrite Hm1, lookup_insert_eq. by rewrite <-app_assoc.
    + by rewrite (quiet_datablocks_cache _ _ Hq1).
    + rewrite Hcnt. f_equal. lia.
    + lia.
    + rewrite length_app. lia.
    + rewrite length_drop. lia.
    + lia.
    + exists s2. split; [exact Hrun2|]. split; [done|]. split; [by transitivity s1|].
      rewrite Hm2, Hm1, insert_insert_eq. f_equal. rewrite <-app_assoc. f_equal.
      rewrite (seqZ_cons (Z.of_nat k)) by lia. cbn [fmap list_fmap mjoin list_join].
      f_equal. do 3 f_equal; lia.
Qed.

Lemma release_nls_none s : nls (k_glob s) = None → release_nls s = Ok tt s.
Proof. intros Hn. unfold release_nls, get_glob, gets, mbind, M_bind. by rewrite Hn. Qed.

Lemma byte_shiftr_7 b : 0 <= b < 256 → truth (Z.shiftr b 7) = Z.testbit b 7.
Proof.
  intros Hb. unfold truth. rewrite Z.testbit_odd.
  assert (Z.shiftr b 7 = 0 ∨ Z.shiftr b 7 = 1) as [-> | ->]; [|done..].
  rewrite Z.shiftr_div_pow2 by lia. change (2 ^ 7) with 128.
  pose proof (Z.div_pos b 128). pose proof (Z.div_lt_upper_bound b 128 2). lia.
Qed.

(** Updating an inode the state was built with. *)
Lemma upd_inode_at ip f i m s :
  upd_inode ip f (with_inodes (<[ip := i]> m) s) = Ok tt (with_inodes (<[ip := f i]> m) s).
Proof.
  unfold upd_inode, get_inode, modify, mbind, M_bind. cbn. rewrite lookup_insert_eq. cbn.
  by rewrite insert_insert_eq.
Qed.

Lemma attach_root_ok sb p di s i w1 x :
  x86 a → inode_ok a di → h_map (k_heap s) !! p = Some (encode_inode a di) →
  k_supers s !! sb = Some x → new_inode sb (k_world s) = (Some i, w1) →
  let ip := k_next_inode s in
  let r := d_make_root (Some ip) w1 in
  let t := with_world r.2 (with_next_inode (Pos.succ ip)
    (with_inodes (<[ip := root_of a (Ptr p 0) di i]> (k_inodes s)) s)) in
  attach_root a sb (Ptr p 0) s
  = match r.1 with
    | None => Ok (- ENOMEM) t
    | Some d => Ok 0 (with_supers (<[sb := with_root (Some d) x]> (k_supers s)) t)
    end.
Proof.
  intros Ha Hok Hp Hx Hi ip r t. unfold attach_root.
  rewrite (bind_ok _ _ _ _ _ (alloc_inode_ok _ _ _ _ Hi)). cbv iota. fold ip.
  set (s1 := with_next_inode (Pos.succ ip) (with_world w1 s)).
  change (with_next_inode (Pos.succ ip) (with_inodes (<[ip:=i]> (k_inodes s)) (with_world w1 s)))
    with (with_inodes (<[ip:=i]> (k_inodes s)) s1).
  assert (∀ name v m, dinode_member name di = Some v →
    load_member a (Ptr p 0) inode_t name (with_inodes m s1) = Ok v (with_inodes m s1)) as Hload.
  { intros name v m Hv. by apply (load_dinode p di name). }
  repeat first
    [ rewrite (bind_ok _ _ _ _ _ (upd_inode_at _ _ _ _ _))
    | erewrite (bind_ok (load_member _ _ _ _)); [|apply Hload; reflexivity] ].
  rewrite (bind_ok _ _ _ _ _ (world_eq _ _)). cbn [k_world with_inodes s1 with_next_inode with_world].
  fold r. fold (root_of a (Ptr p 0) di i). destruct r.1 as [d|]; [|reflexivity].
  erewrite bind_ok; [|unfold upd_super, get_super, mbind, M_bind; cbn; rewrite Hx; reflexivity].
  reflexivity.
Qed.

(** All requests answered, the caches hold the blocks asked for. *)
Lemma load_tables_ok disk `{!Helper disk} s d sbv :
  x86 a → ready s → superblock_ok a sbv →
  h_map (k_heap s) !! d = Some (encode_superblock a sbv) →
  1024 * sb_datablock_blocks_count sbv < 2 ^ 31 →
  ∃ t bm dm p, load_tables a (Ptr d 0) s = Ok (Ptr p 0) t ∧ ready t ∧ k_supers t = k_supers s ∧
    inodes_bitmaps_cache (k_glob t) = Ptr bm 0 ∧ h_map (k_heap t) !! bm = Some (disk 1) ∧
    datablocks_bitmaps_cache (k_glob t) = Ptr dm 0 ∧
    h_map (k_heap t) !! dm
      = Some (data_bitmaps disk (Z.to_nat (sb_datablock_blocks_count sbv))) ∧
    h_map (k_heap t) !! p = Some (take (sizeof a inode_t) (disk 2)) ∧
    h_map (k_heap t) !! d = Some (encode_superblock a sbv).
Proof.
  intros Ha Hr Hok Hd Hsmall. set (count := sb_datablock_blocks_count sbv) in *.
  assert (0 <= count) as Hcount.
  { unfold superblock_ok in Hok. apply Forall2_cons_1 in Hok as [_ Hok].
    apply Forall2_cons_1 in Hok as [[_ Hf] _]. apply Forall_cons_1 in Hf as [Hf _].
    unfold count. lia. }
  pose proof (ready_fresh s d Hr (ex_intro _ _ Hd)) as Hdf.
  (* the inode bitmap *)
  destruct (kmalloc_available disk SJFS_BLOCKSIZE s) as (bs1 & w1 & Hk1 & Hl1).
  set (bm := h_next (k_heap s)) in *.
  set (s1 := with_glob (set_inodes_bitmaps_cache (Ptr bm 0) (k_glob s))
    (with_kheap (heap_alloc bs1 (k_heap s)) (with_world w1 s))).
  assert (ready s1) as Hr1 by (apply (ready_alloc bs1 w1 s); done).
  destruct (read_block_from_disk a disk s1 1 bm 0 bs1) as (s2 & Hrun2 & Hr2 & Hq2 & Hm2 & _);
    [done|lia|apply lookup_insert_eq|unfold in_bounds; rewrite Hl1; by vm_compute|].
  rewrite splice_full in Hm2 by (rewrite Hl1; apply (helper_block (disk:=disk))).
  change (sent_address 1) with 1 in Hm2. cbn in Hm2. rewrite insert_insert_eq in Hm2.
  assert (h_map (k_heap s2) !! d = Some (encode_superblock a sbv)) as Hd2
    by (rewrite Hm2, lookup_insert_ne by (intros ?; lia); done).
  assert (h_map (k_heap s2) !! bm = Some (disk 1)) as Hbm2 by (rewrite Hm2; apply lookup_insert_eq).
  (* the data-block bitmaps *)
  destruct (kmalloc_available disk (size_t a (SJFS_BLOCKSIZE * count)) s2)
    as (bs3 & w3 & Hk3 & Hl3).
  rewrite size_t_small in Hl3 by (done || unfold SJFS_BLOCKSIZE; lia).
  set (dm := h_next (k_heap s2)) in *.
  pose proof (ready_fresh s2 bm Hr2 (ex_intro _ _ Hbm2)) as Hbf.
  pose proof (ready_fresh s2 d Hr2 (ex_intro _ _ Hd2)) as Hdf2. fold dm in Hbf, Hdf2.
  set (s3 := with_glob (set_datablocks_bitmaps_cache (Ptr dm 0) (k_glob s2))
    (with_kheap (heap_alloc bs3 (k_heap s2)) (with_world w3 s2))).
  assert (ready s3) as Hr3 by (apply (ready_alloc bs3 w3 s2); done).
  destruct (load_bitmaps_ok disk (Z.to_nat count) (S (Z.to_nat count)) 0 d dm sbv [] bs3 s3)
    as (s4 & Hrun4 & Hr4 & Hq4 & Hm4); try done.
  { intros ?. lia. }
  { cbn. by rewrite lookup_insert_ne by (intros ?; lia). }
  { apply lookup_insert_eq. }
  { fold count. lia. }
  { lia. }
  { unfold SJFS_BLOCKSIZE in Hl3. lia. }
  { lia. }
  rewrite Z.add_0_r in Hrun4. cbn in Hm4. rewrite insert_insert_eq in Hm4.
  (* the root's disk inode *)
  destruct (get_inode_read a disk s4 0) as (s5 & p & leak & Hrun5 & Hr5 & Hq5 & Hp & Hlk & Hpl & Hm5);
    [done|done| |].
  { pose proof (sizeof_inode_bounds a Ha). unfold in_first_block, SJFS_BLOCKSIZE. lia. }
  exists s5, bm, dm, p. split; [|split; [done|]].
  { unfold load_tables. rewrite (bind_ok _ _ _ _ _ Hk1).
    erewrite bind_ok; [|reflexivity]. fold s1. rewrite (bind_ok _ _ _ _ _ Hrun2).
    rewrite (bind_ok _ _ _ _ _ (load_count d sbv s2 Ha Hok Hd2)). fold count.
    rewrite (bind_ok _ _ _ _ _ Hk3). erewrite bind_ok; [|reflexivity]. fold s3.
    cbv zeta. rewrite (bind_ok _ _ _ _ _ Hrun4). exact Hrun5. }
  assert (∀ b v, h_map (k_heap s4) !! b = Some v → h_map (k_heap s5) !! b = Some v) as Hkeep.
  { intros b v Hb. rewrite Hm5, !lookup_insert_ne; [done|..]; intros <-; congruence. }
  split; [|split; [|split; [|split; [|split; [|split]]]]].
  - etrans; [apply Hq5|]. etrans; [apply Hq4|]. apply Hq2.
  - etrans; [apply Hq5|]. etrans; [apply Hq4|]. apply Hq2.
  - apply Hkeep. by rewrite Hm4, lookup_insert_ne by (intros ?; lia).
  - etrans; [apply Hq5|]. apply Hq4.
  - apply Hkeep. rewrite Hm4. apply lookup_insert_eq.
  - rewrite Hm5, lookup_insert_eq. unfold sizeof_inode. rewrite Nat2Z.id.
    replace (spec_offset a 0) with 0 by reflexivity. by rewrite drop_0.
  - apply Hkeep. by rewrite Hm4, lookup_insert_ne by (intros ?; lia).
Qed.
End super_lemmas.

(** ** Properties *)
Section super_properties.
Context `{!Semaphore, !SemaphoreLaws} {W : Type}
  `{!Allocator W, !Clock W, !Connector W, !Printf, !PrintfLaws, !Vfs W, !MountSingle globals W}
  (a : abi) (MAX_LFS_FILESIZE : Z).
Abbreviation st := (kstate globals W).
Implicit Types (s : st).

Lemma fill_super_fails sb data silent s :
  heap_wf (k_heap s) → globals_ok (k_glob s) →
  wp (sjfs_fill_super a MAX_LFS_FILESIZE sb data silent) (λ r _, r = - ENOMEM) conn_stop s.
Proof.
  intros Hwf Hg. unfold sjfs_fill_super. rewrite wp_bind.
  eapply wp_mono; [by apply get_superblock_fails| |done].
  intros p s' [-> _]. done.
Qed.

(** C8: The file system cannot be mounted: [sjfs_mount] returns NULL (the callback
    could not be registered), an error pointer, or not at all; never a dentry.
    The reason is the four-byte buffer of [sjfs_get_disk_superblock]. *)
Theorem mount_never_succeeds `{!MountLaws globals W} (s : st) (fs dev : string) (flags : Z)
    (data : karg) :
  not_mounted s → heap_wf (k_heap s) → globals_ok (k_glob s) →
  let err := (cn_add_callback cn_id cn_name (k_world s)).1 in
  wp (sjfs_mount a MAX_LFS_FILESIZE fs flags dev data)
    (λ r _, (err ≠ 0 ∧ r = DNull) ∨ (err = 0 ∧ ∃ e, r = ErrPtr e)) conn_stop s.
Proof.
  intros Hm Hwf Hg err. unfold sjfs_mount. rewrite wp_bind, wp_world. fold err.
  unfold truth. destruct (Z.eqb_spec err 0) as [He|He]; cbn [negb].
  - set (s0 := with_world _ s). unfold wp.
    destruct (mount_single_spec fs flags data (sjfs_fill_super a MAX_LFS_FILESIZE) s0 Hm)
      as [(e & s' & ->)|(sb & silent & s1 & Hh & Hgl & _ & Hrun)]; [eauto|].
    pose proof (fill_super_fails sb data silent s1) as Hf. rewrite Hh, Hgl in Hf.
    specialize (Hf Hwf Hg). unfold wp in Hf.
    destruct (sjfs_fill_super _ _ _ _ _ s1) as [e s2|r]; [|by rewrite Hrun].
    destruct Hrun as (r & s3 & -> & Herr & _). right. split; [done|].
    exists e. apply Herr. by rewrite Hf.
  - unfold release_nls. rewrite !wp_bind, wp_get_glob.
    destruct (nls_socket _) as [sk|]; [rewrite wp_bind, wp_kcall|];
      [destruct (kernel_call _ _ _ _) as [? [??]]|]; rewrite ?wp_ret; by left.
Qed.

(** C10: The root inode.  From the disk inode at hand, [attach_root] makes the
    in-memory root: number 0, the root operations, and mode, owner, size, times,
    links and blocks of the disk inode; it becomes the root of the superblock
    exactly when the VFS provides an inode and a root dentry, and each failure is
    reported as [-ENOMEM]. *)
Theorem root_inode_attached (s : st) (sb p : positive) (x : super_block) (di : dinode) :
  x86 a → inode_ok a di → h_map (k_heap s) !! p = Some (encode_inode a di) →
  k_supers s !! sb = Some x →
  match new_inode sb (k_world s) with
  | (None, w1) => attach_root a sb (Ptr p 0) s = Ok (- ENOMEM) (with_world w1 s)
  | (Some i, w1) =>
      let ip := k_next_inode s in
      let r := d_make_root (Some ip) w1 in
      let t := with_world r.2 (with_next_inode (Pos.succ ip)
        (with_inodes (<[ip := root_of a (Ptr p 0) di i]> (k_inodes s)) s)) in
      attach_root a sb (Ptr p 0) s
      = match r.1 with
        | None => Ok (- ENOMEM) t
        | Some d => Ok 0 (with_supers (<[sb := with_root (Some d) x]> (k_supers s)) t)
        end
  end.
Proof.
  intros Ha Hok Hp Hx. destruct (new_inode sb (k_world s)) as [[i|] w1] eqn:Hi.
  - by apply attach_root_ok.
  - unfold attach_root. by rewrite (bind_ok _ _ _ _ _ (alloc_inode_null _ _ _ Hi)).
Qed.

(** C9: Mounting from a superblock in memory.  With a working helper and a valid
    superblock the body of [sjfs_fill_super] loads the inode bitmap (block 1), one
    block for each of the [datablock_blocks_count] data-block bitmaps - the ones
    the truncated requests name - and the root's disk inode, fills in the
    superblock, and then goes on to attach the root if bit 7 of the bitmap is set
    (the root inode has number 0, so bit 0 was meant); otherwise it reports
    [-ENOMEM].  The loop's fuel is enough. *)
Theorem fill_super_from_valid (disk : Z → list Z) `{!Helper disk} (s : st) (sb d : positive)
    (x : super_block) (sbv : superblock) (di : dinode) (data : karg) :
  x86 a → ready s → k_supers s !! sb = Some x →
  superblock_ok a sbv → h_map (k_heap s) !! d = Some (encode_superblock a sbv) →
  sb_magic sbv = SJFS_MAGIC → 1024 * sb_datablock_blocks_count sbv < 2 ^ 31 →
  Forall is_byte (disk 1) →
  inode_ok a di → take (sizeof a inode_t) (disk 2) = encode_inode a di →
  ∃ t bm dm p,
    fill_super_from a MAX_LFS_FILESIZE sb data (Ptr d 0) s
    = (if bitmap_bit (disk 1) 7 then attach_root a sb (Ptr p 0) else mret (- ENOMEM)) t ∧
    ready t ∧
    k_supers t = <[sb := super_of MAX_LFS_FILESIZE SJFS_MAGIC (Ptr d 0) x]> (k_supers s) ∧
    inodes_bitmaps_cache (k_glob t) = Ptr bm 0 ∧ h_map (k_heap t) !! bm = Some (disk 1) ∧
    datablocks_bitmaps_cache (k_glob t) = Ptr dm 0 ∧
    h_map (k_heap t) !! dm
      = Some (data_bitmaps disk (Z.to_nat (sb_datablock_blocks_count sbv))) ∧
    h_map (k_heap t) !! p = Some (encode_inode a di) ∧
    h_map (k_heap t) !! d = Some (encode_superblock a sbv).
Proof.
  intros Ha Hr Hx Hok Hd Hmagic Hsmall Hbytes Hdi Hroot.
  set (x' := super_of MAX_LFS_FILESIZE SJFS_MAGIC (Ptr d 0) x).
  set (k := kernel_call "save_mount_options" [KObj "super_block" sb; data] (k_inodes s) (k_world s)).
  set (s1 := with_world k.2.2 (with_inodes k.2.1 (with_supers (<[sb := x']> (k_supers s)) s))).
  destruct (load_tables_ok a disk s1 d sbv Ha Hr Hok Hd Hsmall)
    as (t & bm & dm & p & Hrun & Hrt & Hsup & Hbm & Hbmc & Hdm & Hdmc & Hp & Hdt).
  rewrite Hroot in Hp. exists t, bm, dm, p. split; [|done].
  unfold fill_super_from.
  rewrite (bind_ok _ _ _ _ _ (upd_super_ok _ _ _ _ Hx)).
  erewrite bind_ok; [|by apply (load_magic a d sbv)]. rewrite Hmagic, Z.eqb_refl. cbn [negb].
  erewrite bind_ok; [|apply upd_super_ok, lookup_insert_eq].
  erewrite bind_ok; [|apply upd_super_ok, lookup_insert_eq].
  cbn [k_supers with_supers]. rewrite !insert_insert_eq.
  erewrite bind_ok; [|apply kcall_eq]. fold k s1.
  rewrite (bind_ok _ _ _ _ _ Hrun). cbn [is_null].
  erewrite bind_ok; [|reflexivity]. cbv beta. rewrite Hbm.
  pose proof (helper_block (disk:=disk) 1) as Hlen.
  erewrite bind_ok; [|eapply load_ok; [exact Hbmc|unfold in_bounds; lia]].
  destruct (disk 1) as [|b l] eqn:Hb1; [done|]. apply Forall_cons_1 in Hbytes as [Hbyte _].
  change (Z.to_nat 1) with 1%nat. rewrite drop_0. cbn [take le_decode].
  rewrite Z.mul_0_r, Z.add_0_r, byte_shiftr_7 by done.
  change (bitmap_bit (b :: l) 7) with (Z.testbit b 7). by destruct (Z.testbit b 7).
Qed.

(** A superblock whose magic number is not [SJFS_MAGIC] is refused with
    [-ENOMEM] before anything is read or allocated; only the static members of the
    superblock have been set. *)
Theorem fill_super_bad_magic (s : st) (sb d : positive) (x : super_block) (sbv : superblock)
    (data : karg) :
  x86 a → k_supers s !! sb = Some x →
  superblock_ok a sbv → h_map (k_heap s) !! d = Some (encode_superblock a sbv) →
  sb_magic sbv ≠ SJFS_MAGIC →
  fill_super_from a MAX_LFS_FILESIZE sb data (Ptr d 0) s
  = Ok (- ENOMEM) (with_supers (<[sb := with_static 8 SJFS_BLOCKSIZE MAX_LFS_FILESIZE 1
      (Table "sjfs_sops") x]> (k_supers s)) s).
Proof.
  intros Ha Hx Hok Hd Hm. unfold fill_super_from.
  rewrite (bind_ok _ _ _ _ _ (upd_super_ok _ _ _ _ Hx)).
  erewrite bind_ok; [|by apply (load_magic a d sbv)].
  by rewrite (proj2 (Z.eqb_neq _ _) Hm).
Qed.

(** C38: [sjfs_init] runs at most once: the first call opens both semaphores with one
    unit each, starts the helper and returns what [register_filesystem] does, which
    leaves the socket level ready; every later call reports [-EBUSY] and changes
    nothing. *)
Theorem init_once (s : st) :
  ∃ r t, sjfs_init s = Ok r t ∧ sjfs_init t = Ok (- EBUSY) t ∧
    (Z.testbit (once (k_glob s)) 0 = true → r = - EBUSY ∧ t = s) ∧
    (Z.testbit (once (k_glob s)) 0 = false → k_heap t = k_heap s ∧
       (heap_wf (k_heap s) → globals_ok (k_glob s) → ready t) ∧
       ∃ m w, r = (kernel_call "register_filesystem" [KStr "sjfs"] m w).1).
Proof.
  assert (∀ t : st, Z.testbit (once (k_glob t)) 0 = true → sjfs_init t = Ok (- EBUSY) t) as Hbusy.
  { intros t Ht. unfold sjfs_init, test_and_set_once, test_and_set_bit0, get_glob, gets, mod_glob, modify, mbind, M_bind.
    rewrite Ht. cbn. rewrite lor_1_odd by done. by destruct t as [????[]]. }
  destruct (Z.testbit (once (k_glob s)) 0) eqn:Ho.
  - exists (- EBUSY), s. rewrite !Hbusy by done. done.
  - set (g := set_cb_sem (sema_init 1) (set_cn_sem (sema_init 1)
      (set_once (Z.lor (once (k_glob s)) 1) (k_glob s)))).
    set (k := kernel_call "call_usermodehelper"
      ((KStr <$> helper_argv) ++ [KNull; KInt UMH_WAIT_EXEC]) (k_inodes s) (k_world s)).
    set (k2 := kernel_call "register_filesystem" [KStr "sjfs"] k.2.1 k.2.2).
    exists k2.1, (with_world k2.2.2 (with_inodes k2.2.1 (with_glob g s))).
    split; [|split; [|split; [done|]]].
    + unfold sjfs_init, test_and_set_once, test_and_set_bit0.
      erewrite bind_ok; [|reflexivity]. cbv beta. rewrite Ho.
      erewrite bind_ok; [|reflexivity]. erewrite bind_ok; [|reflexivity].
      erewrite bind_ok; [|apply kcall_eq]. rewrite kcall_eq. reflexivity.
    + apply Hbusy. change (Z.testbit (Z.lor (once (k_glob s)) 1) 0 = true).
      by rewrite Z.lor_spec, Ho.
    + intros _. split; [done|]. split; [|by exists k.2.1, k.2.2].
      intros Hwf Hg. split; [done|]. split; [done|].
      by split; cbn; rewrite sem_count_init.
Qed.
End super_properties.

(** ** Witnesses *)

Definition fresh_super : super_block := SuperBlk 0 0 0 0 NoTable 0 Null None.

(** A [mount_single] that makes superblock 1. *)
#[export] Instance sim_mount_single {W} : MountSingle globals W := {|
  mount_single fs flags data fill s :=
    match fill 1%positive data 0 (with_supers (<[1%positive := fresh_super]> (k_supers s)) s) with
    | Stop r => Stop r
    | Ok e s2 =>
        Ok (if decide (e = 0) then
              match k_supers s2 !! 1%positive with
              | Some x => match s_root x with Some d => Dentry d | None => DNull end
              | None => DNull
              end
            else ErrPtr e) s2
    end |}.

#[export] Instance sim_mount_laws {W} : MountLaws globals W.
Proof.
  constructor. intros fs flags data fill s _. right.
  exists 1%positive, 0, (with_supers (<[1%positive := fresh_super]> (k_supers s)) s).
  split; [done|]. split; [done|]. split; [cbn; rewrite lookup_insert_eq; eauto|].
  cbn -[with_supers]. destruct (fill _ _ _ _) as [e s2|r]; [|done].
  eexists _, _. split; [reflexivity|]. split; [intros; by rewrite decide_False|].
  intros x d -> Hx Hr. by rewrite decide_True, Hx, Hr.
Defined.

Lemma mount_never_succeeds_witness :
  let err := (cn_add_callback cn_id cn_name (k_world (demo_state sim0))).1 in
  wp (sjfs_mount LP64 0 "sjfs" 0 "none" KNull)
    (λ r _, (err ≠ 0 ∧ r = DNull) ∨ (err = 0 ∧ ∃ e, r = ErrPtr e)) conn_stop
    (demo_state sim0).
Proof.
  intros err.
  refine (mount_never_succeeds LP64 0 (demo_state sim0) "sjfs" "none" 0 KNull _ _ _);
    [|apply demo_heap_wf|reflexivity].
  intros sb x Hx. cbn in Hx. by rewrite lookup_empty in Hx.
Defined.

Definition demo_dinode : dinode :=
  DInode 16877 0 0 4096 10 11 12 2 8 (replicate 12 0) 0 0 (replicate 25 0).
Definition demo_superblock (magic : Z) : superblock := SuperBlock 1 2 0 0 0 magic 0 (replicate 1001 0).

(** A superblock, and a heap with a disk inode (block 1) or a superblock (block 2). *)
Definition super_heap (magic : Z) : heap :=
  Heap 3 (<[1%positive := encode_inode LP64 demo_dinode]>
    {[2%positive := encode_superblock LP64 (demo_superblock magic)]}).
Definition super_state {W} (magic : Z) (w : W) : kstate globals W :=
  KState (super_heap magic) ∅ 1 {[1%positive := fresh_super]} demo_globals w [].

Lemma demo_dinode_ok : inode_ok LP64 demo_dinode.
Proof. apply (bool_decide_unpack _). vm_compute. exact I. Qed.
Lemma demo_superblock_ok : superblock_ok LP64 (demo_superblock SJFS_MAGIC).
Proof. apply (bool_decide_unpack _). vm_compute. exact I. Qed.

Lemma root_inode_attached_witness :
  let s := super_state SJFS_MAGIC sim0 in
  attach_root LP64 1 (Ptr 1 0) s
  = Ok 0 (with_supers (<[1%positive := with_root (Some 1%positive) fresh_super]> (k_supers s))
      (with_world sim0 (with_next_inode 2
        (with_inodes (<[1%positive := root_of LP64 (Ptr 1 0) demo_dinode (fresh_inode 1)]> ∅) s)))).
Proof.
  intros s.
  exact (root_inode_attached LP64 s 1 1 fresh_super demo_dinode (or_introl eq_refl)
    demo_dinode_ok eq_refl eq_refl).
Defined.

Lemma fill_super_bad_magic_witness :
  let s := super_state 7 sim0 in
  fill_super_from LP64 99 1 KNull (Ptr 2 0) s
  = Ok (- ENOMEM) (with_supers (<[1%positive := with_static 8 SJFS_BLOCKSIZE 99 1
      (Table "sjfs_sops") fresh_super]> (k_supers s)) s).
Proof.
  intros s. apply (fill_super_bad_magic LP64 99 s 1 2 fresh_super (demo_superblock 7) KNull);
    [by left|reflexivity| |reflexivity|done].
  apply (bool_decide_unpack _). vm_compute. exact I.
Defined.


(** A formatted disk with the root's bit and two data-block bitmaps, behind a helper
    that answers, in a kernel whose VFS grants every inode. *)
Definition formatted (n : Z) : list Z :=
  if decide (n = 2) then encode_inode LP64 demo_dinode ++ replicate 824 0 else replicate 1024 255.

Lemma length_formatted n : length (formatted n) = 1024%nat.
Proof. unfold formatted. by case_decide. Qed.

#[export] Instance served_vfs : Vfs served := {|
  new_inode sb w := (Some (fresh_inode sb), w);
  get_next_ino w := (1, w);
  inode_init_owner _ mode i := with_owner mode 0 0 i;
  inc_nlink i := with_nlink (u32 (i_nlink i + 1)) i;
  set_nlink n i := with_nlink n i;
  i_uid_write u i := with_owner (i_mode i) u (i_gid i) i;
  i_gid_write g i := with_owner (i_mode i) (i_uid i) g i;
  i_size_write _ i := i;
  init_special_inode mode _ i := with_mode mode i;
  d_instantiate _ _ w := w;
  dget _ w := w;
  d_inode _ _ := None;
  d_name _ _ := None;
  mapping_set_gfp_mask _ w := w;
  mapping_set_unevictable _ w := w;
  d_make_root o w := (o, w);
  kernel_call _ _ m w := (0, (m, w)) |}.

Lemma fill_super_from_valid_witness :
  let c := served_connector formatted in
  let s : kstate globals served := super_state SJFS_MAGIC (Served None) in
  ∃ t bm dm p,
    fill_super_from (Connector0:=c) LP64 99 1 KNull (Ptr 2 0) s
    = attach_root LP64 1 (Ptr p 0) t ∧
    ready t ∧
    k_supers t = <[1%positive := super_of 99 SJFS_MAGIC (Ptr 2 0) fresh_super]> (k_supers s) ∧
    inodes_bitmaps_cache (k_glob t) = Ptr bm 0 ∧ h_map (k_heap t) !! bm = Some (formatted 1) ∧
    datablocks_bitmaps_cache (k_glob t) = Ptr dm 0 ∧
    h_map (k_heap t) !! dm = Some (data_bitmaps formatted 2) ∧
    h_map (k_heap t) !! p = Some (encode_inode LP64 demo_dinode) ∧
    h_map (k_heap t) !! 2%positive = Some (encode_superblock LP64 (demo_superblock SJFS_MAGIC)).
Proof.
  intros c s.
  apply (fill_super_from_valid (Connector0:=c) LP64 99 formatted
    (Helper0:=served_helper formatted length_formatted) s 1 2 fresh_super
    (demo_superblock SJFS_MAGIC) demo_dinode KNull);
    [by left| |reflexivity|apply demo_superblock_ok|reflexivity..|simpl; lia| |apply demo_dinode_ok|].
  - split; [|split; [reflexivity|done]]. intros b [v Hb]. cbn in Hb |- *.
    apply lookup_insert_Some in Hb as [[<- _]|[_ Hb]]; [lia|].
    apply lookup_singleton_Some in Hb as [<- _]. lia.
  - apply Forall_replicate. unfold is_byte. lia.
  - vm_compute. reflexivity.
Defined.
