(* ===== verification/ConnectorThreads.v ===== *)
(** * Interleavings at the socket level ([kernel_space_module/sjfs.c])

    [Connector] runs one reader at a time.  Here any number of threads are inside
    [sjfs_read_block] and [sjfs_write_block] while the connector runs callbacks: a
    configuration is the list of threads, each at a line of its function, and the
    shared variables; a step executes one line that touches a shared variable.  The
    environment is in three switches of the step relation: [answering] lets a helper
    answer a request on its way, once; [oom] lets [kzalloc] fail; [spurious] lets
    messages arrive that no request asked for (any process may send to the
    connector).  The user-space program of the repository has no code to answer
    ([UserApp]), so that its own system is [answering = false].

    With memory and without strangers the protocol is right: mutual exclusion, every
    returned reader has the block its request names, every run is finite.  Whether
    reads return depends on [answering] alone: with it all calls can return, without
    it no read ever does, and the first one to wait stops every other call.  Failing
    allocations and strangers break the protocol, in the two ways shown at the end.  A
    semaphore is its count (linux/semaphore.h). *)
From S2P Require Import Prelude CLayout Blocks Memory Kernel Env Connector Lock.

(** ** Program counters: the line about to be executed

    A reader is at [R...] while [m] may still be allocated or is; the lines of a call
    whose [kzalloc] has failed ([m] is NULL, so that the block of the [if] is skipped)
    are [N...]. *)
Inductive rpc : Set :=
  | R40 | R43 | R48 | R49 | R51 | R56 | R59 | R60 | R63 | R64 | RRet
  | N56 | N59 | N60 | N63 | N64 | NRet.
Inductive wpc : Set := W71 | W75 | WRet.
Inductive cpc : Set := C19 | C20 | C25 | C27.

(** A thread in [sjfs_read_block] with its parameter, the sequence number of its
    message and what it has copied out; a thread in [sjfs_write_block]. *)
Inductive thread : Type :=
  | Reader (pc : rpc) (address : Z) (seq : Z) (block : list Z)
  | Writer (pc : wpc).

(** The shared variables, the requests on their way to the helper, the callbacks
    running, and the (sequence number, address) pairs sent so far. *)
Record shared : Type := Shared {
  cn_sem : nat;
  cb_sem : nat;
  counter : Z;
  buffer : list Z;
  pending : list (list Z);
  callbacks : list (cpc * cn_msg);
  sent : list (Z * Z) }.

Record conf : Type := Conf { threads : list thread; sh : shared }.

Definition set_cn (n : nat) (s : shared) : shared :=
  Shared n (cb_sem s) (counter s) (buffer s) (pending s) (callbacks s) (sent s).
Definition set_cb (n : nat) (s : shared) : shared :=
  Shared (cn_sem s) n (counter s) (buffer s) (pending s) (callbacks s) (sent s).
Definition set_counter (z : Z) (s : shared) : shared :=
  Shared (cn_sem s) (cb_sem s) z (buffer s) (pending s) (callbacks s) (sent s).
Definition set_buffer (b : list Z) (s : shared) : shared :=
  Shared (cn_sem s) (cb_sem s) (counter s) b (pending s) (callbacks s) (sent s).
Definition set_pending (p : list (list Z)) (s : shared) : shared :=
  Shared (cn_sem s) (cb_sem s) (counter s) (buffer s) p (callbacks s) (sent s).
Definition set_callbacks (l : list (cpc * cn_msg)) (s : shared) : shared :=
  Shared (cn_sem s) (cb_sem s) (counter s) (buffer s) (pending s) l (sent s).
Definition log_sent (x : Z * Z) (s : shared) : shared :=
  Shared (cn_sem s) (cb_sem s) (counter s) (buffer s) (pending s) (callbacks s) (sent s ++ [x]).

(** One line of [sjfs_read_block]; [fails] is the outcome of [kzalloc]. *)
Definition reader_step (fails : bool) (pc : rpc) (address seq : Z) (block : list Z) (s : shared)
    : option (thread * shared) :=
  match pc with
  | R40 => Some (Reader (if fails then N56 else R43) address seq block, s)
  | R43 => Some (Reader R48 address (counter s) block, s)
  | R48 => n ← take_sem (cn_sem s); Some (Reader R49 address seq block, set_cn n s)
  | R49 => n ← take_sem (cb_sem s); Some (Reader R51 address seq block, set_cb n s)
  | R51 => Some (Reader R56 address seq block,
      log_sent (seq, address) (set_pending (pending s ++ [request_payload address]) s))
  | R56 => Some (Reader R59 address seq block, set_counter (u32 (counter s + 1)) s)
  | R59 => n ← take_sem (cb_sem s); Some (Reader R60 address seq block, set_cb n s)
  | R60 => Some (Reader R63 address seq block, set_cb (S (cb_sem s)) s)
  | R63 => Some (Reader R64 address seq (buffer s), s)
  | R64 => Some (Reader RRet address seq block, set_cn (S (cn_sem s)) s)
  | N56 => Some (Reader N59 address seq block, set_counter (u32 (counter s + 1)) s)
  | N59 => n ← take_sem (cb_sem s); Some (Reader N60 address seq block, set_cb n s)
  | N60 => Some (Reader N63 address seq block, set_cb (S (cb_sem s)) s)
  | N63 => Some (Reader N64 address seq (buffer s), s)
  | N64 => Some (Reader NRet address seq block, set_cn (S (cn_sem s)) s)
  | RRet | NRet => None
  end.

(** One line of [sjfs_write_block]. *)
Definition writer_step (pc : wpc) (s : shared) : option (thread * shared) :=
  match pc with
  | W71 => n ← take_sem (cn_sem s); Some (Writer W75, set_cn n s)
  | W75 => Some (Writer WRet, set_cn (S (cn_sem s)) s)
  | WRet => None
  end.

Definition thread_step (fails : bool) (t : thread) (s : shared) : option (thread * shared) :=
  match t with
  | Reader pc address seq block => reader_step fails pc address seq block s
  | Writer pc => writer_step pc s
  end.

(** One line of [cn_callback]; [None] as the program counter: it has returned. *)
Definition callback_step (pc : cpc) (msg : cn_msg) (s : shared) : option cpc * shared :=
  match pc with
  | C19 => match take_sem (cb_sem s) with
           | Some n => (Some C20, set_cb n s)
           | None => (Some C25, s)
           end
  | C20 => (None, set_cb (S (cb_sem s)) s)
  | C25 => (Some C27, set_buffer (received msg (buffer s)) s)
  | C27 => (None, set_cb (S (cb_sem s)) s)
  end.

(** Steps left in a thread, a callback and the whole configuration, at most. *)
Definition thread_weight (t : thread) : nat :=
  match t with
  | Reader pc _ _ _ =>
      match pc with
      | R40 => 20 | R43 => 19 | R48 => 18 | R49 => 17 | R51 => 16 | R56 => 10 | R59 => 9
      | R60 => 8 | R63 => 7 | R64 => 6 | RRet => 0
      | N56 => 5 | N59 => 4 | N60 => 3 | N63 => 2 | N64 => 1 | NRet => 0
      end
  | Writer pc => match pc with W71 => 2 | W75 => 1 | WRet => 0 end
  end%nat.
Definition callback_weight (k : cpc * cn_msg) : nat :=
  match k.1 with C19 => 3 | C25 => 2 | C20 | C27 => 1 end%nat.
Definition measure (c : conf) : nat :=
  (sum_list (thread_weight <$> threads c) + 4 * length (pending (sh c))
   + sum_list (callback_weight <$> callbacks (sh c)))%nat.

Section steps.
Context (serve : list Z → list Z).

(** The helper's answer to a request, a block; which one is up to the helper. *)
Definition answer (request : list Z) : cn_msg := CnMsg 14 0x456 0 0 1024 (serve request).

Inductive step (answering oom spurious : bool) : conf → conf → Prop :=
  | step_thread ts s i fails t t' s' :
      (fails = true → oom = true) →
      ts !! i = Some t → thread_step fails t s = Some (t', s') →
      step answering oom spurious (Conf ts s) (Conf (<[i := t']> ts) s')
  | step_reply ts s p1 r p2 :
      answering = true → pending s = p1 ++ r :: p2 →
      step answering oom spurious (Conf ts s)
        (Conf ts (set_callbacks (callbacks s ++ [(C19, answer r)]) (set_pending (p1 ++ p2) s)))
  | step_spurious ts s msg :
      spurious = true → msg_ok msg →
      step answering oom spurious (Conf ts s) (Conf ts (set_callbacks (callbacks s ++ [(C19, msg)]) s))
  | step_callback ts s c1 pc msg c2 pc' s' :
      callbacks s = c1 ++ (pc, msg) :: c2 →
      callback_step pc msg s = (pc', s') →
      step answering oom spurious (Conf ts s)
        (Conf ts (set_callbacks (c1 ++ match pc' with Some q => [(q, msg)] | None => [] end ++ c2) s')).

(** ** Initial configurations: all calls about to start *)
Definition starting (t : thread) : Prop :=
  match t with
  | Reader R40 address _ _ => 0 <= address < 2 ^ 32
  | Writer W71 => True
  | _ => False
  end.

Definition initial (c : conf) : Prop :=
  Forall starting (threads c) ∧ cn_sem (sh c) = 1%nat ∧ cb_sem (sh c) = 1%nat ∧
  length (buffer (sh c)) = 1024%nat ∧ pending (sh c) = [] ∧ callbacks (sh c) = [].

Definition reachable (answering oom spurious : bool) (c : conf) : Prop :=
  ∃ c0, initial c0 ∧ rtc (step answering oom spurious) c0 c.

(** After [down(&cn_sem)] and before [up(&cn_sem)]: a call at [N...] has not executed
    the first. *)
Definition in_section (t : thread) : Prop :=
  match t with
  | Reader (R49 | R51 | R56 | R59 | R60 | R63 | R64) _ _ _ => True
  | Writer W75 => True
  | _ => False
  end.

Definition returned (t : thread) : Prop :=
  match t with Reader (RRet | NRet) _ _ _ | Writer WRet => True | _ => False end.

(** The calls whose [kzalloc] has failed, those of them that have returned, and the
    others. *)
Definition allocated (t : thread) : Prop :=
  match t with Reader (N56 | N59 | N60 | N63 | N64 | NRet) _ _ _ => False | _ => True end.
Definition returned_without (t : thread) : Prop :=
  match t with Reader NRet _ _ _ => True | _ => False end.

(** A call that waits in its [down(&cn_sem)]. *)
Definition waits_cn (t : thread) : Prop :=
  match t with Reader R48 _ _ _ | Writer W71 => True | _ => False end.

Definition is_reader (t : thread) : Prop := match t with Reader _ _ _ _ => True | _ => False end.

(** What a finished read hands out. *)
Definition answered (disk : Z → list Z) (t : thread) : Prop :=
  match t with
  | Reader (RRet | NRet) address _ block => block = disk (sent_address address)
  | _ => True
  end.

(** The helper serves a disk: its answer to the request for [address] is the block whose
    number the request carries. *)
Definition serves_disk (disk : Z → list Z) : Prop :=
  ∀ address, 0 <= address < 2 ^ 32 → serve (request_payload address) = disk (sent_address address).
End steps.

#[export] Instance in_section_dec t : Decision (in_section t).
Proof. destruct t as [[]|[]]; simpl; apply _. Defined.
#[export] Instance returned_dec t : Decision (returned t).
Proof. destruct t as [[]|[]]; simpl; apply _. Defined.

#[export] Instance allocated_dec t : Decision (allocated t).
Proof. destruct t as [[]|[]]; simpl; apply _. Defined.
#[export] Instance returned_without_dec t : Decision (returned_without t).
Proof. destruct t as [[]|[]]; simpl; apply _. Defined.

(** How many threads of [ts] are in a state. *)
Definition count (P : thread → Prop) `{!∀ t, Decision (P t)} (ts : list thread) : nat :=
  sum_list ((λ t, if decide (P t) then 1%nat else 0%nat) <$> ts).

#[export] Instance msg_ok_dec msg : Decision (msg_ok msg).
Proof. unfold msg_ok. apply _. Defined.

(** ** Invariants *)
Section invariants.
Context (disk : Z → list Z) (serve : list Z → list Z).
Context (Hdisk : ∀ n, length (disk n) = 1024%nat) (Hserve : serves_disk serve disk).
#[local] Arguments request_payload : simpl never.
#[local] Arguments received : simpl never.
#[local] Arguments answer : simpl never.
Implicit Types (c : conf) (s : shared) (t : thread) (h : option nat).

(** The section belongs to [h]: the semaphore is free when nobody has it, and the
    thread in the section is the one that does. *)
Definition owned h c : Prop :=
  held in_section h (threads c) (cn_sem (sh c)) ∧ Forall allocated (threads c).

(** Nothing is on its way. *)
Definition silent s : Prop := pending s = [] ∧ callbacks s = [].

(** A request for [address] is under way, or its answer has arrived. *)
Definition awaiting (address : Z) s : Prop :=
  let m := answer serve (request_payload address) in
  (cb_sem s = 0%nat ∧ pending s = [request_payload address] ∧ callbacks s = []) ∨
  (cb_sem s = 0%nat ∧ pending s = [] ∧ callbacks s = [(C19, m)]) ∨
  (cb_sem s = 0%nat ∧ pending s = [] ∧ callbacks s = [(C25, m)]) ∨
  (cb_sem s = 0%nat ∧ pending s = [] ∧ callbacks s = [(C27, m)] ∧
     buffer s = disk (sent_address address)) ∨
  (cb_sem s = 1%nat ∧ silent s ∧ buffer s = disk (sent_address address)).

(** What the shared variables hold while [t] has the section. *)
Definition phase (t : option thread) s : Prop :=
  match t with
  | Some (Reader R51 _ _ _) => cb_sem s = 0%nat ∧ silent s
  | Some (Reader (R56 | R59) address _ _) => awaiting address s
  | Some (Reader R60 address _ _) =>
      cb_sem s = 0%nat ∧ silent s ∧ buffer s = disk (sent_address address)
  | Some (Reader R63 address _ _) =>
      cb_sem s = 1%nat ∧ silent s ∧ buffer s = disk (sent_address address)
  | Some (Reader R64 address _ block) =>
      cb_sem s = 1%nat ∧ silent s ∧ block = disk (sent_address address)
  | _ => cb_sem s = 1%nat ∧ silent s
  end.

Definition address_ok t : Prop :=
  match t with Reader _ address _ _ => 0 <= address < 2 ^ 32 | Writer _ => True end.

Definition protocol (c : conf) : Prop :=
  ∃ h, owned h c ∧ phase (h ≫= λ i, threads c !! i) (sh c) ∧
    length (buffer (sh c)) = 1024%nat ∧
    Forall address_ok (threads c) ∧ Forall (answered disk) (threads c).

Lemma answer_ok address :
  0 <= address < 2 ^ 32 →
  msg_data (answer serve (request_payload address)) = disk (sent_address address) ∧
  msg_len (answer serve (request_payload address)) = 1024.
Proof. intros Ha. split; [exact (Hserve address Ha)|done]. Qed.

Lemma answer_received address buf :
  0 <= address < 2 ^ 32 → length buf = 1024%nat →
  received (answer serve (request_payload address)) buf = disk (sent_address address).
Proof.
  intros Ha Hb. destruct (answer_ok address Ha) as [Hd Hl].
  unfold received. rewrite Hd, Hl, take_ge by (rewrite Hdisk; done).
  apply splice_full. by rewrite Hdisk.
Qed.

(** *** Ownership of the section *)
Lemma owned_keep h ts s i t t' s' :
  owned h (Conf ts s) → ts !! i = Some t → (in_section t' ↔ in_section t) → allocated t' →
  cn_sem s' = cn_sem s → owned h (Conf (<[i := t']> ts) s').
Proof.
  unfold owned. cbn. intros [Ho Hal] Hi Ht Hat ->. split; [by eapply held_keep|by apply Forall_insert].
Qed.

Lemma owned_acquire h ts s n i t t' s' :
  owned h (Conf ts s) → ts !! i = Some t → cn_sem s = S n → in_section t' → allocated t' →
  cn_sem s' = n → h = None ∧ owned (Some i) (Conf (<[i := t']> ts) s').
Proof.
  unfold owned. cbn. intros [Ho Hal] Hi Hs Ht Hat ->. rewrite Hs in Ho.
  destruct (held_acquire _ _ _ _ _ _ _ Ho Hi Ht) as [-> Ho']. split; [done|].
  split; [done|by apply Forall_insert].
Qed.

Lemma owned_release h ts s i t t' s' :
  owned h (Conf ts s) → ts !! i = Some t → in_section t → ¬ in_section t' → allocated t' →
  cn_sem s' = S (cn_sem s) → h = Some i ∧ owned None (Conf (<[i := t']> ts) s').
Proof.
  unfold owned. cbn. intros [Ho Hal] Hi Ht Ht' Hat ->.
  destruct (held_release _ _ _ _ _ _ _ Ho Hi Ht Ht') as [-> Ho']. split; [done|].
  split; [done|by apply Forall_insert].
Qed.

Lemma owned_shared h ts s s' :
  owned h (Conf ts s) → cn_sem s' = cn_sem s → owned h (Conf ts s').
Proof. unfold owned. cbn. by intros Ho ->. Qed.

(** The thread in the section is the owner, and the other way round. *)
Lemma owned_inside h ts s i t : owned h (Conf ts s) → ts !! i = Some t → in_section t ↔ h = Some i.
Proof. intros [(_ & _ & Hin) _]. apply Hin. Qed.

Lemma callback_keeps_cn pc msg s pc' s' :
  callback_step pc msg s = (pc', s') → cn_sem s' = cn_sem s.
Proof. destruct pc; cbn; [destruct (take_sem _)|..]; by intros [= <- <-]. Qed.

Lemma owned_step ans sp h c c' : owned h c → step serve ans false sp c c' → ∃ h', owned h' c'.
Proof.
  intros Ho Hstep.
  destruct Hstep as [ts s i fails t t' s' Hf Hi Ht|ts s p1 r p2 _ Hp|ts s msg|ts s c1 pc msg c2 pc' s' Hc Hs].
  - assert (fails = false) as -> by (destruct fails; [by specialize (Hf eq_refl)|done]).
    pose proof (Forall_lookup_1 _ _ _ _ (proj2 Ho) Hi) as Hat.
    destruct t as [pc addr seq blk|pc]; cbn in Ht.
    + destruct pc; cbn in Hat; try done; cbn in Ht; simplify_option_eq;
        try match goal with Hs : take_sem _ = Some _ |- _ => apply take_sem_Some in Hs end.
      all: first
        [ by exists h; eapply owned_keep
        | eexists; eapply owned_acquire; [exact Ho|exact Hi|eassumption|done..]
        | eexists; eapply owned_release; [exact Ho|exact Hi|done|naive_solver|done..] ].
    + destruct pc; cbn in Hat; try done; cbn in Ht; simplify_option_eq;
        try match goal with Hs : take_sem _ = Some _ |- _ => apply take_sem_Some in Hs end.
      all: first
        [ eexists; eapply owned_acquire; [exact Ho|exact Hi|eassumption|done..]
        | eexists; eapply owned_release; [exact Ho|exact Hi|done|naive_solver|done..] ].
  - exists h. by eapply owned_shared.
  - exists h. by eapply owned_shared.
  - exists h. eapply owned_shared; [done|]. cbn. by eapply callback_keeps_cn.
Qed.

Lemma initial_owned c : initial c → owned None c.
Proof.
  intros (Hst & Hcn & _). split; [rewrite Hcn; apply held_start|];
    (eapply Forall_impl; [exact Hst|]); intros t Ht; [intros Hin|]; by destruct t as [[]|[]].
Qed.

Lemma reachable_owned ans sp c : reachable serve ans false sp c → ∃ h, owned h c.
Proof.
  intros (c0 & Hinit & Hrun). apply initial_owned in Hinit.
  revert Hinit. generalize (@None nat). induction Hrun as [c|c c1 c2 Hstep _ IH]; intros h Ho.
  - by exists h.
  - destruct (owned_step _ _ _ _ _ Ho Hstep) as [h' Ho']. by apply (IH h').
Qed.

(** *** The protocol, line by line *)

(** The lines inside the section advance its phase. *)
Lemma phase_inside t s t' s' :
  in_section t → in_section t' → address_ok t → length (buffer s) = 1024%nat →
  phase (Some t) s → thread_step false t s = Some (t', s') →
  phase (Some t') s' ∧ cn_sem s' = cn_sem s ∧ buffer s' = buffer s ∧
  address_ok t' ∧ answered disk t'.
Proof.
  intros Hin Hin' Ha Hb Hp Hs.
  destruct t as [[] addr seq blk|[]]; cbn in Hin; try done; cbn in Hs;
    simplify_option_eq; try done;
    try match goal with Hk : take_sem _ = Some _ |- _ => apply take_sem_Some in Hk end.
  - destruct Hp as (Hcb & Hsil). cbn. split; [|done]. split; [congruence|done].
  - destruct Hp as (Hcb & Hpend & Hcbs). split; [|done]. left. cbn.
    by rewrite Hcb, Hpend, Hcbs.
  - cbn. destruct Hp as [[? _]|[[? _]|[[? _]|[[? _]|(Hcb & Hsil & Hbuf)]]]]; try congruence.
    split; [|done]. split; [congruence|done].
  - destruct Hp as (Hcb & Hsil & Hbuf). cbn. split; [|done]. by rewrite Hcb.
Qed.

(** The last line leaves everything as the next owner needs it. *)
Lemma phase_leave t s t' s' :
  in_section t → ¬ in_section t' → address_ok t →
  phase (Some t) s → thread_step false t s = Some (t', s') →
  phase None s' ∧ cn_sem s' = S (cn_sem s) ∧ buffer s' = buffer s ∧
  address_ok t' ∧ answered disk t'.
Proof.
  intros Hin Hin' Ha Hp Hs.
  destruct t as [[] addr seq blk|[]]; cbn in Hin; try done; cbn in Hs; simplify_option_eq;
    try (by destruct Hin'); cbn in Hp |- *; tauto.
Qed.

(** Outside the section a thread either stays outside and changes no shared
    variable, or takes the semaphore. *)
Lemma phase_outside t s t' s' :
  ¬ in_section t → allocated t → address_ok t → thread_step false t s = Some (t', s') →
  allocated t' ∧ address_ok t' ∧ answered disk t' ∧
  ((¬ in_section t' ∧ s' = s) ∨
   (in_section t' ∧ cn_sem s = S (cn_sem s') ∧ s' = set_cn (cn_sem s') s ∧
      ∀ u, phase None u → phase (Some t') u)).
Proof.
  intros Hin Hal Ha Hs.
  destruct t as [[] addr seq blk|[]]; cbn in Hin, Hal; try done; try (by destruct Hin); cbn in Hs;
    simplify_option_eq; try done;
    try match goal with Hk : take_sem _ = Some _ |- _ => apply take_sem_Some in Hk end.
  all: (split; [done|]); (split; [done|]); (split; [done|]); first [by left; split; [intros []|] | right; naive_solver].
Qed.

Lemma awaiting_reply address s s1 :
  awaiting address s → cb_sem s = 0%nat → pending s = [request_payload address] →
  cb_sem s1 = 0%nat → pending s1 = [] →
  callbacks s1 = [(C19, answer serve (request_payload address))] → awaiting address s1.
Proof. intros. right. by left. Qed.

(** The helper's reply: only the reader that waits has a request under way. *)
Lemma phase_reply (t : option thread) s p1 r p2 :
  phase t s → pending s = p1 ++ r :: p2 →
  phase t (set_callbacks (callbacks s ++ [(C19, answer serve r)]) (set_pending (p1 ++ p2) s)).
Proof.
  intros Hp Hr.
  assert (∀ l : list (list Z), l = [] → l = p1 ++ r :: p2 → False) as Hnil
    by (intros l ->; by destruct p1).
  assert (∀ address, awaiting address s → awaiting address
    (set_callbacks (callbacks s ++ [(C19, answer serve r)]) (set_pending (p1 ++ p2) s))) as Haw.
  { intros address [(Hcb & Hpend & Hc)|Hrest].
    - rewrite Hr in Hpend. destruct p1 as [|? [|]]; [|done..]. injection Hpend as -> ->.
      right. left. cbn. by rewrite Hc.
    - exfalso. unfold silent in Hrest. apply (Hnil (pending s)); [|done]. tauto. }
  destruct t as [[[] address seq blk|[]]|]; cbn in Hp |- *;
    first [by apply Haw | exfalso; unfold silent in Hp; apply (Hnil (pending s)); tauto].
Qed.

(** A line of the callback. *)
Lemma phase_callback (t : option thread) s l1 pc msg l2 pc' s' :
  from_option address_ok True t → length (buffer s) = 1024%nat →
  phase t s → callbacks s = l1 ++ (pc, msg) :: l2 → callback_step pc msg s = (pc', s') →
  phase t (set_callbacks (l1 ++ match pc' with Some q => [(q, msg)] | None => [] end ++ l2) s') ∧
  length (buffer s') = 1024%nat.
Proof.
  intros Ha Hb Hp Hc Hs.
  assert (∀ l : list (cpc * cn_msg), l = [] → l = l1 ++ (pc, msg) :: l2 → False) as Hnil
    by (intros l ->; by destruct l1).
  assert (∀ q m, callbacks s = [(q, m)] → l1 = [] ∧ l2 = [] ∧ pc = q ∧ msg = m) as Hone.
  { intros q m Hl. rewrite Hc in Hl. destruct l1 as [|? [|]]; [|done..]. by injection Hl as -> -> ->. }
  assert (∀ address, 0 <= address < 2 ^ 32 → awaiting address s → awaiting address
    (set_callbacks (l1 ++ match pc' with Some q => [(q, msg)] | None => [] end ++ l2) s') ∧
    length (buffer s') = 1024%nat) as Haw.
  { intros address Had [(_ & _ & Hl)|[(Hcb & Hpend & Hl)|[(Hcb & Hpend & Hl)|
      [(Hcb & Hpend & Hl & Hbuf)|(_ & [_ Hl] & _)]]]].
    - exfalso. by apply (Hnil (callbacks s)).
    - destruct (Hone _ _ Hl) as (-> & -> & -> & ->). cbn in Hs. rewrite Hcb in Hs.
      injection Hs as <- <-. split; [|done]. right; right; left. done.
    - destruct (Hone _ _ Hl) as (-> & -> & -> & ->). cbn in Hs.
      injection Hs as <- <-. cbn. rewrite answer_received by done.
      split; [|apply Hdisk]. right; right; right; left. done.
    - destruct (Hone _ _ Hl) as (-> & -> & -> & ->). cbn in Hs.
      injection Hs as <- <-. cbn. split; [|done]. right; right; right; right. cbn.
      unfold silent. cbn. by rewrite Hcb.
    - exfalso. by apply (Hnil (callbacks s)). }
  destruct t as [[[] address seq blk|[]]|]; cbn in Hp, Ha |- *;
    first [by apply Haw | exfalso; unfold silent in Hp; apply (Hnil (callbacks s)); tauto].
Qed.

(** A line of a thread. *)
Lemma thread_keeps_protocol h ts s i t t' s' :
  owned h (Conf ts s) → phase (h ≫= λ j, ts !! j) s → length (buffer s) = 1024%nat →
  Forall address_ok ts → Forall (answered disk) ts →
  ts !! i = Some t → thread_step false t s = Some (t', s') →
  protocol (Conf (<[i:=t']> ts) s').
Proof.
  intros Ho Hp Hb Ha Han Hi Ht.
  pose proof (Forall_lookup_1 _ _ _ _ Ha Hi) as Hat.
  pose proof (Forall_lookup_1 _ _ _ _ (proj2 Ho) Hi) as Hal.
  pose proof (lookup_lt_Some _ _ _ Hi) as Hlt.
  assert (∀ h', owned h' (Conf (<[i:=t']> ts) s') → phase (h' ≫= λ j, <[i:=t']> ts !! j) s' →
    buffer s' = buffer s → address_ok t' → answered disk t' →
    protocol (Conf (<[i:=t']> ts) s')) as Hdone.
  { intros h' Ho' Hp' Hb' Ha' Han'. exists h'. split; [done|]. split; [done|].
    split; [by cbn; rewrite Hb'|]. split; by apply Forall_insert. }
  destruct (decide (in_section t)) as [Hin|Hin].
  - assert (h = Some i) as -> by (by eapply owned_inside). cbn in Hp. rewrite Hi in Hp.
    assert (allocated t') as Hal'
      by (destruct t as [[]|[]]; try done; cbn in Ht; by simplify_option_eq).
    destruct (decide (in_section t')) as [Hin'|Hin'].
    + destruct (phase_inside _ _ _ _ Hin Hin' Hat Hb Hp Ht) as (Hp' & Hcn & Hb' & Ha' & Han').
      apply (Hdone (Some i)); try done; [by eapply owned_keep|].
      cbn. by rewrite list_lookup_insert_eq.
    + destruct (phase_leave _ _ _ _ Hin Hin' Hat Hp Ht) as (Hp' & Hcn & Hb' & Ha' & Han').
      apply (Hdone None); try done. by eapply owned_release.
  - destruct (phase_outside _ _ _ _ Hin Hal Hat Ht)
      as (Hal' & Ha' & Han' & [[Hin' ->]|(Hin' & Hcn & Hs' & Hp')]).
    + apply (Hdone h); try done; [by eapply owned_keep|].
      destruct h as [j|]; [|done]. cbn in *. rewrite list_lookup_insert_ne; [done|].
      intros ->. by apply Hin, (owned_inside _ _ _ _ _ Ho Hi).
    + destruct (owned_acquire _ _ _ _ _ _ _ _ Ho Hi Hcn Hin' Hal' eq_refl) as [-> Ho'].
      apply (Hdone (Some i)); try done; [|by rewrite Hs'].
      cbn. rewrite list_lookup_insert_eq by done. apply Hp'. by rewrite Hs'.
Qed.

Lemma protocol_step ans c c' : protocol c → step serve ans false false c c' → protocol c'.
Proof.
  intros (h & Ho & Hp & Hb & Ha & Han) Hstep.
  destruct Hstep as [ts s i fails t t' s' Hf Hi Ht|ts s p1 r p2 _ Hr|ts s msg Hsp|
    ts s l1 pc msg l2 pc' s' Hc Hs]; cbn in Hp, Hb, Ha, Han.
  - assert (fails = false) as -> by (destruct fails; [by specialize (Hf eq_refl)|done]).
    by eapply thread_keeps_protocol.
  - exists h. split; [by eapply owned_shared|]. split; [|done]. by eapply phase_reply.
  - done.
  - assert (from_option address_ok True (h ≫= λ i, ts !! i)) as Hat.
    { destruct h as [i|]; [|done]. cbn. destruct (ts !! i) eqn:Hi; [|done].
      by eapply (Forall_lookup_1 _ _ _ _ Ha). }
    destruct (phase_callback _ _ _ _ _ _ _ _ Hat Hb Hp Hc Hs) as [Hp' Hb'].
    exists h. split; [|done]. eapply owned_shared; [done|]. cbn. by eapply callback_keeps_cn.
Qed.

Lemma initial_protocol c : initial c → protocol c.
Proof.
  intros Hc. pose proof (initial_owned c Hc) as Ho.
  destruct Hc as (Hst & Hcn & Hcb & Hb & Hp & Hk). exists None. split; [done|].
  split; [by split|]. split; [done|].
  split; (eapply Forall_impl; [exact Hst|]); by intros [[]|[]].
Qed.

Lemma reachable_protocol ans c : reachable serve ans false false c → protocol c.
Proof.
  intros (c0 & Hinit & Hrun). apply initial_protocol in Hinit.
  induction Hrun; [done|]. eauto using protocol_step.
Qed.

(** *** Progress *)
Lemma step_decreases ans oom c c' : step serve ans oom false c c' → (measure c' < measure c)%nat.
Proof.
  intros [ts s i fails t t' s' Hf Hi Ht|ts s p1 r p2 _ Hr|ts s msg Hsp|
    ts s l1 pc msg l2 pc' s' Hc Hs]; unfold measure; cbn.
  - pose proof (sum_list_insert thread_weight ts i t t' Hi) as Hsum.
    enough (thread_weight t' + 4 * length (pending s') + sum_list (callback_weight <$> callbacks s')
      < thread_weight t + 4 * length (pending s) + sum_list (callback_weight <$> callbacks s))%nat
      by lia.
    destruct t as [[] addr seq blk|[]]; cbn in Ht; simplify_option_eq; cbn;
      try destruct fails; cbn; rewrite ?length_app; cbn; lia.
  - rewrite Hr, !length_app, fmap_app, sum_list_with_app. cbn. lia.
  - done.
  - rewrite Hc, !fmap_app, !sum_list_with_app. cbn.
    assert (callbacks s' = callbacks s ∧ pending s' = pending s) as [_ ->].
    { destruct pc; cbn in Hs; [destruct (take_sem _)|..]; by injection Hs as <- <-. }
    enough (sum_list (callback_weight <$> match pc' with Some q => [(q, msg)] | None => [] end)
      < callback_weight (pc, msg))%nat by lia.
    destruct pc; cbn in Hs; [destruct (take_sem _)|..]; injection Hs as <- <-; cbn; lia.
Qed.

Lemma run_bounded ans oom n c c' : nsteps (step serve ans oom false) n c c' → (n ≤ measure c)%nat.
Proof.
  revert c; induction n as [|n IH]; intros c Hn; [lia|].
  inversion Hn as [|? ? c1 ? Hs Hrest]; subst. apply step_decreases in Hs.
  specialize (IH _ Hrest). lia.
Qed.

(** A thread that can execute its line gives a step. *)
Lemma thread_enabled ans oom sp ts s i t :
  ts !! i = Some t → is_Some (thread_step false t s) → ∃ c', step serve ans oom sp (Conf ts s) c'.
Proof. intros Hi [[t' s'] Hs]. eexists. by eapply (step_thread serve ans oom sp ts s i false). Qed.

(** A callback always can. *)
Lemma callback_enabled ans oom sp ts s k :
  callbacks s = [k] → ∃ c', step serve ans oom sp (Conf ts s) c'.
Proof.
  destruct k as [pc msg]. intros Hk. destruct (callback_step pc msg s) as [pc' s'] eqn:Hs.
  eexists. by eapply (step_callback serve ans oom sp ts s [] pc msg []).
Qed.

(** Outside the section a call that has not returned moves, or waits for the semaphore. *)
Lemma outside_enabled t s :
  ¬ in_section t → allocated t → ¬ returned t →
  is_Some (thread_step false t s) ∨ (waits_cn t ∧ cn_sem s = 0%nat).
Proof.
  intros Hin Hal Hret. destruct (cn_sem s) as [|n] eqn:Hcn;
    destruct t as [[] addr seq blk|[]]; cbn in *; rewrite ?Hcn; cbn; (eauto || tauto).
Qed.

(** Inside it moves, or waits at its second [down(&cb_sem)] for a request on its way to
    the helper or for the callback of the answer. *)
Lemma inside_enabled t s :
  in_section t → phase (Some t) s →
  is_Some (thread_step false t s) ∨ (∃ k, callbacks s = [k]) ∨
  ∃ address seq blk, t = Reader R59 address seq blk ∧ pending s = [request_payload address] ∧
    callbacks s = [] ∧ cb_sem s = 0%nat.
Proof.
  intros Hin Hp.
  destruct t as [[] addr seq blk|[]]; cbn in Hin; try done; cbn in Hp |- *; eauto.
  - destruct Hp as [-> _]. cbn. eauto.
  - destruct Hp as [(-> & -> & ->)|[(_ & _ & ->)|[(_ & _ & ->)|[(_ & _ & -> & _)|(-> & _)]]]]; cbn; eauto 10.
Qed.

(** The thread at [i] waits for the helper, which has its request. *)
Definition at_helper (i : nat) c : Prop :=
  ∃ address seq blk, threads c !! i = Some (Reader R59 address seq blk) ∧
    pending (sh c) = [request_payload address] ∧ callbacks (sh c) = [] ∧ cb_sem (sh c) = 0%nat.

(** All calls have returned, a line can be executed, or one reader waits for the helper. *)
Lemma protocol_cases ans c :
  protocol c →
  Forall returned (threads c) ∨ (∃ c', step serve ans false false c c') ∨ ∃ i, at_helper i c.
Proof.
  intros (h & Ho & Hp & _). destruct c as [ts s]. cbn in *.
  destruct (decide (Forall returned ts)) as [|Hn]; [by left|]. right.
  destruct h as [i|].
  - destruct (proj1 (proj2 (proj1 Ho)) i eq_refl) as [t Hi]. cbn in Hp, Hi. rewrite Hi in Hp.
    destruct (inside_enabled t s) as [Hs|[[k Hk]|(address & seq & blk & -> & Hpend)]];
      [by apply (owned_inside _ _ _ _ _ Ho Hi)|done| | |].
    + left. by eapply thread_enabled.
    + left. by eapply callback_enabled.
    + right. exists i, address, seq, blk. by split.
  - left. apply not_Forall_Exists in Hn; [|apply _]. apply Exists_exists in Hn as (t & Ht & Hret).
    apply list_elem_of_lookup_1 in Ht as [i Hi].
    destruct (outside_enabled t s) as [Hs|[_ Hcn]];
      [by rewrite (owned_inside _ _ _ _ _ Ho Hi)|exact (Forall_lookup_1 _ _ _ _ (proj2 Ho) Hi)|
       done|by eapply thread_enabled|].
    destruct Ho as [(Hone & _) _]. cbn in Hone. congruence.
Qed.

(** With a helper that answers, somebody always moves. *)
Lemma protocol_progress c :
  protocol c → Forall returned (threads c) ∨ ∃ c', step serve true false false c c'.
Proof.
  intros Hc. destruct (protocol_cases true c Hc) as [|[|(i & address & seq & blk & _ & Hp & _)]];
    [by left|by right|right].
  destruct c as [ts s]. eexists. by eapply (step_reply serve true false false ts s [] _ []).
Qed.

Lemma protocol_finishes n c :
  (measure c < n)%nat → protocol c →
  ∃ c', rtc (step serve true false false) c c' ∧ Forall returned (threads c') ∧ protocol c'.
Proof.
  revert c; induction n as [|n IH]; intros c Hn Hc; [lia|].
  destruct (protocol_progress c Hc) as [Hall|[c1 Hs]]; [by exists c|].
  pose proof (step_decreases _ _ _ _ Hs).
  destruct (IH c1) as (c' & Hrun & Hc'); [lia|by eapply protocol_step|].
  exists c'. split; [by eapply rtc_l|done].
Qed.

(** A stuck configuration with calls left: one reader waits for the helper, and every
    other call has returned or waits for the section this reader holds. *)
Lemma stuck_waits ans c :
  protocol c → (∀ c', ¬ step serve ans false false c c') →
  Forall returned (threads c) ∨
  ∃ i, at_helper i c ∧ ∀ j t, j ≠ i → threads c !! j = Some t → returned t ∨ waits_cn t.
Proof.
  intros Hc Hstuck. destruct (protocol_cases ans c Hc) as [|[[c' Hs]|[i Hi]]];
    [by left|by destruct (Hstuck c')|right].
  exists i. split; [done|]. intros j t Hne Hj. destruct (decide (returned t)) as [|Hret]; [by left|].
  destruct Hc as (h & Ho & _). destruct c as [ts s]. destruct Hi as (address & seq & blk & Hi & _).
  assert (h = Some i) as -> by (by apply (owned_inside _ _ _ _ _ Ho Hi)).
  destruct (outside_enabled t s) as [Hs|[Hw _]]; [|exact (Forall_lookup_1 _ _ _ _ (proj2 Ho) Hj)|done| |by right].
  - rewrite (owned_inside _ _ _ _ _ Ho Hj). congruence.
  - destruct (thread_enabled ans false false ts s j t Hj Hs) as [c' Hs']. by destruct (Hstuck c').
Qed.

(** *** Without a helper that answers *)

(** No reader is past its wait, and a reader that waits has its request still pending. *)
Definition unserved s t : Prop :=
  match t with
  | Reader (R56 | R59) _ _ _ => pending s ≠ []
  | Reader (R60 | R63 | R64 | RRet | NRet) _ _ _ => False
  | _ => True
  end.
Definition unanswered c : Prop := callbacks (sh c) = [] ∧ Forall (unserved (sh c)) (threads c).

(** A request that is pending stays so, and no thread starts a callback. *)
Lemma thread_pending t s t' s' :
  thread_step false t s = Some (t', s') →
  callbacks s' = callbacks s ∧ (pending s ≠ [] → pending s' ≠ []).
Proof.
  intros Hs. destruct t as [[] addr seq blk|[]]; cbn in Hs; simplify_option_eq; try done.
  split; [done|]. cbn. intros _. by destruct (pending s).
Qed.

(** Nobody gets past the wait. *)
Lemma thread_unserved t s t' s' :
  allocated t → (in_section t → phase (Some t) s) → callbacks s = [] → unserved s t →
  thread_step false t s = Some (t', s') → unserved s' t'.
Proof.
  intros Hal Hp Hk Hu Hs.
  destruct t as [[] addr seq blk|[]]; try done; cbn in Hs, Hu; simplify_option_eq; try done.
  - cbn. by destruct (pending s).
  - exfalso. destruct (Hp I) as [(Hcb & _)|[(_ & _ & Hl)|[(_ & _ & Hl)|[(_ & _ & Hl & _)|(_ & [Hl _] & _)]]]];
      [by rewrite Hcb in *|congruence..].
Qed.

Lemma unanswered_step c c' :
  protocol c → unanswered c → step serve false false false c c' → unanswered c'.
Proof.
  intros (h & Ho & Hp & _) [Hk Hu] Hstep.
  destruct Hstep as [ts s i fails t t' s' Hf Hi Ht|ts s p1 r p2 Hans|ts s msg Hsp|
    ts s l1 pc msg l2 pc' s' Hc Hs]; cbn in Hp, Hk, Hu; [|done|done|rewrite Hk in Hc; by destruct l1].
  assert (fails = false) as -> by (destruct fails; [by specialize (Hf eq_refl)|done]).
  destruct (thread_pending _ _ _ _ Ht) as [Hk' Hpend]. split; [by rewrite <-Hk|]. cbn.
  apply Forall_insert.
  - eapply Forall_impl; [exact Hu|]. intros u Hus. destruct u as [[]|[]]; cbn in *; auto.
  - eapply thread_unserved; [exact (Forall_lookup_1 _ _ _ _ (proj2 Ho) Hi)| |done| |done].
    + intros Hin. assert (h = Some i) as -> by (by apply (owned_inside _ _ _ _ _ Ho Hi)).
      cbn in Hp. by rewrite Hi in Hp.
    + exact (Forall_lookup_1 _ _ _ _ Hu Hi).
Qed.

Lemma reachable_unanswered c : reachable serve false false false c → unanswered c.
Proof.
  intros (c0 & Hinit & Hrun). assert (protocol c0) as Hp by (by apply initial_protocol).
  assert (unanswered c0) as Hu.
  { destruct Hinit as (Hst & _ & _ & _ & _ & Hk). split; [done|].
    eapply Forall_impl; [exact Hst|]. by intros [[]|[]]. }
  clear Hinit. induction Hrun; [done|]. eauto using unanswered_step, protocol_step.
Qed.
End invariants.

(** ** Executing a schedule *)
Inductive pick : Type :=
  | Thread (i : nat) (fails : bool)
  | Reply (k : nat)
  | Spurious (msg : cn_msg)
  | Callback (k : nat).

Section schedules.
Context (serve : list Z → list Z) (answering oom spurious : bool).

Definition exec (p : pick) (c : conf) : option conf :=
  let '(Conf ts s) := c in
  match p with
  | Thread i fails =>
      if negb fails || oom then
        t ← ts !! i; r ← thread_step fails t s; Some (Conf (<[i := r.1]> ts) r.2)
      else None
  | Reply k =>
      if answering then
        r ← pending s !! k;
        Some (Conf ts (set_callbacks (callbacks s ++ [(C19, answer serve r)])
          (set_pending (take k (pending s) ++ drop (S k) (pending s)) s)))
      else None
  | Spurious msg =>
      if spurious && bool_decide (msg_ok msg) then
        Some (Conf ts (set_callbacks (callbacks s ++ [(C19, msg)]) s))
      else None
  | Callback k =>
      q ← callbacks s !! k;
      let r := callback_step q.1 q.2 s in
      Some (Conf ts (set_callbacks (take k (callbacks s)
        ++ match r.1 with Some pc => [(pc, q.2)] | None => [] end
        ++ drop (S k) (callbacks s)) r.2))
  end.

Fixpoint run (ps : list pick) (c : conf) : option conf :=
  match ps with
  | [] => Some c
  | p :: ps' => c' ← exec p c; run ps' c'
  end.

Lemma exec_step p c c' : exec p c = Some c' → step serve answering oom spurious c c'.
Proof.
  destruct c as [ts s], p as [i fails|k|msg|k]; cbn.
  - destruct (negb fails || oom) eqn:Hf; [|done]. intros He. simplify_option_eq.
    destruct H0 as [t' s']. eapply step_thread; [|done|done].
    intros ->. by destruct oom.
  - destruct answering eqn:Hans; [|done]. intros He. simplify_option_eq.
    eapply step_reply; [done|]. symmetry. by apply take_drop_middle.
  - destruct spurious eqn:Hsp; [|done]. cbn. case_bool_decide; [|done]. intros [= <-].
    by apply step_spurious.
  - intros He. destruct (callbacks s !! k) as [[pc msg]|] eqn:Hk; [|done]. cbn in He.
    injection He as <-. eapply step_callback; [symmetry; by apply take_drop_middle|].
    apply surjective_pairing.
Qed.

Lemma run_steps ps c c' : run ps c = Some c' → rtc (step serve answering oom spurious) c c'.
Proof.
  revert c; induction ps as [|p ps IH]; intros c Hr; cbn in Hr; [by injection Hr as ->|].
  destruct (exec p c) as [c1|] eqn:He; [|done]. eapply rtc_l; [by eapply exec_step|]. by apply IH.
Qed.

Lemma run_reachable ps c c' : initial c → run ps c = Some c' → reachable serve answering oom spurious c'.
Proof.
  intros Hc Hr. exists c. split; [done|]. by apply run_steps with ps.
Qed.
End schedules.

(** Two stray messages without data, in callbacks that overlap. *)
Definition stray : cn_msg := CnMsg 14 0x456 0 0 0 [].
Definition two_strays : list pick :=
  [Spurious stray; Spurious stray; Callback 0; Callback 1; Callback 1; Callback 0; Callback 0].
Definition is_stray (p : pick) : bool := match p with Spurious _ => true | _ => false end.

(** *** What a failed allocation costs *)

(** [up(&cn_sem)] without [down(&cn_sem)]: every reader that returned without its
    message has left one unit too many. *)
Definition conserved (c : conf) : Prop :=
  (cn_sem (sh c) + count in_section (threads c) = 1 + count returned_without (threads c))%nat.

Lemma count_insert (P : thread → Prop) `{!∀ t, Decision (P t)} ts i t t' :
  ts !! i = Some t →
  (count P (<[i := t']> ts) + (if decide (P t) then 1 else 0)
   = count P ts + (if decide (P t') then 1 else 0))%nat.
Proof. intros Hi. exact (sum_list_insert (λ u, if decide (P u) then 1%nat else 0%nat) ts i t t' Hi). Qed.

Lemma count_none (P : thread → Prop) `{!∀ t, Decision (P t)} ts :
  Forall (λ t, ¬ P t) ts → count P ts = 0%nat.
Proof.
  unfold count. induction 1 as [|t ts Ht _ IH]; [done|]. cbn. by rewrite IH, decide_False.
Qed.

Lemma thread_conserves fails t s t' s' :
  thread_step fails t s = Some (t', s') →
  (cn_sem s' + (if decide (in_section t') then 1 else 0) + (if decide (returned_without t) then 1 else 0)
   = cn_sem s + (if decide (in_section t) then 1 else 0) + (if decide (returned_without t') then 1 else 0))%nat.
Proof.
  intros Hs. destruct t as [[] addr seq blk|[]]; cbn in Hs; simplify_option_eq; try destruct fails;
    try match goal with Hk : take_sem _ = Some _ |- _ => apply take_sem_Some in Hk end;
    repeat case_decide; cbn in *; try tauto; lia.
Qed.

Lemma conserved_step serve ans oom sp c c' : conserved c → step serve ans oom sp c c' → conserved c'.
Proof.
  unfold conserved. intros Hc Hstep.
  destruct Hstep as [ts s i fails t t' s' _ Hi Ht|ts s p1 r p2 _ Hp|ts s msg|ts s c1 pc msg c2 pc' s' _ Hs];
    cbn [threads sh set_callbacks set_pending cn_sem] in *; [|done|done|by rewrite (callback_keeps_cn _ _ _ _ _ Hs)].
  pose proof (thread_conserves _ _ _ _ _ Ht).
  pose proof (count_insert in_section ts i t t' Hi).
  pose proof (count_insert returned_without ts i t t' Hi). cbv beta in *. lia.
Qed.

Lemma reachable_conserved serve ans oom sp c : reachable serve ans oom sp c → conserved c.
Proof.
  intros (c0 & Hinit & Hrun). assert (conserved c0) as Hc0.
  { destruct Hinit as (Hst & Hcn & _). unfold conserved. rewrite Hcn, !count_none; [done|..];
      (eapply Forall_impl; [exact Hst|]); intros t Ht Hin; by destruct t as [[]|[]]. }
  clear Hinit. induction Hrun; [done|]. eauto using conserved_step.
Qed.

(** ** Properties *)
Section thread_properties.
Context (disk : Z → list Z) (serve : list Z → list Z).

(** C4: Mutual exclusion.  As long as no [kzalloc] fails, and whatever messages
    arrive, at most one thread is between [down(&cn_sem)] and [up(&cn_sem)], and
    the semaphore is taken exactly when one is. *)
Theorem one_in_section (answering spurious : bool) (c : conf) :
  reachable serve answering false spurious c →
  (∀ i j t u, threads c !! i = Some t → threads c !! j = Some u →
     in_section t → in_section u → i = j) ∧
  (cn_sem (sh c) = 0%nat ↔ Exists in_section (threads c)) ∧ (cn_sem (sh c) ≤ 1)%nat.
Proof.
  intros Hc. destruct (reachable_owned serve answering spurious c Hc) as (h & Ho & _).
  by eapply held_exclusive.
Qed.

(** C3: Every read is answered.  When allocations succeed and only the helper sends,
    then in every interleaving of any number of readers and writers a returned
    [sjfs_read_block] has handed out the block its request names, the reply in
    flight belongs to the one reader that waits, and [cb_sem] is 0 or 1. *)
Theorem reads_answered (Hdisk : ∀ n, length (disk n) = 1024%nat)
    (Hserve : serves_disk serve disk) (answering : bool) (c : conf) :
  reachable serve answering false false c →
  Forall (answered disk) (threads c) ∧ (cb_sem (sh c) ≤ 1)%nat ∧
  (length (pending (sh c)) + length (callbacks (sh c)) ≤ 1)%nat.
Proof.
  intros Hc. destruct (reachable_protocol disk serve Hdisk Hserve answering c Hc) as (h & _ & Hp & _ & _ & Han).
  split; [done|].
  assert (∀ address, awaiting disk serve address (sh c) → (cb_sem (sh c) ≤ 1)%nat ∧
    (length (pending (sh c)) + length (callbacks (sh c)) ≤ 1)%nat) as Haw.
  { intros address. unfold awaiting, silent. intros Hor.
    destruct_or! Hor; destruct_and! Hor; repeat match goal with Hx : _ = _ |- _ => rewrite Hx end;
      cbn; lia. }
  destruct (h ≫= _) as [[[] address seq blk|[]]|]; cbn in Hp; try (by apply Haw in Hp);
    unfold silent in Hp; destruct_and! Hp;
    repeat match goal with Hx : _ = _ |- _ => rewrite Hx end; cbn; lia.
Qed.

(** C1: Which calls return.  When allocations succeed and no stray message arrives, no run
    is longer than the initial weight.  If the helper answers the requests it is sent, no
    interleaving gets stuck before all calls have returned, and from every reachable
    configuration they all can, with every read answered.  If it does not, as in the
    repository, no read ever returns, and every run ends either with all calls (writes)
    returned, or with one reader that has its request at the helper and holds both
    semaphores, and every other call returned or waiting for [cn_sem]. *)
Theorem calls_return_when_answered (Hdisk : ∀ n, length (disk n) = 1024%nat)
    (Hserve : serves_disk serve disk) (answering : bool)
    (c : conf) :
  reachable serve answering false false c →
  (∀ n c', nsteps (step serve answering false false) n c c' → (n ≤ measure c)%nat) ∧
  if answering then
    (Forall returned (threads c) ∨ ∃ c', step serve true false false c c') ∧
    ∃ c', rtc (step serve true false false) c c' ∧ Forall returned (threads c') ∧
      Forall (answered disk) (threads c')
  else
    Forall (λ t, is_reader t → ¬ returned t) (threads c) ∧
    ((∀ c', ¬ step serve false false false c c') →
     Forall returned (threads c) ∨
     ∃ i, at_helper i c ∧ ∀ j t, j ≠ i → threads c !! j = Some t → returned t ∨ waits_cn t).
Proof.
  intros Hc. pose proof (reachable_protocol disk serve Hdisk Hserve answering c Hc) as Hp.
  split; [intros n c'; by apply run_bounded|]. destruct answering.
  - split; [by apply (protocol_progress disk serve)|].
    destruct (protocol_finishes disk serve Hdisk Hserve (S (measure c)) c) as (c' & Hr & Hret & Hp'); [lia|done|].
    exists c'. split; [done|]. split; [done|]. by destruct Hp' as (_ & _ & _ & _ & _ & Han).
  - destruct (reachable_unanswered disk serve Hdisk Hserve c Hc) as [_ Hu].
    split; [|intros Hstuck; by apply (stuck_waits disk serve false)].
    eapply Forall_impl; [exact Hu|]. intros t Ht Hr Hret; by destruct t as [[]|[]].
Qed.

(** C35: What a failed allocation costs.  Whatever happens, [cn_sem] and the threads that
    have taken it and not yet released it make up one unit and one more for every reader
    that has returned without a message: such a reader executes [up(&cn_sem)] without
    [down(&cn_sem)].  One is enough to break mutual exclusion, and no helper is needed:
    the first of three readers cannot allocate its message and returns, and the two others
    are then past their [down(&cn_sem)] together. *)
Theorem failed_allocation_breaks_mutex :
  (∀ answering oom spurious c, reachable serve answering oom spurious c →
     (cn_sem (sh c) + count in_section (threads c)
      = 1 + count returned_without (threads c))%nat) ∧
  ∃ c block, reachable serve false true false c ∧
    threads c = [Reader NRet 0 0 block; Reader R49 1 1 []; Reader R49 2 1 []].
Proof.
  split; [intros ans oom sp c; apply reachable_conserved|].
  set (c0 := Conf [Reader R40 0 0 []; Reader R40 1 0 []; Reader R40 2 0 []]
    (Shared 1 1 0 (replicate 1024 0) [] [] [])).
  assert (initial c0) as Hc0 by (repeat split; repeat constructor; lia).
  assert (∃ c, run serve false true false
    (Thread 0 true :: replicate 5 (Thread 0 false) ++ replicate 3 (Thread 1 false)
     ++ replicate 3 (Thread 2 false)) c0 = Some c ∧
    threads c = [Reader NRet 0 0 (replicate 1024 0); Reader R49 1 1 []; Reader R49 2 1 []])
    as (c & Hrun & Hts) by (eexists; split; [vm_compute; reflexivity|reflexivity]).
  exists c, (replicate 1024 0). split; [by eapply run_reachable|done].
Qed.

(** C36: The race the comment in [cn_callback] fears is there.  Two stray messages whose
    callbacks overlap leave [cb_sem] at 2; the next reader passes its wait at once and
    returns, while its request is still on its way to the helper and no callback runs,
    with whatever the buffer has held before ([stale]).  When the reply then arrives its
    callback finds [cb_sem] free and drops it: the buffer keeps its old content. *)
Theorem callback_race (stale : list Z) (address : Z) :
  length stale = 1024%nat → 0 <= address < 2 ^ 32 →
  ∃ c1 c2, initial c1 ∧ buffer (sh c1) = stale ∧ threads c1 = [Reader R40 address 0 []] ∧
    run serve false false true (two_strays ++ replicate 10 (Thread 0 false)) c1 = Some c2 ∧
    length (filter is_stray (two_strays ++ replicate 10 (Thread 0 false))) = 2%nat ∧
    threads c2 = [Reader RRet address 0 stale] ∧
    pending (sh c2) = [request_payload address] ∧ callbacks (sh c2) = [] ∧
    ∃ c3, rtc (step serve true false false) c2 c3 ∧
      buffer (sh c3) = stale ∧ pending (sh c3) = [] ∧ callbacks (sh c3) = [].
Proof.
  intros Hlen Had.
  exists (Conf [Reader R40 address 0 []] (Shared 1 1 0 stale [] [] [])),
    (Conf [Reader RRet address 0 stale] (Shared 1 1 1 stale [request_payload address] [] [(0, address)])).
  split; [split; [by apply Forall_singleton|done]|]. repeat (split; [reflexivity|]).
  exists (Conf [Reader RRet address 0 stale] (Shared 1 1 1 stale [] [] [(0, address)])).
  split; [|done].
  by apply run_steps with [Reply 0; Callback 0; Callback 0].
Qed.

(** C37: Sequence numbers repeat.  The number of a request is read before [cn_sem] is
    taken and the counter advanced after the request went out, so that without any
    failure or stranger two readers can send different requests under one number. *)
Theorem readers_share_number :
  ∃ c seq, reachable serve true false false c ∧ sent (sh c) = [(seq, 1); (seq, 2)].
Proof.
  set (c0 := Conf [Reader R40 1 0 []; Reader R40 2 0 []]
    (Shared 1 1 7 (replicate 1024 0) [] [] [])).
  assert (initial c0) as Hc0 by (repeat split; repeat constructor; lia).
  assert (∃ c, run serve true false false
    ([Thread 0 false; Thread 0 false; Thread 1 false; Thread 1 false] ++
     replicate 4 (Thread 0 false) ++ [Reply 0; Callback 0; Callback 0; Callback 0] ++
     replicate 4 (Thread 0 false) ++ replicate 3 (Thread 1 false)) c0 = Some c ∧
    sent (sh c) = [(7, 1); (7, 2)]) as (c & Hrun & Hc).
  { eexists. split; [vm_compute; reflexivity|reflexivity]. }
  exists c, 7. split; [by eapply run_reachable|done].
Qed.
End thread_properties.

(** ** Witnesses *)

(** Two readers and a writer, run to the point where the first reader waits. *)
Definition demo_blocks (n : Z) : list Z := replicate 1024 (n mod 256).
Definition demo_serve (request : list Z) : list Z := demo_blocks (named_address request).

Lemma demo_serves : serves_disk demo_serve demo_blocks.
Proof. intros address Ha. unfold demo_serve. by rewrite (request_names address Ha). Qed.

Definition demo_conf : conf :=
  Conf [Reader R40 3 0 []; Writer W71; Reader R40 4 0 []]
    (Shared 1 1 0 (replicate 1024 0) [] [] []).
Definition demo_schedule : list pick := replicate 6 (Thread 0 false) ++ [Thread 2 false; Reply 0].
Definition demo_waiting : conf :=
  default demo_conf (run demo_serve true false false demo_schedule demo_conf).

Lemma demo_initial : initial demo_conf.
Proof. repeat split; repeat constructor; lia. Qed.

Lemma demo_runs sp : rtc (step demo_serve true false sp) demo_conf demo_waiting.
Proof. apply run_steps with demo_schedule. destruct sp; vm_compute; reflexivity. Qed.

Lemma demo_reachable sp : reachable demo_serve true false sp demo_waiting.
Proof. exists demo_conf. split; [apply demo_initial|apply demo_runs]. Qed.

(** The same calls with a helper that does not answer, run until nobody moves. *)
Definition demo_stuck : conf :=
  default demo_conf (run demo_serve false false false
    (replicate 6 (Thread 0 false) ++ replicate 2 (Thread 2 false)) demo_conf).

Lemma demo_stuck_reachable : reachable demo_serve false false false demo_stuck.
Proof.
  apply run_reachable with (replicate 6 (Thread 0 false) ++ replicate 2 (Thread 2 false)) demo_conf;
    [apply demo_initial|]. vm_compute. reflexivity.
Qed.

Lemma one_in_section_witness :
  (∀ i j t u, threads demo_waiting !! i = Some t → threads demo_waiting !! j = Some u →
     in_section t → in_section u → i = j) ∧
  (cn_sem (sh demo_waiting) = 0%nat ↔ Exists in_section (threads demo_waiting)) ∧
  (cn_sem (sh demo_waiting) ≤ 1)%nat.
Proof. apply (one_in_section demo_serve true true demo_waiting), demo_reachable. Defined.

Lemma reads_answered_witness :
  Forall (answered demo_blocks) (threads demo_waiting) ∧ (cb_sem (sh demo_waiting) ≤ 1)%nat ∧
  (length (pending (sh demo_waiting)) + length (callbacks (sh demo_waiting)) ≤ 1)%nat.
Proof.
  apply (reads_answered demo_blocks demo_serve ltac:(reflexivity) demo_serves true demo_waiting), demo_reachable.
Defined.

(** Both helpers: the reader that waits is answered and all calls return, or nobody moves. *)
Lemma calls_return_when_answered_witness :
  (∃ c', rtc (step demo_serve true false false) demo_waiting c' ∧ Forall returned (threads c') ∧
     Forall (answered demo_blocks) (threads c')) ∧
  Forall (λ t, is_reader t → ¬ returned t) (threads demo_stuck).
Proof.
  pose proof (calls_return_when_answered demo_blocks demo_serve ltac:(reflexivity)
    demo_serves true demo_waiting
    (demo_reachable false)) as (_ & _ & Hend).
  pose proof (calls_return_when_answered demo_blocks demo_serve ltac:(reflexivity)
    demo_serves false demo_stuck
    demo_stuck_reachable) as (_ & Hnone & _).
  by split.
Defined.

Lemma callback_race_witness :
  ∃ c1 c2, initial c1 ∧ buffer (sh c1) = replicate 1024 9 ∧ threads c1 = [Reader R40 7 0 []] ∧
    run demo_serve false false true (two_strays ++ replicate 10 (Thread 0 false)) c1 = Some c2 ∧
    length (filter is_stray (two_strays ++ replicate 10 (Thread 0 false))) = 2%nat ∧
    threads c2 = [Reader RRet 7 0 (replicate 1024 9)] ∧
    pending (sh c2) = [request_payload 7] ∧ callbacks (sh c2) = [] ∧
    ∃ c3, rtc (step demo_serve true false false) c2 c3 ∧
      buffer (sh c3) = replicate 1024 9 ∧ pending (sh c3) = [] ∧ callbacks (sh c3) = [].
Proof. apply (callback_race demo_serve (replicate 1024 9) 7); [reflexivity|lia]. Defined.
