(* ===== verification/ReadSpec.v ===== *)
(** * What the socket level promises: one disk, read one block at a time

    The specification knows no semaphores, messages, buffers or callbacks: a read is
    waiting, being served, or answered with a block of the disk; reads are served one at
    a time in the order in which their requests go out, and a write passes between two
    reads.  The configurations of [ConnectorThreads] map to its states, and every step of
    theirs is a step of it or leaves its state alone. *)
From S2P Require Import Prelude CLayout Blocks Memory Kernel Env Connector Lock ConnectorThreads.

(** ** The specification *)
Inductive call : Type :=
  | ReadWaiting (address : Z)
  | ReadServed (address : Z)
  | ReadAnswered (address : Z) (block : list Z)
  | WriteWaiting
  | WriteDone.

(** The calls, and the addresses served so far in their order. *)
Record service : Type := Service { calls : list call; order : list Z }.

Definition is_served (k : call) : Prop := match k with ReadServed _ => True | _ => False end.

Section spec.
Context (disk : Z → list Z).

Inductive serves : service → service → Prop :=
  | serves_read ks o i address :
      ks !! i = Some (ReadWaiting address) → Forall (λ k, ¬ is_served k) ks →
      serves (Service ks o) (Service (<[i := ReadServed address]> ks) (o ++ [address]))
  | serves_answer ks o i address :
      ks !! i = Some (ReadServed address) →
      serves (Service ks o)
        (Service (<[i := ReadAnswered address (disk (sent_address address))]> ks) o)
  | serves_write ks o i :
      ks !! i = Some WriteWaiting → Forall (λ k, ¬ is_served k) ks →
      serves (Service ks o) (Service (<[i := WriteDone]> ks) o).
End spec.

(** ** The abstraction *)

(** A read is served from the line after its request has been sent to its return; a call
    whose [kzalloc] has failed sends none, and is outside of what the specification
    covers. *)
Definition call_of (t : thread) : call :=
  match t with
  | Reader (R40 | R43 | R48 | R49 | R51) address _ _ => ReadWaiting address
  | Reader (N56 | N59 | N60 | N63 | N64) address _ _ => ReadWaiting address
  | Reader (R56 | R59 | R60 | R63 | R64) address _ _ => ReadServed address
  | Reader (RRet | NRet) address _ block => ReadAnswered address block
  | Writer (W71 | W75) => WriteWaiting
  | Writer WRet => WriteDone
  end.
Definition service_of (c : conf) : service := Service (call_of <$> threads c) (snd <$> sent (sh c)).

Section refinement.
Context (disk : Z → list Z) (serve : list Z → list Z).
Context (Hdisk : ∀ n, length (disk n) = 1024%nat) (Hserve : serves_disk serve disk).
Implicit Types (c : conf) (s : shared) (t : thread).

Lemma service_same ts s i t t' s' :
  ts !! i = Some t → call_of t' = call_of t → sent s' = sent s →
  service_of (Conf (<[i := t']> ts) s') = service_of (Conf ts s).
Proof.
  intros Hi Hc Hs. unfold service_of. cbn. rewrite Hs, list_fmap_insert, Hc, list_insert_id; [done|].
  by rewrite list_lookup_fmap, Hi.
Qed.

(** Beside the thread in the section no call is being served. *)
Lemma owned_none_served h ts s i t :
  owned h (Conf ts s) → ts !! i = Some t → in_section t → ¬ is_served (call_of t) →
  Forall (λ k, ¬ is_served k) (call_of <$> ts).
Proof.
  intros [(_ & _ & Hown) Hal] Hi Hin Hnot. cbn in Hown, Hal. apply Forall_fmap, Forall_lookup.
  intros j u Hj. cbn. destruct (decide (i = j)) as [<-|Hne]; [by simplify_eq|].
  assert (¬ in_section u) as Hout.
  { intros Hu. apply (Hown j u Hj) in Hu. apply (Hown i t Hi) in Hin. congruence. }
  pose proof (Forall_lookup_1 _ _ _ _ Hal Hj) as Hu.
  destruct u as [[]|[]]; try (by intros []); try done; by destruct Hout.
Qed.

Lemma callback_sent pc msg s pc' s' : callback_step pc msg s = (pc', s') → sent s' = sent s.
Proof. destruct pc; cbn; [destruct (take_sem _)|..]; by intros [= <- <-]. Qed.

(** One step of the protocol is a step of the specification, or none. *)
Lemma step_serves ans c c' :
  protocol disk serve c → step serve ans false false c c' →
  service_of c' = service_of c ∨ serves disk (service_of c) (service_of c').
Proof.
  intros (h & Ho & Hp & _) Hstep.
  destruct Hstep as [ts s i fails t t' s' Hf Hi Ht|ts s p1 r p2 _ Hr|ts s msg Hsp|
    ts s l1 pc msg l2 pc' s' Hc Hs]; cbn in Hp.
  - assert (fails = false) as -> by (destruct fails; [by specialize (Hf eq_refl)|done]).
    assert (in_section t → phase disk serve (Some t) s) as Hph.
    { intros Hin. apply (owned_inside _ _ _ _ _ Ho Hi) in Hin as ->. cbn in Hp. by rewrite Hi in Hp. }
    assert (call_of <$> ts !! i = Some (call_of t)) as Hcall by by rewrite Hi.
    rewrite <-list_lookup_fmap in Hcall.
    pose proof (Forall_lookup_1 _ _ _ _ (proj2 Ho) Hi) as Hal.
    destruct t as [[] addr seq blk|[]]; try done; cbn in Ht; simplify_option_eq;
      try (left; by eapply service_same); right; unfold service_of; cbn [threads sh].
    + rewrite list_fmap_insert. cbn [sent log_sent set_pending]. rewrite fmap_app. cbn.
      apply serves_read; [done|]. by eapply owned_none_served; [exact Ho|exact Hi|done|intros []].
    + rewrite list_fmap_insert. cbn. destruct (Hph I) as (_ & _ & ->). by apply serves_answer.
    + rewrite list_fmap_insert. cbn. apply serves_write; [done|].
      by eapply owned_none_served; [exact Ho|exact Hi|done|intros []].
  - by left.
  - done.
  - left. unfold service_of. cbn. by rewrite (callback_sent _ _ _ _ _ Hs).
Qed.

Lemma run_serves ans c c' :
  rtc (step serve ans false false) c c' → protocol disk serve c → rtc (serves disk) (service_of c) (service_of c').
Proof.
  induction 1 as [|c c1 c2 Hstep _ IH]; [done|]. intros Hp.
  assert (rtc (serves disk) (service_of c1) (service_of c2)) as Hrest
    by (apply IH; by eapply protocol_step).
  destruct (step_serves _ c c1 Hp Hstep) as [<-|Hs]; [done|]. by eapply rtc_l.
Qed.
End refinement.

(** ** Properties *)

(** C2: The socket level implements its specification.  As long as allocations succeed and
    no message but the helper's answers arrives - whether or not the helper does answer -
    every interleaving of any number of reads and writes, with semaphores, messages, the
    shared buffer and callbacks, is, seen from its calls and the requests on the wire, a
    run of the specification: reads are served one at a time, in the order of their
    requests, each answered with the block its request names, and a returned read of the
    program has exactly that block. *)
Theorem socket_level_refines (disk : Z → list Z) (serve : list Z → list Z) (answering : bool)
    (c c' : conf) :
  (∀ n, length (disk n) = 1024%nat) → serves_disk serve disk →
  initial c → rtc (step serve answering false false) c c' →
  rtc (serves disk) (service_of c) (service_of c').
Proof.
  intros Hdisk Hserve Hc Hrun. eapply run_serves; [exact Hdisk|exact Hserve|exact Hrun|].
  by apply initial_protocol.
Qed.

(** ** Witnesses *)

(** The demonstration run: the first reader waits for its block, the others for the mutex. *)
Lemma socket_level_refines_witness :
  rtc (serves demo_blocks) (service_of demo_conf) (service_of demo_waiting).
Proof.
  apply (socket_level_refines demo_blocks demo_serve true demo_conf demo_waiting);
    [reflexivity|apply demo_serves|apply demo_initial|apply demo_runs].
Defined.

Example demo_service :
  service_of demo_waiting = Service [ReadServed 3; WriteWaiting; ReadWaiting 4] [3].
Proof. by vm_compute. Qed.
