(* ===== verification/Sequential.v ===== *)
(** * One thread alone is a run of the interleaving model

    [Connector] and [ConnectorThreads] model the same lines of [sjfs.c] twice: as a
    function on the whole kernel state, with memory, message bytes and formatting, and as
    a step relation on the shared variables alone.  Here the two meet: a call of the first
    that is answered, or that writes, is a run of the second from the shared variables it
    starts with to those it leaves. *)
From S2P Require Import Prelude CLayout Blocks Memory Kernel Env Connector Protocol.
From S2P Require Import Lock ConnectorThreads.

Section sequential.
Context `{!Semaphore, !SemaphoreLaws} {W : Type}
  `{!Allocator W, !Connector W, !Printf, !PrintfLaws} (a : abi).
Abbreviation st := (kstate globals W).
Implicit Types (s : st).

(** The shared variables of a kernel state in which nothing is on its way; [l] is what has
    been sent before. *)
Definition shared_of (s : st) (l : list (Z * Z)) : shared :=
  Shared (sem_count (Connector.cn_sem (k_glob s))) (sem_count (Connector.cb_sem (k_glob s)))
    (cn_counter (k_glob s)) (read_block_buffer (k_glob s)) [] [] l.

#[local] Arguments request_payload : simpl never.
#[local] Arguments received : simpl never.
#[local] Arguments answer : simpl never.

(** The schedule of a reader that is alone: up to its wait, the answer, and the rest. *)
Definition lone_reader : list pick :=
  replicate 6 (Thread 0 false) ++ [Reply 0; Callback 0; Callback 0; Callback 0] ++
  replicate 4 (Thread 0 false).

Lemma lone_reader_run serve n buf l address q blk :
  run serve true false false lone_reader
    (Conf [Reader R40 address q blk] (Shared 1 1 n buf [] [] l))
  = let buf' := received (answer serve (request_payload address)) buf in
    Some (Conf [Reader RRet address n buf'] (Shared 1 1 (u32 (n + 1)) buf' [] [] (l ++ [(n, address)]))).
Proof. reflexivity. Qed.
End sequential.

Section sequential_properties.
Context `{!Semaphore, !SemaphoreLaws} {W : Type}
  `{!Allocator W, !Connector W, !Printf, !PrintfLaws} (a : abi).
Abbreviation st := (kstate globals W).

(** C6: The two models of the socket level agree.  With a working helper a call of
    [sjfs_read_block], executed on kernel memory, returns 0 and leaves the block of the
    disk in memory; the same call is a run of the interleaving model, from the shared
    variables before it to the shared variables after it - both semaphores, the counter
    and the buffer - with the thread that has returned holding the same block. *)
Theorem read_is_a_run (disk : Z → list Z) (serve : list Z → list Z)
    `{!Helper disk} (s : st) (address : Z) (b : positive)
    (o q : Z) (bs blk : list Z) (l : list (Z * Z)) :
  serves_disk serve disk → ready s → 0 <= address < 2 ^ 32 →
  h_map (k_heap s) !! b = Some bs → in_bounds o SJFS_BLOCKSIZE bs →
  ∃ s' block, sjfs_read_block a address (Ptr b o) s = Ok 0 s' ∧ ready s' ∧
    h_map (k_heap s') !! b = Some (splice (Z.to_nat o) block bs) ∧
    rtc (step serve true false false)
      (Conf [Reader R40 address q blk] (shared_of s l))
      (Conf [Reader RRet address (cn_counter (k_glob s)) block]
        (shared_of s' (l ++ [(cn_counter (k_glob s), address)]))).
Proof.
  intros Hserve Hr Had Hb Hi.
  destruct (read_block_from_disk a disk s address b o bs Hr Had Hb Hi)
    as (s' & Hrun & Hr' & _ & Hm & Hbuf & Hct & _).
  exists s', (disk (sent_address address)). split; [exact Hrun|]. split; [done|].
  split; [by rewrite Hm, lookup_insert_eq|].
  destruct Hr as (_ & Hg & Hcn & Hcb), Hr' as (_ & _ & Hcn' & Hcb').
  unfold shared_of. rewrite Hcn, Hcb, Hcn', Hcb', Hct, Hbuf.
  apply run_steps with lone_reader. rewrite lone_reader_run. cbv zeta.
  by rewrite (answer_received disk serve) by (done || apply (helper_block (disk:=disk))).
Qed.

(** Writing agrees too: [sjfs_write_block] returns 0 when the mutex is free, and is
    the two lines of a writer in the interleaving model; when it is taken both models
    let the caller sleep. *)
Theorem write_is_a_run (serve : list Z → list Z) (answering : bool) (s : st)
    (address : Z) (block : ptr) (l : list (Z * Z)) :
  (sem_count (Connector.cn_sem (k_glob s)) ≤ 1)%nat →
  match sjfs_write_block address block s with
  | Ok r s' => r = 0 ∧
      nsteps (step serve answering false false) 2 (Conf [Writer W71] (shared_of s l))
        (Conf [Writer WRet] (shared_of s' l))
  | Stop r => r = Blocked ∧ ∀ c, ¬ step serve answering false false (Conf [Writer W71] (shared_of s l)) c
  end.
Proof.
  intros Hle. destruct (sem_count (Connector.cn_sem (k_glob s))) as [|n] eqn:Hn.
  - unfold sjfs_write_block. rewrite (bind_stop _ _ _ _ (down_on_blocked _ _ _ Hn)).
    split; [done|]. unfold shared_of. rewrite Hn. intros c Hstep.
    inversion Hstep as [ts u i fails t t' u' Hf Hi Ht|ts u p1 r p2 _ Hp|ts u msg Hsp|
      ts u c1 pc msg c2 pc' u' Hc Hs]; subst; [|by destruct p1|done|by destruct c1].
    destruct i as [|i]; [|done]. by injection Hi as <-.
  - destruct (down_on_ok Connector.cn_sem set_cn_sem s n Hn) as (x & Hx & Hcx).
    unfold sjfs_write_block. rewrite (bind_ok _ _ _ _ _ Hx).
    unfold up_on, get_glob, gets, mod_glob, modify, mbind, M_bind. cbn. split; [done|].
    unfold shared_of. cbn. rewrite Hn, up_count, Hcx.
    assert (n = 0%nat) as -> by lia.
    eapply nsteps_l; [by eapply (step_thread serve answering false false _ _ 0 false)|].
    eapply nsteps_l; [by eapply (step_thread serve answering false false _ _ 0 false)|]. apply nsteps_O.
Qed.
End sequential_properties.

(** ** Witnesses *)
Lemma read_is_a_run_witness :
  let c := served_connector demo_blocks in
  let s := served_state demo_heap in
  ∃ s' block, sjfs_read_block (Connector0:=c) LP64 42 (Ptr 1 0) s = Ok 0 s' ∧ ready s' ∧
    h_map (k_heap s') !! 1%positive = Some (splice 0 block (replicate 1024 7)) ∧
    rtc (step demo_serve true false false)
      (Conf [Reader R40 42 0 []] (shared_of s [])) 
      (Conf [Reader RRet 42 0 block] (shared_of s' [(0, 42)])).
Proof.
  intros c s.
  apply (read_is_a_run (Connector0:=c) LP64 demo_blocks demo_serve
    (Helper0:=served_helper demo_blocks ltac:(reflexivity)) s 42 1 0 0 (replicate 1024 7) [] []);
    [apply demo_serves|by apply served_ready, demo_heap_wf|lia|reflexivity|].
  unfold in_bounds. rewrite length_replicate. by vm_compute.
Defined.

Lemma write_is_a_run_witness :
  match sjfs_write_block 42 (Ptr 1 0) (served_state demo_heap) with
  | Ok r s' => r = 0 ∧
      nsteps (step demo_serve true false false) 2 (Conf [Writer W71] (shared_of (served_state demo_heap) []))
        (Conf [Writer WRet] (shared_of s' []))
  | Stop r => r = Blocked ∧
      ∀ c, ¬ step demo_serve true false false (Conf [Writer W71] (shared_of (served_state demo_heap) [])) c
  end.
Proof.
  apply (write_is_a_run demo_serve true (served_state demo_heap) 42 (Ptr 1 0) []). cbn. lia.
Defined.
