(* ===== verification/RamInodes.v ===== *)
(** * The memory file system shared by the backup plans and the ramfs test

    Plans A and B ([backup_plans/a/sjfs.c], [backup_plans/b/sjfs.c]) carry the same
    text for making inodes and names ([sjfs_get_inode], [sjfs_mknod], [sjfs_mkdir],
    [sjfs_create], [sjfs_symlink], [sjfs_fill_super]); [ramfs_test/sjfs_ram.c] has it
    with logging and its own tables.  The text is here once, over the operation
    tables [tables] a module plugs in; [PlanA] and [PlanB] instantiate it and [Ramfs]
    is shown to refine it.  A directory or dentry that the source dereferences is an
    option, NULL being [None]. *)
From S2P Require Import Prelude CLayout Blocks Memory Kernel Env Vfs.

(** The tables an inode gets, by its type. *)
Record tables : Set := Tables {
  t_aops : string; t_file_iops : string; t_file_fops : string;
  t_dir_iops : string; t_dir_fops : string }.

Definition S_IRWXUGO : Z := 0x1FF.

Section ram.
Context {G W : Type} `{!Clock W, !Vfs W} (t : tables).
Abbreviation st := (kstate G W).

(** [dir] as the argument of [inode_init_owner]: may be NULL. *)
Definition opt_inode (dir : option positive) : M st (option inode) :=
  match dir with
  | None => mret None
  | Some dp => d ← get_inode dp; mret (Some d)
  end.

(** The members every new inode gets. *)
Definition init_inode (ip : positive) (d : option inode) (mode : Z) : M st unit :=
  upd_inode ip (inode_init_owner d mode) ;;
  upd_inode ip (with_aops (Table (t_aops t))) ;;
  world_ (mapping_set_gfp_mask ip) ;;
  world_ (mapping_set_unevictable ip) ;;
  now ← world CURRENT_TIME;
  upd_inode ip (with_times now now now).

(** [switch (mode & S_IFMT)] *)
Definition set_type (ip : positive) (mode dev : Z) : M st unit :=
  if ftype mode =? S_IFREG then
    upd_inode ip (with_op (Table (t_file_iops t))) ;;
    upd_inode ip (with_fop (Table (t_file_fops t)))
  else if ftype mode =? S_IFDIR then
    upd_inode ip (with_op (Table (t_dir_iops t))) ;;
    upd_inode ip (with_fop (Table (t_dir_fops t))) ;;
    upd_inode ip inc_nlink
  else if ftype mode =? S_IFLNK then
    upd_inode ip (with_op (Table "page_symlink_inode_operations"))
  else upd_inode ip (init_special_inode mode dev).

Definition ram_get_inode (sb : positive) (dir : option positive) (mode dev : Z)
    : M st (option positive) :=
  inode ← alloc_inode sb;
  match inode with
  | None => mret None
  | Some ip =>
      ino ← world get_next_ino;
      upd_inode ip (with_ino ino) ;;
      d ← opt_inode dir;
      init_inode ip d mode ;;
      set_type ip mode dev ;;
      mret (Some ip)
  end.

(** Binding the new inode and stamping the directory. *)
Definition bind_name (dp dentry ip : positive) : M st unit :=
  world_ (d_instantiate dentry ip) ;;
  world_ (dget dentry) ;;
  now ← world CURRENT_TIME;
  upd_inode dp (with_mctime now).

Definition ram_mknod (dir : option positive) (dentry : positive) (mode dev : Z) : M st Z :=
  dp ← deref dir;
  d ← get_inode dp;
  inode ← ram_get_inode (i_sb d) dir mode dev;
  match inode with
  | None => mret (- ENOSPC)
  | Some ip => bind_name dp dentry ip ;; mret 0
  end.

Definition ram_mkdir (dir : option positive) (dentry : positive) (mode : Z) : M st Z :=
  retval ← ram_mknod dir dentry (u16 (Z.lor mode S_IFDIR)) 0;
  if negb (truth retval) then
    dp ← deref dir;
    upd_inode dp inc_nlink ;;
    mret retval
  else mret retval.

Definition ram_create (dir : option positive) (dentry : positive) (mode : Z) (excl : bool) : M st Z :=
  ram_mknod dir dentry (u16 (Z.lor mode S_IFREG)) 0.

Definition ram_symlink (dir : option positive) (dentry : positive) (symname : string) : M st Z :=
  dp ← deref dir;
  d ← get_inode dp;
  inode ← ram_get_inode (i_sb d) dir (Z.lor S_IFLNK S_IRWXUGO) 0;
  match inode with
  | None => mret (- ENOSPC)
  | Some ip =>
      let l := s32 (Z.of_nat (String.length symname) + 1) in
      error ← kcall "page_symlink" [KInode (Some ip); KStr symname; KInt l];
      if negb (truth error) then
        bind_name dp dentry ip ;;
        mret error
      else
        _ ← kcall "iput" [KInode (Some ip)];
        mret error
  end.

(** [sjfs_fill_super]: [ops] is the superblock's operation table, the sizes are the
    kernel's constants. *)
Definition ram_fill_super (ops : string) (maxbytes page_size page_shift : Z) (sb : positive)
    (data : karg) (silent : Z) : M st Z :=
  _ ← kcall "save_mount_options" [KObj "super_block" sb; data];
  upd_super sb (λ x, with_magic SJFS_MAGIC
    (with_static page_shift page_size maxbytes 1 (Table ops) x)) ;;
  inode ← ram_get_inode sb None (Z.lor S_IFDIR 0x1ED) 0;
  root ← world (d_make_root inode);
  upd_super sb (with_root root) ;;
  match root with
  | None => mret (- ENOMEM)
  | Some _ => mret 0
  end.

(** ** Specification *)

(** An inode is what its mode says: its operations and, for a directory, the link
    of its own [.]. *)
Definition typed (i : inode) : Prop :=
  (ftype (i_mode i) = S_IFREG → i_op i = Table (t_file_iops t) ∧ i_fop i = Table (t_file_fops t)) ∧
  (ftype (i_mode i) = S_IFDIR → i_op i = Table (t_dir_iops t) ∧ i_fop i = Table (t_dir_fops t)) ∧
  (ftype (i_mode i) = S_IFLNK → i_op i = Table "page_symlink_inode_operations").

(** What a new inode looks like. *)
Record new_ok (sb : positive) (ino mode : Z) (i : inode) : Prop := NewOk {
  new_ino : i_ino i = ino;
  new_sb : i_sb i = sb;
  new_ftype : ftype (i_mode i) = ftype mode;
  new_typed : typed i;
  new_nlink : i_nlink i = if ftype mode =? S_IFDIR then 2 else 1;
  new_aops : i_aops i = Table (t_aops t);
  new_times : i_atime i = i_mtime i ∧ i_mtime i = i_ctime i }.
End ram.

(** ** Lemmas *)
Section ram_lemmas.
Context {G W : Type} `{!Clock W, !Vfs W, !VfsLaws W, !DentryFrame W} (t : tables).
Abbreviation st := (kstate G W).
Implicit Types (s : st).

(** An update of an inode that is there, in the form that chains. *)
Lemma upd_inode_there ip f i s :
  k_inodes s !! ip = Some i →
  upd_inode ip f s = Ok tt (with_inodes (<[ip := f i]> (k_inodes s)) s).
Proof. intros Hi. unfold upd_inode, get_inode, modify, mbind, M_bind. cbn. by rewrite Hi. Qed.

Lemma init_inode_ok ip d mode i s :
  k_inodes s !! ip = Some i →
  ∃ now w mode' uid gid, init_inode t ip d mode s
    = Ok tt (with_inodes (<[ip := with_times now now now (with_aops (Table (t_aops t))
        (with_owner mode' uid gid i))]> (k_inodes s)) (with_world w s)) ∧
    ftype mode' = ftype mode ∧ same_dentries (k_world s) w.
Proof.
  intros Hi. destruct (init_owner d mode i) as (mode' & uid & gid & Ho & Hf).
  unfold init_inode.
  rewrite (bind_ok _ _ _ _ _ (upd_inode_there ip _ i s Hi)), Ho.
  erewrite bind_ok; [|apply upd_inode_there, lookup_insert_eq].
  do 2 (erewrite bind_ok; [|reflexivity]).
  erewrite bind_ok; [|apply world_eq].
  erewrite upd_inode_there; [|cbn; rewrite insert_insert_eq; apply lookup_insert_eq].
  eexists _, _, mode', uid, gid. split; [cbn; by rewrite !insert_insert_eq|]. split; [done|].
  cbn. etrans; [|apply clock_dentries]. intros dd.
  by rewrite set_unevictable_inode, set_unevictable_count, set_gfp_inode, set_gfp_count.
Qed.

Lemma set_type_ok ip mode dev i s :
  k_inodes s !! ip = Some i → ftype (i_mode i) = ftype mode → i_nlink i = 1 →
  ∃ i', set_type t ip mode dev s = Ok tt (with_inodes (<[ip := i']> (k_inodes s)) s) ∧
    typed t i' ∧ ftype (i_mode i') = ftype mode ∧ i_ino i' = i_ino i ∧ i_sb i' = i_sb i ∧
    i_nlink i' = (if ftype mode =? S_IFDIR then 2 else 1) ∧ i_aops i' = i_aops i ∧
    i_atime i' = i_atime i ∧ i_mtime i' = i_mtime i ∧ i_ctime i' = i_ctime i.
Proof.
  intros Hi Hf Hn. unfold set_type, typed.
  destruct (Z.eqb_spec (ftype mode) S_IFREG) as [Hr|Hr];
    [|destruct (Z.eqb_spec (ftype mode) S_IFDIR) as [Hd|Hd];
      [|destruct (Z.eqb_spec (ftype mode) S_IFLNK) as [Hl|Hl]]].
  - erewrite bind_ok; [|by apply upd_inode_there].
    erewrite upd_inode_there; [|apply lookup_insert_eq].
    cbn [k_inodes with_inodes]. rewrite insert_insert_eq. rewrite Hr.
    eexists. split; [reflexivity|]. cbn. rewrite Hf, Hr. done.
  - erewrite bind_ok; [|by apply upd_inode_there].
    erewrite bind_ok; [|apply upd_inode_there, lookup_insert_eq].
    erewrite upd_inode_there; [|cbn; rewrite insert_insert_eq; apply lookup_insert_eq].
    cbn [k_inodes with_inodes]. rewrite !insert_insert_eq, inc_nlink_spec.
    eexists. split; [reflexivity|]. cbn. rewrite Hf, Hd, Hn. done.
  - erewrite upd_inode_there by done. eexists. split; [reflexivity|]. cbn. rewrite Hf, Hl. done.
  - erewrite upd_inode_there by done. destruct (init_special_spec mode dev i) as [tab ->].
    eexists. split; [reflexivity|]. cbn. naive_solver.
Qed.

(** [ram_get_inode] with and without an inode to be had. *)
Lemma ram_get_inode_null sb dir mode dev s w1 :
  new_inode sb (k_world s) = (None, w1) →
  ram_get_inode t sb dir mode dev s = Ok None (with_world w1 s).
Proof. intros Hn. unfold ram_get_inode. by erewrite bind_ok; [|by eapply alloc_inode_null]. Qed.

Lemma ram_get_inode_ok sb dir mode dev s i0 w1 :
  new_inode sb (k_world s) = (Some i0, w1) → inodes_wf s →
  (∀ dp, dir = Some dp → is_Some (k_inodes s !! dp)) →
  ∃ i' w2, let ip := k_next_inode s in
    ram_get_inode t sb dir mode dev s
    = Ok (Some ip) (with_next_inode (Pos.succ ip)
        (with_inodes (<[ip := i']> (k_inodes s)) (with_world w2 s))) ∧
    new_ok t sb (get_next_ino w1).1 mode i' ∧ same_dentries (k_world s) w2.
Proof.
  intros Hn Hwf Hdir. destruct (new_inode_nlink _ _ _ _ Hn) as [Hnl Hsb].
  set (ip := k_next_inode s).
  unfold ram_get_inode. rewrite (bind_ok _ _ _ _ _ (alloc_inode_ok _ _ _ _ Hn)). cbv iota. fold ip.
  erewrite bind_ok; [|apply world_eq]. cbn [k_world with_next_inode with_inodes with_world].
  erewrite bind_ok; [|apply upd_inode_there, lookup_insert_eq].
  cbn [k_inodes with_next_inode with_inodes with_world]. rewrite insert_insert_eq.
  assert (∃ d, ∀ m s', k_inodes s' = <[ip := m]> (k_inodes s) → opt_inode dir s' = Ok d s') as [d Hd].
  { destruct dir as [dp|]; [|by exists None].
    destruct (Hdir dp eq_refl) as [x Hx]. exists (Some x). intros m s' Hs'.
    assert (dp ≠ ip) by (intros ->; pose proof (Hwf ip (ex_intro _ _ Hx)); unfold ip in *; lia).
    unfold opt_inode, get_inode, mbind, M_bind. by rewrite Hs', lookup_insert_ne, Hx. }
  erewrite bind_ok; [|by eapply Hd].
  set (i1 := with_ino _ i0).
  destruct (init_inode_ok ip d mode i1 (with_inodes (<[ip := i1]> (k_inodes s))
    (with_world (get_next_ino w1).2 (with_next_inode (Pos.succ ip) (with_world w1 s)))))
    as (now & w & mode' & uid & gid & Hinit & Hf & Hsame); [apply lookup_insert_eq|].
  erewrite bind_ok; [|exact Hinit].
  cbn [k_inodes with_next_inode with_inodes with_world]. rewrite insert_insert_eq.
  set (i2 := with_times now now now _).
  destruct (set_type_ok ip mode dev i2 (with_inodes (<[ip := i2]> (k_inodes s))
    (with_world w (with_next_inode (Pos.succ ip) (with_world w1 s)))))
    as (i' & Hset & Htyped & Hfi & Hino & Hsbi & Hnli & Haops & Hat & Hmt & Hct);
    [apply lookup_insert_eq|done|done|].
  eexists i', w. split; [|split].
  - erewrite bind_ok; [|exact Hset]. cbn. by rewrite insert_insert_eq.
  - constructor; cbn in *; try done; try split; congruence.
  - etrans; [|exact Hsame]. cbn. etrans; [|apply next_ino_dentries].
    pose proof (new_inode_dentries sb (k_world s)) as Hd1. by rewrite Hn in Hd1.
Qed.

(** What binding the dentry [dn] to [ip] makes of the dentries of [w]. *)
Definition bound (dn ip : positive) (w w' : W) : Prop :=
  d_inode dn w' = Some ip ∧ d_count dn w' = d_count dn w + 1 ∧
  ∀ d, d ≠ dn → d_inode d w' = d_inode d w ∧ d_count d w' = d_count d w.

Lemma bound_frame dn ip w0 w w' : same_dentries w0 w → bound dn ip w w' → bound dn ip w0 w'.
Proof.
  intros Hs (Hi & Hc & Ho). split; [done|]. split; [destruct (Hs dn); congruence|].
  intros d Hd. destruct (Hs d), (Ho d Hd). split; congruence.
Qed.

Lemma bind_name_ok dp dn ip d s :
  k_inodes s !! dp = Some d →
  ∃ now w, bind_name dp dn ip s
    = Ok tt (with_inodes (<[dp := with_mctime now d]> (k_inodes s)) (with_world w s)) ∧
    bound dn ip (k_world s) w.
Proof.
  intros Hd. unfold bind_name. do 2 (erewrite bind_ok; [|reflexivity]).
  erewrite bind_ok; [|apply world_eq]. rewrite (upd_inode_there dp _ d) by done.
  eexists _, _. split; [reflexivity|]. cbn. set (w := dget dn _).
  assert (∀ x, d_inode x w = (if decide (x = dn) then Some ip else d_inode x (k_world s)) ∧
    d_count x w = d_count x (k_world s) + if decide (x = dn) then 1 else 0) as Hw.
  { intros x. unfold w. rewrite dget_inode, dget_count, d_instantiate_count.
    destruct (decide (x = dn)) as [->|].
    - by rewrite d_instantiate_same, decide_True.
    - rewrite d_instantiate_other, decide_False by done. by rewrite Z.add_0_r. }
  pose proof (λ x, clock_dentries w x) as Hclk. split; [|split].
  - destruct (Hclk dn) as [-> _]. destruct (Hw dn) as [-> _]. by rewrite decide_True.
  - destruct (Hclk dn) as [_ ->]. destruct (Hw dn) as [_ ->]. by rewrite decide_True.
  - intros x Hx. destruct (Hclk x) as [-> ->], (Hw x) as [-> ->]. rewrite !decide_False by done.
    by rewrite Z.add_0_r.
Qed.

(** The state after a new inode [i'] was bound in the directory [dp], now [d']. *)
Definition made (dp : positive) (d' i' : inode) (w : W) s : st :=
  with_next_inode (Pos.succ (k_next_inode s))
    (with_inodes (<[dp := d']> (<[k_next_inode s := i']> (k_inodes s))) (with_world w s)).

Lemma ram_mknod_ok dp d dn mode dev s i0 w1 :
  k_inodes s !! dp = Some d → inodes_wf s → new_inode (i_sb d) (k_world s) = (Some i0, w1) →
  ∃ i' now w, ram_mknod t (Some dp) dn mode dev s = Ok 0 (made dp (with_mctime now d) i' w s) ∧
    new_ok t (i_sb d) (get_next_ino w1).1 mode i' ∧
    bound dn (k_next_inode s) (k_world s) w.
Proof.
  intros Hd Hwf Hn. pose proof (Hwf dp (ex_intro _ _ Hd)) as Hlt.
  destruct (ram_get_inode_ok (i_sb d) (Some dp) mode dev s i0 w1 Hn Hwf) as (i' & w2 & Hrun & Hok & Hs);
    [by intros ? [= <-]; exists d|].
  set (ip := k_next_inode s) in *.
  match type of Hrun with _ = Ok _ ?s2 =>
    destruct (bind_name_ok dp dn ip d s2) as (now & w & Hbind & Hb) end.
  { cbn. by rewrite lookup_insert_ne by (intros ?; lia). }
  exists i', now, w. split; [|split; [done|by eapply bound_frame]].
  unfold ram_mknod. erewrite bind_ok; [|reflexivity].
  erewrite bind_ok; [|unfold get_inode; rewrite Hd; reflexivity].
  erewrite bind_ok; [|exact Hrun]. cbv iota. erewrite bind_ok; [|exact Hbind]. reflexivity.
Qed.

Lemma ram_mknod_null dp d dn mode dev s w1 :
  k_inodes s !! dp = Some d → new_inode (i_sb d) (k_world s) = (None, w1) →
  ram_mknod t (Some dp) dn mode dev s = Ok (- ENOSPC) (with_world w1 s).
Proof.
  intros Hd Hn. unfold ram_mknod. erewrite bind_ok; [|reflexivity].
  erewrite bind_ok; [|unfold get_inode; rewrite Hd; reflexivity].
  by erewrite bind_ok; [|by apply ram_get_inode_null].
Qed.

Lemma ram_mkdir_ok dp d dn mode s i0 w1 :
  k_inodes s !! dp = Some d → inodes_wf s → new_inode (i_sb d) (k_world s) = (Some i0, w1) →
  ∃ i' now w, ram_mkdir t (Some dp) dn mode s
    = Ok 0 (made dp (with_nlink (u32 (i_nlink d + 1)) (with_mctime now d)) i' w s) ∧
    new_ok t (i_sb d) (get_next_ino w1).1 (u16 (Z.lor mode S_IFDIR)) i' ∧
    bound dn (k_next_inode s) (k_world s) w.
Proof.
  intros Hd Hwf Hn.
  destruct (ram_mknod_ok dp d dn (u16 (Z.lor mode S_IFDIR)) 0 s i0 w1 Hd Hwf Hn)
    as (i' & now & w & Hrun & Hok & Hb).
  exists i', now, w. split; [|done]. unfold ram_mkdir. erewrite bind_ok; [|exact Hrun].
  change (negb (truth 0)) with true. cbv iota. erewrite bind_ok; [|reflexivity].
  erewrite bind_ok; [|apply upd_inode_there, lookup_insert_eq].
  rewrite inc_nlink_spec. unfold made, mret, M_ret. cbn. by rewrite insert_insert_eq.
Qed.

Lemma ram_mkdir_null dp d dn mode s w1 :
  k_inodes s !! dp = Some d → new_inode (i_sb d) (k_world s) = (None, w1) →
  ram_mkdir t (Some dp) dn mode s = Ok (- ENOSPC) (with_world w1 s).
Proof.
  intros Hd Hn. unfold ram_mkdir. by erewrite bind_ok; [|by eapply ram_mknod_null].
Qed.

(** A mode without type bits becomes one of the type ORed in. *)
Lemma ftype_or mode typ :
  0 <= mode < 2 ^ 16 → ftype mode = 0 → Z.land typ S_IFMT = typ → 0 <= typ < 2 ^ 16 →
  ftype (u16 (Z.lor mode typ)) = typ.
Proof.
  intros Hm Hf Ht Hr. unfold ftype, u16, wrap in *.
  rewrite Z.mod_small.
  - by rewrite Z.land_lor_distr_l, Hf, Ht.
  - split; [by apply Z.lor_nonneg; lia|].
    destruct (Z.eq_dec (Z.lor mode typ) 0) as [->|Hne]; [lia|].
    assert (0 <= Z.lor mode typ) by (apply Z.lor_nonneg; lia).
    apply Z.log2_lt_pow2; [lia|]. rewrite Z.log2_lor by lia.
    apply Z.max_lub_lt.
    + destruct (Z.eq_dec mode 0) as [->|]; [by vm_compute|]. apply Z.log2_lt_pow2; lia.
    + destruct (Z.eq_dec typ 0) as [->|]; [by vm_compute|]. apply Z.log2_lt_pow2; lia.
Qed.
End ram_lemmas.

(** ** Sequences of operations *)

(** The operations that make names. *)
Inductive ram_op : Type :=
  | Mknod (dir : option positive) (dentry : positive) (mode dev : Z)
  | Mkdir (dir : option positive) (dentry : positive) (mode : Z)
  | Create (dir : option positive) (dentry : positive) (mode : Z) (excl : bool)
  | Symlink (dir : option positive) (dentry : positive) (symname : string).

(** [page_symlink] writes the page of the inode it is given, [iput] may drop an
    inode, [save_mount_options] copies a string: none makes an inode or changes the
    type or the operations of one. *)
Class KeepsTypes (W : Type) `{!Vfs W} := {
  keeps_types : ∀ name args m w j i', 
    name ∈ ["page_symlink"; "iput"; "save_mount_options"] →
    (kernel_call name args m w).2.1 !! j = Some i' →
    ∃ i, m !! j = Some i ∧ i_mode i' = i_mode i ∧ i_op i' = i_op i ∧ i_fop i' = i_fop i }.
Arguments KeepsTypes : clear implicits.
Arguments KeepsTypes W {_}.

Section ram_invariant.
Context {G W : Type} `{!Clock W, !Vfs W, !VfsLaws W, !DentryFrame W} (t : tables).
Abbreviation st := (kstate G W).
Implicit Types (s : st).

Definition run_op (o : ram_op) : M st Z :=
  match o with
  | Mknod dir dentry mode dev => ram_mknod t dir dentry mode dev
  | Mkdir dir dentry mode => ram_mkdir t dir dentry mode
  | Create dir dentry mode excl => ram_create t dir dentry mode excl
  | Symlink dir dentry symname => ram_symlink t dir dentry symname
  end.

(** One call that returns, with success or with an error. *)
Definition op_step (s s' : st) : Prop := ∃ o r, run_op o s = Ok r s'.

(** Every inode is typed, and inode names are fresh. *)
Definition all_typed (s : st) : Prop :=
  inodes_wf s ∧ ∀ j i, k_inodes s !! j = Some i → typed t i.

Lemma typed_same i i' :
  typed t i → i_mode i' = i_mode i → i_op i' = i_op i → i_fop i' = i_fop i → typed t i'.
Proof. unfold typed. by intros Hi -> -> ->. Qed.

Lemma all_typed_world w s : all_typed s → all_typed (with_world w s).
Proof. done. Qed.

Lemma all_typed_upd j i w s :
  all_typed s → is_Some (k_inodes s !! j) → typed t i →
  all_typed (with_inodes (<[j := i]> (k_inodes s)) (with_world w s)).
Proof.
  intros [Hwf Ht] Hj Hi. split.
  - intros k Hk. cbn in *. destruct (decide (j = k)) as [<-|]; [by apply Hwf|].
    rewrite lookup_insert_ne in Hk by done. by apply Hwf.
  - intros k x. cbn. intros [[<- <-]|[_ Hx]]%lookup_insert_Some; [done|by eapply Ht].
Qed.

Lemma all_typed_new i w s :
  all_typed s → typed t i →
  all_typed (with_next_inode (Pos.succ (k_next_inode s))
    (with_inodes (<[k_next_inode s := i]> (k_inodes s)) (with_world w s))).
Proof.
  intros [Hwf Ht] Hi. split.
  - intros k Hk. cbn in *. destruct (decide (k_next_inode s = k)) as [<-|]; [lia|].
    rewrite lookup_insert_ne in Hk by done. apply Hwf in Hk. lia.
  - intros k x. cbn. intros [[<- <-]|[_ Hx]]%lookup_insert_Some; [done|by eapply Ht].
Qed.

Lemma all_typed_made dp d' i' w s :
  all_typed s → is_Some (k_inodes s !! dp) → typed t d' → typed t i' →
  all_typed (made dp d' i' w s).
Proof.
  intros Hs Hdp Hd Hi. pose proof (proj1 Hs dp Hdp) as Hlt.
  pose proof (all_typed_new i' w s Hs Hi) as Hnew.
  apply (all_typed_upd dp d' w) in Hnew; [exact Hnew| |done].
  cbn. by rewrite lookup_insert_ne by (intros ?; lia).
Qed.

Lemma all_typed_kcall `{!KeepsTypes W} name args s :
  name ∈ ["page_symlink"; "iput"; "save_mount_options"] → all_typed s →
  wp (kcall name args) (λ _ s', all_typed s') any_stop s.
Proof.
  intros Hname [Hwf Ht]. rewrite wp_kcall.
  pose proof (λ j i', keeps_types name args (k_inodes s) (k_world s) j i' Hname) as Hk.
  destruct (kernel_call name args (k_inodes s) (k_world s)) as [r [m w]]. cbn in Hk.
  split; cbn.
  - intros j [i' Hj]. apply Hk in Hj as (i & Hi & _). eauto.
  - intros j i' Hj. apply Hk in Hj as (i & Hi & Hm & Ho & Hf). eapply typed_same; eauto.
Qed.

Lemma all_typed_mknod dir dn mode dev s :
  all_typed s → wp (ram_mknod t dir dn mode dev) (λ _ s', all_typed s') any_stop s.
Proof.
  intros Hs. destruct dir as [dp|]; [|done]. destruct (k_inodes s !! dp) as [d|] eqn:Hd.
  2: { unfold ram_mknod, wp, get_inode, mbind, M_bind. cbn. by rewrite Hd. }
  destruct (new_inode (i_sb d) (k_world s)) as [[i0|] w1] eqn:Hn.
  - destruct (ram_mknod_ok t dp d dn mode dev s i0 w1 Hd (proj1 Hs) Hn)
      as (i' & now & w & Hrun & Hok & _).
    rewrite (wp_ok _ _ _ _ _ _ Hrun). apply all_typed_made; [done|eauto| |apply Hok].
    by eapply typed_same; [by eapply (proj2 Hs)|..].
  - by rewrite (wp_ok _ _ _ _ _ _ (ram_mknod_null t dp d dn mode dev s w1 Hd Hn)).
Qed.

Lemma typed_inc_nlink i : typed t i → typed t (inc_nlink i).
Proof. intros Hi. rewrite inc_nlink_spec. by eapply typed_same. Qed.

Lemma all_typed_upd_inode ip f s :
  all_typed s → (∀ i, typed t i → typed t (f i)) →
  wp (upd_inode ip f) (λ _ s', all_typed s') any_stop s.
Proof.
  intros Hs Hf. rewrite wp_upd_inode. destruct (k_inodes s !! ip) as [i|] eqn:Hi; [|done].
  apply (all_typed_upd ip (f i) (k_world s)); [done|eauto|]. by apply Hf, (proj2 Hs ip).
Qed.

Lemma all_typed_bind dp dn ip s :
  all_typed s → wp (bind_name dp dn ip) (λ _ s', all_typed s') any_stop s.
Proof.
  intros Hs. unfold bind_name. vsteps. destruct (CURRENT_TIME _) as [now w]. cbn.
  destruct (k_inodes s !! dp) as [d|] eqn:Hd; [|done].
  refine (all_typed_upd dp (with_mctime now d) w s Hs (ex_intro _ _ Hd) _).
  eapply typed_same; [by eapply (proj2 Hs)|done..].
Qed.

Lemma all_typed_get_inode sb dp mode dev s :
  all_typed s → is_Some (k_inodes s !! dp) →
  wp (ram_get_inode t sb (Some dp) mode dev) (λ _ s', all_typed s') any_stop s.
Proof.
  intros Hs Hdp. destruct (new_inode sb (k_world s)) as [[i0|] w1] eqn:Hn.
  - destruct (ram_get_inode_ok t sb (Some dp) mode dev s i0 w1 Hn (proj1 Hs))
      as (i' & w2 & Hrun & Hok & _); [by intros ? [= <-]|].
    rewrite (wp_ok _ _ _ _ _ _ Hrun). apply all_typed_new; [done|apply Hok].
  - by rewrite (wp_ok _ _ _ _ _ _ (ram_get_inode_null t sb (Some dp) mode dev s w1 Hn)).
Qed.

Lemma all_typed_op `{!KeepsTypes W} o s :
  all_typed s → wp (run_op o) (λ _ s', all_typed s') any_stop s.
Proof.
  intros Hs. destruct o as [dir dn mode dev|dir dn mode|dir dn mode excl|dir dn symname]; cbn.
  - by apply all_typed_mknod.
  - unfold ram_mkdir. rewrite wp_bind. eapply wp_mono; [by apply all_typed_mknod| |done].
    intros r s1 Hs1. destruct (negb _); [|done]. rewrite wp_bind, wp_deref.
    destruct dir as [dp|]; [|done]. rewrite wp_bind.
    eapply wp_mono; [by apply all_typed_upd_inode; [|apply typed_inc_nlink]|done|done].
  - by apply all_typed_mknod.
  - unfold ram_symlink. rewrite wp_bind, wp_deref. destruct dir as [dp|]; [|done].
    rewrite wp_bind, wp_get_inode. destruct (k_inodes s !! dp) as [d|] eqn:Hd; [|done].
    rewrite wp_bind. eapply wp_mono; [by apply all_typed_get_inode; [|eauto]| |done].
    intros [ip|] s1 Hs1; [|done]. rewrite wp_bind.
    eapply wp_mono; [by apply all_typed_kcall; [set_solver|]| |done].
    intros r s2 Hs2. destruct (negb _); rewrite wp_bind.
    + eapply wp_mono; [by apply all_typed_bind|done|done].
    + eapply wp_mono; [by apply all_typed_kcall; [set_solver|]|done|done].
Qed.
End ram_invariant.

(** ** Properties *)
Section ram_properties.
Context {G W : Type} `{!Clock W, !Vfs W, !VfsLaws W, !DentryFrame W} (t : tables).
Abbreviation st := (kstate G W).

(** C17: Making a node.  With an inode to be had [mknod] returns 0: the new inode has
    the next number, one link (two for a directory), the operations of its type
    and equal times; exactly the given dentry is bound to it and pinned once more,
    the directory's times are stamped and no other inode is touched.  Without one
    it reports [-ENOSPC] and changes nothing. *)
Theorem mknod_outcome (s : st) (dp dn : positive) (d : inode) (mode dev : Z) :
  k_inodes s !! dp = Some d → inodes_wf s →
  match new_inode (i_sb d) (k_world s) with
  | (None, w1) => ram_mknod t (Some dp) dn mode dev s = Ok (- ENOSPC) (with_world w1 s)
  | (Some _, w1) =>
      ∃ i' now w, ram_mknod t (Some dp) dn mode dev s = Ok 0 (made dp (with_mctime now d) i' w s) ∧
        new_ok t (i_sb d) (get_next_ino w1).1 mode i' ∧
        bound dn (k_next_inode s) (k_world s) w
  end.
Proof.
  intros Hd Hwf. destruct (new_inode (i_sb d) (k_world s)) as [[i0|] w1] eqn:Hn.
  - by eapply ram_mknod_ok.
  - by eapply ram_mknod_null.
Qed.

(** C18: Making a directory.  [mkdir] is [mknod] of a directory that also counts the
    new [..] link in its parent; when no inode is to be had it reports [-ENOSPC]
    and the parent keeps its links. *)
Theorem mkdir_outcome (s : st) (dp dn : positive) (d : inode) (mode : Z) :
  k_inodes s !! dp = Some d → inodes_wf s → 0 <= mode < 2 ^ 16 → ftype mode = 0 →
  match new_inode (i_sb d) (k_world s) with
  | (None, w1) => ram_mkdir t (Some dp) dn mode s = Ok (- ENOSPC) (with_world w1 s)
  | (Some _, _) =>
      ∃ i' now w, ram_mkdir t (Some dp) dn mode s
        = Ok 0 (made dp (with_nlink (u32 (i_nlink d + 1)) (with_mctime now d)) i' w s) ∧
        ftype (i_mode i') = S_IFDIR ∧ i_nlink i' = 2 ∧
        i_op i' = Table (t_dir_iops t) ∧ i_fop i' = Table (t_dir_fops t) ∧
        bound dn (k_next_inode s) (k_world s) w
  end.
Proof.
  intros Hd Hwf Hm Hf. destruct (new_inode (i_sb d) (k_world s)) as [[i0|] w1] eqn:Hn.
  - destruct (ram_mkdir_ok t dp d dn mode s i0 w1 Hd Hwf Hn) as (i' & now & w & Hrun & Hok & Hb).
    pose proof (ftype_or mode S_IFDIR Hm Hf eq_refl) as Hdir.
    assert (ftype (i_mode i') = S_IFDIR) as Hi' by (rewrite (new_ftype _ _ _ _ _ Hok); by apply Hdir).
    destruct (proj1 (proj2 (new_typed _ _ _ _ _ Hok)) Hi') as [Hop Hfop].
    exists i', now, w. split; [done|]. split; [done|]. split; [|done].
    rewrite (new_nlink _ _ _ _ _ Hok), Hdir by done. done.
  - by eapply ram_mkdir_null.
Qed.

(** C16: The type invariant.  However many nodes, directories, files and links are
    made, successfully or not, every inode keeps the operations its type calls
    for, and inode names stay fresh. *)
Theorem types_preserved `{!KeepsTypes W} (s s' : st) :
  all_typed t s → rtc (op_step t) s s' → all_typed t s'.
Proof.
  intros Hs Hrun. induction Hrun as [|s s1 s2 (o & r & Ho) _ IH]; [done|].
  apply IH. exact (wp_run _ _ _ _ (all_typed_op t o s Hs) _ _ Ho).
Qed.

(** The inode a mount makes for its root, in the state after the options are saved. *)
Lemma root_inode_made (s : st) (sb : positive) :
  inodes_wf s →
  ∃ o s2, ram_get_inode t sb None (Z.lor S_IFDIR 0x1ED) 0 s = Ok o s2 ∧
    k_supers s2 = k_supers s ∧
    match (new_inode sb (k_world s)).1 with
    | None => o = None
    | Some _ => o = Some (k_next_inode s) ∧ ∃ i', k_inodes s2 !! k_next_inode s = Some i' ∧
        ftype (i_mode i') = S_IFDIR ∧ i_nlink i' = 2 ∧ i_op i' = Table (t_dir_iops t)
    end.
Proof.
  intros Hwf. destruct (new_inode sb (k_world s)) as [[i0|] w1] eqn:Hn; cbn [fst].
  - destruct (ram_get_inode_ok t sb None (Z.lor S_IFDIR 0x1ED) 0 s i0 w1 Hn Hwf)
      as (i' & w2 & Hrun & Hok & _); [done|].
    eexists _, _. split; [exact Hrun|]. split; [done|]. split; [done|]. exists i'.
    split; [apply lookup_insert_eq|].
    assert (ftype (i_mode i') = S_IFDIR) as Hf by apply (new_ftype _ _ _ _ _ Hok).
    split; [done|]. split; [apply (new_nlink _ _ _ _ _ Hok)|].
    apply (new_typed _ _ _ _ _ Hok), Hf.
  - eexists _, _. split; [by apply ram_get_inode_null|]. by split.
Qed.

(** C19: Filling the superblock.  It gets the magic number and the sizes of the file
    system.  Its root is what [d_make_root] makes of the inode the call allocated, a
    directory with two links and the module's directory operations, or of NULL when
    there was no memory for that inode; the call returns 0 if there is a root and
    [-ENOMEM] if there is none. *)
Theorem fill_super_outcome `{!KeepsTypes W} (s : st) (sb : positive) (x : super_block)
    (ops : string) (maxbytes page_size page_shift silent : Z) (data : karg) :
  k_supers s !! sb = Some x → inodes_wf s →
  let w0 := (kernel_call "save_mount_options" [KObj "super_block" sb; data]
    (k_inodes s) (k_world s)).2.2 in
  let o := match (new_inode sb w0).1 with Some _ => Some (k_next_inode s) | None => None end in
  ∃ s' w2,
    let root := (d_make_root o w2).1 in
    ram_fill_super t ops maxbytes page_size page_shift sb data silent s
      = Ok (match root with Some _ => 0 | None => - ENOMEM end) s' ∧
    k_world s' = (d_make_root o w2).2 ∧
    k_supers s' = <[sb := with_root root (with_magic SJFS_MAGIC
      (with_static page_shift page_size maxbytes 1 (Table ops) x))]> (k_supers s) ∧
    ∀ ip, o = Some ip → ∃ i', k_inodes s' !! ip = Some i' ∧
      ftype (i_mode i') = S_IFDIR ∧ i_nlink i' = 2 ∧ i_op i' = Table (t_dir_iops t).
Proof.
  intros Hx Hwf w0 o. set (k := kernel_call _ _ (k_inodes s) (k_world s)) in *.
  set (x1 := with_magic SJFS_MAGIC _).
  set (s1 := with_supers (<[sb := x1]> (k_supers s)) (with_world k.2.2 (with_inodes k.2.1 s))).
  assert (inodes_wf s1) as Hwf1.
  { intros j [i' Hj]. cbn in *.
    apply (keeps_types "save_mount_options") in Hj as (i & Hi & _); [|set_solver]. eauto. }
  assert (ram_fill_super t ops maxbytes page_size page_shift sb data silent s =
    (inode ← ram_get_inode t sb None (Z.lor S_IFDIR 0x1ED) 0;
     root ← world (d_make_root inode);
     upd_super sb (with_root root) ;;
     match root with None => mret (- ENOMEM) | Some _ => mret 0 end) s1) as ->.
  { unfold ram_fill_super. erewrite bind_ok; [|apply kcall_eq]. fold k.
    erewrite bind_ok; [|by apply upd_super_ok]. reflexivity. }
  destruct (root_inode_made s1 sb Hwf1) as (o' & s2 & Hrun & Hs2 & Hroot).
  change (new_inode sb (k_world s1)) with (new_inode sb w0) in Hroot.
  change (k_next_inode s1) with (k_next_inode s) in Hroot.
  assert (o' = o) as -> by (unfold o; destruct (new_inode sb w0).1; [exact (proj1 Hroot)|exact Hroot]).
  rewrite (bind_ok _ _ _ _ _ Hrun). erewrite bind_ok; [|apply world_eq].
  set (r := d_make_root o (k_world s2)).
  erewrite bind_ok; [|apply upd_super_ok; cbn; rewrite Hs2; apply lookup_insert_eq].
  exists (with_supers (<[sb := with_root r.1 x1]> (k_supers s2)) (with_world r.2 s2)), (k_world s2).
  fold r. split; [by destruct r.1|]. split; [done|]. split; [cbn; rewrite Hs2; apply insert_insert_eq|].
  intros ip Hip. unfold o in Hip. destruct (new_inode sb w0) as [[i0|] w1]; [|done].
  injection Hip as <-. exact (proj2 Hroot).
Qed.
End ram_properties.

(** ** Witnesses *)
Definition demo_tables : tables := Tables "aops" "file_iops" "file_fops" "dir_iops" "dir_fops".
Definition demo_dir : inode :=
  Inode 1 (Z.lor S_IFDIR 0x1ED) 0 0 0 2 0 (Timespec 1 0) (Timespec 1 0) (Timespec 1 0)
    (Table "dir_iops") (Table "dir_fops") (Table "aops") Null 1.
(** A file system with its root, inode 1. *)
Definition ram_state : kstate unit sim :=
  KState empty_heap {[1%positive := demo_dir]} 2 ∅ tt sim0 [].

Lemma ram_state_wf : inodes_wf ram_state.
Proof.
  intros i [x Hi]. cbn in *. apply lookup_singleton_Some in Hi as [<- _]. lia.
Qed.

#[export] Instance sim_keeps_types : KeepsTypes sim.
Proof. constructor. intros name args m w j i' _ Hj. exists i'. done. Defined.

Lemma mknod_outcome_witness :
  ∃ i' now w, ram_mknod demo_tables (Some 1%positive) 7 S_IFREG 0 ram_state
    = Ok 0 (made 1 (with_mctime now demo_dir) i' w ram_state) ∧
    new_ok demo_tables 1 1 S_IFREG i' ∧ bound 7 2 sim0 w.
Proof.
  exact (mknod_outcome demo_tables ram_state 1 7 demo_dir S_IFREG 0 eq_refl ram_state_wf).
Defined.

Lemma mkdir_outcome_witness :
  ∃ i' now w, ram_mkdir demo_tables (Some 1%positive) 7 0x1ED ram_state
    = Ok 0 (made 1 (with_nlink 3 (with_mctime now demo_dir)) i' w ram_state) ∧
    ftype (i_mode i') = S_IFDIR ∧ i_nlink i' = 2 ∧
    i_op i' = Table "dir_iops" ∧ i_fop i' = Table "dir_fops" ∧ bound 7 2 sim0 w.
Proof.
  refine (mkdir_outcome demo_tables ram_state 1 7 demo_dir 0x1ED eq_refl ram_state_wf _ eq_refl).
  lia.
Defined.

Lemma types_preserved_witness :
  ∃ s', op_step demo_tables ram_state s' ∧ all_typed demo_tables s'.
Proof.
  assert (new_inode (i_sb demo_dir) (k_world ram_state) = (Some (fresh_inode 1), sim0)) as Hn
    by reflexivity.
  destruct (ram_mkdir_ok demo_tables 1 demo_dir 7 0x1ED ram_state (fresh_inode 1) sim0 eq_refl
    ram_state_wf Hn) as (i' & now & w & Hrun & _).
  assert (op_step demo_tables ram_state (made 1 (with_nlink (u32 (i_nlink demo_dir + 1))
    (with_mctime now demo_dir)) i' w ram_state)) as Hstep
    by (exists (Mkdir (Some 1%positive) 7 0x1ED), 0; exact Hrun).
  eexists. split; [exact Hstep|].
  apply (types_preserved demo_tables ram_state); [|by apply rtc_once].
  split; [exact ram_state_wf|]. intros j i Hj. cbn in Hj.
  apply lookup_singleton_Some in Hj as [_ <-]. by split; [|split].
Defined.

Lemma fill_super_outcome_witness :
  let s : kstate unit sim :=
    with_supers {[1%positive := SuperBlk 0 0 0 0 NoTable 0 Null None]} ram_state in
  ∃ s' w2,
    let root := (d_make_root (Some 2%positive) w2).1 in
    ram_fill_super demo_tables "ops" 99 4096 12 1 KNull 0 s
      = Ok (match root with Some _ => 0 | None => - ENOMEM end) s' ∧
    k_world s' = (d_make_root (Some 2%positive) w2).2 ∧
    k_supers s' = <[1%positive := with_root root (with_magic SJFS_MAGIC
      (with_static 12 4096 99 1 (Table "ops") (SuperBlk 0 0 0 0 NoTable 0 Null None)))]>
      (k_supers s) ∧
    ∀ ip, Some 2%positive = Some ip → ∃ i', k_inodes s' !! ip = Some i' ∧
      ftype (i_mode i') = S_IFDIR ∧ i_nlink i' = 2 ∧ i_op i' = Table "dir_iops".
Proof.
  intros s. exact (fill_super_outcome demo_tables s 1 _ "ops" 99 4096 12 0 KNull eq_refl ram_state_wf).
Defined.
