(* ===== verification/PlanB.v ===== *)
(** * Backup plan B ([backup_plans/b/sjfs.c])

    A memory file system that only tries the connector out: [cn_sjfs_callback] logs
    a message, [cn_sjfs_send_func] sends a counter.  The file-system half is the
    shared one of [RamInodes] with this module's tables. *)
From S2P Require Import Prelude CLayout Blocks Memory Kernel Env Vfs RamInodes.

Module PlanB.

(** The static variables. *)
Record globals : Type := Globals {
  cn_sjfs_counter : Z; nls : option (option positive); once : Z }.
Definition set_counter (n : Z) (g : globals) : globals := Globals n (nls g) (once g).
Definition set_once (n : Z) (g : globals) : globals := Globals (cn_sjfs_counter g) (nls g) n.

Definition cn_sjfs_name : string := "cn_sjfs".

Definition sjfs_tables : tables :=
  Tables "sjfs_aops" "sjfs_file_inode_operations" "sjfs_file_operations"
    "sjfs_dir_inode_operations" "simple_dir_operations".

(** The operation tables. *)
Definition sjfs_file_operations : list (string * string) :=
  [ ("read_iter", "generic_file_read_iter"); ("write_iter", "generic_file_write_iter");
    ("mmap", "generic_file_mmap"); ("fsync", "noop_fsync");
    ("splice_read", "generic_file_splice_read"); ("splice_write", "iter_file_splice_write");
    ("llseek", "generic_file_llseek") ].
Definition sjfs_file_inode_operations : list (string * string) :=
  [ ("setattr", "simple_setattr"); ("getattr", "simple_getattr") ].
Definition sjfs_aops : list (string * string) :=
  [ ("readpage", "simple_readpage"); ("write_begin", "simple_write_begin");
    ("write_end", "simple_write_end");
    ("set_page_dirty", "sjfs_set_page_dirty_no_writeback") ].
Definition sjfs_dir_inode_operations : list (string * string) :=
  [ ("create", "sjfs_create"); ("lookup", "simple_lookup"); ("link", "simple_link");
    ("unlink", "simple_unlink"); ("symlink", "sjfs_symlink"); ("mkdir", "sjfs_mkdir");
    ("rmdir", "simple_rmdir"); ("mknod", "sjfs_mknod"); ("rename", "simple_rename") ].
Definition sjfs_ops : list (string * string) :=
  [ ("statfs", "simple_statfs"); ("drop_inode", "generic_delete_inode");
    ("show_options", "generic_show_options") ].
Definition sjfs_fs_type : list (string * string) :=
  [ ("name", "sjfs"); ("fs_flags", "FS_USERNS_MOUNT"); ("mount", "sjfs_mount");
    ("kill_sb", "sjfs_kill_sb"); ("owner", "THIS_MODULE") ].

Section plan_b.
Context {W : Type} `{!Allocator W, !Clock W, !Connector W, !Printf, !Vfs W, !MountNodev globals W}
  (a : abi) (MAX_LFS_FILESIZE PAGE_CACHE_SIZE PAGE_CACHE_SHIFT : Z).
Abbreviation st := (kstate globals W).

Definition cn_sjfs_id : Z * Z := (CN_NETLINK_USERS + 3, 0x456).

Definition cn_sjfs_callback (msg : cn_msg) : M st unit :=
  printk "%s: idx=%x, val=%x, seq=%u, ack=%u, len=%d: %s."
    [PStr "cn_sjfs_callback"; PInt (id_idx msg); PInt (id_val msg); PInt (msg_seq msg);
     PInt (msg_ack msg); PInt (msg_len msg);
     if truth (msg_len msg) then text_arg (msg_data msg) else PBytes []].

(** Lines 52 to 56; [data] is the array of 32 characters. *)
Definition fill_counter (m : ptr) : M st unit :=
  store m (le_encode 4 cn_sjfs_id.1 ++ le_encode 4 cn_sjfs_id.2) ;;
  seq ← get_glob cn_sjfs_counter;
  store_member a m cn_msg_t "seq" seq ;;
  let '(data, written) := scnprintf 32 "counter = %u" [PInt seq] in
  store_member a m cn_msg_t "len" (u16 (written + 1)) ;;
  len ← load_member a m cn_msg_t "len";
  bs ← load_array (resize 32 0 data) len;
  store (ptr_add m sizeof_cn_msg) bs.

Definition cn_sjfs_send_func : M st unit :=
  printk "%s: timer fired" [PStr "cn_sjfs_send_func"] ;;
  m ← kzalloc (sizeof_cn_msg + 32);
  when (negb (is_null m))
    (fill_counter m ;;
     send_msg a m ;;
     kfree m) ;;
  mod_glob (λ g, set_counter (u32 (cn_sjfs_counter g + 1)) g).

(** [if (!PageDirty(page)) return !TestSetPageDirty(page); return 0;] on the page's
    dirty flag: the result and the flag left. *)
Definition sjfs_set_page_dirty_no_writeback (dirty : bool) : Z * bool :=
  if negb dirty then (if negb dirty then 1 else 0, true) else (0, dirty).

Definition sjfs_get_inode (sb : positive) (dir : option positive) (mode dev : Z)
    : M st (option positive) := ram_get_inode sjfs_tables sb dir mode dev.
Definition sjfs_mknod (dir : option positive) (dentry : positive) (mode dev : Z) : M st Z :=
  ram_mknod sjfs_tables dir dentry mode dev.
Definition sjfs_mkdir (dir : option positive) (dentry : positive) (mode : Z) : M st Z :=
  ram_mkdir sjfs_tables dir dentry mode.
Definition sjfs_create (dir : option positive) (dentry : positive) (mode : Z) (excl : bool)
    : M st Z := ram_create sjfs_tables dir dentry mode excl.
Definition sjfs_symlink (dir : option positive) (dentry : positive) (symname : string) : M st Z :=
  ram_symlink sjfs_tables dir dentry symname.
Definition sjfs_fill_super (sb : positive) (data : karg) (silent : Z) : M st Z :=
  ram_fill_super sjfs_tables "sjfs_ops" MAX_LFS_FILESIZE PAGE_CACHE_SIZE PAGE_CACHE_SHIFT
    sb data silent.

Definition sjfs_mount (fs_type : string) (flags : Z) (dev_name : string) (data : karg) : M st dptr :=
  mount_nodev fs_type flags data sjfs_fill_super.

Definition sjfs_kill_sb (sb : positive) : M st unit :=
  _ ← kcall "kill_litter_super" [KObj "super_block" sb];
  mret tt.

Definition release_nls : M st unit :=
  n ← get_glob nls;
  match nls_socket n with
  | Some sk => _ ← kcall "sock_release" [KObj "socket" sk]; mret tt
  | None => mret tt
  end.

Definition init_sjfs_fs : M st Z :=
  busy ← test_and_set_bit0 once set_once;
  if busy : bool then mret 0 else
  err ← world (cn_add_callback cn_sjfs_id cn_sjfs_name);
  if truth err then
    release_nls ;;
    mret err
  else kcall "register_filesystem" [KStr "sjfs"].

Definition exit_sjfs_fs : M st unit :=
  _ ← kcall "unregister_filesystem" [KStr "sjfs"];
  world_ (cn_del_callback cn_sjfs_id) ;;
  release_nls.

(** ** Specification *)

(** The message for a counter value. *)
Definition counter_payload (n : Z) : list Z := ascii_bytes "counter = " ++ decimal n ++ [0].
Definition counter_message (n : Z) : list Z :=
  le_encode 4 cn_sjfs_id.1 ++ le_encode 4 cn_sjfs_id.2 ++ le_encode 4 n ++ [0; 0; 0; 0]
  ++ le_encode 2 (Z.of_nat (length (counter_payload n))) ++ [0; 0] ++ counter_payload n.
End plan_b.

Section plan_b_properties.
Context {W : Type} `{!Allocator W, !Clock W, !Connector W, !Printf, !PrintfLaws, !Vfs W} (a : abi).
Abbreviation st := (kstate globals W).
Implicit Types (s : st).

Lemma length_counter_payload n : (12 ≤ length (counter_payload n) ≤ 21)%nat.
Proof.
  unfold counter_payload. rewrite !length_app.
  change (length (ascii_bytes "counter = ")) with 10%nat. cbn [length].
  pose proof (length_decimal_pos n). pose proof (length_decimal_le n). lia.
Qed.

Lemma length_counter_message n :
  length (counter_message n) = (20 + length (counter_payload n))%nat.
Proof. unfold counter_message. rewrite !length_app, !length_le_encode. simpl. lia. Qed.

(** The formatted text with its NUL, in the array of 32 characters. *)
Lemma counter_format n :
  ∃ pad, scnprintf 32 "counter = %u" [PInt n]
    = (counter_payload n, Z.of_nat (length (counter_payload n)) - 1) ∧
    resize 32 0 (counter_payload n) = counter_payload n ++ pad.
Proof.
  pose proof (length_counter_payload n) as Hl.
  exists (replicate (32 - length (counter_payload n)) 0). split.
  - rewrite scnprintf_counter by lia. set (text := ascii_bytes "counter = " ++ decimal n).
    assert (counter_payload n = text ++ [0]) as Ht by apply app_assoc.
    rewrite Ht, length_app in *. cbn [length] in *. rewrite !take_ge by lia. f_equal. lia.
  - rewrite resize_ge by lia. done.
Qed.

(** The message is built inside its 52 bytes. *)
Lemma fill_counter_ok b h s n :
  cn_sjfs_counter (k_glob s) = n →
  fill_counter a (Ptr b 0) (with_kheap (heap_insert b (replicate 52 0) h) s)
  = Ok tt (with_kheap (heap_insert b (counter_message n
      ++ replicate (32 - length (counter_payload n)) 0) h) s).
Proof.
  intros Hn. pose proof (length_counter_payload n) as Hl.
  destruct (counter_format n) as (pad & Hfmt & Hres).
  unfold fill_counter. change with_kheap with (with_heap (S:=st)).
  erewrite bind_ok; [|apply store_at; unfold in_bounds; by vm_compute].
  erewrite bind_ok; [|reflexivity]. cbv beta.
  match goal with |- context [cn_sjfs_counter (k_glob ?u)] =>
    change (cn_sjfs_counter (k_glob u)) with (cn_sjfs_counter (k_glob s)) end.
  rewrite Hn.
  erewrite bind_ok; [|eapply store_member_at; [reflexivity|]; simpl; lia].
  rewrite Hfmt. replace (Z.of_nat (length (counter_payload n)) - 1 + 1)
    with (Z.of_nat (length (counter_payload n))) by lia.
  unfold u16. rewrite wrap_id by lia. set (len := Z.of_nat (length (counter_payload n))).
  erewrite bind_ok; [|eapply store_member_at; [apply len_field|]; simpl; lia].
  set (hdr := le_encode 4 cn_sjfs_id.1 ++ le_encode 4 cn_sjfs_id.2 ++ le_encode 4 n ++ [0; 0; 0; 0]
    ++ le_encode 2 len ++ [0; 0]).
  match goal with |- context [with_heap (heap_insert b ?bs h) s] =>
    change bs with (hdr ++ replicate 32 0) end.
  erewrite bind_ok; [|eapply load_member_at; [apply len_field|]; simpl; lia].
  assert (le_decode (take 2 (drop 16 (hdr ++ replicate 32 0))) = len) as Hlen.
  { transitivity (le_decode (le_encode 2 len)); [reflexivity|].
    rewrite le_decode_encode. apply Z.mod_small. unfold len. lia. }
  cbn [scalar_size fscalar]. rewrite Hlen, Hres.
  assert (length (counter_payload n ++ pad) = 32%nat) as Hpl by (by rewrite <-Hres, length_resize).
  erewrite bind_ok; [|apply load_array_ok; unfold in_bounds, len; lia].
  unfold len at 1. rewrite Nat2Z.id, take_app_length. cbn [ptr_add].
  rewrite store_at.
  2: { unfold in_bounds, sizeof_cn_msg. rewrite length_app, length_replicate.
       change (length hdr) with 20%nat. lia. }
  change (Z.to_nat (0 + sizeof_cn_msg)) with 20%nat.
  rewrite splice_app_at by done. rewrite drop_replicate.
  unfold counter_message. fold len. unfold hdr. by rewrite <-!app_assoc.
Qed.

(** C39: The counter message.  When memory is to be had one message leaves, holding
    the text with the whole counter - 21 bytes at most, so the 32-byte array never
    cuts it -, and the memory is given back; when not, nothing leaves.  The counter
    is advanced modulo 2^32 either way. *)
Theorem send_counter (s : st) :
  heap_wf (k_heap s) →
  let n := cn_sjfs_counter (k_glob s) in
  ∃ s', cn_sjfs_send_func a s = Ok tt s' ∧
    h_map (k_heap s') = h_map (k_heap s) ∧ k_glob s' = set_counter (u32 (n + 1)) (k_glob s) ∧
    k_log s' = k_log s ++ Printk "%s: timer fired" [PStr "cn_sjfs_send_func"] ::
      (match (k_malloc 52 (k_world s)).1 with
       | Some _ => [NetlinkSend (counter_message n)] | None => [] end) ∧
    (length (counter_payload n) ≤ 21)%nat.
Proof.
  intros Hwf n. pose proof (length_counter_payload n) as Hl.
  unfold cn_sjfs_send_func. erewrite bind_ok; [|reflexivity].
  set (s1 := with_log _ s).
  destruct (k_malloc 52 (k_world s)) as [[junk|] w1] eqn:Hm; cbn [fst].
  - erewrite bind_ok; [|by eapply (kzalloc_inserted 52 junk w1 s1)]. cbn [is_null negb when].
    change (Z.to_nat 52) with 52%nat. set (b := h_next (k_heap s1)).
    set (h1 := heap_alloc (replicate 52 0) (k_heap s1)).
    erewrite bind_ok.
    2: { erewrite bind_ok; [|by apply (fill_counter_ok _ _ _ n)].
         erewrite bind_ok; [|apply (send_msg_bytes a b _ (Z.of_nat (length (counter_payload n))))].
         - rewrite Nat2Z.id, <-length_counter_message, take_app_length.
           eapply (kfree_ok (S:=st)), heap_insert_lookup.
         - transitivity (le_decode (le_encode 2 (Z.of_nat (length (counter_payload n)))));
             [reflexivity|]. rewrite le_decode_encode. apply Z.mod_small. lia.
         - lia.
         - rewrite length_app, length_counter_message. lia. }
    eexists. split; [reflexivity|].
    split; [|split; [done|split; [cbn; by rewrite <-app_assoc|lia]]].
    cbn. rewrite delete_insert_eq. apply delete_insert_id. by apply heap_wf_fresh.
  - erewrite bind_ok; [|by eapply (kzalloc_null 52 w1 s1)]. cbn [is_null negb when].
    eexists. split; [reflexivity|]. by repeat split; [..|lia].
Qed.

(** Initialisation.  A second [init_sjfs_fs] reports success and does nothing,
    even when the first one failed: after a callback that could not be registered
    the caller sees the error once, then success, with no file system registered. *)
Theorem init_reports_success_once_failed (s : st) :
  let err := (cn_add_callback cn_sjfs_id cn_sjfs_name (k_world s)).1 in
  ∃ r t, init_sjfs_fs s = Ok r t ∧ init_sjfs_fs t = Ok 0 t ∧ k_log t = k_log s ∧
    (Z.testbit (once (k_glob s)) 0 = false → err ≠ 0 → nls (k_glob s) = None →
       r = err ∧ k_world t = (cn_add_callback cn_sjfs_id cn_sjfs_name (k_world s)).2 ∧
       k_inodes t = k_inodes s).
Proof.
  intros err.
  assert (∀ t : st, Z.testbit (once (k_glob t)) 0 = true → init_sjfs_fs t = Ok 0 t) as Hbusy.
  { intros t Ht. unfold init_sjfs_fs, test_and_set_bit0, get_glob, gets, mod_glob, modify, mbind,
      M_bind. rewrite Ht. cbn. rewrite lor_1_odd by done. by destruct t as [????[]]. }
  destruct (Z.testbit (once (k_glob s)) 0) eqn:Ho.
  { exists 0, s. by rewrite !Hbusy. }
  set (s1 := with_world (cn_add_callback cn_sjfs_id cn_sjfs_name (k_world s)).2
    (with_glob (set_once (Z.lor (once (k_glob s)) 1) (k_glob s)) s)).
  assert (∀ t : st, k_glob t = k_glob s1 → init_sjfs_fs t = Ok 0 t) as Hagain.
  { intros t Ht. apply Hbusy. rewrite Ht.
    change (Z.testbit (Z.lor (once (k_glob s)) 1) 0 = true). by rewrite Z.lor_spec, Ho. }
  assert (init_sjfs_fs s = (if truth err then release_nls ;; mret err
    else kcall "register_filesystem" [KStr "sjfs"]) s1) as ->.
  { unfold init_sjfs_fs, test_and_set_bit0. rewrite mbind_assoc.
    erewrite bind_ok; [|reflexivity]. cbv beta. rewrite Ho. rewrite mbind_assoc.
    do 2 (erewrite bind_ok; [|reflexivity]). cbv iota. by erewrite bind_ok; [|apply world_eq]. }
  unfold truth. destruct (Z.eqb_spec err 0) as [He|He]; cbn [negb].
  - rewrite kcall_eq. eexists _, _. split; [reflexivity|]. split; [by apply Hagain|].
    split; [done|]. by intros _ ?.
  - unfold release_nls. rewrite mbind_assoc. erewrite bind_ok; [|reflexivity]. cbv beta.
    destruct (nls_socket (nls (k_glob s1))) as [sk|] eqn:Hsk.
    + rewrite mbind_assoc. erewrite bind_ok; [|apply kcall_eq].
      eexists _, _. split; [reflexivity|]. split; [by apply Hagain|]. split; [done|].
      intros _ _ Hn. unfold s1 in Hsk. cbn in Hsk. by rewrite Hn in Hsk.
    + eexists _, _. split; [reflexivity|]. split; [by apply Hagain|]. by split.
Qed.
End plan_b_properties.

(** ** Witness *)
Lemma send_counter_witness :
  let s : kstate globals sim := KState empty_heap ∅ 1 ∅ (Globals 4294967295 None 0) sim0 [] in
  ∃ s', cn_sjfs_send_func LP64 s = Ok tt s' ∧
    h_map (k_heap s') = h_map (k_heap s) ∧ k_glob s' = Globals 0 None 0 ∧
    k_log s' = [Printk "%s: timer fired" [PStr "cn_sjfs_send_func"];
      NetlinkSend (counter_message (W:=sim) 4294967295)] ∧
    (length (counter_payload 4294967295) ≤ 21)%nat.
Proof.
  intros s. exact (send_counter LP64 s heap_wf_empty).
Defined.

End PlanB.
