(* ===== verification/PlanA.v ===== *)
(** * Backup plan A, kernel side ([backup_plans/a/sjfs.c], [ipc.h])

    A memory file system whose [read] and [write] go to the user-space helper over
    the connector, with the packets of [ipc.h].  As in [Connector] one thread runs
    to completion and the callbacks the connector delivers run while it sleeps.  The
    copies from and to user space are the class [UserCopy].  The file-system half is
    the shared one of [RamInodes] with this module's tables. *)
From S2P Require Import Prelude CLayout Blocks Memory Kernel Env Vfs RamInodes.

(** [copy_from_user(to, from, n)]: the bytes copied and how many were not;
    [copy_to_user(to, bytes)]: how many were not. *)
Class UserCopy (W : Type) := {
  copy_from_user : Z → Z → W → (list Z * Z) * W;
  copy_to_user : Z → list Z → W → Z * W }.

Class UserCopyLaws (W : Type) `{!UserCopy W} := {
  copy_from_user_spec : ∀ from n w bs left w', 0 <= n →
    copy_from_user from n w = ((bs, left), w') →
    0 <= left <= n ∧ Z.of_nat (length bs) = n - left }.
Arguments UserCopyLaws : clear implicits.
Arguments UserCopyLaws W {_}.

Module PlanA.

Definition sjfs_request_packet_t : list field :=
  [ Field "opcode" SChar 1; Field "inode" SLong 1; Field "pos" SInt 1; Field "count" SLongLong 1 ].
Definition sjfs_response_packet_t : list field := [ Field "count" SLongLong 1 ].

(** The static variables. *)
Record globals `{!Semaphore} : Type := Globals {
  cn_sem : sem;
  cb_sem : sem;
  cn_sjfs_counter : Z;
  nls : option (option positive);
  sjfs_read_buffer : ptr;
  once : Z }.
Arguments Globals {_}.

Section state.
Context `{!Semaphore}.
Definition set_cn_sem (x : sem) (g : globals) : globals :=
  Globals x (cb_sem g) (cn_sjfs_counter g) (nls g) (sjfs_read_buffer g) (once g).
Definition set_cb_sem (x : sem) (g : globals) : globals :=
  Globals (cn_sem g) x (cn_sjfs_counter g) (nls g) (sjfs_read_buffer g) (once g).
Definition set_counter (n : Z) (g : globals) : globals :=
  Globals (cn_sem g) (cb_sem g) n (nls g) (sjfs_read_buffer g) (once g).
Definition set_read_buffer (p : ptr) (g : globals) : globals :=
  Globals (cn_sem g) (cb_sem g) (cn_sjfs_counter g) (nls g) p (once g).
Definition set_once (z : Z) (g : globals) : globals :=
  Globals (cn_sem g) (cb_sem g) (cn_sjfs_counter g) (nls g) (sjfs_read_buffer g) z.
End state.

Definition cn_sjfs_name : string := "cn_sjfs".

Definition sjfs_tables : tables :=
  Tables "sjfs_aops" "sjfs_file_inode_operations" "sjfs_file_operations"
    "sjfs_dir_inode_operations" "simple_dir_operations".

(** The operation tables. *)
Definition sjfs_file_operations : list (string * string) :=
  [ ("read_iter", "generic_file_read_iter"); ("write_iter", "generic_file_write_iter");
    ("mmap", "generic_file_mmap"); ("fsync", "noop_fsync");
    ("splice_read", "generic_file_splice_read"); ("splice_write", "iter_file_splice_write");
    ("llseek", "generic_file_llseek"); ("read", "sjfs_fops_read"); ("write", "sjfs_fops_write") ].
Definition sjfs_file_inode_operations : list (string * string) :=
  [ ("setattr", "simple_setattr"); ("getattr", "simple_getattr") ].
Definition sjfs_aops : list (string * string) :=
  [ ("readpage", "simple_readpage"); ("write_begin", "simple_write_begin");
    ("write_end", "simple_write_end");
    ("set_page_dirty", "sjfs_set_page_dirty_no_writeback") ].
Definition sjfs_dir_inode_operations : list (string * string) :=
  [ ("create", "sjfs_create"); ("lookup", "simple_lookup"); ("link", "simple_link");
    ("unlink", "simple_unlink"); ("symlink", "sjfs_symlink"); ("mkdir", "sjfs_mkdir");
    ("rmdir", "simple_rmdir"); ("mknod", "sjfs_mknod"); ("rename", "simple_rename") ].
Definition sjfs_ops : list (string * string) :=
  [ ("statfs", "simple_statfs"); ("drop_inode", "generic_delete_inode");
    ("show_options", "generic_show_options") ].
Definition sjfs_fs_type : list (string * string) :=
  [ ("name", "sjfs"); ("fs_flags", "FS_USERNS_MOUNT"); ("mount", "sjfs_mount");
    ("kill_sb", "sjfs_kill_sb"); ("owner", "THIS_MODULE") ].

Definition SJFS_OPCODE_READ : Z := 0.
Definition SJFS_OPCODE_WRITE : Z := 1.

Section plan_a.
Context `{!Semaphore} {W : Type}
  `{!Allocator W, !Clock W, !Connector W, !Vfs W, !UserCopy W, !MountNodev globals W}
  (a : abi) (MAX_LFS_FILESIZE PAGE_CACHE_SIZE PAGE_CACHE_SHIFT : Z).
Abbreviation st := (kstate globals W).

Definition cn_sjfs_id : Z * Z := (CN_NETLINK_USERS + 3, 0x456).

(** The packet built on the stack (its padding bytes, which the source leaves to
    the compiler, are zero here). *)
Definition packet (opcode ino pos count : Z) : list Z :=
  encode_struct a sjfs_request_packet_t [[opcode]; [ino]; [pos]; [count]].
Definition sizeof_packet : Z := Z.of_nat (sizeof a sjfs_request_packet_t).

Definition cn_sjfs_callback (msg : cn_msg) : M st unit :=
  rc ← down_trylock_on cb_sem set_cb_sem;
  if negb (truth rc) then
    up_on cb_sem set_cb_sem
  else
    hdr ← load_array (msg_data msg) 8;
    let count := swrap 64 (le_decode hdr) in
    buf ← kzalloc (wrap (8 * Z.of_nat (ptr_size a)) count);
    mod_glob (set_read_buffer buf) ;;
    when (negb (is_null buf))
      (bs ← load_array (drop 8 (msg_data msg)) (wrap (8 * Z.of_nat (ptr_size a)) count);
       store buf bs) ;;
    up_on cb_sem set_cb_sem.

(** [m->id], [m->seq] and [m->len] (lines 82 to 84 and 118 to 120). *)
Definition fill_header (m : ptr) (len : Z) : M st unit :=
  store m (le_encode 4 cn_sjfs_id.1 ++ le_encode 4 cn_sjfs_id.2) ;;
  seq ← get_glob cn_sjfs_counter;
  store_member a m cn_msg_t "seq" seq ;;
  store_member a m cn_msg_t "len" (u16 len).

(** [memcpy(m + 1, bytes, m->len)], with [bytes] in an array. *)
Definition copy_payload (m : ptr) (bytes : list Z) : M st unit :=
  len ← load_member a m cn_msg_t "len";
  bs ← load_array bytes len;
  store (ptr_add m sizeof_cn_msg) bs.

Definition wait_callback : M st unit :=
  msgs ← world cn_deliver;
  mfor_each cn_sjfs_callback msgs ;;
  down_on cb_sem set_cb_sem.

(** What [copy_to_user(to, from, n)] reads: nothing when [n] is 0, whatever [from] is. *)
Definition user_source (from : ptr) (n : Z) : M st (list Z) :=
  if n =? 0 then mret [] else load from n.

Definition sjfs_fops_read (f_inode : positive) (to count ppos : Z) : M st Z :=
  i ← get_inode f_inode;
  let pkt := packet SJFS_OPCODE_READ (i_ino i) ppos count in
  down_on cn_sem set_cn_sem ;;
  down_on cb_sem set_cb_sem ;;
  m ← kzalloc (sizeof_cn_msg + sizeof_packet);
  when (negb (is_null m))
    (fill_header m sizeof_packet ;;
     copy_payload m pkt ;;
     send_msg a m ;;
     kfree m) ;;
  mod_glob (λ g, set_counter (u32 (cn_sjfs_counter g + 1)) g) ;;
  wait_callback ;;
  up_on cb_sem set_cb_sem ;;
  buf ← get_glob sjfs_read_buffer;
  bs ← user_source buf count;
  _ ← world (copy_to_user to bs);
  up_on cn_sem set_cn_sem ;;
  mret count.

(** Lines 118 to 128, once both allocations have succeeded. *)
Definition write_request (m data : ptr) (pkt : list Z) (from count : Z) : M st unit :=
  fill_header m (sizeof_packet + count) ;;
  store data pkt ;;
  r ← world (copy_from_user from count);
  store (ptr_add data sizeof_packet) r.1 ;;
  when (r.2 =? count)
    (len ← load_member a m cn_msg_t "len";
     bs ← load data len;
     store (ptr_add m sizeof_cn_msg) bs ;;
     send_msg a m) ;;
  kfree m.

Definition sjfs_fops_write (f_inode : positive) (from count ppos : Z) : M st Z :=
  i ← get_inode f_inode;
  let pkt := packet SJFS_OPCODE_WRITE (i_ino i) ppos count in
  down_on cn_sem set_cn_sem ;;
  m ← kzalloc (size_t a (sizeof_cn_msg + sizeof_packet + count));
  data ← kzalloc (size_t a (sizeof_packet + count));
  when (negb (is_null m) && negb (is_null data)) (write_request m data pkt from count) ;;
  mod_glob (λ g, set_counter (u32 (cn_sjfs_counter g + 1)) g) ;;
  up_on cn_sem set_cn_sem ;;
  mret count.

(** [if (!PageDirty(page)) return !TestSetPageDirty(page); return 0;] on the page's
    dirty flag: the result and the flag left. *)
Definition sjfs_set_page_dirty_no_writeback (dirty : bool) : Z * bool :=
  if negb dirty then (if negb dirty then 1 else 0, true) else (0, dirty).

Definition sjfs_get_inode (sb : positive) (dir : option positive) (mode dev : Z)
    : M st (option positive) := ram_get_inode sjfs_tables sb dir mode dev.
Definition sjfs_mknod (dir : option positive) (dentry : positive) (mode dev : Z) : M st Z :=
  ram_mknod sjfs_tables dir dentry mode dev.
Definition sjfs_mkdir (dir : option positive) (dentry : positive) (mode : Z) : M st Z :=
  ram_mkdir sjfs_tables dir dentry mode.
Definition sjfs_create (dir : option positive) (dentry : positive) (mode : Z) (excl : bool)
    : M st Z := ram_create sjfs_tables dir dentry mode excl.
Definition sjfs_symlink (dir : option positive) (dentry : positive) (symname : string) : M st Z :=
  ram_symlink sjfs_tables dir dentry symname.
Definition sjfs_fill_super (sb : positive) (data : karg) (silent : Z) : M st Z :=
  ram_fill_super sjfs_tables "sjfs_ops" MAX_LFS_FILESIZE PAGE_CACHE_SIZE PAGE_CACHE_SHIFT
    sb data silent.

Definition sjfs_mount (fs_type : string) (flags : Z) (dev_name : string) (data : karg) : M st dptr :=
  mount_nodev fs_type flags data sjfs_fill_super.

Definition sjfs_kill_sb (sb : positive) : M st unit :=
  _ ← kcall "kill_litter_super" [KObj "super_block" sb];
  mret tt.

Definition release_nls : M st unit :=
  n ← get_glob nls;
  match nls_socket n with
  | Some sk => _ ← kcall "sock_release" [KObj "socket" sk]; mret tt
  | None => mret tt
  end.

Definition init_sjfs_fs : M st Z :=
  busy ← test_and_set_bit0 once set_once;
  if busy : bool then mret 0 else
  mod_glob (set_cn_sem (sema_init 1)) ;;
  mod_glob (set_cb_sem (sema_init 1)) ;;
  err ← world (cn_add_callback cn_sjfs_id cn_sjfs_name);
  if truth err then
    release_nls ;;
    mret err
  else kcall "register_filesystem" [KStr "sjfs"].

(** [kfree] of a static variable: an address the allocator never gave out. *)
Definition kfree_static : M st unit := stop_with BadFree.

Definition exit_sjfs_fs : M st unit :=
  _ ← kcall "unregister_filesystem" [KStr "sjfs"];
  world_ (cn_del_callback cn_sjfs_id) ;;
  release_nls ;;
  kfree_static ;;
  kfree_static.

(** ** Specification *)

(** A message with a payload. *)
Definition message (counter : Z) (payload : list Z) : list Z :=
  le_encode 4 cn_sjfs_id.1 ++ le_encode 4 cn_sjfs_id.2 ++ le_encode 4 counter ++ [0; 0; 0; 0]
  ++ le_encode 2 (Z.of_nat (length payload)) ++ [0; 0] ++ payload.
End plan_a.

Section plan_a_lemmas.
Context `{!Semaphore, !SemaphoreLaws} {W : Type}
  `{!Allocator W, !Connector W, !UserCopy W, !UserCopyLaws W} (a : abi).
Abbreviation st := (kstate globals W).
Implicit Types (s : st).

Definition header (counter len : Z) : list Z :=
  le_encode 4 cn_sjfs_id.1 ++ le_encode 4 cn_sjfs_id.2 ++ le_encode 4 counter ++ [0; 0; 0; 0]
  ++ le_encode 2 len ++ [0; 0].

Lemma message_header counter payload :
  message counter payload = header counter (Z.of_nat (length payload)) ++ payload.
Proof. unfold message, header. by rewrite <-!app_assoc. Qed.

Lemma length_header counter len : length (header counter len) = 20%nat.
Proof. reflexivity. Qed.

Lemma header_len counter len rest :
  0 <= len < 65536 → le_decode (take 2 (drop 16 (header counter len ++ rest))) = len.
Proof.
  intros Hl. transitivity (le_decode (le_encode 2 len)); [reflexivity|].
  rewrite le_decode_encode. by apply Z.mod_small.
Qed.

Lemma length_packet op ino pos count : x86 a →
  length (packet a op ino pos count) = sizeof a sjfs_request_packet_t.
Proof. intros [-> | ->]; reflexivity. Qed.

Lemma sizeof_packet_bounds : x86 a → 20 <= sizeof_packet a <= 32.
Proof. intros [-> | ->]; vm_compute; split; congruence. Qed.

Lemma fill_header_ok b len k h s n :
  cn_sjfs_counter (k_glob s) = n →
  fill_header a (Ptr b 0) len (with_kheap (heap_insert b (replicate (20 + k) 0) h) s)
  = Ok tt (with_kheap (heap_insert b (header n (u16 len) ++ replicate k 0) h) s).
Proof.
  intros Hn. rewrite replicate_add. unfold fill_header.
  change with_kheap with (with_heap (S:=st)).
  erewrite bind_ok; [|apply store_at; unfold in_bounds; rewrite !length_app, !length_replicate; simpl; lia].
  erewrite bind_ok; [|reflexivity]. cbv beta.
  match goal with |- context [cn_sjfs_counter (k_glob ?u)] =>
    change (cn_sjfs_counter (k_glob u)) with (cn_sjfs_counter (k_glob s)) end. rewrite Hn.
  erewrite bind_ok; [|eapply store_member_at; [reflexivity|]; simpl; lia].
  erewrite store_member_at; [|apply len_field|simpl; lia]. reflexivity.
Qed.

Lemma load_len b n len rest h s :
  0 <= len < 65536 →
  load_member a (Ptr b 0) cn_msg_t "len" (with_kheap (heap_insert b (header n len ++ rest) h) s)
  = Ok len (with_kheap (heap_insert b (header n len ++ rest) h) s).
Proof.
  intros Hl. change with_kheap with (with_heap (S:=st)).
  erewrite load_member_at; [|apply len_field|simpl; lia].
  cbn [scalar_size fscalar]. by rewrite header_len.
Qed.

(** Sending the message in block [b], which may be longer. *)
Lemma send_ok b n payload pad h s :
  Z.of_nat (length payload) < 65536 →
  send_msg a (Ptr b 0) (with_kheap (heap_insert b (message n payload ++ pad) h) s)
  = Ok tt (with_log (k_log s ++ [NetlinkSend (message n payload)])
      (with_world (cn_netlink_send (message n payload) (k_world s)).2
        (with_kheap (heap_insert b (message n payload ++ pad) h) s))).
Proof.
  intros Hl.
  assert (length (message n payload) = 20 + length payload)%nat as Hm
    by (rewrite message_header, length_app, length_header; done).
  rewrite (send_msg_bytes a b (message n payload ++ pad) (Z.of_nat (length payload))).
  - by rewrite Nat2Z.id, take_app_length' by lia.
  - rewrite message_header, <-app_assoc. apply header_len. lia.
  - lia.
  - rewrite length_app, Hm. lia.
Qed.

(** Copying [len] bytes of [data] behind the header, and sending them. *)
Lemma send_copied b1 b2 data len L n h s :
  b1 ≠ b2 → 0 <= len < 65536 → len <= Z.of_nat L → length data = L →
  let body := take (Z.to_nat len) data in
  (l ← load_member a (Ptr b1 0) cn_msg_t "len";
   bs ← load (Ptr b2 0) l;
   store (ptr_add (Ptr b1 0) sizeof_cn_msg) bs ;;
   send_msg a (Ptr b1 0))
    (with_kheap (heap_insert b1 (header n len ++ replicate L 0) (heap_insert b2 data h)) s)
  = Ok tt (with_log (k_log s ++ [NetlinkSend (message n body)])
      (with_world (cn_netlink_send (message n body) (k_world s)).2
        (with_kheap (heap_insert b1 (message n body ++ replicate (L - Z.to_nat len) 0)
           (heap_insert b2 data h)) s))).
Proof.
  intros Hb Hlen HL Hdata body.
  assert (length body = Z.to_nat len) as Hbody by (unfold body; rewrite length_take; lia).
  erewrite bind_ok; [|apply load_len; lia].
  rewrite heap_insert_comm by done. change with_kheap with (with_heap (S:=st)).
  erewrite bind_ok; [|apply load_at; unfold in_bounds; lia]. rewrite drop_0. fold body.
  rewrite heap_insert_comm by done. cbn [ptr_add]. rewrite ?Z.add_0_l.
  erewrite bind_ok; [|apply store_at; unfold in_bounds, sizeof_cn_msg;
    rewrite length_app, length_header, length_replicate; lia].
  change (Z.to_nat sizeof_cn_msg) with 20%nat.
  rewrite splice_app_at by apply length_header. rewrite drop_replicate, Hbody, app_assoc.
  replace len with (Z.of_nat (length body)) at 1 by lia.
  rewrite <-message_header. change (with_heap (S:=st)) with (with_kheap (G:=globals) (W:=W)).
  apply send_ok. lia.
Qed.

(** The payload of a write: as much of packet and zeros as [m->len] says, which has 16
    bits. *)
Definition write_payload (pkt : list Z) (count : Z) : list Z :=
  take (Z.to_nat (u16 (sizeof_packet a + count))) (pkt ++ replicate (Z.to_nat count) 0).

Lemma write_request_ok b1 b2 pkt from count bs left w1 h s n :
  b1 ≠ b2 → x86 a → cn_sjfs_counter (k_glob s) = n → length pkt = sizeof a sjfs_request_packet_t →
  0 <= count → copy_from_user from count (k_world s) = ((bs, left), w1) →
  let L := Z.to_nat (sizeof_packet a + count) in
  let sent := message n (write_payload pkt count) in
  write_request a (Ptr b1 0) (Ptr b2 0) pkt from count
    (with_kheap (heap_insert b1 (replicate (20 + L) 0) (heap_insert b2 (replicate L 0) h)) s)
  = Ok tt (with_log (k_log s ++ if left =? count then [NetlinkSend sent] else [])
      (with_world (if left =? count then (cn_netlink_send sent w1).2 else w1)
        (with_kheap (heap_delete b1 (heap_insert b2 (pkt ++ bs ++ replicate (Z.to_nat left) 0) h)) s))).
Proof.
  intros Hb Ha Hn Hpkt Hc Hcopy L sent.
  destruct (copy_from_user_spec from count _ bs left w1 Hc Hcopy) as [Hleft Hbs].
  pose proof (sizeof_packet_bounds Ha) as Hps.
  set (len := u16 (sizeof_packet a + count)).
  assert (0 <= len < 65536 ∧ len <= sizeof_packet a + count) as [Hlen HlenL]
    by (unfold len, u16, wrap; split; [apply Z.mod_pos_bound; lia|apply Z.mod_le; lia]).
  assert (L = (length pkt + Z.to_nat count)%nat) as HLp
    by (unfold L, sizeof_packet in *; rewrite Hpkt; lia).
  assert (Z.to_nat count = (length bs + Z.to_nat left)%nat) as Hcl by lia.
  unfold write_request. erewrite bind_ok; [|by apply (fill_header_ok _ _ L _ _ n)]. fold len.
  rewrite heap_insert_comm by done. change with_kheap with (with_heap (S:=st)).
  erewrite bind_ok; [|apply store_at; unfold in_bounds; rewrite length_replicate; lia].
  erewrite bind_ok; [|apply world_eq].
  change (k_world (with_heap ?hh s)) with (k_world s). rewrite Hcopy. cbn [fst snd].
  set (s1 := with_world w1 s). cbn [ptr_add]. rewrite ?Z.add_0_l.
  assert (∀ hh, with_world w1 (with_heap hh s) = with_heap hh s1) as -> by done.
  assert (splice (Z.to_nat 0) pkt (replicate L 0) = pkt ++ replicate (Z.to_nat count) 0) as ->.
  { change (Z.to_nat 0) with 0%nat. rewrite <-(app_nil_l (replicate L 0)).
    rewrite splice_app_at by done. rewrite drop_replicate, app_nil_l. do 2 f_equal. lia. }
  erewrite bind_ok; [|apply store_at].
  2: { unfold in_bounds, sizeof_packet. rewrite length_app, length_replicate. lia. }
  assert (splice (Z.to_nat (sizeof_packet a)) bs (pkt ++ replicate (Z.to_nat count) 0)
    = pkt ++ bs ++ replicate (Z.to_nat left) 0) as ->.
  { rewrite splice_app_at by (unfold sizeof_packet; lia). rewrite drop_replicate. do 3 f_equal. lia. }
  set (data := pkt ++ bs ++ replicate (Z.to_nat left) 0).
  assert (length data = L) as Hdata
    by (unfold data; rewrite !length_app, length_replicate; lia).
  rewrite heap_insert_comm by done.
  destruct (Z.eqb_spec left count) as [Heq|Hne]; cbn [when].
  - assert (data = pkt ++ replicate (Z.to_nat count) 0) as Hfull.
    { unfold data. assert (bs = []) as -> by (apply nil_length_inv; lia). by rewrite Heq. }
    erewrite bind_ok; [|apply (send_copied b1 b2 data len L n h s1); [done|lia|unfold L in *; lia|done]].
    erewrite (kfree_ok (S:=st)); [|apply heap_insert_lookup].
    unfold sent, write_payload. fold len. rewrite <-Hfull. cbn.
    unfold heap_delete, heap_insert, with_heap. cbn. by rewrite delete_insert_eq.
  - erewrite bind_ok; [|reflexivity].
    erewrite (kfree_ok (S:=st)); [|apply heap_insert_lookup].
    cbn. unfold heap_delete, heap_insert, with_log, with_world. cbn.
    by rewrite delete_insert_eq, app_nil_r.
Qed.

(** A reply: the count and the bytes of the block. *)
Definition reply_data (body : list Z) : list Z := le_encode 8 (Z.of_nat (length body)) ++ body.

Lemma wrap_ptr m : x86 a → 0 <= m < 2 ^ 31 → wrap (8 * Z.of_nat (ptr_size a)) m = m.
Proof. intros [-> | ->] Hm; apply wrap_id; simpl; lia. Qed.

(** The count and the body a reply is read as. *)
Lemma reply_count body : x86 a → Z.of_nat (length body) < 2 ^ 31 →
  wrap (8 * Z.of_nat (ptr_size a)) (swrap 64 (le_decode (take 8 (reply_data body))))
  = Z.of_nat (length body).
Proof.
  intros Ha Hlen. unfold reply_data.
  rewrite take_app_length' by by rewrite length_le_encode. rewrite le_decode_encode.
  change (256 ^ Z.of_nat 8) with (2 ^ 64). rewrite (Z.mod_small (Z.of_nat (length body))) by lia.
  assert (swrap 64 (Z.of_nat (length body)) = Z.of_nat (length body)) as ->.
  { unfold swrap. change (2 ^ (64 - 1)) with 9223372036854775808. rewrite Z.mod_small by lia. lia. }
  apply wrap_ptr; [done|lia].
Qed.

Lemma reply_body body : drop 8 (reply_data body) = body.
Proof. unfold reply_data. by rewrite drop_app_length' by by rewrite length_le_encode. Qed.

(** The callback while a reader waits: a fresh buffer with the body of the reply. *)
Lemma callback_reply msg body j w1 s :
  x86 a → sem_count (cb_sem (k_glob s)) = O → msg_data msg = reply_data body →
  Z.of_nat (length body) < 2 ^ 31 →
  k_malloc (Z.of_nat (length body)) (k_world s) = (Some j, w1) →
  ∃ x, cn_sjfs_callback a msg s
    = Ok tt (with_glob (set_cb_sem x (set_read_buffer (Ptr (h_next (k_heap s)) 0) (k_glob s)))
        (with_kheap (heap_alloc body (k_heap s)) (with_world w1 s))) ∧
    sem_count x = 1%nat.
Proof.
  intros Ha Hcb Hmsg Hlen Hm.
  destruct (down_trylock_busy cb_sem set_cb_sem s Hcb) as (r & y & Htry & Hr & Hy).
  exists (up y). split; [|by rewrite up_count, Hy].
  unfold cn_sjfs_callback. rewrite (bind_ok _ _ _ _ _ Htry), Hr. cbn [negb].
  set (s1 := with_glob (set_cb_sem y (k_glob s)) s).
  set (m := Z.of_nat (length body)) in *.
  assert (length (msg_data msg) = 8 + length body)%nat as Hl
    by (rewrite Hmsg; unfold reply_data; rewrite length_app, length_le_encode; done).
  erewrite bind_ok; [|apply load_array_ok; unfold in_bounds; lia].
  cbv zeta. change (Z.to_nat 8) with 8%nat. rewrite Hmsg in Hl |- *. rewrite reply_count by done. fold m.
  erewrite bind_ok; [|by eapply (kzalloc_inserted _ j w1 s1)].
  erewrite bind_ok; [|reflexivity]. cbn [is_null negb when].
  set (b := h_next (k_heap s1)). unfold m. rewrite !Nat2Z.id. fold m.
  set (h1 := heap_alloc (replicate (length body) 0) (k_heap s1)).
  set (g := set_read_buffer (Ptr b 0) (k_glob s1)).
  match goal with |- context [(_ ≫= λ _, up_on cb_sem set_cb_sem) ?u] =>
    change u with (with_heap (heap_insert b (replicate (length body) 0) h1)
      (with_glob g (with_world w1 s1))) end.
  erewrite bind_ok.
  2: { erewrite bind_ok; [|apply load_array_ok; unfold in_bounds, m; rewrite length_drop; lia].
       rewrite reply_body. unfold m. rewrite Nat2Z.id, firstn_all.
       apply store_at. unfold in_bounds. rewrite length_replicate. lia. }
  rewrite splice_full by by rewrite length_replicate.
  unfold up_on, get_glob, gets, mod_glob, modify, mbind, M_bind. cbn.
  unfold with_glob, h1, heap_insert, heap_alloc. cbn. by rewrite insert_insert_eq.
Qed.

(** Sending the request for a read. *)
Lemma read_request_ok b pkt h s n :
  x86 a → cn_sjfs_counter (k_glob s) = n → length pkt = sizeof a sjfs_request_packet_t →
  (fill_header a (Ptr b 0) (sizeof_packet a) ;;
   copy_payload a (Ptr b 0) pkt ;; send_msg a (Ptr b 0) ;; kfree (Ptr b 0))
    (with_kheap (heap_insert b (replicate (20 + sizeof a sjfs_request_packet_t) 0) h) s)
  = Ok tt (with_log (k_log s ++ [NetlinkSend (message n pkt)])
      (with_world (cn_netlink_send (message n pkt) (k_world s)).2
        (with_kheap (heap_delete b h) s))).
Proof.
  intros Ha Hn Hpkt. pose proof (sizeof_packet_bounds Ha) as Hps.
  erewrite bind_ok; [|by apply (fill_header_ok _ _ _ _ _ n)].
  unfold u16. rewrite wrap_id by lia.
  erewrite bind_ok.
  2: { unfold copy_payload. erewrite bind_ok; [|apply load_len; lia].
       erewrite bind_ok; [|apply load_array_ok; unfold in_bounds, sizeof_packet in *; lia].
       rewrite take_ge by (unfold sizeof_packet; lia). cbn [ptr_add]. rewrite Z.add_0_l.
       change with_kheap with (with_heap (S:=st)).
       apply store_at. unfold in_bounds, sizeof_cn_msg, sizeof_packet in *.
       rewrite length_app, length_header, length_replicate. lia. }
  change (Z.to_nat sizeof_cn_msg) with 20%nat.
  rewrite splice_app_at by apply length_header. rewrite drop_replicate.
  replace (_ - length pkt)%nat with 0%nat by lia. cbn [replicate]. rewrite app_nil_r.
  assert (sizeof_packet a = Z.of_nat (length pkt)) as -> by (unfold sizeof_packet; by rewrite Hpkt).
  rewrite <-message_header.
  rewrite <-(app_nil_r (message _ _)) at 1.
  erewrite bind_ok; [|apply send_ok; unfold sizeof_packet in *; lia].
  erewrite (kfree_ok (S:=st)); [|apply heap_insert_lookup].
  unfold heap_delete, heap_insert. cbn. by rewrite delete_insert_eq.
Qed.
End plan_a_lemmas.

Section plan_a_properties.
Context `{!Semaphore, !SemaphoreLaws} {W : Type}
  `{!Allocator W, !Connector W, !Vfs W, !UserCopy W, !UserCopyLaws W} (a : abi).
Abbreviation st := (kstate globals W).
Implicit Types (s : st).

(** The two allocations of [sjfs_fops_write], then what follows. *)
Lemma write_allocates (s : st) (count : Z) (k : ptr → ptr → M st Z) :
  let size := sizeof_packet a + count in
  let '(om, w1) := k_malloc (20 + size) (k_world s) in
  let '(od, w2) := k_malloc size w1 in
  let zeros (n : Z) := replicate (Z.to_nat n) 0 in
  let h1 := if om is Some _ then heap_alloc (zeros (20 + size)) (k_heap s) else k_heap s in
  let h2 := if od is Some _ then heap_alloc (zeros size) h1 else h1 in
  (m ← kzalloc (20 + size); data ← kzalloc size; k m data) s
  = k (if om is Some _ then Ptr (h_next (k_heap s)) 0 else Null) (if od is Some _ then Ptr (h_next h1) 0 else Null)
      (with_kheap h2 (with_world w2 s)).
Proof.
  intros size. destruct (k_malloc (20 + size) (k_world s)) as [[j1|] w1] eqn:H1;
    destruct (k_malloc size w1) as [[j2|] w2] eqn:H2; cbv zeta;
    (erewrite bind_ok; [|first [by eapply kzalloc_ok | by eapply kzalloc_null]]);
    (erewrite bind_ok; [|first [by eapply kzalloc_ok | by eapply kzalloc_null]]); by destruct s.
Qed.

(** The end of [sjfs_fops_write]. *)
Lemma write_end (s : st) (count : Z) :
  (mod_glob (λ g, set_counter (u32 (cn_sjfs_counter g + 1)) g) ;;
   up_on cn_sem set_cn_sem ;; mret count) s
  = Ok count (with_glob (set_cn_sem (up (cn_sem (k_glob s)))
      (set_counter (u32 (cn_sjfs_counter (k_glob s) + 1)) (k_glob s))) s).
Proof. reflexivity. Qed.

(** What a write leaves: the heap, and what it has sent. *)
Definition write_left (s : st) (pkt : list Z) (from count : Z) (s' : st) : Prop :=
  let n := cn_sjfs_counter (k_glob s) in
  let size := sizeof_packet a + count in
  let leaks (bs : list Z) := ∃ b, h_map (k_heap s) !! b = None ∧
    h_map (k_heap s') = <[b := bs]> (h_map (k_heap s)) in
  let '(om, w1) := k_malloc (20 + size) (k_world s) in
  let '(od, w2) := k_malloc size w1 in
  match om, od with
  | Some _, Some _ =>
      let '((bs, rest), w3) := copy_from_user from count w2 in
      leaks (pkt ++ bs ++ replicate (Z.to_nat rest) 0) ∧
      k_log s' = k_log s ++ (if rest =? count
        then [NetlinkSend (message n (write_payload a pkt count))] else [])
  | Some _, None => leaks (replicate (Z.to_nat (20 + size)) 0) ∧ k_log s' = k_log s
  | None, Some _ => leaks (replicate (Z.to_nat size) 0) ∧ k_log s' = k_log s
  | None, None => h_map (k_heap s') = h_map (k_heap s) ∧ k_log s' = k_log s
  end.

(** With both allocations: the request is assembled, perhaps sent, and its message freed. *)
Lemma write_assembled (s : st) (pkt bs : list Z) (from count left : Z) (w3 : W) :
  let size := sizeof_packet a + count in
  let b1 := h_next (k_heap s) in
  let n := cn_sjfs_counter (k_glob s) in
  x86 a → heap_wf (k_heap s) → length pkt = sizeof a sjfs_request_packet_t → 0 <= count →
  copy_from_user from count (k_world s) = ((bs, left), w3) →
  ∃ s', write_request a (Ptr b1 0) (Ptr (Pos.succ b1) 0) pkt from count
      (with_kheap (heap_alloc (replicate (Z.to_nat size) 0)
        (heap_alloc (replicate (Z.to_nat (20 + size)) 0) (k_heap s))) s) = Ok tt s' ∧
    k_glob s' = k_glob s ∧
    h_map (k_heap s')
      = <[Pos.succ b1 := pkt ++ bs ++ replicate (Z.to_nat left) 0]> (h_map (k_heap s)) ∧
    k_log s' = k_log s ++ (if left =? count
      then [NetlinkSend (message n (write_payload a pkt count))] else []).
Proof.
  intros size b1 n Ha Hwf Hpkt Hc Hcopy. pose proof (sizeof_packet_bounds a Ha) as Hps.
  set (b2 := Pos.succ b1). assert (b1 ≠ b2) as Hb by (unfold b2; intros ?; lia).
  set (L := Z.to_nat size). set (h0 := Heap (Pos.succ b2) (h_map (k_heap s))).
  replace (Z.to_nat (20 + size)) with (20 + L)%nat by (unfold L, size; lia).
  assert (heap_alloc (replicate L 0) (heap_alloc (replicate (20 + L) 0) (k_heap s))
    = heap_insert b1 (replicate (20 + L) 0) (heap_insert b2 (replicate L 0) h0)) as ->
    by (rewrite heap_insert_comm by done; reflexivity).
  eexists. split; [by apply (write_request_ok a b1 b2 pkt from count bs left w3 h0 s n Hb Ha eq_refl Hpkt Hc)|].
  split; [done|]. split; [|done].
  cbn. rewrite delete_insert_ne by done. f_equal. apply delete_id. by apply heap_wf_fresh.
Qed.

(** C24: Writing.  A write sleeps when [cn_sem] is taken; otherwise [sjfs_fops_write] claims
    to have written [count] bytes, whatever happens, gives the semaphore back and advances
    the sequence number.  With memory it sends a request exactly when [copy_from_user]
    reports that none of the bytes could be copied (its result is the number left over,
    which the code takes for the number copied); that request carries the packet and
    [count] zeros, cut to the 16 bits of [m->len].  A write whose data can be read sends
    nothing.  The assembled packet is leaked; when one of the two allocations fails
    nothing is sent and the block of the other one is leaked.  [count] is below [2^31],
    as the kernel cuts the size of every write. *)
Theorem write_outcome (s : st) (ip : positive) (i : inode) (from count ppos : Z) :
  let pkt := packet a SJFS_OPCODE_WRITE (i_ino i) ppos count in
  x86 a → heap_wf (k_heap s) → k_inodes s !! ip = Some i → 0 <= count < 2 ^ 31 →
  match sem_count (cn_sem (k_glob s)) with
  | O => sjfs_fops_write a ip from count ppos s = Stop Blocked
  | S k => ∃ s', sjfs_fops_write a ip from count ppos s = Ok count s' ∧
      sem_count (cn_sem (k_glob s')) = S k ∧ cb_sem (k_glob s') = cb_sem (k_glob s) ∧
      cn_sjfs_counter (k_glob s') = u32 (cn_sjfs_counter (k_glob s) + 1) ∧
      write_left s pkt from count s'
  end.
Proof.
  intros pkt Ha Hwf Hi Hc. pose proof (sizeof_packet_bounds a Ha) as Hps.
  unfold sjfs_fops_write. destruct (sem_count (cn_sem (k_glob s))) as [|k] eqn:Hcn.
  { erewrite bind_ok; [|unfold get_inode; rewrite Hi; reflexivity].
    apply bind_stop. by apply down_on_blocked. }
  destruct (down_on_ok cn_sem set_cn_sem s k Hcn) as (x & Hx & Hcx).
  set (g := set_cn_sem x (k_glob s)) in *. set (s1 := with_glob g s) in *.
  erewrite bind_ok; [|unfold get_inode; rewrite Hi; reflexivity].
  cbv zeta. fold pkt. rewrite (bind_ok _ _ _ _ _ Hx), !size_t_small by (done || unfold sizeof_cn_msg; lia).
  set (size := sizeof_packet a + count).
  replace (sizeof_cn_msg + sizeof_packet a + count) with (20 + size) by (unfold size, sizeof_cn_msg; lia).
  match goal with |- context [kzalloc (20 + size) ≫= ?kk] =>
    pose proof (write_allocates s1 count (λ m data, (when (negb (is_null m) && negb (is_null data))
      (write_request a m data pkt from count) ;;
      mod_glob (λ g, set_counter (u32 (cn_sjfs_counter g + 1)) g) ;;
      up_on cn_sem set_cn_sem ;; mret count))) as Halloc end.
  cbv zeta in Halloc. fold size in Halloc. unfold write_left. fold size.
  change (k_world s1) with (k_world s) in Halloc. change (k_heap s1) with (k_heap s) in Halloc.
  destruct (k_malloc (20 + size) (k_world s)) as [om w1]. destruct (k_malloc size w1) as [od w2].
  rewrite Halloc. clear Halloc.
  assert (h_map (k_heap s) !! h_next (k_heap s) = None) as Hfresh by by apply heap_wf_fresh.
  assert (h_map (k_heap s) !! Pos.succ (h_next (k_heap s)) = None) as Hfresh2.
  { apply eq_None_not_Some. intros H2. apply Hwf in H2. lia. }
  destruct om as [j1|], od as [j2|]; cbn [is_null negb andb when].
  - destruct (copy_from_user from count w2) as [[bs rest] w3] eqn:Hcopy.
    destruct (write_assembled (with_world w2 s1) pkt bs from count rest w3 Ha Hwf
      (length_packet a _ _ _ _ Ha) (proj1 Hc) Hcopy) as (s' & Hrun & Hg & Hh & Hlog).
    erewrite bind_ok; [|exact Hrun]. rewrite write_end. eexists. split; [reflexivity|].
    cbn [k_glob with_glob cn_sem cb_sem set_cn_sem cn_sjfs_counter set_counter k_heap k_log].
    rewrite up_count, Hg. split; [by cbn; rewrite Hcx|]. split; [done|]. split; [done|].
    split; [|exact Hlog]. by exists (Pos.succ (h_next (k_heap s))).
  - erewrite bind_ok; [|reflexivity]. rewrite write_end. eexists. split; [reflexivity|].
    cbn. rewrite up_count, Hcx. repeat (split; [done|]). split; [|done]. by exists (h_next (k_heap s)).
  - erewrite bind_ok; [|reflexivity]. rewrite write_end. eexists. split; [reflexivity|].
    cbn. rewrite up_count, Hcx. repeat (split; [done|]). split; [|done]. by exists (h_next (k_heap s)).
  - erewrite bind_ok; [|reflexivity]. rewrite write_end. eexists. split; [reflexivity|].
    cbn. rewrite up_count, Hcx. by repeat (split; [done|]).
Qed.

(** What follows the request in [sjfs_fops_read] (lines 100 to 109). *)
Definition read_rest (to count : Z) : M st Z :=
  wait_callback a ;;
  up_on cb_sem set_cb_sem ;;
  buf ← get_glob sjfs_read_buffer;
  bs ← user_source buf count;
  _ ← world (copy_to_user to bs);
  up_on cn_sem set_cn_sem ;;
  mret count.

(** A read whose request could be allocated, up to the sleep: both semaphores are
    taken, the request is sent and its message freed. *)
Lemma read_sends (s : st) (ip : positive) (i : inode) (to count ppos : Z) (j1 : list Z) (w1 : W) :
  let n := cn_sjfs_counter (k_glob s) in
  let req := message n (packet a SJFS_OPCODE_READ (i_ino i) ppos count) in
  x86 a → heap_wf (k_heap s) → k_inodes s !! ip = Some i →
  sem_count (cn_sem (k_glob s)) = 1%nat → sem_count (cb_sem (k_glob s)) = 1%nat →
  k_malloc (sizeof_cn_msg + sizeof_packet a) (k_world s) = (Some j1, w1) →
  ∃ x y, sem_count x = 0%nat ∧ sem_count y = 0%nat ∧
    sjfs_fops_read a ip to count ppos s = read_rest to count
      (with_glob (set_counter (u32 (n + 1)) (set_cb_sem y (set_cn_sem x (k_glob s))))
        (with_log (k_log s ++ [NetlinkSend req]) (with_world (cn_netlink_send req w1).2
          (with_kheap (Heap (Pos.succ (h_next (k_heap s))) (h_map (k_heap s))) s)))).
Proof.
  intros n req Ha Hwf Hi Hcn Hcb Hm1.
  set (pkt := packet a SJFS_OPCODE_READ (i_ino i) ppos count) in *.
  destruct (down_on_ok cn_sem set_cn_sem s 0 Hcn) as (x & Hx & Hcx).
  set (s1 := with_glob (set_cn_sem x (k_glob s)) s) in *.
  destruct (down_on_ok cb_sem set_cb_sem s1 0 Hcb) as (y & Hy & Hcy).
  set (s2 := with_glob (set_cb_sem y (k_glob s1)) s1) in *.
  exists x, y. split; [done|]. split; [done|].
  unfold sjfs_fops_read. erewrite bind_ok; [|unfold get_inode; rewrite Hi; reflexivity].
  cbv zeta. fold pkt. rewrite (bind_ok _ _ _ _ _ Hx). rewrite (bind_ok _ _ _ _ _ Hy). fold s2.
  erewrite bind_ok; [|by eapply (kzalloc_inserted _ j1 w1 s2)]. cbn [is_null negb when].
  replace (Z.to_nat (sizeof_cn_msg + sizeof_packet a))
    with (20 + sizeof a sjfs_request_packet_t)%nat by (unfold sizeof_packet, sizeof_cn_msg; lia).
  erewrite bind_ok; [|by apply (read_request_ok a _ pkt _ (with_world w1 s2) n Ha eq_refl (length_packet a _ _ _ _ Ha))].
  erewrite bind_ok; [|reflexivity].
  rewrite (heap_delete_alloc _ (k_heap s2) Hwf). reflexivity.
Qed.

(** A read whose request was answered, up to the copy to the user. *)
Lemma read_waits (s : st) (ip : positive) (i : inode) (to count ppos : Z) (msg : cn_msg)
    (body j1 j2 : list Z) (w1 w2 w3 : W) :
  let n := cn_sjfs_counter (k_glob s) in
  let req := message n (packet a SJFS_OPCODE_READ (i_ino i) ppos count) in
  let leak := Pos.succ (h_next (k_heap s)) in
  x86 a → heap_wf (k_heap s) → k_inodes s !! ip = Some i →
  sem_count (cn_sem (k_glob s)) = 1%nat → sem_count (cb_sem (k_glob s)) = 1%nat →
  k_malloc (sizeof_cn_msg + sizeof_packet a) (k_world s) = (Some j1, w1) →
  cn_deliver (cn_netlink_send req w1).2 = ([msg], w2) →
  msg_data msg = reply_data body → Z.of_nat (length body) < 2 ^ 31 →
  k_malloc (Z.of_nat (length body)) w2 = (Some j2, w3) →
  ∃ s6, sjfs_fops_read a ip to count ppos s =
      (buf ← get_glob sjfs_read_buffer; bs ← user_source buf count;
       _ ← world (copy_to_user to bs); up_on cn_sem set_cn_sem ;; mret count) s6 ∧
    h_map (k_heap s6) = <[leak := body]> (h_map (k_heap s)) ∧
    sjfs_read_buffer (k_glob s6) = Ptr leak 0 ∧ k_world s6 = w3 ∧
    sem_count (cn_sem (k_glob s6)) = 0%nat ∧ sem_count (cb_sem (k_glob s6)) = 1%nat ∧
    cn_sjfs_counter (k_glob s6) = u32 (n + 1) ∧ k_log s6 = k_log s ++ [NetlinkSend req].
Proof.
  intros n req leak Ha Hwf Hi Hcn Hcb Hm1 Hdel Hmsg Hlen Hm2.
  destruct (read_sends s ip i to count ppos j1 w1 Ha Hwf Hi Hcn Hcb Hm1) as (x & y & Hcx & Hcy & ->).
  fold n req. match goal with |- context [read_rest to count ?u] => set (s3 := u) end.
  destruct (callback_reply a msg body j2 w3 (with_world w2 s3) Ha Hcy Hmsg Hlen Hm2)
    as (z & Hcall & Hz).
  match type of Hcall with _ = Ok tt ?u =>
    destruct (down_on_ok cb_sem set_cb_sem u 0 Hz) as (z2 & Hdown & Hz2); set (s4 := u) in * end.
  set (s5 := with_glob (set_cb_sem z2 (k_glob s4)) s4) in *.
  set (s6 := with_glob (set_cb_sem (up z2) (k_glob s5)) s5).
  exists s6. split.
  { unfold read_rest. erewrite bind_ok.
    2: { unfold wait_callback. erewrite bind_ok; [|apply world_eq].
         change (k_world s3) with (cn_netlink_send req w1).2. rewrite Hdel. cbn [fst snd mfor_each].
         erewrite bind_ok; [|erewrite bind_ok; [|exact Hcall]; reflexivity]. exact Hdown. }
    reflexivity. }
  split; [done|]. split; [done|]. split; [done|].
  split; [exact Hcx|]. split; [|by split]. cbn. by rewrite up_count, Hz2.
Qed.

(** The copy to the user, from any state. *)
Lemma copy_to_user_ok (s : st) (b : positive) (body : list Z) (to count : Z) :
  sjfs_read_buffer (k_glob s) = Ptr b 0 → h_map (k_heap s) !! b = Some body →
  0 <= count <= Z.of_nat (length body) →
  (buf ← get_glob sjfs_read_buffer; bs ← user_source buf count;
   _ ← world (copy_to_user to bs); up_on cn_sem set_cn_sem ;; mret count) s
  = Ok count (with_glob (set_cn_sem (up (cn_sem (k_glob s))) (k_glob s))
      (with_world (copy_to_user to (take (Z.to_nat count) body) (k_world s)).2 s)).
Proof.
  intros Hbuf Hb Hc. erewrite bind_ok; [|reflexivity]. rewrite Hbuf.
  assert (user_source (Ptr b 0) count s = Ok (take (Z.to_nat count) body) s) as Hsrc.
  { unfold user_source. destruct (Z.eqb_spec count 0) as [->|]; [done|].
    erewrite load_ok; [|exact Hb|unfold in_bounds; lia]. by rewrite drop_0. }
  rewrite (bind_ok _ _ _ _ _ Hsrc). erewrite bind_ok; [|apply world_eq]. reflexivity.
Qed.

(** A read that gets no reply sleeps for ever. *)
Lemma read_rest_unanswered (s : st) (to count : Z) (w2 : W) :
  sem_count (cb_sem (k_glob s)) = 0%nat → cn_deliver (k_world s) = ([], w2) →
  read_rest to count s = Stop Blocked.
Proof.
  intros Hcb Hdel. apply bind_stop. unfold wait_callback. erewrite bind_ok; [|apply world_eq].
  rewrite Hdel. erewrite bind_ok; [|reflexivity]. by apply down_on_blocked.
Qed.

(** C25: Reading.  With memory and one reply to the request, [sjfs_fops_read] sends
    the packet of its arguments, and if the reply holds at least [count] bytes hands
    the first [count] of them to the user and releases both semaphores, leaving
    the buffer of the reply allocated; a shorter reply makes it read past the end
    of that buffer. *)
Theorem read_delivers_or_overreads (s : st) (ip : positive) (i : inode)
    (to count ppos : Z) (msg : cn_msg) (body j1 j2 : list Z) (w1 w2 w3 : W) :
  let n := cn_sjfs_counter (k_glob s) in
  let req := message n (packet a SJFS_OPCODE_READ (i_ino i) ppos count) in
  x86 a → heap_wf (k_heap s) → k_inodes s !! ip = Some i → 0 <= count →
  sem_count (cn_sem (k_glob s)) = 1%nat → sem_count (cb_sem (k_glob s)) = 1%nat →
  k_malloc (sizeof_cn_msg + sizeof_packet a) (k_world s) = (Some j1, w1) →
  cn_deliver (cn_netlink_send req w1).2 = ([msg], w2) →
  msg_data msg = reply_data body → Z.of_nat (length body) < 2 ^ 31 →
  k_malloc (Z.of_nat (length body)) w2 = (Some j2, w3) →
  let run := sjfs_fops_read a ip to count ppos s in
  (count <= Z.of_nat (length body) →
    ∃ s' leak, run = Ok count s' ∧ h_map (k_heap s) !! leak = None ∧
      h_map (k_heap s') = <[leak := body]> (h_map (k_heap s)) ∧
      k_world s' = (copy_to_user to (take (Z.to_nat count) body) w3).2 ∧
      sem_count (cn_sem (k_glob s')) = 1%nat ∧ sem_count (cb_sem (k_glob s')) = 1%nat ∧
      k_log s' = k_log s ++ [NetlinkSend req]) ∧
  (Z.of_nat (length body) < count → run = Stop OutOfBounds).
Proof.
  intros n req Ha Hwf Hi Hc Hcn Hcb Hm1 Hdel Hmsg Hlen Hm2 run.
  destruct (read_waits s ip i to count ppos msg body j1 j2 w1 w2 w3 Ha Hwf Hi Hcn Hcb Hm1 Hdel
    Hmsg Hlen Hm2) as (s6 & Hrun & Hm & Hbuf & Hw & Hcn6 & Hcb6 & _ & Hlog). unfold run. rewrite Hrun.
  set (leak := Pos.succ (h_next (k_heap s))) in *.
  assert (h_map (k_heap s6) !! leak = Some body) as Hleak by (rewrite Hm; apply lookup_insert_eq).
  split; intros Hfit.
  - rewrite (copy_to_user_ok s6 leak body) by (done || lia).
    eexists _, leak. split; [reflexivity|]. split.
    { apply eq_None_not_Some. intros Hl. apply Hwf in Hl. unfold leak in Hl. lia. }
    cbn. by rewrite up_count, Hcn6, Hw.
  - erewrite bind_ok; [|reflexivity]. rewrite Hbuf.
    apply bind_stop. unfold user_source. destruct (Z.eqb_spec count 0); [lia|].
    eapply load_oob; [exact Hleak|]. unfold in_bounds. lia.
Qed.

(** Without memory for the request a read never returns: nothing is sent, the
    reader waits for a reply nobody owes it, and it does so holding [cn_sem]. *)
Theorem read_no_memory_hangs (s : st) (ip : positive) (i : inode) (to count ppos : Z) (w1 w2 : W) :
  k_inodes s !! ip = Some i →
  sem_count (cn_sem (k_glob s)) = 1%nat → sem_count (cb_sem (k_glob s)) = 1%nat →
  k_malloc (sizeof_cn_msg + sizeof_packet a) (k_world s) = (None, w1) →
  cn_deliver w1 = ([], w2) →
  sjfs_fops_read a ip to count ppos s = Stop Blocked.
Proof.
  intros Hi Hcn Hcb Hm Hdel.
  destruct (down_on_ok cn_sem set_cn_sem s 0 Hcn) as (x & Hx & Hcx).
  set (s1 := with_glob (set_cn_sem x (k_glob s)) s) in *.
  destruct (down_on_ok cb_sem set_cb_sem s1 0 Hcb) as (y & Hy & Hcy).
  set (s2 := with_glob (set_cb_sem y (k_glob s1)) s1) in *.
  unfold sjfs_fops_read. erewrite bind_ok; [|unfold get_inode; rewrite Hi; reflexivity].
  rewrite (bind_ok _ _ _ _ _ Hx), (bind_ok _ _ _ _ _ Hy).
  erewrite bind_ok; [|by eapply (kzalloc_null _ w1 s2)]. cbn [is_null negb when].
  do 2 (erewrite bind_ok; [|reflexivity]).
  apply (read_rest_unanswered _ to count w2); [exact Hcy|exact Hdel].
Qed.
End plan_a_properties.

(** ** Witnesses *)

(** User memory that can be read: all sevens. *)
#[export] Instance sim_user_copy : UserCopy sim := {|
  copy_from_user _ n w := ((replicate (Z.to_nat n) 7, 0), w);
  copy_to_user _ _ w := (0, w) |}.

#[export] Instance sim_user_copy_laws : UserCopyLaws sim.
Proof.
  constructor. intros from n w bs left w' Hn. cbn. intros [= <- <- <-].
  rewrite length_replicate. lia.
Defined.

Definition demo_file : inode :=
  Inode 4 S_IFREG 0 0 0 1 0 (Timespec 1 0) (Timespec 1 0) (Timespec 1 0) NoTable NoTable NoTable
    Null 1.
Definition demo_globals : globals := Globals 1%nat 1%nat 9 None Null 1.
Definition demo_state (w : sim) : kstate globals sim :=
  KState empty_heap {[1%positive := demo_file]} 2 ∅ demo_globals w [].

(** User memory of which nothing can be read. *)
Definition faulting_user : UserCopy sim := {|
  copy_from_user _ n w := (([], n), w);
  copy_to_user _ _ w := (0, w) |}.
Lemma faulting_user_laws : @UserCopyLaws sim faulting_user.
Proof. constructor. intros from n w bs left w' Hn. cbn. intros [= <- <- <-]. cbn. lia. Defined.

(** Three readable bytes: nothing is sent.  Three bytes that fault: a packet and three
    zeros are.  No memory for the message: nothing is sent, the other block is lost. *)
Lemma write_outcome_witness :
  (∃ s', sjfs_fops_write LP64 1 0 3 0 (demo_state sim0) = Ok 3 s' ∧ k_log s' = []) ∧
  (∃ s', sjfs_fops_write (UserCopy0:=faulting_user) LP64 1 0 3 0 (demo_state sim0) = Ok 3 s' ∧
     k_log s' = [NetlinkSend (message (W:=sim) 9 (packet LP64 1 4 0 3 ++ [0; 0; 0]))]) ∧
  (∃ s' b, sjfs_fops_write LP64 1 0 3 0 (demo_state (Sim [false; true] [] 0 [] 1 ∅ ∅)) = Ok 3 s' ∧
     h_map (k_heap s') = <[b := replicate 35 0]> ∅ ∧ k_log s' = []).
Proof.
  pose proof (λ w, write_outcome LP64 (demo_state w) 1 demo_file 0 3 0 (or_introl eq_refl)
    heap_wf_empty eq_refl ltac:(lia)) as Hw.
  pose proof (write_outcome (UserCopy0:=faulting_user) (UserCopyLaws0:=faulting_user_laws) LP64
    (demo_state sim0) 1 demo_file 0 3 0 (or_introl eq_refl) heap_wf_empty eq_refl ltac:(lia)) as Hf.
  split; [|split].
  - destruct (Hw sim0) as (s' & Hrun & _ & _ & _ & _ & Hlog). by exists s'.
  - destruct Hf as (s' & Hrun & _ & _ & _ & _ & Hlog). by exists s'.
  - destruct (Hw (Sim [false; true] [] 0 [] 1 ∅ ∅)) as (s' & Hrun & _ & _ & _ & (b & _ & Hh) & Hlog).
    by exists s', b.
Defined.

(** A read of three bytes answered with five. *)
Definition demo_reply : cn_msg := CnMsg 14 0x456 9 0 13 (reply_data [1; 2; 3; 4; 5]).

Lemma read_delivers_or_overreads_witness :
  let s := demo_state (sim_with_replies [[demo_reply]]) in
  let run := sjfs_fops_read LP64 1 0 3 0 s in
  let req := message (W:=sim) 9 (packet LP64 0 4 0 3) in
  (3 <= 5 →
    ∃ s' leak, run = Ok 3 s' ∧ h_map empty_heap !! leak = None ∧
      h_map (k_heap s') = <[leak := [1; 2; 3; 4; 5]]> ∅ ∧ k_world s' = sim0 ∧
      sem_count (cn_sem (k_glob s')) = 1%nat ∧ sem_count (cb_sem (k_glob s')) = 1%nat ∧
      k_log s' = [NetlinkSend req]) ∧
  (5 < 3 → run = Stop OutOfBounds).
Proof.
  intros s.
  refine (read_delivers_or_overreads LP64 s 1 demo_file 0 3 0 demo_reply [1; 2; 3; 4; 5] [] []
    (sim_with_replies [[demo_reply]]) sim0 sim0 _ heap_wf_empty eq_refl _ eq_refl eq_refl
    eq_refl eq_refl eq_refl _ eq_refl); [by left|lia|simpl; lia].
Defined.

Lemma read_no_memory_hangs_witness :
  sjfs_fops_read LP64 1 0 3 0 (demo_state (Sim [false] [] 0 [] 1 ∅ ∅)) = Stop Blocked.
Proof.
  exact (read_no_memory_hangs LP64 (demo_state (Sim [false] [] 0 [] 1 ∅ ∅)) 1 demo_file 0 3 0
    sim0 sim0 eq_refl eq_refl eq_refl eq_refl eq_refl).
Defined.
End PlanA.
