(* ===== verification/PlanAThreads.v ===== *)
(** * Interleavings in plan A ([backup_plans/a/sjfs.c])

    [PlanA] runs one thread at a time.  Here any number of threads are inside
    [sjfs_fops_read] and [sjfs_fops_write] while the connector runs callbacks, in the
    style of [ConnectorThreads]: a step executes one line that touches a shared
    variable, [answering] lets a helper answer a read request on its way, once, with
    what [file] gives for it, [oom] lets [kzalloc] fail and [spurious] lets messages
    arrive that no request asked for.  The helper of the repository never calls its
    [do_work] ([PlanAHelper]), so that its own system is [answering = false]; write
    requests get no answer in any case (case [SJFS_OPCODE_WRITE] of [do_work]).

    Unlike the kernel module, plan A takes both semaphores before it allocates: the
    section stays exclusive and sequence numbers stay distinct whatever happens, but a
    read whose allocation fails waits for a reply to a request it never sent.  A line
    that faults has no step. *)
From Stdlib Require Import Sorting.Sorted.
From S2P Require Import Prelude CLayout Blocks Memory Kernel Env RamInodes PlanA Lock.

(** ** Lines of the functions: the one about to be executed *)
Inductive read_line : Set := P77 | P78 | P80 | P83 | P87 | P91 | P93 | P94 | P96 | P98 | PRet.
Inductive write_line : Set := Q113 | Q115 | Q119 | Q122 | Q126 | Q131 | Q133 | QRet.
Inductive reply_line : Set := K51 | K52 | K58 | K60 | K63.

(** A thread in [sjfs_fops_read]: its packet, [count], whether it has sent its request,
    the sequence number in it and what was copied to the user.  A thread in
    [sjfs_fops_write]: its packet and the sequence number. *)
Inductive task : Type :=
  | Reading (pc : read_line) (packet : list Z) (count : Z) (asked : bool) (seq : Z) (out : list Z)
  | Writing (pc : write_line) (packet : list Z) (seq : Z).

(** The shared variables (the buffer is NULL or a block), the read requests on their way
    to the helper, the callbacks running and the messages sent so far. *)
Record vars : Type := Vars {
  v_cn : nat;
  v_cb : nat;
  v_counter : Z;
  v_buffer : option (list Z);
  v_pending : list (list Z);
  v_callbacks : list (reply_line * cn_msg);
  v_sent : list (Z * list Z) }.

Record config : Type := Config { tasks : list task; shared_vars : vars }.

Definition put_cn (n : nat) (s : vars) : vars :=
  Vars n (v_cb s) (v_counter s) (v_buffer s) (v_pending s) (v_callbacks s) (v_sent s).
Definition put_cb (n : nat) (s : vars) : vars :=
  Vars (v_cn s) n (v_counter s) (v_buffer s) (v_pending s) (v_callbacks s) (v_sent s).
Definition put_counter (z : Z) (s : vars) : vars :=
  Vars (v_cn s) (v_cb s) z (v_buffer s) (v_pending s) (v_callbacks s) (v_sent s).
Definition put_buffer (b : option (list Z)) (s : vars) : vars :=
  Vars (v_cn s) (v_cb s) (v_counter s) b (v_pending s) (v_callbacks s) (v_sent s).
Definition put_pending (p : list (list Z)) (s : vars) : vars :=
  Vars (v_cn s) (v_cb s) (v_counter s) (v_buffer s) p (v_callbacks s) (v_sent s).
Definition put_callbacks (l : list (reply_line * cn_msg)) (s : vars) : vars :=
  Vars (v_cn s) (v_cb s) (v_counter s) (v_buffer s) (v_pending s) l (v_sent s).
Definition log_message (x : Z * list Z) (s : vars) : vars :=
  Vars (v_cn s) (v_cb s) (v_counter s) (v_buffer s) (v_pending s) (v_callbacks s) (v_sent s ++ [x]).

(** One line of [sjfs_fops_read]; [fails] is the outcome of [kzalloc]. *)
Definition read_step (fails : bool) (pc : read_line) (packet : list Z) (count : Z) (asked : bool)
    (seq : Z) (out : list Z) (s : vars) : option (task * vars) :=
  let at_ pc := Reading pc packet count asked seq out in
  match pc with
  | P77 => n ← take_sem (v_cn s); Some (at_ P78, put_cn n s)
  | P78 => n ← take_sem (v_cb s); Some (at_ P80, put_cb n s)
  | P80 => Some (if fails then Reading P91 packet count false seq out else at_ P83, s)
  | P83 => Some (Reading P87 packet count asked (v_counter s) out, s)
  | P87 => Some (Reading P91 packet count true seq out,
      log_message (seq, packet) (put_pending (v_pending s ++ [packet]) s))
  | P91 => Some (at_ P93, put_counter (u32 (v_counter s + 1)) s)
  | P93 => n ← take_sem (v_cb s); Some (at_ P94, put_cb n s)
  | P94 => Some (at_ P96, put_cb (S (v_cb s)) s)
  | P96 =>
      if count =? 0 then Some (Reading P98 packet count asked seq [], s) else
      buf ← v_buffer s;
      if count <=? Z.of_nat (length buf)
      then Some (Reading P98 packet count asked seq (take (Z.to_nat count) buf), s) else None
  | P98 => Some (at_ PRet, put_cn (S (v_cn s)) s)
  | PRet => None
  end.

(** One line of [sjfs_fops_write]; [fails] says that one of the allocations does, or
    that [copy_from_user] does not return [count]. *)
Definition write_step (fails : bool) (pc : write_line) (packet : list Z) (seq : Z) (s : vars)
    : option (task * vars) :=
  let at_ pc := Writing pc packet seq in
  match pc with
  | Q113 => n ← take_sem (v_cn s); Some (at_ Q115, put_cn n s)
  | Q115 => Some (at_ (if fails then Q131 else Q119), s)
  | Q119 => Some (Writing Q122 packet (v_counter s), s)
  | Q122 => Some (at_ (if fails then Q131 else Q126), s)
  | Q126 => Some (at_ Q131, log_message (seq, packet) s)
  | Q131 => Some (at_ Q133, put_counter (u32 (v_counter s + 1)) s)
  | Q133 => Some (at_ QRet, put_cn (S (v_cn s)) s)
  | QRet => None
  end.

Definition task_step (fails : bool) (t : task) (s : vars) : option (task * vars) :=
  match t with
  | Reading pc packet count asked seq out => read_step fails pc packet count asked seq out s
  | Writing pc packet seq => write_step fails pc packet seq s
  end.

Section moves.
Context (a : abi) (file : list Z → list Z).

(** [packet->count] as the argument of [kzalloc]. *)
Definition reply_size (msg : cn_msg) : Z :=
  wrap (8 * Z.of_nat (ptr_size a)) (swrap 64 (le_decode (take 8 (msg_data msg)))).

(** One line of [cn_sjfs_callback]; [None] as the line: it has returned. *)
Definition reply_step (fails : bool) (pc : reply_line) (msg : cn_msg) (s : vars)
    : option (option reply_line * vars) :=
  match pc with
  | K51 => Some match take_sem (v_cb s) with
                | Some n => (Some K52, put_cb n s)
                | None => (Some K58, s)
                end
  | K52 => Some (None, put_cb (S (v_cb s)) s)
  | K58 => Some (if fails then (Some K63, put_buffer None s)
                 else (Some K60, put_buffer (Some (replicate (Z.to_nat (reply_size msg)) 0)) s))
  | K60 =>
      buf ← v_buffer s;
      let body := take (Z.to_nat (reply_size msg)) (drop 8 (msg_data msg)) in
      if decide (Z.of_nat (length body) = reply_size msg ∧ (length body ≤ length buf)%nat)
      then Some (Some K63, put_buffer (Some (splice 0 body buf)) s) else None
  | K63 => Some (None, put_cb (S (v_cb s)) s)
  end.

(** The helper's answer to a read request. *)
Definition file_reply (packet : list Z) : cn_msg :=
  CnMsg 14 0x456 0 0 (8 + Z.of_nat (length (file packet))) (PlanA.reply_data (file packet)).

Inductive moves (answering oom spurious : bool) : config → config → Prop :=
  | move_task ts s i fails t t' s' :
      (fails = true → oom = true ∨ ∃ packet seq, t = Writing Q122 packet seq) →
      ts !! i = Some t → task_step fails t s = Some (t', s') →
      moves answering oom spurious (Config ts s) (Config (<[i := t']> ts) s')
  | move_reply ts s p1 r p2 :
      answering = true → v_pending s = p1 ++ r :: p2 →
      moves answering oom spurious (Config ts s)
        (Config ts (put_callbacks (v_callbacks s ++ [(K51, file_reply r)]) (put_pending (p1 ++ p2) s)))
  | move_spurious ts s msg :
      spurious = true →
      moves answering oom spurious (Config ts s) (Config ts (put_callbacks (v_callbacks s ++ [(K51, msg)]) s))
  | move_callback ts s c1 pc msg c2 fails pc' s' :
      (fails = true → oom = true) →
      v_callbacks s = c1 ++ (pc, msg) :: c2 →
      reply_step fails pc msg s = Some (pc', s') →
      moves answering oom spurious (Config ts s)
        (Config ts (put_callbacks (c1 ++ match pc' with Some q => [(q, msg)] | None => [] end ++ c2) s')).

(** All calls about to start, with their packets built. *)
Definition starts (t : task) : Prop :=
  match t with
  | Reading P77 packet count _ _ _ => ∃ ino ppos,
      packet = PlanA.packet a PlanA.SJFS_OPCODE_READ ino ppos count ∧ 0 <= count
  | Writing Q113 packet _ => ∃ ino ppos count,
      packet = PlanA.packet a PlanA.SJFS_OPCODE_WRITE ino ppos count ++ replicate (Z.to_nat count) 0
  | _ => False
  end.

Definition begins (c : config) : Prop :=
  Forall starts (tasks c) ∧ v_cn (shared_vars c) = 1%nat ∧ v_cb (shared_vars c) = 1%nat ∧
  0 <= v_counter (shared_vars c) < 2 ^ 32 ∧ v_pending (shared_vars c) = [] ∧
  v_callbacks (shared_vars c) = [] ∧ v_sent (shared_vars c) = [].

Definition reaches (answering oom spurious : bool) (c : config) : Prop :=
  ∃ c0, begins c0 ∧ rtc (moves answering oom spurious) c0 c.

(** Between [down(&cn_sem)] and [up(&cn_sem)]. *)
Definition inside (t : task) : Prop :=
  match t with
  | Reading (P77 | PRet) _ _ _ _ _ | Writing (Q113 | QRet) _ _ => False
  | _ => True
  end.

Definition done_ (t : task) : Prop :=
  match t with Reading PRet _ _ _ _ _ | Writing QRet _ _ => True | _ => False end.

(** What a finished read has copied to the user. *)
Definition delivered (t : task) : Prop :=
  match t with
  | Reading PRet packet count _ _ out => out = take (Z.to_nat count) (file packet)
  | _ => True
  end.

Definition is_reading (t : task) : Prop :=
  match t with Reading _ _ _ _ _ _ => True | _ => False end.

(** A read that waits for an answer to a request it did not send, or to one that the helper
    does not answer, or that is about to copy bytes from the NULL a failed allocation of
    the callback left, or more of them than the reply had. *)
Definition doomed (answering : bool) (s : vars) (t : task) : Prop :=
  match t with
  | Reading P93 _ _ asked _ _ => asked = false ∨ (answering = false ∧ v_pending s ≠ [])
  | Reading P96 _ count _ _ _ =>
      count ≠ 0 ∧ match v_buffer s with None => True | Some buf => Z.of_nat (length buf) < count end
  | _ => False
  end.
End moves.

#[export] Instance inside_dec t : Decision (inside t).
Proof. destruct t as [[]|[]]; simpl; apply _. Defined.
#[export] Instance done_dec t : Decision (done_ t).
Proof. destruct t as [[]|[]]; simpl; apply _. Defined.

(** The outcomes of one line, [Hs]. *)
Ltac line_cases Hs :=
  cbn in Hs; simplify_option_eq; repeat (case_match; simplify_option_eq);
  try match goal with Hk : take_sem _ = Some _ |- _ => apply take_sem_Some in Hk end.

(** ** The section and the sequence numbers, whatever happens *)
Lemma task_step_lock fails t s t' s' :
  task_step fails t s = Some (t', s') → lock_line inside t (v_cn s) t' (v_cn s').
Proof.
  intros Hs. destruct t as [[] pkt count asked seq out|[] pkt seq]; line_cases Hs;
    unfold lock_line; cbn; tauto.
Qed.

Section numbers.
Context (a : abi) (file : list Z → list Z).
Implicit Types (c : config) (s : vars) (t : task).

Definition owned_by (h : option nat) c : Prop := held inside h (tasks c) (v_cn (shared_vars c)).

Lemma reply_step_keeps fails pc msg s pc' s' :
  reply_step a fails pc msg s = Some (pc', s') →
  v_cn s' = v_cn s ∧ v_counter s' = v_counter s ∧ v_pending s' = v_pending s ∧
  v_callbacks s' = v_callbacks s ∧ v_sent s' = v_sent s.
Proof.
  intros Hs. destruct pc; line_cases Hs; done.
Qed.

(** Calls that are past [cn_sjfs_counter++]. *)
Definition counted t : nat :=
  match t with
  | Reading (P93 | P94 | P96 | P98 | PRet) _ _ _ _ _ | Writing (Q133 | QRet) _ _ => 1
  | _ => 0
  end%nat.
Definition calls c : nat := sum_list (counted <$> tasks c).
#[local] Arguments calls : simpl never.

(** The thread in the section may have sent the number that is current. *)
Definition slack (o : option task) : nat :=
  match o with Some (Reading P91 _ _ _ _ _) | Some (Writing Q131 _ _) => 1 | _ => 0 end%nat.
Definition carries (o : option task) s : Prop :=
  match o with
  | Some (Reading P87 _ _ _ seq _) | Some (Writing (Q122 | Q126) _ seq) => seq = v_counter s
  | _ => True
  end.

(** After [n] calls, counting from [z]: the numbers sent are those of distinct calls in
    their order. *)
Definition numbers (z : Z) (n : nat) (o : option task) s : Prop :=
  v_counter s = u32 (z + Z.of_nat n) ∧ carries o s ∧
  ∃ ks, fst <$> v_sent s = (λ k, u32 (z + Z.of_nat k)) <$> ks ∧ StronglySorted lt ks ∧
    Forall (λ k, k < n + slack o)%nat ks.

Lemma numbers_grow z n m o o' s s' :
  numbers z n o s → v_counter s' = v_counter s → v_sent s' = v_sent s → carries o' s' →
  m = n → (slack o ≤ slack o')%nat → numbers z m o' s'.
Proof.
  intros (Hc & _ & ks & Hks & Hsort & Hlt) Hc' Hs' Ho' -> Hle. split; [by rewrite Hc'|].
  split; [done|]. exists ks. split; [by rewrite Hs'|]. split; [done|].
  eapply Forall_impl; [exact Hlt|]. cbn. lia.
Qed.

Lemma sorted_snoc (ks : list nat) n :
  StronglySorted lt ks → Forall (λ k, k < n)%nat ks → StronglySorted lt (ks ++ [n]).
Proof.
  induction 1 as [|k ks Hs IH Hk]; intros Hn; cbn; [by repeat constructor|].
  apply Forall_cons_1 in Hn as [Hkn Hn]. constructor; [by apply IH|].
  apply Forall_app. split; [done|]. by repeat constructor.
Qed.

Lemma numbers_send z n o o' s s' x :
  numbers z n o s → v_counter s' = v_counter s → v_sent s' = v_sent s ++ [(v_counter s, x)] →
  slack o = 0%nat → carries o' s' → slack o' = 1%nat → numbers z n o' s'.
Proof.
  intros (Hc & _ & ks & Hks & Hsort & Hlt) Hc' Hs' Ho Hcar Ho'. rewrite Ho, Nat.add_0_r in Hlt.
  split; [by rewrite Hc'|]. split; [done|]. exists (ks ++ [n]). rewrite Hs', !fmap_app, Hks, Ho'.
  cbn. rewrite Hc. split; [done|]. split; [by apply sorted_snoc|].
  apply Forall_app. split; [eapply Forall_impl; [exact Hlt|]; cbn; lia|]. repeat constructor. lia.
Qed.

Lemma u32_succ z : u32 (u32 z + 1) = u32 (z + 1).
Proof. unfold u32, wrap. by rewrite Zplus_mod_idemp_l. Qed.

Lemma numbers_count z n o o' s :
  numbers z n o s → slack o = 1%nat → slack o' = 0%nat → carries o' (put_counter (u32 (v_counter s + 1)) s) →
  numbers z (n + 1) o' (put_counter (u32 (v_counter s + 1)) s).
Proof.
  intros (Hc & _ & ks & Hks & Hsort & Hlt) Ho Ho' Hcar. split.
  - cbn. rewrite Hc, u32_succ. f_equal. lia.
  - split; [done|]. exists ks. rewrite Ho'. split; [done|]. split; [done|].
    eapply Forall_impl; [exact Hlt|]. cbn. rewrite Ho. lia.
Qed.

Lemma numbers_step fails z n t s t' s' :
  task_step fails t s = Some (t', s') → (counted t ≤ n)%nat → numbers z n (Some t) s →
  numbers z (n + counted t' - counted t) (Some t') s'.
Proof.
  intros Hs Hn Hnum. pose proof Hnum as (Hc & Hcar & _).
  destruct t as [[] pkt count asked seq out|[] pkt seq]; cbn in Hn, Hcar; line_cases Hs; try subst seq;
    first
      [ eapply numbers_grow; [exact Hnum|done|done|done|cbn; lia|cbn; lia]
      | cbn; rewrite Nat.add_0_r, Nat.sub_0_r; eapply numbers_send; [exact Hnum|done..]
      | cbn; rewrite Nat.sub_0_r; by eapply numbers_count; [exact Hnum|..] ].
Qed.

Definition numbered (z : Z) c : Prop :=
  ∃ h, owned_by h c ∧ numbers z (calls c) (owner h (tasks c)) (shared_vars c).

Lemma numbers_focus z n t s : numbers z n (if_inside inside t) s ↔ numbers z n (Some t) s.
Proof.
  unfold if_inside. case_decide as Ht; [done|].
  by destruct t as [[]|[]]; try (by destruct Ht).
Qed.

Lemma calls_insert ts s i t t' s' :
  ts !! i = Some t →
  (counted t ≤ calls (Config ts s))%nat ∧
  calls (Config (<[i := t']> ts) s') = (calls (Config ts s) + counted t' - counted t)%nat.
Proof.
  intros Hi. pose proof (sum_list_insert counted ts i t t' Hi).
  pose proof (sum_list_insert counted ts i t (Writing Q113 [] 0) Hi) as Hz.
  unfold calls. cbn in *. lia.
Qed.

Lemma numbered_step z ans oom sp c c' : numbered z c → moves a file ans oom sp c c' → numbered z c'.
Proof.
  intros (h & Ho & Hnum) Hmove. unfold owned_by in Ho.
  destruct Hmove as [ts s i fails t t' s' _ Hi Ht|ts s p1 r p2 _ Hp|ts s msg|
    ts s c1 pc msg c2 fails pc' s' _ Hc Hs]; cbn in Ho, Hnum.
  - destruct (held_line _ _ _ _ _ _ _ _ Ho Hi (task_step_lock _ _ _ _ _ Ht)) as (Hown & h' & Ho' & Hown').
    exists h'. split; [done|]. cbn. rewrite Hown' . rewrite Hown in Hnum.
    destruct (calls_insert ts s i t t' s' Hi) as [Hle ->].
    apply numbers_focus. apply numbers_focus in Hnum. by eapply numbers_step.
  - by exists h.
  - by exists h.
  - destruct (reply_step_keeps _ _ _ _ _ _ Hs) as (Hcn & Hct & _ & _ & Hsent).
    exists h. split; [unfold owned_by; cbn; by rewrite Hcn|]. cbn.
    unfold numbers, carries. cbn. rewrite Hct, Hsent. exact Hnum.
Qed.

Lemma begins_owned c : begins a c → owned_by None c.
Proof.
  intros (Hst & Hcn & _). unfold owned_by. rewrite Hcn. apply held_start.
  eapply Forall_impl; [exact Hst|]. intros t Ht Hin. by destruct t as [[]|[]].
Qed.

Lemma begins_numbered c : begins a c → numbered (v_counter (shared_vars c)) c.
Proof.
  intros Hb. exists None. split; [by apply begins_owned|].
  destruct Hb as (Hst & _ & _ & Hct & _ & _ & Hsent).
  assert (calls c = 0%nat) as ->.
  { unfold calls. clear -Hst. induction Hst as [|t ts Ht _ IH]; [done|]. cbn. rewrite IH.
    by destruct t as [[]|[]]. }
  split; [|split; [done|]].
  - unfold u32, wrap. rewrite Z.mod_small; lia.
  - exists []. rewrite Hsent. repeat constructor.
Qed.

Lemma reaches_numbered ans oom sp c : reaches a file ans oom sp c → ∃ z, numbered z c.
Proof.
  intros (c0 & Hb & Hrun). exists (v_counter (shared_vars c0)). apply begins_numbered in Hb.
  revert Hb. generalize (v_counter (shared_vars c0)). intros z.
  induction Hrun; [done|]. eauto using numbered_step.
Qed.

Lemma u32_inj z k k' :
  0 <= k < 2 ^ 32 → 0 <= k' < 2 ^ 32 → u32 (z + k) = u32 (z + k') → k = k'.
Proof.
  unfold u32, wrap. intros Hk Hk' He.
  assert ((k - k') mod 2 ^ 32 = 0) as Hz.
  { replace (k - k') with ((z + k) - (z + k')) by lia. rewrite Zminus_mod, He, Z.sub_diag. done. }
  apply Z.mod_divide in Hz as [q Hq]; lia.
Qed.

Lemma calls_le c : (calls c ≤ length (tasks c))%nat.
Proof.
  unfold calls. induction (tasks c) as [|t ts IH]; [done|]. cbn.
  assert (counted t ≤ 1)%nat by (destruct t as [[]|[]]; cbn; lia). lia.
Qed.

(** Distinct numbers as long as the counter has not gone round. *)
Lemma numbered_distinct z c :
  numbered z c → Z.of_nat (length (tasks c)) < 2 ^ 32 → NoDup (fst <$> v_sent (shared_vars c)).
Proof.
  intros (h & _ & _ & _ & ks & -> & Hsort & Hlt) Hlen. pose proof (calls_le c) as Hle.
  assert (Forall (λ k, Z.of_nat k < 2 ^ 32) ks) as Hks.
  { eapply Forall_impl; [exact Hlt|]. cbn. intros k Hk.
    assert (slack (owner h (tasks c)) ≤ 1)%nat by (destruct (owner _ _) as [[[]|[]]|]; cbn; lia).
    lia. }
  clear -Hsort Hks. induction Hsort as [|k ks _ IH Hall]; [constructor|].
  apply Forall_cons_1 in Hks as [Hk Hks]. cbn. constructor; [|by apply IH].
  intros (k' & Heq & Hin)%list_elem_of_fmap.
  pose proof (proj1 (Forall_forall _ _) Hks k' Hin). pose proof (proj1 (Forall_forall _ _) Hall k' Hin).
  cbn in *. apply u32_inj in Heq; lia.
Qed.
End numbers.

(** ** The protocol without strangers on the connector *)
Section protocol.
Context (a : abi) (Ha : x86 a) (file : list Z → list Z) (oom : bool).
Context (Hsmall : ∀ p, Z.of_nat (length (file p)) < 2 ^ 31).
#[local] Arguments file_reply : simpl never.
Implicit Types (c : config) (s : vars) (t : task).

(** Nothing is on its way. *)
Definition still s : Prop := v_pending s = [] ∧ v_callbacks s = [].

(** The buffer has what was asked for, or NULL when memory may run out. *)
Definition filled (p : list Z) s : Prop :=
  v_buffer s = Some (file p) ∨ (oom = true ∧ v_buffer s = None).

(** The request [p] is under way, or its answer has arrived. *)
Definition expects (p : list Z) s : Prop :=
  let m := file_reply file p in
  (v_cb s = 0%nat ∧ v_pending s = [p] ∧ v_callbacks s = []) ∨
  (v_cb s = 0%nat ∧ v_pending s = [] ∧
    (v_callbacks s = [(K51, m)] ∨ v_callbacks s = [(K58, m)] ∨
     (v_callbacks s = [(K60, m)] ∧ v_buffer s = Some (replicate (length (file p)) 0)) ∨
     (v_callbacks s = [(K63, m)] ∧ filled p s))) ∨
  (v_cb s = 1%nat ∧ still s ∧ filled p s).

(** What the shared variables hold while [o] has the section. *)
Definition stage (o : option task) s : Prop :=
  match o with
  | Some (Reading (P80 | P83 | P87) _ _ _ _ _) => v_cb s = 0%nat ∧ still s
  | Some (Reading (P91 | P93) p _ asked _ _) =>
      if asked then expects p s else oom = true ∧ v_cb s = 0%nat ∧ still s
  | Some (Reading P94 p _ _ _ _) => v_cb s = 0%nat ∧ still s ∧ filled p s
  | Some (Reading P96 p _ _ _ _) => v_cb s = 1%nat ∧ still s ∧ filled p s
  | Some (Reading P98 p count _ _ out) =>
      v_cb s = 1%nat ∧ still s ∧ out = take (Z.to_nat count) (file p)
  | _ => v_cb s = 1%nat ∧ still s
  end.

Definition in_order c : Prop :=
  ∃ h, owned_by h c ∧ stage (owner h (tasks c)) (shared_vars c) ∧ Forall (delivered file) (tasks c).

Lemma stage_focus t s : stage (if_inside inside t) s ↔ stage (Some t) s.
Proof.
  unfold if_inside. case_decide as Ht; [done|].
  by destruct t as [[]|[]]; try (by destruct Ht).
Qed.

(** Each line of a call advances its stage. *)
Lemma stage_step fails t s t' s' :
  (fails = true → oom = true ∨ ∃ packet seq, t = Writing Q122 packet seq) →
  task_step fails t s = Some (t', s') → stage (Some t) s → delivered file t →
  stage (Some t') s' ∧ delivered file t'.
Proof.
  intros Hf Hs Hp Hd. destruct t as [[] p count asked seq out|[] p seq]; line_cases Hs;
    cbn in Hp |- *; try (split; [|done]); unfold still, expects in *; cbn; try tauto.
  - destruct Hp as (Hcb & Hst). split; [congruence|done].
  - destruct Hf as [|(? & ? & ?)]; [done|tauto|done].
  - destruct Hp as (Hcb & -> & ->). by left.
  - destruct Hp as [(Hcb & _)|[(Hcb & _)|(Hcb & Hst)]]; [congruence..|]. split; [congruence|done].
  - destruct Hp as (_ & Hcb & _). congruence.
  - destruct Hp as (Hcb & Hst). by rewrite Hcb.
  - match goal with Hz : (count =? 0) = true |- _ => apply Z.eqb_eq in Hz as -> end. tauto.
  - destruct Hp as (Hcb & Hst & [Hb|[_ Hb]]); [|congruence]. split; [done|]. split; [done|].
    congruence.
Qed.

Lemma reply_reads p : reply_size a (file_reply file p) = Z.of_nat (length (file p)).
Proof. unfold reply_size, file_reply. cbn [msg_data]. by rewrite (PlanA.reply_count a (file p)). Qed.

Lemma reply_carries p : drop 8 (msg_data (file_reply file p)) = file p.
Proof. apply PlanA.reply_body. Qed.

Lemma stage_reply o s p1 r p2 :
  stage o s → v_pending s = p1 ++ r :: p2 →
  stage o (put_callbacks (v_callbacks s ++ [(K51, file_reply file r)]) (put_pending (p1 ++ p2) s)).
Proof.
  intros Hp Hr.
  assert (∀ l : list (list Z), l = [] → l = p1 ++ r :: p2 → False) as Hnil
    by (intros l ->; by destruct p1).
  assert (∀ p, expects p s → expects p
    (put_callbacks (v_callbacks s ++ [(K51, file_reply file r)]) (put_pending (p1 ++ p2) s))) as Hexp.
  { intros p [(Hcb & Hpend & Hc)|Hrest].
    - rewrite Hr in Hpend. destruct p1 as [|? [|]]; [|done..]. injection Hpend as -> ->.
      right. left. cbn. rewrite Hc. auto.
    - exfalso. unfold still in Hrest. apply (Hnil (v_pending s)); [|done]. tauto. }
  destruct o as [[[] p count [] seq out|[] p seq]|]; cbn in Hp |- *;
    first [by apply Hexp | exfalso; unfold still in Hp; apply (Hnil (v_pending s)); tauto].
Qed.

(** The callback of the answer, line by line. *)
Lemma expects_callback fails p s l1 pc msg l2 pc' s' :
  (fails = true → oom = true) →
  expects p s → v_callbacks s = l1 ++ (pc, msg) :: l2 → reply_step a fails pc msg s = Some (pc', s') →
  expects p (put_callbacks (l1 ++ match pc' with Some q => [(q, msg)] | None => [] end ++ l2) s').
Proof.
  intros Hf Hexp Hc Hs.
  assert (∀ l : list (reply_line * cn_msg), l = [] → l = l1 ++ (pc, msg) :: l2 → False) as Hnil
    by (intros l ->; by destruct l1).
  assert (∀ q m, v_callbacks s = [(q, m)] → l1 = [] ∧ l2 = [] ∧ pc = q ∧ msg = m) as Hone.
  { intros q m Hl. rewrite Hc in Hl. destruct l1 as [|? [|]]; [|done..]. by injection Hl as -> -> ->. }
  destruct Hexp as [(_ & _ & Hl)|[(Hcb & Hpend & Hl)|(_ & [_ Hl] & _)]];
    [exfalso; by apply (Hnil (v_callbacks s))| |exfalso; by apply (Hnil (v_callbacks s))].
  destruct Hl as [Hl|[Hl|[[Hl Hbuf]|[Hl Hbuf]]]]; destruct (Hone _ _ Hl) as (-> & -> & -> & ->);
    cbn in Hs; [rewrite Hcb in Hs|rewrite reply_reads, Nat2Z.id in Hs| |].
  - simplify_eq/=. right. left. cbn. auto.
  - destruct fails; simplify_eq/=; right; left; cbn; [|by eauto 10].
    split; [done|]. split; [done|]. right. right. right. split; [done|]. right. by split; [apply Hf|].
  - rewrite Hbuf in Hs. cbn in Hs. rewrite reply_reads, Nat2Z.id, reply_carries, firstn_all,
      decide_True in Hs by (by rewrite length_replicate).
    rewrite splice_full in Hs by by rewrite length_replicate. simplify_eq/=. right. left. cbn.
    split; [done|]. split; [done|]. right. right. right. split; [done|]. by left.
  - simplify_eq/=. right. right. cbn. rewrite Hcb. by repeat split.
Qed.

Lemma stage_callback fails o s l1 pc msg l2 pc' s' :
  (fails = true → oom = true) →
  stage o s → v_callbacks s = l1 ++ (pc, msg) :: l2 → reply_step a fails pc msg s = Some (pc', s') →
  stage o (put_callbacks (l1 ++ match pc' with Some q => [(q, msg)] | None => [] end ++ l2) s').
Proof.
  intros Hf Hp Hc Hs.
  assert (v_callbacks s = [] → False) as Hnil by (rewrite Hc; by destruct l1).
  destruct o as [[[] p count [] seq out|[] p seq]|]; cbn in Hp |- *;
    first [by eapply expects_callback | exfalso; unfold still in Hp; tauto].
Qed.

Lemma in_order_step ans c c' : in_order c → moves a file ans oom false c c' → in_order c'.
Proof.
  intros (h & Ho & Hp & Hd) Hmove. unfold owned_by in Ho.
  destruct Hmove as [ts s i fails t t' s' Hf Hi Ht|ts s p1 r p2 _ Hr|ts s msg Hsp|
    ts s c1 pc msg c2 fails pc' s' Hf Hc Hs]; cbn in Ho, Hp, Hd.
  - destruct (held_line _ _ _ _ _ _ _ _ Ho Hi (task_step_lock _ _ _ _ _ Ht)) as (Hown & h' & Ho' & Hown').
    rewrite Hown in Hp. apply stage_focus in Hp.
    destruct (stage_step _ _ _ _ _ Hf Ht Hp (Forall_lookup_1 _ _ _ _ Hd Hi)) as [Hp' Hd'].
    exists h'. split; [done|]. cbn. rewrite Hown'. split; [by apply stage_focus|by apply Forall_insert].
  - exists h. split; [done|]. split; [by apply stage_reply|done].
  - done.
  - destruct (reply_step_keeps _ _ _ _ _ _ _ Hs) as (Hcn & _).
    exists h. split; [unfold owned_by; cbn; by rewrite Hcn|]. split; [by eapply stage_callback|done].
Qed.

Lemma begins_in_order c : begins a c → in_order c.
Proof.
  intros Hb. exists None. split; [by eapply begins_owned|].
  destruct Hb as (Hst & _ & Hcb & _ & Hp & Hk & _). split; [by split|].
  eapply Forall_impl; [exact Hst|]. by intros [[]|[]].
Qed.

Lemma reaches_in_order ans c : reaches a file ans oom false c → in_order c.
Proof.
  intros (c0 & Hb & Hrun). apply begins_in_order in Hb.
  induction Hrun; [done|]. eauto using in_order_step.
Qed.

(** *** Progress *)

(** The helper has as many bytes as the read asks for. *)
Definition served t : Prop :=
  match t with Reading _ p count _ _ _ => count <= Z.of_nat (length (file p)) | _ => True end.

Lemma moves_served ans sp c c' :
  moves a file ans oom sp c c' → Forall served (tasks c) → Forall served (tasks c').
Proof.
  intros Hmove Hsv. destruct Hmove as [ts s i fails t t' s' _ Hi Ht| | |]; [|done..]. cbn in *.
  apply Forall_insert; [done|]. pose proof (Forall_lookup_1 _ _ _ _ Hsv Hi) as Hst.
  destruct t as [[] p count asked seq out|[] p seq]; line_cases Ht; exact Hst.
Qed.

Lemma task_enabled ans sp ts s i t t' s' :
  ts !! i = Some t → task_step false t s = Some (t', s') →
  ∃ c', moves a file ans oom sp (Config ts s) c'.
Proof. intros. eexists. by eapply (move_task a file ans oom sp ts s i false). Qed.

(** Outside the section a call that has not returned moves when the semaphore is free. *)
Lemma outside_moves t s :
  ¬ inside t → ¬ done_ t → v_cn s = 1%nat → is_Some (task_step false t s).
Proof.
  intros Hin Hret Hcn.
  destruct t as [[]|[]]; cbn in *; rewrite ?Hcn; cbn; (eauto || tauto).
Qed.

(** Inside it moves, waits for a reply that is on its way, or is doomed. *)
Lemma inside_moves ans t s :
  inside t → stage (Some t) s →
  is_Some (task_step false t s) ∨ (ans = true ∧ ∃ r, v_pending s = [r]) ∨
  (∃ pc msg r, v_callbacks s = [(pc, msg)] ∧ reply_step a false pc msg s = Some r) ∨ doomed ans s t.
Proof.
  intros Hin Hp.
  destruct t as [[] p count asked seq out|[] p seq]; cbn in Hin; try done; cbn in Hp |- *;
    try (by left; eexists).
  - destruct Hp as [-> _]. left. by eexists.
  - destruct asked; [|by auto]. destruct Hp as [(_ & Hpend & _)|[(_ & _ & Hl)|(-> & _)]]; [| |left; by eexists].
    + rewrite Hpend. destruct ans; [by eauto|]. right. right. right. by right.
    + right. right. left. destruct Hl as [->|[->|[[-> Hbuf]|[-> _]]]]; eexists _, _, _; (split; [reflexivity|]);
        cbn; try reflexivity.
      rewrite Hbuf. cbn. rewrite reply_reads, Nat2Z.id, reply_carries, firstn_all, length_replicate.
      rewrite decide_True by done. reflexivity.
  - destruct (Z.eqb_spec count 0) as [|Hne]; [by left; eexists|].
    destruct (v_buffer s) as [buf|]; [|by auto]. cbn.
    destruct (Z.leb_spec count (Z.of_nat (length buf))); [by left; eexists|by auto].
Qed.

Lemma in_order_progress ans c :
  in_order c →
  Forall done_ (tasks c) ∨ (∃ c', moves a file ans oom false c c') ∨
  ∃ i t, tasks c !! i = Some t ∧ doomed ans (shared_vars c) t.
Proof.
  intros (h & Ho & Hp & _). destruct c as [ts s]. unfold owned_by in Ho. cbn in *.
  destruct (decide (Forall done_ ts)) as [|Hn]; [by left|]. right.
  destruct h as [i|].
  - destruct (proj1 (proj2 Ho) i eq_refl) as [t Hi]. unfold owner in Hp. cbn in Hp. rewrite Hi in Hp.
    assert (inside t) as Hin by (by apply (proj2 (proj2 Ho) i t Hi)).
    destruct (inside_moves ans t s Hin Hp)
      as [[[t' s'] Hs]|[[Hans [r Hr]]|[(pc & msg & [pc' s'] & Hk & Hs)|Hdoom]]]; [left..|right; eauto].
    + by eapply task_enabled.
    + eexists. by eapply (move_reply a file ans oom false ts s [] r []).
    + eexists. by eapply (move_callback a file ans oom false ts s [] pc msg [] false).
  - left. apply not_Forall_Exists in Hn; [|apply _]. apply Exists_exists in Hn as (t & Ht & Hret).
    apply list_elem_of_lookup_1 in Ht as [i Hi].
    destruct (outside_moves t s) as [[t' s'] Hs]; [|done|apply Ho|by eapply task_enabled].
    intros Hin. by apply (proj2 (proj2 Ho) i t Hi) in Hin.
Qed.

(** The stage of the thread that is in the section. *)
Lemma stage_inside c i t :
  in_order c → tasks c !! i = Some t → inside t →
  stage (Some t) (shared_vars c) ∧ v_cn (shared_vars c) = 0%nat ∧
  ∀ j u, tasks c !! j = Some u → j ≠ i → ¬ inside u.
Proof.
  intros (h & Ho & Hp & _) Hi Hin. unfold owned_by in Ho.
  assert (h = Some i) as -> by (by apply (proj2 (proj2 Ho) i t Hi)).
  unfold owner in Hp. cbn in Hp. rewrite Hi in Hp. destruct Ho as (Hcn & _ & Howns).
  split; [done|]. split; [done|]. intros j u Hj Hne. rewrite (Howns j u Hj). congruence.
Qed.

(** A doomed thread cannot move, and no answer to anybody is on its way. *)
Lemma doomed_waits ans t s :
  stage (Some t) s → doomed ans s t →
  (∀ fails, task_step fails t s = None) ∧ v_callbacks s = [] ∧ (ans = true → v_pending s = []).
Proof.
  intros Hp Hdoom. destruct t as [[] p count asked seq out|[] p seq]; try done; cbn in Hdoom, Hp |- *.
  - destruct Hdoom as [->|[-> Hpend]].
    + destruct Hp as (_ & -> & [-> ->]). done.
    + destruct asked; [|by destruct Hp as (_ & -> & [-> ->])].
      destruct Hp as [(-> & _ & ->)|[(_ & Hnil & _)|(_ & [Hnil _] & _)]]; done.
  - destruct Hdoom as [Hne Hbuf]. destruct Hp as (_ & [-> ->] & _). split; [|done]. intros _.
    rewrite (proj2 (Z.eqb_neq _ _)) by done. destruct (v_buffer s) as [buf|]; [|done]. cbn.
    by rewrite (proj2 (Z.leb_gt _ _)).
Qed.

(** A doomed thread holds both semaphores, and nothing is on its way: nobody moves. *)
Lemma doomed_stuck ans c i t :
  in_order c → tasks c !! i = Some t → doomed ans (shared_vars c) t →
  ∀ c', ¬ moves a file ans oom false c c'.
Proof.
  intros Hc Hi Hdoom c' Hmove.
  assert (inside t) as Hin by (by destruct t as [[]|[]]).
  destruct (stage_inside c i t Hc Hi Hin) as (Hp & Hcn & Hothers).
  destruct (doomed_waits ans t (shared_vars c) Hp Hdoom) as (Hst & Hcbs & Hpend).
  destruct Hmove as [ts s j fails u u' s' _ Hj Hu|ts s p1 r p2 Hans Hr|ts s msg Hsp|
    ts s c1 pc msg c2 fails pc' s' Hf Hk Hs]; cbn in *.
  - destruct (decide (j = i)) as [->|Hne]; [rewrite Hi in Hj; simplify_eq; by rewrite Hst in Hu|].
    specialize (Hothers j u Hj Hne).
    destruct u as [[]|[]]; try (by destruct Hothers); cbn in Hu; rewrite ?Hcn in Hu; done.
  - rewrite (Hpend Hans) in Hr. by destruct p1.
  - done.
  - rewrite Hcbs in Hk. by destruct c1.
Qed.

(** With memory, a helper that answers and long enough files nobody is doomed. *)
Lemma not_doomed c i t :
  oom = false → in_order c → tasks c !! i = Some t → served t → ¬ doomed true (shared_vars c) t.
Proof.
  intros Hoom Hc Hi Hsv Hdoom. assert (inside t) as Hin by (by destruct t as [[]|[]]).
  destruct (stage_inside c i t Hc Hi Hin) as (Hp & _).
  destruct t as [[] p count asked seq out|[] p seq]; try done; cbn in Hdoom, Hp, Hsv.
  - destruct Hdoom as [->|[? _]]; [|done]. destruct Hp as [? _]. congruence.
  - destruct Hdoom as [_ Hbuf]. destruct Hp as (_ & _ & [Hb|[? _]]); [|congruence].
    rewrite Hb in Hbuf. lia.
Qed.

(** *** Without a helper that answers *)

(** No read is past its wait, and one that has asked has its request still pending. *)
Definition unserved s t : Prop :=
  match t with
  | Reading (P91 | P93) _ _ true _ _ => v_pending s ≠ []
  | Reading (P94 | P96 | P98 | PRet) _ _ _ _ _ => False
  | _ => True
  end.
Definition unanswered c : Prop :=
  v_callbacks (shared_vars c) = [] ∧ Forall (unserved (shared_vars c)) (tasks c).

Lemma task_pending fails t s t' s' :
  task_step fails t s = Some (t', s') →
  v_callbacks s' = v_callbacks s ∧ (v_pending s ≠ [] → v_pending s' ≠ []).
Proof.
  intros Hs. destruct t as [[] p count asked seq out|[] p seq]; line_cases Hs; try done.
  split; [done|]. cbn. intros _. by destruct (v_pending s).
Qed.

Lemma task_unserved fails t s t' s' :
  (inside t → stage (Some t) s) → v_callbacks s = [] → unserved s t →
  task_step fails t s = Some (t', s') → unserved s' t'.
Proof.
  intros Hp Hk Hu Hs.
  destruct t as [[] p count [] seq out|[] p seq]; cbn in Hu; try done; line_cases Hs; try done.
  - cbn. by destruct (v_pending s).
  - cbn. by destruct (v_pending s).
  - exfalso. destruct (Hp I) as [(Hcb & _)|[(_ & Hl & _)|(_ & [Hl _] & _)]]; congruence.
  - exfalso. destruct (Hp I) as (_ & Hcb & _). congruence.
Qed.

Lemma unanswered_moves c c' :
  in_order c → unanswered c → moves a file false oom false c c' → unanswered c'.
Proof.
  intros Hc [Hk Hu] Hmove.
  destruct Hmove as [ts s i fails t t' s' Hf Hi Ht|ts s p1 r p2 Hans|ts s msg Hsp|
    ts s c1 pc msg c2 fails pc' s' Hf Hl Hs]; cbn in Hk, Hu; [|done|done|rewrite Hk in Hl; by destruct c1].
  destruct (task_pending _ _ _ _ _ Ht) as [Hk' Hpend]. split; [by rewrite <-Hk|]. cbn.
  apply Forall_insert.
  - eapply Forall_impl; [exact Hu|]. intros u Hus. destruct u as [[] ? ? []|[]]; cbn in *; auto.
  - eapply task_unserved; [|exact Hk| |exact Ht]; [|exact (Forall_lookup_1 _ _ _ _ Hu Hi)].
    intros Hin. by apply (stage_inside (Config ts s) i t).
Qed.

Lemma reaches_unanswered c : reaches a file false oom false c → unanswered c.
Proof.
  intros (c0 & Hb & Hrun). assert (in_order c0) as Hio by (by apply begins_in_order).
  assert (unanswered c0) as Hu.
  { destruct Hb as (Hst & _ & _ & _ & _ & Hk & _). split; [done|].
    eapply Forall_impl; [exact Hst|]. by intros [[] ? ? []|[]]. }
  clear Hb. induction Hrun; [done|]. eauto using unanswered_moves, in_order_step.
Qed.
End protocol.

(** ** Termination *)

(** Steps left in a call, a callback and the whole configuration, at most. *)
Definition task_weight (t : task) : nat :=
  match t with
  | Reading pc _ _ _ _ _ =>
      match pc with
      | P77 => 21 | P78 => 20 | P80 => 19 | P83 => 18 | P87 => 17 | P91 => 11 | P93 => 10
      | P94 => 9 | P96 => 8 | P98 => 7 | PRet => 0
      end
  | Writing pc _ _ =>
      match pc with
      | Q113 => 7 | Q115 => 6 | Q119 => 5 | Q122 => 4 | Q126 => 3 | Q131 => 2 | Q133 => 1
      | QRet => 0
      end
  end%nat.
Definition reply_weight (k : reply_line * cn_msg) : nat :=
  match k.1 with K51 => 4 | K58 => 3 | K60 => 2 | K52 | K63 => 1 end%nat.
Definition work_left (c : config) : nat :=
  (sum_list (task_weight <$> tasks c) + 5 * length (v_pending (shared_vars c))
   + sum_list (reply_weight <$> v_callbacks (shared_vars c)))%nat.

Section termination.
Context (a : abi) (file : list Z → list Z).

Lemma moves_decrease ans oom c c' : moves a file ans oom false c c' → (work_left c' < work_left c)%nat.
Proof.
  intros [ts s i fails t t' s' Hf Hi Ht|ts s p1 r p2 _ Hr|ts s msg Hsp|
    ts s l1 pc msg l2 fails pc' s' Hf Hc Hs]; unfold work_left; cbn.
  - pose proof (sum_list_insert task_weight ts i t t' Hi) as Hsum.
    enough (task_weight t' + 5 * length (v_pending s') + sum_list (reply_weight <$> v_callbacks s')
      < task_weight t + 5 * length (v_pending s) + sum_list (reply_weight <$> v_callbacks s))%nat
      by lia.
    destruct t as [[] p count asked seq out|[] p seq]; line_cases Ht; cbn;
      rewrite ?length_app; cbn; lia.
  - rewrite Hr, !length_app, fmap_app, sum_list_with_app. cbn. lia.
  - done.
  - destruct (reply_step_keeps _ _ _ _ _ _ _ Hs) as (_ & _ & -> & _).
    rewrite Hc, !fmap_app, !sum_list_with_app. cbn.
    enough (sum_list (reply_weight <$> match pc' with Some q => [(q, msg)] | None => [] end)
      < reply_weight (pc, msg))%nat by lia.
    destruct pc; line_cases Hs; cbn; lia.
Qed.

Lemma moves_bounded ans oom n c c' : nsteps (moves a file ans oom false) n c c' → (n ≤ work_left c)%nat.
Proof.
  revert c; induction n as [|n IH]; intros c Hn; [lia|].
  inversion Hn as [|? ? c1 ? Hs Hrest]; subst. apply moves_decrease in Hs.
  specialize (IH _ Hrest). lia.
Qed.

Lemma all_calls_end (Ha : x86 a) (Hsmall : ∀ p, Z.of_nat (length (file p)) < 2 ^ 31) n c :
  (work_left c < n)%nat → in_order file false c → Forall (served file) (tasks c) →
  ∃ c', rtc (moves a file true false false) c c' ∧ Forall done_ (tasks c') ∧ in_order file false c'.
Proof.
  revert c; induction n as [|n IH]; intros c Hn Hc Hsv; [lia|].
  destruct (in_order_progress a Ha file false Hsmall true c Hc) as [Hall|[[c1 Hs]|(i & t & Hi & Hd)]].
  - by exists c.
  - pose proof (moves_decrease _ _ _ _ Hs).
    destruct (IH c1) as (c' & Hrun & Hc'); [lia|by eapply in_order_step|by eapply moves_served|].
    exists c'. split; [by eapply rtc_l|done].
  - by destruct (not_doomed file false c i t eq_refl Hc Hi (Forall_lookup_1 _ _ _ _ Hsv Hi)).
Qed.
End termination.

(** ** Executing a schedule *)
Inductive choice : Type :=
  | Run (i : nat) (fails : bool)
  | Answer (k : nat)
  | Stray (msg : cn_msg)
  | Deliver (k : nat) (fails : bool).

Section schedules.
Context (a : abi) (file : list Z → list Z) (answering oom spurious : bool).

Definition at_copy (t : task) : bool := match t with Writing Q122 _ _ => true | _ => false end.

Definition choose (p : choice) (c : config) : option config :=
  let '(Config ts s) := c in
  match p with
  | Run i fails =>
      t ← ts !! i;
      if negb fails || oom || at_copy t then
        r ← task_step fails t s; Some (Config (<[i := r.1]> ts) r.2)
      else None
  | Answer k =>
      if answering then
        r ← v_pending s !! k;
        Some (Config ts (put_callbacks (v_callbacks s ++ [(K51, file_reply file r)])
          (put_pending (take k (v_pending s) ++ drop (S k) (v_pending s)) s)))
      else None
  | Stray msg =>
      if spurious then Some (Config ts (put_callbacks (v_callbacks s ++ [(K51, msg)]) s)) else None
  | Deliver k fails =>
      q ← v_callbacks s !! k;
      if negb fails || oom then
        r ← reply_step a fails q.1 q.2 s;
        Some (Config ts (put_callbacks (take k (v_callbacks s)
          ++ match r.1 with Some pc => [(pc, q.2)] | None => [] end
          ++ drop (S k) (v_callbacks s)) r.2))
      else None
  end.

Fixpoint play (ps : list choice) (c : config) : option config :=
  match ps with
  | [] => Some c
  | p :: ps' => c' ← choose p c; play ps' c'
  end.

Lemma choose_moves p c c' : choose p c = Some c' → moves a file answering oom spurious c c'.
Proof.
  destruct c as [ts s], p as [i fails|k|msg|k fails]; cbn.
  - intros He. destruct (ts !! i) as [t|] eqn:Hi; [|done]. cbn in He.
    destruct (negb fails || oom || at_copy t) eqn:Hf; [|done].
    destruct (task_step fails t s) as [[t' s']|] eqn:Ht; [|done]. injection He as <-.
    eapply move_task; [|done|done]. intros ->. destruct oom; [by left|right].
    destruct t as [|[] pkt seq]; try done. eauto.
  - destruct answering eqn:Hans; [|done]. intros He. simplify_option_eq.
    eapply move_reply; [done|]. symmetry. by apply take_drop_middle.
  - destruct spurious eqn:Hsp; [|done]. intros [= <-]. by apply move_spurious.
  - intros He. destruct (v_callbacks s !! k) as [[pc msg]|] eqn:Hk; [|done]. cbn in He.
    destruct (negb fails || oom) eqn:Hf; [|done].
    destruct (reply_step a fails pc msg s) as [[pc' s']|] eqn:Hs; [|done]. injection He as <-.
    eapply move_callback; [|symmetry; by apply take_drop_middle|exact Hs].
    intros ->. by destruct oom.
Qed.

Lemma play_moves ps c c' : play ps c = Some c' → rtc (moves a file answering oom spurious) c c'.
Proof.
  revert c; induction ps as [|p ps IH]; intros c Hr; cbn in Hr; [by injection Hr as ->|].
  destruct (choose p c) as [c1|] eqn:He; [|done]. eapply rtc_l; [by eapply choose_moves|]. by apply IH.
Qed.

Lemma play_reaches ps c c' : begins a c → play ps c = Some c' → reaches a file answering oom spurious c'.
Proof. intros Hc Hr. exists c. split; [done|]. by apply play_moves with ps. Qed.
End schedules.

(** ** Properties *)
Section properties.
Context (a : abi) (file : list Z → list Z).

(** C20: The section of plan A is exclusive, whatever happens.  Allocations may fail, any
    message may arrive and callbacks may overlap: at most one thread is between
    [down(&cn_sem)] and [up(&cn_sem)], the semaphore is taken exactly when one is, and no
    two messages carry the same sequence number before the counter has gone round. *)
Theorem plan_a_exclusive (answering oom spurious : bool) (c : config) :
  reaches a file answering oom spurious c →
  exclusive inside (tasks c) (v_cn (shared_vars c)) ∧
  (Z.of_nat (length (tasks c)) < 2 ^ 32 → NoDup (fst <$> v_sent (shared_vars c))).
Proof.
  intros Hc. destruct (reaches_numbered a file answering oom spurious c Hc) as (z & Hz).
  split; [|by eapply numbered_distinct].
  destruct Hz as (h & Ho & _). by eapply held_exclusive.
Qed.

(** C21: Which calls of plan A return.  When allocations succeed and no stray message
    arrives, in every interleaving a finished read has copied the bytes its own packet
    asked for, and no run is longer than the initial weight.  If the helper answers and its
    files are long enough, all calls can return from every reachable configuration; if it
    does not answer, as in the repository, no read ever returns. *)
Theorem plan_a_calls_return (answering : bool) (c : config) :
  x86 a → (∀ p, Z.of_nat (length (file p)) < 2 ^ 31) →
  reaches a file answering false false c →
  Forall (delivered file) (tasks c) ∧
  (∀ n c', nsteps (moves a file answering false false) n c c' → (n ≤ work_left c)%nat) ∧
  if answering then
    Forall (served file) (tasks c) →
    ∃ c', rtc (moves a file true false false) c c' ∧ Forall done_ (tasks c') ∧
      Forall (delivered file) (tasks c')
  else Forall (λ t, is_reading t → ¬ done_ t) (tasks c).
Proof.
  intros Ha Hsmall Hc. pose proof (reaches_in_order a Ha file false Hsmall answering c Hc) as Hio.
  split; [by destruct Hio as (_ & _ & _ & Hd)|]. split; [intros n c'; apply moves_bounded|].
  destruct answering.
  - intros Hsv. destruct (all_calls_end a file Ha Hsmall (S (work_left c)) c)
      as (c' & Hrun & Hall & Hio'); [lia|done|done|].
    exists c'. split; [done|]. split; [done|]. by destruct Hio' as (_ & _ & _ & Hd).
  - destruct (reaches_unanswered a Ha file false Hsmall c Hc) as [_ Hu].
    eapply Forall_impl; [exact Hu|]. intros t Ht Hr Hdone. by destruct t as [[]|[]].
Qed.

(** C22: What makes plan A hang.  Allocations may fail, and the helper may answer or not; no
    stray message arrives.  A configuration with calls still to return is stuck exactly
    when a read is doomed: it waits for an answer to a request it could not allocate, or
    to one the helper does not answer; or it is about to copy bytes from the NULL that a
    failed allocation in the callback has left, or more bytes than the reply had.  That
    read holds [cn_sem], so that one of them stops every other reader and writer for good. *)
Theorem plan_a_hangs_iff_doomed (answering oom : bool) (c : config) :
  x86 a → (∀ p, Z.of_nat (length (file p)) < 2 ^ 31) →
  reaches a file answering oom false c → ¬ Forall done_ (tasks c) →
  (∀ c', ¬ moves a file answering oom false c c') ↔
  ∃ i t, tasks c !! i = Some t ∧ doomed answering (shared_vars c) t.
Proof.
  intros Ha Hsmall Hc Hn. pose proof (reaches_in_order a Ha file oom Hsmall answering c Hc) as Hio.
  split.
  - intros Hstuck.
    by destruct (in_order_progress a Ha file oom Hsmall answering c Hio) as [Hall|[[c' Hs]|Hd]];
      [|destruct (Hstuck c' Hs)|].
  - intros (i & t & Hi & Hd). by apply (doomed_stuck a file oom answering c i t).
Qed.
End properties.

(** ** Witnesses *)

#[local] Instance served_dec file t : Decision (served file t).
Proof. destruct t; simpl; apply _. Defined.

(** Two reads and a write; a file of sixteen bytes behind every packet. *)
Definition demo_bytes (p : list Z) : list Z := replicate 16 (Z.of_nat (length p)).
Definition demo_read : list Z := PlanA.packet LP64 PlanA.SJFS_OPCODE_READ 4 0 8.
Definition demo_write : list Z := PlanA.packet LP64 PlanA.SJFS_OPCODE_WRITE 4 0 3 ++ [0; 0; 0].
Definition demo_config : config :=
  Config [Reading P77 demo_read 8 false 0 []; Writing Q113 demo_write 0;
          Reading P77 demo_read 8 false 0 []]
    (Vars 1 1 (2 ^ 32 - 1) None [] [] []).

Lemma demo_begins : begins LP64 demo_config.
Proof.
  split; [|by repeat split]. repeat constructor; cbn.
  - exists 4, 0. split; [reflexivity|lia].
  - exists 4, 0, 3. reflexivity.
  - exists 4, 0. split; [reflexivity|lia].
Qed.

(** The first read runs to its return, then the write sends, as the counter goes round. *)
Definition demo_choices : list choice :=
  replicate 6 (Run 0 false) ++ [Answer 0] ++ replicate 4 (Deliver 0 false) ++
  replicate 4 (Run 0 false) ++ replicate 7 (Run 1 false).
Definition demo_reached : config :=
  default demo_config (play LP64 demo_bytes true false false demo_choices demo_config).

Lemma demo_reaches oom sp : reaches LP64 demo_bytes true oom sp demo_reached.
Proof.
  apply (play_reaches LP64 demo_bytes true oom sp demo_choices demo_config demo_reached demo_begins).
  destruct oom, sp; vm_compute; reflexivity.
Qed.

(** Two messages with different numbers, and the read has its bytes. *)
Example demo_outcome :
  fst <$> v_sent (shared_vars demo_reached) = [2 ^ 32 - 1; 0] ∧
  tasks demo_reached !! 0%nat
    = Some (Reading PRet demo_read 8 true (2 ^ 32 - 1) (replicate 8 32)).
Proof. by vm_compute. Qed.

Lemma plan_a_exclusive_witness :
  exclusive inside (tasks demo_reached) (v_cn (shared_vars demo_reached)) ∧
  (3 < 2 ^ 32 → NoDup (fst <$> v_sent (shared_vars demo_reached))).
Proof.
  exact (plan_a_exclusive LP64 demo_bytes true true true demo_reached (demo_reaches true true)).
Defined.

(** The three ways to hang: the first read cannot allocate its request; its reply cannot be
    stored; nobody answers it. *)
Definition hang (answering : bool) (ps : list choice) : config :=
  default demo_config (play LP64 demo_bytes answering true false ps demo_config).
Definition no_request : config := hang true [Run 0 false; Run 0 false; Run 0 true; Run 0 false].
Definition no_buffer : config :=
  hang true (replicate 6 (Run 0 false) ++ [Answer 0; Deliver 0 false; Deliver 0 true; Deliver 0 false]
    ++ replicate 2 (Run 0 false)).
Definition no_answer : config := hang false (replicate 6 (Run 0 false)).

(** What the schedules reach: the first read, doomed. *)
Definition hung (answering : bool) (c : config) : Prop :=
  reaches LP64 demo_bytes answering true false c ∧ ¬ Forall done_ (tasks c) ∧
  ∃ i t, tasks c !! i = Some t ∧ doomed answering (shared_vars c) t.

Lemma hang_hung answering ps c t :
  play LP64 demo_bytes answering true false ps demo_config = Some c →
  head (tasks c) = Some t → ¬ done_ t → doomed answering (shared_vars c) t → hung answering c.
Proof.
  intros Hplay Ht Hdone Hdoom.
  split; [by apply (play_reaches LP64 demo_bytes answering true false ps demo_config c demo_begins)|].
  destruct (tasks c) as [|u ts] eqn:Hts; [done|]. injection Ht as ->.
  split; [by intros [Hall _]%Forall_cons_1|]. by exists 0%nat, t.
Qed.

Lemma no_request_hung : hung true no_request.
Proof.
  apply (hang_hung true [Run 0 false; Run 0 false; Run 0 true; Run 0 false] no_request
    (Reading P93 demo_read 8 false 0 [])); [vm_compute; reflexivity..|by intros []|by left].
Qed.
Lemma no_buffer_hung : hung true no_buffer.
Proof.
  eapply (hang_hung true (replicate 6 (Run 0 false) ++ [Answer 0; Deliver 0 false; Deliver 0 true;
      Deliver 0 false] ++ replicate 2 (Run 0 false)) no_buffer);
    [vm_compute; reflexivity..|by intros []|vm_compute; split; [discriminate|exact I]].
Qed.
Lemma no_answer_hung : hung false no_answer.
Proof.
  eapply (hang_hung false (replicate 6 (Run 0 false)) no_answer);
    [vm_compute; reflexivity..|by intros []|vm_compute; right; split; [reflexivity|discriminate]].
Qed.

Lemma plan_a_calls_return_witness :
  (∃ c', rtc (moves LP64 demo_bytes true false false) demo_reached c' ∧ Forall done_ (tasks c') ∧
     Forall (delivered demo_bytes) (tasks c')) ∧
  Forall (λ t, is_reading t → ¬ done_ t) (tasks no_answer).
Proof.
  assert (reaches LP64 demo_bytes false false false no_answer) as Hno.
  { apply (play_reaches LP64 demo_bytes false false false (replicate 6 (Run 0 false)) demo_config
      no_answer demo_begins). vm_compute. reflexivity. }
  pose proof (plan_a_calls_return LP64 demo_bytes true demo_reached (or_introl eq_refl)
    ltac:(by intros; vm_compute) (demo_reaches false false)) as (_ & _ & Hall).
  pose proof (plan_a_calls_return LP64 demo_bytes false no_answer (or_introl eq_refl)
    ltac:(by intros; vm_compute) Hno) as (_ & _ & Hnone).
  split; [|exact Hnone]. apply Hall. apply (bool_decide_unpack _). vm_compute. exact I.
Defined.

Lemma plan_a_hangs_iff_doomed_witness :
  (∀ c', ¬ moves LP64 demo_bytes true true false no_request c') ∧
  (∀ c', ¬ moves LP64 demo_bytes true true false no_buffer c') ∧
  (∀ c', ¬ moves LP64 demo_bytes false true false no_answer c').
Proof.
  assert (∀ p, Z.of_nat (length (demo_bytes p)) < 2 ^ 31) as Hsmall by (intros p; by vm_compute).
  destruct no_request_hung as (H1 & D1 & X1), no_buffer_hung as (H2 & D2 & X2),
    no_answer_hung as (H3 & D3 & X3).
  split; [|split].
  - by apply (plan_a_hangs_iff_doomed LP64 demo_bytes true true no_request (or_introl eq_refl)).
  - by apply (plan_a_hangs_iff_doomed LP64 demo_bytes true true no_buffer (or_introl eq_refl)).
  - by apply (plan_a_hangs_iff_doomed LP64 demo_bytes false true no_answer (or_introl eq_refl)).
Defined.
