(* ===== verification/PlanARuns.v ===== *)
(** * Plan A: one thread alone is a run of the interleaving model

    [PlanA] models [sjfs_fops_read] on kernel memory, [PlanAThreads] its lines on the
    shared variables.  A read that is answered is a run of the second from the variables
    it starts with to those it leaves, with the same bytes for the user. *)
From S2P Require Import Prelude CLayout Blocks Memory Kernel Env Vfs RamInodes PlanA Lock PlanAThreads.

Section plan_a_runs.
Context `{!Semaphore, !SemaphoreLaws} {W : Type}
  `{!Allocator W, !Connector W, !Vfs W, !UserCopy W, !UserCopyLaws W} (a : abi).
Abbreviation st := (kstate PlanA.globals W).
Implicit Types (s : st).

(** The block [sjfs_read_buffer] points to. *)
Definition buffer_of (s : st) : option (list Z) :=
  match PlanA.sjfs_read_buffer (k_glob s) with
  | Ptr b 0 => h_map (k_heap s) !! b
  | _ => None
  end.

(** The shared variables when nothing is on its way; [l] is what has been sent before. *)
Definition vars_of (s : st) (l : list (Z * list Z)) : vars :=
  Vars (sem_count (PlanA.cn_sem (k_glob s))) (sem_count (PlanA.cb_sem (k_glob s)))
    (PlanA.cn_sjfs_counter (k_glob s)) (buffer_of s) [] [] l.

(** The run of a reader that is alone: up to the copy of the reply, that copy, up to the
    copy to the user, that copy, and the return. *)
Lemma lone_read_run (body p : list Z) (count n q : Z) (buf : option (list Z)) (asked : bool)
    (out : list Z) (l : list (Z * list Z)) :
  x86 a → Z.of_nat (length body) < 2 ^ 31 → 0 <= count <= Z.of_nat (length body) →
  rtc (moves a (λ _, body) true false false)
    (Config [Reading P77 p count asked q out] (Vars 1 1 n buf [] [] l))
    (Config [Reading PRet p count true n (take (Z.to_nat count) body)]
      (Vars 1 1 (u32 (n + 1)) (Some body) [] [] (l ++ [(n, p)]))).
Proof.
  intros Ha Hlen Hc. set (file := λ _ : list Z, body). set (m := file_reply file p).
  set (l' := l ++ [(n, p)]). set (n' := u32 (n + 1)).
  set (zeros := replicate (Z.to_nat (reply_size a m)) 0).
  transitivity (Config [Reading P93 p count true n out]
    (Vars 0 0 n' (Some zeros) [] [(K60, m)] l')).
  { by apply play_moves with (replicate 6 (Run 0 false) ++ [Answer 0; Deliver 0 false; Deliver 0 false]). }
  eapply rtc_l.
  { apply (move_callback a file true false false _ _ [] K60 m [] false (Some K63)
      (Vars 0 0 n' (Some body) [] [(K60, m)] l')); [done..|].
    unfold reply_step, zeros, m. cbn [v_buffer mbind option_bind].
    rewrite (reply_reads a Ha file (λ _, Hlen) p), reply_carries, Nat2Z.id, firstn_all, length_replicate.
    rewrite decide_True by (split; [done|cbn; lia]). by rewrite splice_full by by rewrite length_replicate. }
  transitivity (Config [Reading P96 p count true n out] (Vars 0 1 n' (Some body) [] [] l')).
  { by apply play_moves with [Deliver 0 false; Run 0 false; Run 0 false]. }
  eapply rtc_l.
  { apply (move_task a file true false false _ _ 0 false (Reading P96 p count true n out)
      (Reading P98 p count true n (take (Z.to_nat count) body)) (Vars 0 1 n' (Some body) [] [] l'));
      [done|reflexivity|]. cbn.
    destruct (Z.eqb_spec count 0) as [->|]; [done|]. by rewrite (proj2 (Z.leb_le _ _)) by lia. }
  by apply play_moves with [Run 0 false].
Qed.

(** C23: The two models of plan A agree.  A read that is answered by one reply with enough
    bytes, executed on kernel memory, hands the first [count] of them to the user and
    returns [count]; the same call is a run of the interleaving model, from the shared
    variables before it to the shared variables after it - semaphores, counter and the
    buffer the pointer leads to - with those bytes as what the thread has copied. *)
Theorem plan_a_read_is_a_run (s : st) (ip : positive) (i : inode) (to count ppos q : Z)
    (msg : cn_msg) (body j1 j2 : list Z) (w1 w2 w3 : W) (l : list (Z * list Z)) :
  let n := PlanA.cn_sjfs_counter (k_glob s) in
  let p := PlanA.packet a PlanA.SJFS_OPCODE_READ (i_ino i) ppos count in
  x86 a → heap_wf (k_heap s) → k_inodes s !! ip = Some i →
  sem_count (PlanA.cn_sem (k_glob s)) = 1%nat → sem_count (PlanA.cb_sem (k_glob s)) = 1%nat →
  k_malloc (sizeof_cn_msg + PlanA.sizeof_packet a) (k_world s) = (Some j1, w1) →
  cn_deliver (cn_netlink_send (PlanA.message n p) w1).2 = ([msg], w2) →
  msg_data msg = PlanA.reply_data body → Z.of_nat (length body) < 2 ^ 31 →
  0 <= count <= Z.of_nat (length body) →
  k_malloc (Z.of_nat (length body)) w2 = (Some j2, w3) →
  ∃ s', PlanA.sjfs_fops_read a ip to count ppos s = Ok count s' ∧
    k_world s' = (copy_to_user to (take (Z.to_nat count) body) w3).2 ∧
    rtc (moves a (λ _, body) true false false)
      (Config [Reading P77 p count false q []] (vars_of s l))
      (Config [Reading PRet p count true n (take (Z.to_nat count) body)]
        (vars_of s' (l ++ [(n, p)]))).
Proof.
  intros n p Ha Hwf Hi Hcn Hcb Hm1 Hdel Hmsg Hlen Hc Hm2.
  destruct (PlanA.read_waits a s ip i to count ppos msg body j1 j2 w1 w2 w3 Ha Hwf Hi Hcn Hcb Hm1
    Hdel Hmsg Hlen Hm2) as (s6 & Hrun & Hm & Hbuf & Hw & Hcn6 & Hcb6 & Hct & _).
  set (leak := Pos.succ (h_next (k_heap s))) in *.
  assert (h_map (k_heap s6) !! leak = Some body) as Hleak by (rewrite Hm; apply lookup_insert_eq).
  rewrite (PlanA.copy_to_user_ok s6 leak body to count Hbuf Hleak Hc) in Hrun.
  eexists. split; [exact Hrun|]. split; [by cbn; rewrite Hw|].
  unfold vars_of. rewrite Hcn, Hcb. cbn. rewrite up_count, Hcn6, Hcb6, Hct.
  unfold buffer_of at 2. cbn. rewrite Hbuf, Hleak.
  by apply lone_read_run.
Qed.
End plan_a_runs.

(** ** Witnesses *)
#[local] Existing Instance PlanA.sim_user_copy.
#[local] Existing Instance PlanA.sim_user_copy_laws.

(** The read of three bytes of [PlanA], answered with five. *)
Lemma plan_a_read_is_a_run_witness :
  let s := PlanA.demo_state (sim_with_replies [[PlanA.demo_reply]]) in
  let p := PlanA.packet LP64 PlanA.SJFS_OPCODE_READ 4 0 3 in
  ∃ s', PlanA.sjfs_fops_read LP64 1 0 3 0 s = Ok 3 s' ∧ k_world s' = sim0 ∧
    rtc (moves LP64 (λ _, [1; 2; 3; 4; 5]) true false false)
      (Config [Reading P77 p 3 false 0 []] (vars_of s []))
      (Config [Reading PRet p 3 true 9 [1; 2; 3]] (vars_of s' [(9, p)])).
Proof.
  intros s p.
  refine (plan_a_read_is_a_run LP64 s 1 PlanA.demo_file 0 3 0 0 PlanA.demo_reply [1; 2; 3; 4; 5]
    [] [] (sim_with_replies [[PlanA.demo_reply]]) sim0 sim0 [] _ heap_wf_empty eq_refl eq_refl
    eq_refl eq_refl eq_refl eq_refl _ _ eq_refl); [by left|by vm_compute|by vm_compute].
Defined.
