(* ===== verification/Ramfs.v ===== *)
(** * The ramfs test module ([ramfs_test/sjfs_ram.c])

    A memory file system whose every operation logs its arguments and passes them on
    to the generic function of the kernel.  Every handler is here with its log lines
    (line ends, and the quotes around a name, are left out of the formats).  The
    theorem shows that the logging of the operations with logic of their own is
    transparent: making a file or a node refines the shared [RamInodes] definition. *)
From S2P Require Import Prelude CLayout Blocks Memory Kernel Env Vfs RamInodes.

(** What the log lines read of a [struct file], an [iov_iter] and an
    [address_space]; pointers that are tested for NULL are options. *)
Record file : Type := File { f_obj : positive; f_dentry : option positive }.
Record iov_iter : Type := IovIter { it_obj : positive; it_type : Z; iov_offset : Z; it_count : Z }.

Module Ramfs.

Definition ramfs_tables : tables :=
  Tables "ramfs2_aops" "sjfs_file_inode_operations" "sjfs_file_operations"
    "sjfs_dir_inode_operations" "sjfs_dir_operations".

(** The operation tables. *)
Definition sjfs_file_operations : list (string * string) :=
  [ ("read_iter", "sjfs_fops_read_iter"); ("write_iter", "sjfs_fops_write_iter");
    ("mmap", "sjfs_fops_mmap"); ("fsync", "sjfs_fops_fsync");
    ("splice_read", "sjfs_fops_splice_read"); ("splice_write", "sjfs_fops_splice_write");
    ("llseek", "sjfs_fops_llseek"); ("read", "sjfs_read"); ("write", "sjfs_write") ].
Definition sjfs_dir_operations : list (string * string) :=
  [ ("open", "sjfs_dir_fops_open"); ("release", "sjfs_dir_fops_release");
    ("llseek", "sjfs_dir_fops_llseek"); ("read", "sjfs_dir_fops_read");
    ("iterate", "sjfs_dir_fops_iterate"); ("fsync", "sjfs_dir_fops_fsync") ].
Definition sjfs_file_inode_operations : list (string * string) :=
  [ ("setattr", "sjfs_file_iops_setattr"); ("getattr", "sjfs_file_iops_getattr") ].
Definition ramfs2_aops : list (string * string) :=
  [ ("readpage", "sjfs_aops_readpage"); ("write_begin", "sjfs_aops_write_begin");
    ("write_end", "sjfs_aops_write_end") ].
Definition sjfs_dir_inode_operations : list (string * string) :=
  [ ("create", "sjfs_dir_iops_create"); ("lookup", "sjfs_dir_iops_lookup");
    ("link", "sjfs_dir_iops_link"); ("unlink", "sjfs_dir_iops_unlink");
    ("symlink", "sjfs_dir_iops_symlink"); ("mkdir", "sjfs_dir_iops_mkdir");
    ("rmdir", "sjfs_dir_iops_rmdir"); ("mknod", "sjfs_dir_iops_mknod");
    ("rename", "sjfs_dir_iops_rename") ].
Definition sjfs_sops : list (string * string) :=
  [ ("drop_inode", "generic_delete_inode"); ("statfs", "simple_statfs");
    ("show_options", "generic_show_options") ].
Definition sjfs_fs_type : list (string * string) :=
  [ ("name", "sjfs_ram"); ("fs_flags", "0"); ("mount", "sjfs_mount");
    ("kill_sb", "sjfs_kill_sb"); ("owner", "THIS_MODULE"); ("next", "NULL") ].

Section ramfs.
Context {W : Type} `{!Clock W, !Vfs W, !MountSingle Z W}
  (MAX_LFS_FILESIZE PAGE_CACHE_SIZE PAGE_CACHE_SHIFT : Z).
(** The only static variable is the word [once] of [sjfs_init]. *)
Abbreviation st := (kstate Z W).

(** ** The log lines *)
Definition log_dir (dir : option positive) : M st unit :=
  match dir with
  | Some d => i ← get_inode d; printk "--- dir.ino:%lu" [PInt (i_ino i)]
  | None => printk "--- dir.ino:NULL" []
  end.

Definition name_of (dentry : option positive) (w : W) : option string :=
  match dentry with Some d => d_name d w | None => None end.

Definition log_dentry (dentry : option positive) : M st unit :=
  name ← gets (λ s, name_of dentry (k_world s));
  match name with
  | Some n => printk "--- dentry.name: %s" [PStr n]
  | None => printk "--- dentry.name: NULL" []
  end.

Definition log_file (f : option file) : M st unit :=
  name ← gets (λ s, match f with Some x => name_of (f_dentry x) (k_world s) | None => None end);
  match name with
  | Some n => printk "--- file.path: %s);" [PStr n]
  | None => printk "--- file.path: NULL);" []
  end.

Definition log_iter (name : string) (it : option iov_iter) : M st unit :=
  match it with
  | Some x =>
      printk ("--- " +:+ name +:+ ".type: %i") [PInt (it_type x)] ;;
      printk ("--- " +:+ name +:+ ".iov_offset: %i") [PInt (iov_offset x)] ;;
      printk ("--- " +:+ name +:+ ".count: %i") [PInt (it_count x)]
  | None => printk ("--- " +:+ name +:+ ": NULL") []
  end.

(** [mapping && mapping->host]: the host of the mapping, if any. *)
Definition log_mapping (host : option positive) : M st unit :=
  match host with
  | Some h => i ← get_inode h; printk "--- mapping.host: %lu" [PInt (i_ino i)]
  | None => printk "--- mapping.host: NULL" []
  end.

Definition file_arg (f : option file) : karg :=
  match f with Some x => KObj "file" (f_obj x) | None => KNull end.
Definition iter_arg (it : option iov_iter) : karg :=
  match it with Some x => KObj "iov_iter" (it_obj x) | None => KNull end.

(** ** File operations *)
Definition sjfs_read (f : option file) (count : Z) : M st Z :=
  printk "%s" [PStr "sjfs_read"] ;;
  mret (- EFAULT).
Definition sjfs_write (f : option file) (count : Z) : M st Z :=
  printk "%s" [PStr "sjfs_write"] ;;
  mret (- EFAULT).

(** [iocb] with its file [ki_filp]. *)
Definition sjfs_fops_read_iter (iocb : positive) (ki_filp : option file) (iter : option iov_iter)
    : M st Z :=
  printk "sjfs_fops_read_iter -> generic_file_read_iter(" [] ;;
  log_file ki_filp ;;
  log_iter "iter" iter ;;
  printk ");" [] ;;
  kcall "generic_file_read_iter" [KObj "kiocb" iocb; iter_arg iter].
Definition sjfs_fops_write_iter (iocb : positive) (ki_filp : option file) (from : option iov_iter)
    : M st Z :=
  printk "sjfs_fops_write_iter -> generic_file_write_iter(" [] ;;
  log_file ki_filp ;;
  log_iter "from" from ;;
  printk ");" [] ;;
  kcall "generic_file_write_iter" [KObj "kiocb" iocb; iter_arg from].
Definition sjfs_fops_mmap (f : option file) (v : positive) : M st Z :=
  printk "sjfs_fops_mmap -> generic_file_mmap" [] ;;
  kcall "generic_file_mmap" [file_arg f; KObj "vm_area_struct" v].
Definition sjfs_fops_fsync (f : option file) (l l2 datasync : Z) : M st Z :=
  printk "sjfs_fops_fsync -> noop_fsync" [] ;;
  kcall "noop_fsync" [file_arg f; KInt l; KInt l2; KInt datasync].
Definition sjfs_fops_splice_read (f : option file) (l p : positive) (s ui : Z) : M st Z :=
  printk "sjfs_fops_splice_read -> generic_file_splice_read" [] ;;
  kcall "generic_file_splice_read"
    [file_arg f; KObj "loff_t" l; KObj "pipe_inode_info" p; KInt s; KInt ui].
Definition sjfs_fops_splice_write (p : positive) (f : option file) (l : positive) (s ui : Z) : M st Z :=
  printk "sjfs_fops_splice_write -> iter_file_splice_write" [] ;;
  kcall "iter_file_splice_write"
    [KObj "pipe_inode_info" p; file_arg f; KObj "loff_t" l; KInt s; KInt ui].
Definition sjfs_fops_llseek (f : option file) (l i : Z) : M st Z :=
  printk "sjfs_fops_llseek -> generic_file_llseek" [] ;;
  kcall "generic_file_llseek" [file_arg f; KInt l; KInt i].

(** ** Directory operations *)
Definition sjfs_dir_fops_open (dir : option positive) (f : option file) : M st Z :=
  printk "sjfs_dir_fops_open -> dcache_dir_open(" [] ;;
  log_dir dir ;;
  log_file f ;;
  kcall "dcache_dir_open" [KInode dir; file_arg f].
Definition sjfs_dir_fops_release (dir : option positive) (f : option file) : M st Z :=
  printk "sjfs_dir_fops_release -> dcache_dir_close(" [] ;;
  log_dir dir ;;
  log_file f ;;
  kcall "dcache_dir_close" [KInode dir; file_arg f].
Definition sjfs_dir_fops_llseek (f : option file) (l i : Z) : M st Z :=
  printk "sjfs_dir_fops_llseek -> dcache_dir_lseek" [] ;;
  kcall "dcache_dir_lseek" [file_arg f; KInt l; KInt i].
Definition sjfs_dir_fops_read (f : option file) (u s : Z) (l : positive) : M st Z :=
  printk "sjfs_dir_fops_read -> generic_read_dir" [] ;;
  kcall "generic_read_dir" [file_arg f; KInt u; KInt s; KObj "loff_t" l].
Definition sjfs_dir_fops_iterate (f : option file) (d : positive) : M st Z :=
  printk "sjfs_dir_fops_iterate -> dcache_readdir" [] ;;
  kcall "dcache_readdir" [file_arg f; KObj "dir_context" d].
Definition sjfs_dir_fops_fsync (f : option file) (l l2 datasync : Z) : M st Z :=
  printk "sjfs_dir_fops_fsync -> noop_fsync" [] ;;
  kcall "noop_fsync" [file_arg f; KInt l; KInt l2; KInt datasync].

(** ** Inode operations of files *)
Definition sjfs_file_iops_setattr (dentry : option positive) (iattr : positive) : M st Z :=
  printk "sjfs_file_iops_setattr -> simple_setattr (for testing only)" [] ;;
  kcall "simple_setattr" [KDentry dentry; KObj "iattr" iattr].
Definition sjfs_file_iops_getattr (mnt : positive) (dentry : option positive) (stat : positive) : M st Z :=
  printk "sjfs_file_iops_getattr -> simple_getattr" [] ;;
  kcall "simple_getattr" [KObj "vfsmount" mnt; KDentry dentry; KObj "kstat" stat].

(** ** Address space operations *)
Definition sjfs_aops_readpage (f : option file) (p : positive) : M st Z :=
  printk "sjfs_aops_readpage -> simple_readpage" [] ;;
  kcall "simple_readpage" [file_arg f; KObj "page" p].
Definition sjfs_aops_write_begin (f : option file) (mapping : positive) (host : option positive)
    (pos len flags : Z) (pagep fsdata : positive) : M st Z :=
  printk "sjfs_aops_write_begin -> simple_write_begin(" [] ;;
  log_file f ;;
  log_mapping host ;;
  printk "--- pos: %lli" [PInt pos] ;;
  printk "--- len: %u" [PInt len] ;;
  printk "--- flags: %u" [PInt flags] ;;
  printk "--- pagep: ???)" [] ;;
  kcall "simple_write_begin" [file_arg f; KObj "address_space" mapping; KInt pos; KInt len;
    KInt flags; KObj "page" pagep; KObj "fsdata" fsdata].
Definition sjfs_aops_write_end (f : option file) (mapping : positive) (host : option positive)
    (pos len copied : Z) (page fsdata : positive) : M st Z :=
  printk "sjfs_aops_write_end -> simple_write_endi(" [] ;;
  log_file f ;;
  log_mapping host ;;
  printk "--- pos: %lli" [PInt pos] ;;
  printk "--- len: %u" [PInt len] ;;
  printk "--- copied: %u" [PInt copied] ;;
  printk "--- page: ???)" [] ;;
  kcall "simple_write_end" [file_arg f; KObj "address_space" mapping; KInt pos; KInt len;
    KInt copied; KObj "page" page; KObj "fsdata" fsdata].

(** ** Making inodes and names *)
Definition ramfs2_get_inode (sb : positive) (dir : option positive) (mode dev : Z)
    : M st (option positive) :=
  match dir with
  | Some d =>
      i ← get_inode d;
      printk "ramfs2_get_inode(sb. dir.ino:%lu, m:%#0hx, dev)" [PInt (i_ino i); PInt mode]
  | None => printk "ramfs2_get_inode(sb. dir.ino:NULL, m:%#0hx, dev)" [PInt mode]
  end ;;
  inode ← alloc_inode sb;
  match inode with
  | None => mret None
  | Some ip =>
      ino ← world get_next_ino;
      upd_inode ip (with_ino ino) ;;
      i ← get_inode ip;
      printk "--- ret: %lu" [PInt (i_ino i)] ;;
      d ← opt_inode dir;
      init_inode ramfs_tables ip d mode ;;
      set_type ramfs_tables ip mode dev ;;
      mret (Some ip)
  end.

Definition ramfs2_mknod (dir dentry : option positive) (mode dev : Z) : M st Z :=
  printk "ramfs2_mknod(" [] ;;
  log_dir dir ;;
  log_dentry dentry ;;
  printk "--- mode: %#010hx" [PInt mode] ;;
  printk "--- dev: ???" [] ;;
  dp ← deref dir;
  d ← get_inode dp;
  inode ← ramfs2_get_inode (i_sb d) dir mode dev;
  match inode with
  | None => mret (- ENOSPC)
  | Some ip =>
      dn ← deref dentry;
      bind_name dp dn ip ;;
      mret 0
  end.

Definition ramfs2_create (dir dentry : option positive) (mode : Z) (excl : bool) : M st Z :=
  printk "ramfs2_create -> ramfs2_mknod(" [] ;;
  log_dir dir ;;
  log_dentry dentry ;;
  printk "--- mode: %#010hx" [PInt mode] ;;
  printk "--- excl: %#04hhx);" [PInt (if excl then 1 else 0)] ;;
  ramfs2_mknod dir dentry (u16 (Z.lor mode S_IFREG)) 0.

Definition ramfs2_mkdir (dir dentry : option positive) (mode : Z) : M st Z :=
  printk "ramfs2_mkdir (will force error)" [] ;;
  mret (- ENOSPC).
Definition ramfs2_symlink (dir dentry : option positive) (symname : string) : M st Z :=
  printk "ramfs2_symlink (will force error)" [] ;;
  mret (- ENOSPC).

(** ** Inode operations of directories *)
Definition sjfs_dir_iops_create (dir dentry : option positive) (mode : Z) (b : bool) : M st Z :=
  printk "sjfs_dir_iops_create -> ramfs2_create(" [] ;;
  log_dir dir ;;
  log_dentry dentry ;;
  printk "--- mode: %#010hx" [PInt mode] ;;
  printk "--- b?: %#04hhx);" [PInt (if b then 1 else 0)] ;;
  ramfs2_create dir dentry mode b.
Definition sjfs_dir_iops_lookup (dir dentry : option positive) (flags : Z) : M st Z :=
  printk "sjfs_dir_iops_lookup -> simple_lookup(" [] ;;
  log_dir dir ;;
  log_dentry dentry ;;
  printk "--- flags: %#010hx);" [PInt flags] ;;
  kcall "simple_lookup" [KInode dir; KDentry dentry; KInt flags].
Definition sjfs_dir_iops_link (d i d2 : option positive) : M st Z :=
  printk "sjfs_dir_iops_link -> simple_link" [] ;;
  kcall "simple_link" [KDentry d; KInode i; KDentry d2].
Definition sjfs_dir_iops_unlink (dir dentry : option positive) : M st Z :=
  printk "sjfs_dir_iops_unlink -> simple_unlink" [] ;;
  log_dir dir ;;
  log_dentry dentry ;;
  kcall "simple_unlink" [KInode dir; KDentry dentry].
Definition sjfs_dir_iops_symlink (i d : option positive) (c : string) : M st Z :=
  printk "sjfs_dir_iops_symlink -> ramfs2_symlink" [] ;;
  ramfs2_symlink i d c.
Definition sjfs_dir_iops_mkdir (i d : option positive) (u : Z) : M st Z :=
  printk "sjfs_dir_iops_mkdir -> ramfs2_mkdir" [] ;;
  ramfs2_mkdir i d u.
Definition sjfs_dir_iops_rmdir (i d : option positive) : M st Z :=
  printk "sjfs_dir_iops_rmdir -> simple_rmdir" [] ;;
  kcall "simple_rmdir" [KInode i; KDentry d].
Definition sjfs_dir_iops_mknod (dir dentry : option positive) (mode dev : Z) : M st Z :=
  printk "sjfs_dir_iops_mknod -> ramfs2_mknod(" [] ;;
  log_dir dir ;;
  log_dentry dentry ;;
  printk "--- mode: %#010hx" [PInt mode] ;;
  printk "--- dev: ???);" [] ;;
  ramfs2_mknod dir dentry mode dev.
Definition sjfs_dir_iops_rename (i d i2 d2 : option positive) : M st Z :=
  printk "sjfs_dir_iops_rename -> simple_rename" [] ;;
  kcall "simple_rename" [KInode i; KDentry d; KInode i2; KDentry d2].

(** ** Super block, file-system type and module levels *)
Definition sjfs_fill_super (sb : positive) (data : karg) (silent : Z) : M st Z :=
  printk "sjfs_fill_super" [] ;;
  upd_super sb (λ x, with_magic SJFS_MAGIC
    (with_static PAGE_CACHE_SHIFT PAGE_CACHE_SIZE MAX_LFS_FILESIZE 1 (Table "sjfs_sops") x)) ;;
  _ ← kcall "save_mount_options" [KObj "super_block" sb; data];
  inode ← ramfs2_get_inode sb None (Z.lor S_IFDIR 0x1ED) 0;
  match inode with
  | None => mret (- ENOMEM)
  | Some ip =>
      root ← world (d_make_root (Some ip));
      match root with
      | None => mret (- ENOMEM)
      | Some d => upd_super sb (with_root (Some d)) ;; mret 0
      end
  end.

Definition sjfs_mount (fs_type : string) (flags : Z) (dev_name : string) (data : karg) : M st dptr :=
  printk "sjfs_mount -> mount_single" [] ;;
  mount_single fs_type flags data sjfs_fill_super.

Definition sjfs_kill_sb (sb : positive) : M st unit :=
  printk "sjfs_kill_sb" [] ;;
  x ← get_super sb;
  kfree (s_fs_info x) ;;
  _ ← kcall "kill_litter_super" [KObj "super_block" sb];
  mret tt.

Definition sjfs_init : M st Z :=
  printk "sjfs_init" [] ;;
  busy ← test_and_set_bit0 (λ once, once) (λ once _, once);
  if busy : bool then mret (- EBUSY) else
  kcall "register_filesystem" [KStr "sjfs_ram"].

Definition sjfs_exit : M st unit :=
  printk "sjfs_exit" [] ;;
  _ ← kcall "unregister_filesystem" [KStr "sjfs_ram"];
  mret tt.
End ramfs.

(** ** Logging is transparent *)
Section transparency.
Context {W : Type} `{!Clock W, !Vfs W}.
Abbreviation st := (kstate Z W).
Implicit Types (s : st).

(** The same outcome once the log of the first is erased. *)
Definition agrees {A} (x y : outcome st A) : Prop :=
  match x, y with
  | Ok a s, Ok b u => a = b ∧ u = with_log [] s
  | Stop r, Stop r' => r = r'
  | _, _ => False
  end.

(** A piece that only logs. *)
Definition logs (m : M st unit) s : Prop := ∃ l, m s = Ok tt (with_log l s).

(** A piece that never looks at the log. *)
Definition blind {A} (m : M st A) : Prop := ∀ s, agrees (m s) (m (with_log [] s)).

Lemma agrees_bind {A B} (m m0 : M st A) (k k0 : A → M st B) s :
  agrees (m s) (m0 (with_log [] s)) →
  (∀ a s1, agrees (k a s1) (k0 a (with_log [] s1))) →
  agrees ((m ≫= k) s) ((m0 ≫= k0) (with_log [] s)).
Proof.
  unfold agrees, mbind, M_bind. intros Hm Hk.
  destruct (m s) as [x s1|r], (m0 (with_log [] s)) as [y s2|r']; try done.
  destruct Hm as [-> ->]. apply Hk.
Qed.

Lemma blind_bind {A B} (m : M st A) (k : A → M st B) :
  blind m → (∀ a, blind (k a)) → blind (m ≫= k).
Proof. intros Hm Hk s. apply agrees_bind; [apply Hm|intros a s1; apply Hk]. Qed.

Lemma agrees_logs {B} (m : M st unit) (k : M st B) y s :
  logs m s → (∀ l, agrees (k (with_log l s)) y) → agrees ((m ;; k) s) y.
Proof. intros [l Hl] Hk. by rewrite (bind_ok _ _ _ _ _ Hl). Qed.

Lemma blind_ret {A} (x : A) : blind (mret x).
Proof. by intros s. Qed.
Lemma blind_world {A} (f : W → A * W) : blind (world f).
Proof. intros s. unfold world. cbn. by destruct (f (k_world s)). Qed.
Lemma blind_world_ f : blind (world_ f).
Proof. by intros s. Qed.
Lemma blind_get_inode i : blind (get_inode i).
Proof. intros s. unfold get_inode. cbn. by destruct (k_inodes s !! i). Qed.
Lemma blind_upd_inode i f : blind (upd_inode i f).
Proof. intros s. unfold upd_inode, get_inode, mbind, M_bind. cbn. by destruct (k_inodes s !! i). Qed.
Lemma blind_deref o : blind (deref o).
Proof. intros s. by destruct o. Qed.
Lemma blind_alloc_inode sb : blind (alloc_inode sb).
Proof.
  apply blind_bind; [apply blind_world|]. intros [i|]; [|apply blind_ret].
  apply blind_bind; [by intros s|intros p; apply blind_ret].
Qed.

Create HintDb blind.
#[local] Hint Resolve blind_bind blind_ret blind_world blind_world_ blind_get_inode blind_upd_inode
  blind_deref blind_alloc_inode : blind.

Lemma blind_opt_inode dir : blind (opt_inode dir).
Proof. destruct dir; cbn; auto with blind. Qed.
Lemma blind_init_inode ip d mode : blind (init_inode ramfs_tables ip d mode).
Proof. unfold init_inode. auto 12 with blind. Qed.
Lemma blind_set_type ip mode dev : blind (set_type ramfs_tables ip mode dev).
Proof. unfold set_type. repeat case_match; auto with blind. Qed.
Lemma blind_bind_name dp dn ip : blind (bind_name dp dn ip).
Proof. unfold bind_name. auto 12 with blind. Qed.

#[local] Hint Resolve blind_opt_inode blind_init_inode blind_set_type blind_bind_name : blind.

Lemma logs_printk fmt args s : logs (printk fmt args) s.
Proof. by eexists. Qed.
Lemma logs_dentry dentry s : logs (log_dentry dentry) s.
Proof.
  unfold log_dentry, logs, gets, mbind, M_bind. destruct (name_of _ _); by eexists.
Qed.
Lemma logs_dir dir s : (∀ d, dir = Some d → is_Some (k_inodes s !! d)) → logs (log_dir dir) s.
Proof.
  destruct dir as [d|]; [|by eexists]. intros Hd. destruct (Hd d eq_refl) as [i Hi].
  eexists. unfold log_dir. by erewrite bind_ok; [|unfold get_inode; rewrite Hi; reflexivity].
Qed.
(** A directory that is gone stops the logged code and the plain code alike. *)
Lemma agrees_log_dir {B} dir (k : M st B) y s :
  (∀ d, dir = Some d → k_inodes s !! d = None → y = Stop UseAfterFree) →
  (∀ l, agrees (k (with_log l s)) y) → agrees ((log_dir dir ;; k) s) y.
Proof.
  intros Hgone Hk. destruct dir as [d|].
  - destruct (k_inodes s !! d) as [i|] eqn:Hd.
    + apply agrees_logs; [|done]. apply logs_dir. intros ? [= <-]. eauto.
    + rewrite (Hgone d eq_refl Hd). unfold log_dir, get_inode, mbind, M_bind. by rewrite Hd.
  - apply agrees_logs; [by eexists|done].
Qed.

(** Logging a member of an inode that has just been set. *)
Lemma agrees_log_member {B} ip f fmt g (k : M st B) s :
  blind k →
  agrees ((upd_inode ip f ;; i ← get_inode ip; printk fmt (g i) ;; k) s)
    ((upd_inode ip f ;; k) (with_log [] s)).
Proof.
  intros Hk. destruct (k_inodes s !! ip) as [i|] eqn:Hi.
  - rewrite (bind_ok _ _ _ _ _ (upd_inode_there ip f i s Hi)).
    rewrite (bind_ok _ _ _ _ _ (upd_inode_there ip f i (with_log [] s) Hi)).
    erewrite bind_ok; [|unfold get_inode; cbn; rewrite lookup_insert_eq; reflexivity].
    erewrite bind_ok; [|reflexivity].
    match goal with |- agrees (k ?u) _ => apply (Hk u) end.
  - unfold upd_inode, get_inode, mbind, M_bind. cbn. by rewrite Hi.
Qed.

Lemma get_inode_agrees sb dir mode dev s :
  (∀ d, dir = Some d → is_Some (k_inodes s !! d)) →
  agrees (ramfs2_get_inode sb dir mode dev s)
    (ram_get_inode ramfs_tables sb dir mode dev (with_log [] s)).
Proof.
  intros Hd. unfold ramfs2_get_inode, ram_get_inode. apply agrees_logs.
  { destruct dir as [d|]; [|by eexists]. destruct (Hd d eq_refl) as [i Hi].
    eexists. by erewrite bind_ok; [|unfold get_inode; rewrite Hi; reflexivity]. }
  intros l. change (with_log [] s) with (with_log [] (with_log l s)).
  apply agrees_bind; [apply blind_alloc_inode|]. intros [ip|] s1; [|by apply blind_ret].
  apply agrees_bind; [apply blind_world|]. intros ino s2.
  apply agrees_log_member. auto 12 with blind.
Qed.

Lemma mknod_agrees dir dn mode dev s :
  agrees (ramfs2_mknod dir (Some dn) mode dev s)
    (ram_mknod ramfs_tables dir dn mode dev (with_log [] s)).
Proof.
  unfold ramfs2_mknod. apply agrees_logs; [apply logs_printk|]. intros l1.
  apply agrees_log_dir.
  { intros d -> Hd. unfold ram_mknod, get_inode, deref, mbind, M_bind. cbn in *. by rewrite Hd. }
  intros l2. apply agrees_logs; [apply logs_dentry|]. intros l3.
  do 2 (apply agrees_logs; [apply logs_printk|]; intros ?).
  match goal with |- agrees (_ ?u) _ => change (with_log [] s) with (with_log [] u); set (s0 := u) end.
  unfold ram_mknod. destruct dir as [dp|]; [|done].
  destruct (k_inodes s0 !! dp) as [d|] eqn:Hd.
  2: { unfold get_inode, deref, mbind, M_bind. cbn in *. by rewrite Hd. }
  rewrite (bind_ok (deref (Some dp)) _ s0 dp s0 eq_refl).
  rewrite (bind_ok (deref (Some dp)) _ (with_log [] s0) dp (with_log [] s0) eq_refl).
  assert (∀ l, get_inode dp (with_log l s0) = Ok d (with_log l s0)) as Hget
    by (intros l4; unfold get_inode; cbn in *; by rewrite Hd).
  assert (get_inode dp s0 = Ok d s0) as Hget0 by (unfold get_inode; by rewrite Hd).
  rewrite (bind_ok _ _ _ _ _ Hget0), (bind_ok _ _ _ _ _ (Hget [])).
  apply agrees_bind; [apply get_inode_agrees; intros ? [= <-]; eauto|].
  intros [ip|] s1; [|by apply blind_ret].
  erewrite bind_ok; [|reflexivity]. apply agrees_bind; [apply blind_bind_name|].
  intros [] s2. by apply blind_ret.
Qed.

Lemma ram_mknod_gone dir dn mode dev s d :
  dir = Some d → k_inodes s !! d = None →
  ram_mknod ramfs_tables dir dn mode dev (with_log [] s) = Stop UseAfterFree.
Proof.
  intros -> Hd. unfold ram_mknod, get_inode, deref, mbind, M_bind. cbn in *. by rewrite Hd.
Qed.

(** The log lines all the creating operations begin with. *)
Lemma agrees_preamble dir dentry f1 f2 f3 a2 a3 (k : M st Z) dn mode dev s :
  (∀ u, agrees (k u) (ram_mknod ramfs_tables dir dn mode dev (with_log [] u))) →
  agrees ((printk f1 [] ;; log_dir dir ;; log_dentry dentry ;; printk f2 a2 ;; printk f3 a3 ;; k) s)
    (ram_mknod ramfs_tables dir dn mode dev (with_log [] s)).
Proof.
  intros Hk. apply agrees_logs; [apply logs_printk|]. intros l1.
  apply agrees_log_dir; [by intros d Hd Hn; eapply (ram_mknod_gone dir dn mode dev s)|]. intros l2.
  apply agrees_logs; [apply logs_dentry|]. intros l3.
  do 2 (apply agrees_logs; [apply logs_printk|]; intros ?).
  match goal with |- agrees (_ ?u) _ => exact (Hk u) end.
Qed.

End transparency.

Section ramfs_properties.
Context {W : Type} `{!Clock W, !Vfs W}.
Abbreviation st := (kstate Z W).

(** C34: Refinement.  Creating a file or a node in the logging module does, log aside,
    what the shared definition does with this module's tables: the same result, the
    same inodes, dentries and times, and the same failures, a directory that is NULL
    or gone included. *)
Theorem creation_refines (s : st) (dir : option positive) (dn : positive) (mode dev : Z) (b : bool) :
  agrees (sjfs_dir_iops_mknod dir (Some dn) mode dev s)
    (ram_mknod ramfs_tables dir dn mode dev (with_log [] s)) ∧
  agrees (sjfs_dir_iops_create dir (Some dn) mode b s)
    (ram_create ramfs_tables dir dn mode b (with_log [] s)).
Proof.
  split; [|unfold ram_create]; apply agrees_preamble; intros u; [apply mknod_agrees|].
  apply agrees_preamble. intros u2. apply mknod_agrees.
Qed.

End ramfs_properties.

End Ramfs.
