(* ===== verification/Userland.v ===== *)
(** * The C library under the user-space programs

    What [user_space_application/main.c] and [backup_plans/a/sjfs_helper.c] have in
    common: memory, streams with their files, [errno], the terminal and the socket as
    a state; the library calls; the [poll] at the head of their loops; and
    [netlink_send], which is the same text in both but for the size of its array.
    Whether a call succeeds, and what arrives on the socket, is the class [Libc].
    Trailing newlines of formats are left out.  The second half is what the programs'
    proofs share: silent computations that keep the table of streams, and the bytes
    of a frame. *)
From S2P Require Import Prelude CLayout Blocks Memory Kernel.

(** linux/netlink.h, errno.h, stdlib.h *)
Definition NLMSG_ERROR : Z := 2.
Definition NLMSG_DONE : Z := 3.
Definition NLMSG_HDRLEN : Z := 16.
Definition EINTR : Z := 4.
Definition EWOULDBLOCK : Z := 11.
Definition ERANGE : Z := 34.
Definition EXIT_SUCCESS : Z := 0.
Definition EXIT_FAILURE : Z := 1.
Definition NLMSG_SPACE (n : Z) : Z := (n + NLMSG_HDRLEN + 3) / 4 * 4.
Definition nlmsghdr : list field :=
  [ Field "nlmsg_len" SInt 1; Field "nlmsg_type" SShort 1; Field "nlmsg_flags" SShort 1;
    Field "nlmsg_seq" SInt 1; Field "nlmsg_pid" SInt 1 ].

(** What is written to the terminal and to the socket. *)
Inductive uevent : Type :=
  | UPrintf (fmt : string) (args : list printk_arg)
  | UPerror (msg : string)
  | USend (bytes : list Z).

(** One turn of a receive loop: poll again, leave, or receive. *)
Inductive turn : Set := Again | Leave | Receive.

(** The outcome of the library calls: [calloc] and [fopen] succeed or not; [fwrite] and
    [fread] take so many
    bytes at most; [flock], [poll] and [send] give their result and
    [errno]; [strtol10] is the number and whether it was out of range; [recv] gives
    the bytes, [None] for -1; the rest give their result. *)
Class Libc (W : Type) := {
  pid : Z;
  strerror : Z → string;
  strtol10 : string → Z * bool;
  calloc_ok : Z → W → bool * W;
  fopen_ok : string → string → W → bool * W;
  fwrite_takes : Z → W → Z * W;
  fclose_rc : W → Z * W;
  fseek_rc : Z → W → Z * W;
  fread_takes : Z → W → Z * W;
  open_fd : string → W → Z * W;
  flock_rc : Z → W → (Z * Z) * W;
  socket_fd : W → Z * W;
  bind_rc : Z → W → Z * W;
  poll_rc : W → (Z * Z) * W;
  recv_bytes : W → option (list Z) * W;
  send_rc : list Z → W → (Z * Z) * W;
  close_rc : Z → W → Z * W }.

(** A stream: its file, its mode and its position. *)
Record stream : Type := Stream { s_file : string; s_mode : string; s_pos : Z }.

Record ustate (W : Type) : Type := UState {
  u_heap : heap;
  u_files : gmap string (list Z);
  u_streams : gmap positive stream;
  u_next : positive;
  need_exit : Z;
  seq : Z;
  errno : Z;
  u_log : list uevent;
  u_world : W }.
Arguments UState {W}.
Arguments u_heap {W}.
Arguments u_files {W}.
Arguments u_streams {W}.
Arguments u_next {W}.
Arguments need_exit {W}.
Arguments seq {W}.
Arguments errno {W}.
Arguments u_log {W}.
Arguments u_world {W}.

Section ustate.
Context {W : Type}.
Abbreviation st := (ustate W).

Definition with_uheap (h : heap) (s : st) : st :=
  UState h (u_files s) (u_streams s) (u_next s) (need_exit s) (seq s) (errno s) (u_log s) (u_world s).
Definition with_files (f : gmap string (list Z)) (s : st) : st :=
  UState (u_heap s) f (u_streams s) (u_next s) (need_exit s) (seq s) (errno s) (u_log s) (u_world s).
Definition with_streams (m : gmap positive stream) (n : positive) (s : st) : st :=
  UState (u_heap s) (u_files s) m n (need_exit s) (seq s) (errno s) (u_log s) (u_world s).
Definition with_need_exit (b : Z) (s : st) : st :=
  UState (u_heap s) (u_files s) (u_streams s) (u_next s) b (seq s) (errno s) (u_log s) (u_world s).
Definition with_seq (n : Z) (s : st) : st :=
  UState (u_heap s) (u_files s) (u_streams s) (u_next s) (need_exit s) n (errno s) (u_log s) (u_world s).
Definition with_errno (n : Z) (s : st) : st :=
  UState (u_heap s) (u_files s) (u_streams s) (u_next s) (need_exit s) (seq s) n (u_log s) (u_world s).
Definition with_ulog (l : list uevent) (s : st) : st :=
  UState (u_heap s) (u_files s) (u_streams s) (u_next s) (need_exit s) (seq s) (errno s) l (u_world s).
Definition with_uworld (w : W) (s : st) : st :=
  UState (u_heap s) (u_files s) (u_streams s) (u_next s) (need_exit s) (seq s) (errno s) (u_log s) w.

#[export] Instance ustate_heap : HasHeap st := {|
  heap_of := u_heap;
  with_heap := with_uheap;
  heap_of_with h s := eq_refl;
  with_heap_of s := match s with UState _ _ _ _ _ _ _ _ _ => eq_refl end;
  with_with h h' s := eq_refl |}.

Definition uworld {A} (f : W → A * W) : M st A := λ s,
  let '(a, w) := f (u_world s) in Ok a (with_uworld w s).
(** A call that leaves [errno] behind. *)
Definition uworld_errno (f : W → (Z * Z) * W) : M st Z :=
  r ← uworld f;
  modify (with_errno r.2) ;;
  mret r.1.
Definition ulog (e : uevent) : M st unit := modify (λ s, with_ulog (u_log s ++ [e]) s).
Definition printf (fmt : string) (args : list printk_arg) : M st unit := ulog (UPrintf fmt args).
Definition perror (msg : string) : M st unit := ulog (UPerror msg).

(** ** The library calls *)
Context `{!Libc W}.

Definition calloc (n : Z) : M st ptr :=
  ok ← uworld (calloc_ok n);
  if ok : bool then alloc_block (replicate (Z.to_nat n) 0) else mret Null.

Definition open_stream (name mode : string) : M st positive := λ s,
  Ok (u_next s) (with_streams (<[u_next s := Stream name mode 0]> (u_streams s)) (Pos.succ (u_next s)) s).

(** [fopen] with the modes the program uses: ["wb"] makes or empties the file,
    ["a+b"] makes it if there is none. *)
Definition fopen (name mode : string) : M st (option positive) :=
  ok ← uworld (fopen_ok name mode);
  if ok : bool then
    modify (λ s, with_files
      (if decide (mode = "wb") then <[name := []]> (u_files s)
       else <[name := default [] (u_files s !! name)]> (u_files s)) s) ;;
    f ← open_stream name mode;
    mret (Some f)
  else mret None.

Definition get_stream (f : positive) : M st stream := λ s,
  match u_streams s !! f with Some x => Ok x s | None => Stop UseAfterFree end.
Definition set_stream (f : positive) (x : stream) : M st unit :=
  modify (λ s, with_streams (<[f := x]> (u_streams s)) (u_next s) s).

(** Overwriting a file from position [pos] on; a gap is filled with zeros. *)
Definition write_at (pos : nat) (new old : list Z) : list Z :=
  take pos (old ++ replicate (pos - length old) 0) ++ new ++ drop (pos + length new) old.

(** [fwrite] of [n] bytes; in append mode every write goes to the end. *)
Definition fwrite_bytes (bs : list Z) (n : Z) (f : positive) : M st Z :=
  x ← get_stream f;
  k ← uworld (fwrite_takes n);
  old ← gets (λ s, default [] (u_files s !! s_file x));
  let new := take (Z.to_nat k) bs in
  let pos := if decide (s_mode x = "a+b") then length old else Z.to_nat (s_pos x) in
  modify (λ s, with_files (<[s_file x := write_at pos new old]> (u_files s)) s) ;;
  set_stream f (Stream (s_file x) (s_mode x) (Z.of_nat (pos + length new))) ;;
  mret (Z.of_nat (length new)).

(** [fwrite(p, 1, n, f)] *)
Definition fwrite (p : ptr) (n : Z) (f : positive) : M st Z :=
  bs ← load p n;
  fwrite_bytes bs n f.

(** [fread(p, 1, n, f)]; a stream opened with ["wb"] cannot be read. *)
Definition fread (p : ptr) (n : Z) (f : positive) : M st Z :=
  x ← get_stream f;
  if decide (s_mode x = "wb") then mret 0 else
  k ← uworld (fread_takes n);
  bs ← gets (λ s, take (Z.to_nat (Z.min k n))
    (drop (Z.to_nat (s_pos x)) (default [] (u_files s !! s_file x))));
  store p bs ;;
  set_stream f (Stream (s_file x) (s_mode x) (s_pos x + Z.of_nat (length bs))) ;;
  mret (Z.of_nat (length bs)).

(** [fseek(f, off, SEEK_SET)] *)
Definition fseek (f : positive) (off : Z) : M st Z :=
  x ← get_stream f;
  rc ← uworld (fseek_rc off);
  (if truth rc then mret tt else set_stream f (Stream (s_file x) (s_mode x) off)) ;;
  mret rc.

(** [fclose] ends the stream whatever it returns. *)
Definition fclose (f : positive) : M st Z :=
  _ ← get_stream f;
  modify (λ s, with_streams (delete f (u_streams s)) (u_next s) s) ;;
  uworld fclose_rc.

(** ** The head of the receive loops *)
Definition poll_turn : M st turn :=
  rc ← uworld_errno poll_rc;
  e ← gets errno;
  if (rc =? -1) && (e =? EINTR) then mret Again else
  when ((rc =? 0) || (rc =? -1)) (modify (with_need_exit 1)) ;;
  x ← gets need_exit;
  mret (if truth x then Leave else Receive).

(** [memset(buf, 0, sizeof(buf))], then [recv] into it. *)
Definition receive_buffer (size : Z) (bytes : list Z) : list Z :=
  take (Z.to_nat size) (bytes ++ replicate (Z.to_nat size) 0).

(** A scalar member of the structure at the head of an array. *)
Definition array_member (a : abi) (buf : list Z) (fs : list field) (name : string) : Z :=
  match find_field name (layout_from a 0 fs) with
  | Some (f, o) => le_decode (take (scalar_size a (fscalar f)) (drop o buf))
  | None => 0
  end.

Context (a : abi).

(** ** [netlink_send]; [buf] is the uninitialised array of the frame *)
Definition netlink_header (size seq : Z) : list Z :=
  encode_struct a nlmsghdr [[size]; [NLMSG_DONE]; [0]; [seq]; [pid]].

(** [report] is what prints the message of a failed [send]. *)
Definition netlink_send_with (report : string → list printk_arg → M st unit) (buf : list Z)
    (msg : ptr) : M st Z :=
  len ← load_member a msg cn_msg_t "len";
  let size := NLMSG_SPACE (sizeof_cn_msg + len) in
  n ← gets seq;
  modify (with_seq (u32 (n + 1))) ;;
  let buf := splice 0 (netlink_header size n) buf in
  len ← load_member a msg cn_msg_t "len";
  bs ← load msg (sizeof_cn_msg + len);
  if decide (in_bounds NLMSG_HDRLEN (Z.of_nat (length bs)) buf) then
    let buf := splice (Z.to_nat NLMSG_HDRLEN) bs buf in
    frame ← load_array buf size;
    ulog (USend frame) ;;
    err ← uworld_errno (send_rc frame);
    (if err =? -1 then
       e ← gets errno;
       report "Failed to send: %s [%d]." [PStr (strerror e); PInt e]
     else mret tt) ;;
    mret err
  else stop_with OutOfBounds.

Definition netlink_send : list Z → ptr → M st Z := netlink_send_with printf.
End ustate.

(** ** What a run leaves alone *)

(** What a program holds: streams, the next free name of one, files and memory. *)
Record res : Type := Res {
  r_streams : gmap positive stream;
  r_next : positive;
  r_files : gmap string (list Z);
  r_heap : heap }.
Definition res_of {W} (s : ustate W) : res := Res (u_streams s) (u_next s) (u_files s) (u_heap s).

Section frames.
Context {W : Type}.
Abbreviation st := (ustate W).
Implicit Types (s : st).

Lemma uworld_eq {A} (g : W → A * W) s :
  uworld g s = Ok (g (u_world s)).1 (with_uworld (g (u_world s)).2 s).
Proof. unfold uworld. by destruct (g _). Qed.

Definition not_send (e : uevent) : Prop := match e with USend _ => False | _ => True end.

(** The log grows, and nothing goes to the socket. *)
Definition silent s s' : Prop := ∃ l, u_log s' = u_log s ++ l ∧ Forall not_send l.

#[export] Instance silent_refl : Reflexive silent.
Proof. intros s. exists []. by rewrite app_nil_r. Qed.
#[export] Instance silent_trans : Transitive silent.
Proof.
  intros s1 s2 s3 (l & Hl & Hfl) (k & Hk & Hfk). exists (l ++ k).
  by rewrite Hk, Hl, app_assoc, Forall_app.
Qed.

Lemma silent_same s s' : u_log s' = u_log s → silent s s'.
Proof. intros Hl. exists []. by rewrite app_nil_r. Qed.
Lemma silent_one s s' e : u_log s' = u_log s ++ [e] → not_send e → silent s s'.
Proof. intros Hl He. exists [e]. by repeat constructor. Qed.

(** A computation that ends normally, is silent and keeps a property of the
    resources. *)
Context (J : res → Prop).
Definition keeps {A} (m : M st A) : Prop := ∀ s, J (res_of s) →
  ∃ x s', m s = Ok x s' ∧ silent s s' ∧ J (res_of s').

Lemma keeps_ret {A} (x : A) : keeps (mret x).
Proof. intros s Hs. by eexists _, _. Qed.
Lemma keeps_bind {A B} (m : M st A) (k : A → M st B) :
  keeps m → (∀ x, keeps (k x)) → keeps (m ≫= k).
Proof.
  intros Hm Hk s Hs. destruct (Hm s Hs) as (x & s1 & Hx & H1 & Hs1).
  destruct (Hk x s1 Hs1) as (y & s2 & Hy & H2 & Hs2).
  exists y, s2. split; [by rewrite (bind_ok _ _ _ _ _ Hx)|]. split; [by etrans|done].
Qed.
Lemma keeps_gets {A} (g : st → A) : keeps (gets g).
Proof. intros s Hs. by eexists _, _. Qed.
Lemma keeps_uworld {A} (g : W → A * W) : keeps (uworld g).
Proof.
  intros s Hs. unfold uworld. destruct (g _). eexists _, _. split; [done|].
  split; [by apply silent_same|done].
Qed.
Lemma keeps_with_errno n : keeps (modify (with_errno n)).
Proof. intros s Hs. eexists _, _. split; [done|]. split; [by apply silent_same|done]. Qed.
Lemma keeps_with_need_exit n : keeps (modify (with_need_exit n)).
Proof. intros s Hs. eexists _, _. split; [done|]. split; [by apply silent_same|done]. Qed.
Lemma keeps_ulog e : not_send e → keeps (ulog e).
Proof. intros He s Hs. eexists _, _. split; [done|]. split; [by eapply silent_one|done]. Qed.
Lemma keeps_printf fmt args : keeps (printf fmt args).
Proof. by apply keeps_ulog. Qed.
Lemma keeps_perror msg : keeps (perror msg).
Proof. by apply keeps_ulog. Qed.
Lemma keeps_when b m : keeps m → keeps (when b m).
Proof. destruct b; [done|]. intros _. apply keeps_ret. Qed.
Lemma keeps_if {A} (b : bool) (m n : M st A) : keeps m → keeps n → keeps (if b then m else n).
Proof. by destruct b. Qed.
Lemma keeps_uworld_errno (g : W → (Z * Z) * W) : keeps (uworld_errno g).
Proof.
  apply keeps_bind; [apply keeps_uworld|intros r].
  apply keeps_bind; [apply keeps_with_errno|intros _; apply keeps_ret].
Qed.
End frames.

(** The same for a computation that may stop, for the reasons [Q] names. *)
Definition ends {W A} (J : res → Prop) (Q : stop → Prop) (m : M (ustate W) A) : Prop := ∀ s,
  J (res_of s) → wp m (λ _ s', silent s s' ∧ J (res_of s')) Q s.

Lemma ends_keeps {W A} J Q (m : M (ustate W) A) : keeps J m → ends J Q m.
Proof. intros Hm s Hs. unfold wp. by destruct (Hm s Hs) as (x & s' & -> & Hk). Qed.

Lemma ends_after {W A} J Q (m : M (ustate W) A) s1 s2 :
  ends J Q m → silent s1 s2 → J (res_of s2) →
  wp m (λ _ s', silent s1 s' ∧ J (res_of s')) Q s2.
Proof.
  intros Hm H12 H2. eapply wp_mono; [exact (Hm s2 H2)| |done].
  intros x s3 [H23 H3]. split; [by etrans|done].
Qed.

Lemma ends_bind {W A B} J Q (m : M (ustate W) A) (k : A → M (ustate W) B) :
  ends J Q m → (∀ x, ends J Q (k x)) → ends J Q (m ≫= k).
Proof.
  intros Hm Hk s Hs. apply wp_bind. eapply wp_mono; [exact (Hm s Hs)| |done].
  intros x s1 [H1 Hs1]. by apply ends_after.
Qed.

(** A call of the environment, with what it returns. *)
Lemma ends_uworld {W A B} J Q (g : W → A * W) (k : A → M (ustate W) B) :
  (∀ w x w', g w = (x, w') → ends J Q (k x)) → ends J Q (uworld g ≫= k).
Proof.
  intros Hk s Hs. rewrite wp_bind, (wp_ok _ _ _ _ _ _ (uworld_eq g s)).
  eapply ends_after; [eapply Hk, surjective_pairing|by apply silent_same|exact Hs].
Qed.

Lemma ends_mono {W A} J (Q Q' : stop → Prop) (m : M (ustate W) A) :
  (∀ r, Q r → Q' r) → ends J Q m → ends J Q' m.
Proof. intros HQ Hm s Hs. eapply wp_mono; [exact (Hm s Hs)|done|exact HQ]. Qed.

Create HintDb calm.
#[export] Hint Resolve keeps_ret keeps_gets keeps_uworld keeps_with_errno keeps_with_need_exit
  keeps_printf keeps_perror keeps_when keeps_if keeps_uworld_errno : calm.
#[export] Hint Extern 1 (keeps _ (_ ≫= _)) => apply keeps_bind; [|intros] : calm.

(** ** Streams *)
Section streams.
Context {W : Type} `{!Libc W}.
Abbreviation st := (ustate W).
Implicit Types (s : st).

Lemma keeps_poll_turn J : keeps (W:=W) J poll_turn.
Proof. unfold poll_turn. auto 10 with calm. Qed.

(** One stream [f], at some position, beside those of [m]; files and memory as given. *)
Definition opened (m : gmap positive stream) (fs : gmap string (list Z)) (h : heap) (f : positive)
    (r : res) : Prop :=
  (∃ x, r_streams r = <[f := x]> m) ∧ r_files r = fs ∧ r_heap r = h.

Section opened.
Context (m : gmap positive stream) (fs : gmap string (list Z)) (h : heap) (f : positive).
Abbreviation inv := (opened m fs h f).

Lemma keeps_get_stream : keeps (W:=W) inv (get_stream f).
Proof.
  intros s [[x Hx] Hs]. unfold get_stream. cbn in Hx. rewrite Hx, lookup_insert_eq.
  eexists _, _. split; [done|]. split; [done|]. split; [by exists x|done].
Qed.
Lemma keeps_set_stream x : keeps (W:=W) inv (set_stream f x).
Proof.
  intros s [[y Hy] Hs]. eexists _, _. split; [reflexivity|]. split; [by apply silent_same|].
  split; [|done]. exists x. cbn in *. by rewrite Hy, insert_insert_eq.
Qed.
#[local] Hint Resolve keeps_get_stream keeps_set_stream : calm.

Lemma keeps_fseek off : keeps inv (fseek f off).
Proof. unfold fseek. auto 10 with calm. Qed.

(** Closing the one stream that was opened leaves the table as it was before. *)
Lemma fclose_opened s :
  m !! f = None → inv (res_of s) →
  ∃ rc s', fclose f s = Ok rc s' ∧ silent s s' ∧ u_streams s' = m.
Proof.
  intros Hf [[x Hx] _]. cbn in Hx. unfold fclose.
  erewrite bind_ok; [|unfold get_stream; rewrite Hx, lookup_insert_eq; reflexivity].
  erewrite bind_ok; [|reflexivity]. unfold uworld. destruct (fclose_rc _).
  eexists _, _. split; [reflexivity|]. split; [by apply silent_same|].
  cbn. by rewrite Hx, delete_insert_id.
Qed.
End opened.

(** Names of streams handed out so far are below [u_next]. *)
Definition streams_wf s : Prop := ∀ f, is_Some (u_streams s !! f) → (f < u_next s)%positive.

Lemma streams_wf_fresh s : streams_wf s → u_streams s !! u_next s = None.
Proof.
  intros Hwf. destruct (u_streams s !! u_next s) eqn:E; [|done].
  assert (u_next s < u_next s)%positive by (apply Hwf; eauto). lia.
Qed.

Lemma streams_wf_grow s s' :
  streams_wf s → u_streams s' = u_streams s → (u_next s ≤ u_next s')%positive → streams_wf s'.
Proof. intros Hwf Hs Hn f Hf. rewrite Hs in Hf. apply Hwf in Hf. lia. Qed.


Lemma calloc_cases n s :
  ∃ w, calloc n s = Ok Null (with_uworld w s) ∨
    calloc n s = Ok (Ptr (h_next (u_heap s)) 0)
      (with_uheap (heap_alloc (replicate (Z.to_nat n) 0) (u_heap s)) (with_uworld w s)).
Proof.
  exists (calloc_ok n (u_world s)).2. unfold calloc.
  rewrite (bind_ok _ _ _ _ _ (uworld_eq _ s)).
  destruct (calloc_ok n (u_world s)).1; [by right|by left].
Qed.

Lemma fopen_cases name mode s :
  (∃ s', fopen name mode s = Ok None s' ∧ silent s s' ∧ u_streams s' = u_streams s ∧
     u_next s' = u_next s) ∨
  (∃ s', fopen name mode s = Ok (Some (u_next s)) s' ∧ silent s s' ∧
     opened (u_streams s) (u_files s') (u_heap s') (u_next s) (res_of s')).
Proof.
  unfold fopen. rewrite (bind_ok _ _ _ _ _ (uworld_eq _ s)).
  destruct (fopen_ok name mode (u_world s)).1; [right|left]; eexists; (split; [reflexivity|]);
    (split; [by apply silent_same|]); [split; [by eexists|done]|done].
Qed.

End streams.

#[export] Hint Resolve keeps_poll_turn keeps_get_stream keeps_set_stream keeps_fseek : calm.

(** ** Sending *)
Section sending.
Context {W : Type} `{!Libc W}.
Context (a : abi).
Abbreviation st := (ustate W).
Implicit Types (s : st).

Lemma length_netlink_header size n : length (netlink_header (W:=W) a size n) = 16%nat.
Proof.
  unfold netlink_header, encode_struct. cbn -[le_encode].
  repeat (rewrite ?length_app, ?length_le_encode, ?length_replicate). reflexivity.
Qed.

Lemma load_len_field b bs s :
  h_map (u_heap s) !! b = Some bs → (20 ≤ length bs)%nat →
  load_member a (Ptr b 0) cn_msg_t "len" s = Ok (le_decode (take 2 (drop 16 bs))) s.
Proof.
  intros Hb Hl.
  pose proof (load_member_at (S:=st) a b cn_msg_t "len" _ _ bs (u_heap s) s (len_field a)) as Hld.
  rewrite heap_insert_id in Hld by done.
  change (u_heap s) with (heap_of s) in Hld. rewrite (with_heap_of s) in Hld. apply Hld. simpl. lia.
Qed.

(** The last lines of [netlink_send]. *)
Lemma send_tail frame s :
  ∃ s' l, (ulog (USend frame) ;;
      err ← uworld_errno (send_rc frame);
      (if err =? -1 then
         e ← gets errno;
         printf "Failed to send: %s [%d]." [PStr (strerror e); PInt e]
       else mret tt) ;;
      mret err) s = Ok (send_rc frame (u_world s)).1.1 s' ∧
    u_log s' = u_log s ++ USend frame :: l ∧ Forall not_send l ∧ seq s' = seq s ∧
    u_heap s' = u_heap s.
Proof.
  erewrite bind_ok; [|reflexivity]. unfold uworld_errno. rewrite mbind_assoc.
  rewrite (bind_ok _ _ _ _ _ (uworld_eq _ _)), mbind_assoc.
  do 2 (erewrite bind_ok; [|reflexivity]). cbn [u_world with_ulog].
  destruct (_ =? -1).
  - rewrite mbind_assoc. do 2 (erewrite bind_ok; [|reflexivity]).
    eexists _, [_]. split; [reflexivity|]. cbn. rewrite <-app_assoc.
    split; [done|]. split; [by repeat constructor|done].
  - eexists _, []. split; [reflexivity|]. by repeat split.
Qed.

(** The frame that goes out: header, message, and what the array held before in the
    alignment padding. *)
Definition frame (len n : Z) (bs buf : list Z) : list Z :=
  let size := NLMSG_SPACE (sizeof_cn_msg + len) in
  netlink_header (W:=W) a size n ++ take (Z.to_nat (20 + len)) bs ++
  take (Z.to_nat (size - 36 - len)) (drop (Z.to_nat (36 + len)) buf).

Lemma nlmsg_space_bounds len :
  0 <= len → 36 + len <= NLMSG_SPACE (20 + len) <= 36 + len + 3.
Proof.
  intros. unfold NLMSG_SPACE, NLMSG_HDRLEN.
  pose proof (Z.div_mod (20 + len + 16 + 3) 4). pose proof (Z.mod_pos_bound (20 + len + 16 + 3) 4).
  lia.
Qed.

Lemma nlmsg_space_fits len q : 36 + len <= 4 * q → NLMSG_SPACE (20 + len) <= 4 * q.
Proof.
  intros. unfold NLMSG_SPACE, NLMSG_HDRLEN.
  pose proof (Z.div_lt_upper_bound (20 + len + 16 + 3) 4 (q + 1)). lia.
Qed.

Lemma frame_bytes len n bs buf :
  0 <= len → 20 + len <= Z.of_nat (length bs) → (16 ≤ length buf)%nat →
  let size := NLMSG_SPACE (sizeof_cn_msg + len) in
  take (Z.to_nat size) (splice 16 (take (Z.to_nat (20 + len)) bs)
    (splice 0 (netlink_header (W:=W) a size n) buf)) = frame len n bs buf.
Proof.
  intros Hlen Hbs Hbuf size. pose proof (nlmsg_space_bounds len Hlen) as Hsz.
  change (20 + len) with (sizeof_cn_msg + len) in Hsz. fold size in Hsz.
  unfold frame. fold size. set (hdr := netlink_header a size n).
  set (body := take (Z.to_nat (20 + len)) bs).
  assert (length hdr = 16%nat) as Hh by apply length_netlink_header.
  assert (length body = Z.to_nat (20 + len)) as Hb by (unfold body; rewrite length_take; lia).
  unfold splice at 2. rewrite take_0, Hh. cbn [app Nat.add].
  rewrite splice_app_at by done. rewrite drop_drop, Hb, app_assoc.
  rewrite take_app, take_ge by (rewrite length_app, Hh, Hb; lia).
  rewrite <-app_assoc. do 3 f_equal; [rewrite length_app, Hh, Hb; lia|]. f_equal. lia.
Qed.

(** What [netlink_send] does with a message whose bytes are known, for an array of any
    size: a frame goes out if the array holds it, else the copy runs past its end. *)
Definition send_result (b : positive) (bs buf : list Z) s : Prop :=
  let len := le_decode (take 2 (drop 16 bs)) in
  if decide (36 + len <= Z.of_nat (length buf)) then
    let out := frame len (seq s) bs buf in
    let rc := (send_rc out (u_world s)).1.1 in
    ∃ s' l, netlink_send a buf (Ptr b 0) s = Ok rc s' ∧
      u_log s' = u_log s ++ USend out :: l ∧ Forall not_send l ∧
      seq s' = u32 (seq s + 1) ∧ u_heap s' = u_heap s
  else netlink_send a buf (Ptr b 0) s = Stop OutOfBounds.

Lemma netlink_send_ends b bs buf q s :
  let len := le_decode (take 2 (drop 16 bs)) in
  h_map (u_heap s) !! b = Some bs → 0 <= len → 20 + len <= Z.of_nat (length bs) →
  length buf = (4 * q)%nat → (4 ≤ q)%nat → send_result b bs buf s.
Proof.
  intros len Hb Hlen Hbs Hbuf Hq. unfold send_result, netlink_send, netlink_send_with. cbv zeta. fold len.
  replace (Z.of_nat (length buf)) with (4 * Z.of_nat q) by lia.
  assert (∀ s1, u_heap s1 = u_heap s →
    load_member a (Ptr b 0) cn_msg_t "len" s1 = Ok len s1) as Hld.
  { intros s1 Hs1. by apply (load_len_field b bs s1); [rewrite Hs1|lia]. }
  rewrite (bind_ok _ _ _ _ _ (Hld s eq_refl)). cbv zeta.
  do 2 (erewrite bind_ok; [|reflexivity]).
  set (s1 := with_seq (u32 (seq s + 1)) s). rewrite (bind_ok _ _ _ _ _ (Hld s1 eq_refl)).
  erewrite bind_ok; [|apply (load_ok (S:=st)); [exact Hb|unfold in_bounds, sizeof_cn_msg; lia]].
  rewrite drop_0. set (size := NLMSG_SPACE (sizeof_cn_msg + len)).
  change (sizeof_cn_msg + len) with (20 + len).
  set (hdr := netlink_header a size (seq s)).
  assert (length (splice 0 hdr buf) = (4 * q)%nat) as Hsp.
  { rewrite length_splice; [done|]. unfold hdr. rewrite length_netlink_header. lia. }
  assert (length (take (Z.to_nat (20 + len)) bs) = Z.to_nat (20 + len)) as Hbody
    by (rewrite length_take; lia).
  assert (in_bounds NLMSG_HDRLEN (Z.of_nat (length (take (Z.to_nat (20 + len)) bs)))
    (splice 0 hdr buf) ↔ 36 + len <= 4 * Z.of_nat q) as Hin
    by (unfold in_bounds, NLMSG_HDRLEN; rewrite Hsp, Hbody; lia).
  destruct (decide (36 + len <= 4 * Z.of_nat q)) as [Hfit|Hbig];
    [|by rewrite decide_False by by rewrite Hin].
  rewrite decide_True by by apply Hin.
  pose proof (nlmsg_space_fits len (Z.of_nat q) ltac:(lia)) as Hsize.
  pose proof (nlmsg_space_bounds len Hlen) as Hsize0.
  change (20 + len) with (sizeof_cn_msg + len) in Hsize, Hsize0. fold size in Hsize, Hsize0.
  change (Z.to_nat NLMSG_HDRLEN) with 16%nat.
  erewrite bind_ok.
  2: { apply load_array_ok. unfold in_bounds. rewrite length_splice; rewrite Hsp; [lia|].
       rewrite Hbody. lia. }
  unfold hdr, size. rewrite (frame_bytes len (seq s) bs buf Hlen Hbs ltac:(lia)).
  destruct (send_tail (frame len (seq s) bs buf) s1) as (s' & l & Hrun & Hl & Hsil & Hseq & Hh).
  exists s', l. by split.
Qed.
(** C30: Sending a message.  A message of up to 2012 bytes of payload leaves as one
    frame: a header with the next sequence number, the whole message, and the
    padding; [send]'s result is passed on.  A longer one - [len] is 16 bits - is
    copied past the end of the array. *)
Theorem netlink_send_frame (s : st) (b : positive) (bs buf : list Z) :
  let len := le_decode (take 2 (drop 16 bs)) in
  h_map (u_heap s) !! b = Some bs → 0 <= len → 20 + len <= Z.of_nat (length bs) →
  length buf = 2048%nat →
  if decide (len <= 2012) then
    let out := frame len (seq s) bs buf in
    let rc := (send_rc out (u_world s)).1.1 in
    ∃ s' l, netlink_send a buf (Ptr b 0) s = Ok rc s' ∧
      u_log s' = u_log s ++ USend out :: l ∧ Forall not_send l ∧
      seq s' = u32 (seq s + 1) ∧ u_heap s' = u_heap s
  else netlink_send a buf (Ptr b 0) s = Stop OutOfBounds.
Proof.
  intros len Hb Hlen Hbs Hbuf.
  pose proof (netlink_send_ends b bs buf 512 s Hb Hlen Hbs Hbuf ltac:(lia)) as Hsend.
  unfold send_result in Hsend. fold len in Hsend. rewrite Hbuf in Hsend.
  rewrite (decide_ext (len <= 2012) (36 + len <= Z.of_nat 2048)) by lia. exact Hsend.
Qed.
End sending.

(** ** A concrete library *)

(** A library in which every call succeeds and a script gives what [poll] and [recv]
    return: first a message, then nothing. *)
Record script : Type := Script { sc_polls : list Z; sc_packets : list (list Z) }.

#[export] Instance script_libc : Libc script := {|
  pid := 4711;
  strerror _ := "Broken pipe";
  strtol10 text := (foldl (λ n c, 10 * n + (Z.of_nat (Ascii.nat_of_ascii c) - 48)) 0
    (String.list_ascii_of_string text), false);
  calloc_ok _ w := (true, w);
  fopen_ok _ _ w := (true, w);
  fwrite_takes n w := (n, w);
  fclose_rc w := (0, w);
  fseek_rc _ w := (0, w);
  fread_takes n w := (n, w);
  open_fd _ w := (3, w);
  flock_rc _ w := ((0, 0), w);
  socket_fd w := (4, w);
  bind_rc _ w := (0, w);
  poll_rc w := ((default 0 (head (sc_polls w)), 0), Script (tail (sc_polls w)) (sc_packets w));
  recv_bytes w := (head (sc_packets w), Script (sc_polls w) (tail (sc_packets w)));
  send_rc _ w := ((-1, 32), w);
  close_rc _ w := (0, w) |}.

Definition user_start (w : script) : ustate script := UState empty_heap ∅ ∅ 1 0 41 0 [] w.

Lemma user_start_wf w : streams_wf (user_start w).
Proof. intros f [x Hx]. discriminate Hx. Defined.

(** A message with the two bytes 7, 8. *)
Definition small_message : list Z :=
  encode_struct LP64 cn_msg_t [[14]; [1110]; [9]; [0]; [2]; [0]] ++ [7; 8].
Definition send_state : ustate script :=
  with_uheap (heap_alloc small_message empty_heap) (user_start (Script [] [])).

Lemma netlink_send_frame_witness :
  let out := frame (W:=script) LP64 2 41 small_message (replicate 2048 255) in
  ∃ s' l, netlink_send LP64 (replicate 2048 255) (Ptr 1 0) send_state = Ok (-1) s' ∧
    u_log s' = [] ++ USend out :: l ∧ Forall not_send l ∧ seq s' = 42 ∧
    u_heap s' = u_heap send_state.
Proof.
  intros out. refine (netlink_send_frame LP64 send_state 1 small_message (replicate 2048 255)
    eq_refl _ _ eq_refl); vm_compute; discriminate.
Defined.
