(* ===== verification/UserApp.v ===== *)
(** * The user-space application ([user_space_application/main.c])

    [format], [do_work] and [main] over the C library of [Userland], which also has
    the file's [netlink_send].  Names the source uses and no header declares
    ([BLOCK_SIZE], [MIN_BLOCKS], [OPCODE_READ] and so on, and in [do_work] [address],
    [opcode] and [diskFile]) are arguments.  [exit(n)] and [return n] in [main] are
    both the result [n]. *)
From S2P Require Import Prelude CLayout Blocks Memory Kernel Userland.

Section program.
Context {W : Type} `{!Libc W}.
Abbreviation st := (ustate W).

(** ** [format] *)
Context (a : abi) (BLOCK_SIZE MIN_BLOCKS OPCODE_READ OPCODE_WRITE OPCODE_NOTIFY : Z).

Definition sizeof_pointer : Z := Z.of_nat (scalar_size a SPtr).
Definition sizeof_superblock : Z := Z.of_nat (sizeof a superblock_t).

(** The loop that is to fill the disk; its counter is an [int], and leaving the range of
    one is undefined. *)
Fixpoint zero_loop (fuel : nat) (zeroBlock : ptr) (diskFile : positive) (i size : Z) : M st unit :=
  match fuel with
  | O => stop_with OutOfFuel
  | S n =>
      if i <? size then
        _ ← fwrite zeroBlock sizeof_pointer diskFile;
        if i + BLOCK_SIZE <? 2 ^ 31 then zero_loop n zeroBlock diskFile (i + BLOCK_SIZE) size
        else stop_with IntOverflow
      else mret tt
  end.

Definition format (filename : string) (size : Z) : M st Z :=
  sb ← calloc sizeof_superblock;
  if is_null sb then mret 0 else
  diskFile ← fopen filename "wb";
  match diskFile with
  | None => mret 0
  | Some f =>
      bytes ← fwrite sb sizeof_pointer f;
      if negb (bytes =? sizeof_pointer) then _ ← fclose f; mret 0 else
      zeroBlock ← calloc BLOCK_SIZE;
      if is_null zeroBlock then _ ← fclose f; mret 0 else
      zero_loop (S (Z.to_nat size)) zeroBlock f BLOCK_SIZE size ;;
      rc ← fclose f;
      mret (if truth rc then 0 else 1)
  end.

(** ** [do_work]; [buffer] is the rest of the array from the message on, and [%s] reads it
    up to the first NUL *)
Definition do_work (diskFile : positive) (address opcode : Z) (buffer : list Z) : M st Z :=
  rc ← fseek diskFile (address * BLOCK_SIZE);
  if truth rc then mret (-1) else
  (if opcode =? OPCODE_READ then mret tt
   else if opcode =? OPCODE_WRITE then mret tt
   else if opcode =? OPCODE_NOTIFY then
     match c_string buffer with
     | Some text => printf "Info sjfs said: %s" [PBytes text]
     | None => stop_with OutOfBounds
     end
   else printf "Warn unknown opcode." []) ;;
  mret 0.

(** ** [main] *)

(** The lock; [false] when another instance holds it. *)
Definition single_instance : M st bool :=
  pid_file ← uworld (open_fd "/var/run/sjfs_helper.pid");
  rc ← uworld_errno (flock_rc pid_file);
  e ← gets errno;
  mret (negb (truth rc && (EWOULDBLOCK =? e))).

Definition usage : M st unit :=
  printf "Usage: sjfs_helper [-n <size>] <filename>" [] ;;
  printf "         -n <size>  create a new disk of size in KB" [].

(** The options [getopt] finds, each with its argument, up to -1; [None]: exit. *)
Fixpoint parse_options (opts : list (Z * string)) (size : Z) : M st (option Z) :=
  match opts with
  | [] => mret (Some size)
  | (c, optarg) :: rest =>
      if c =? 110 (* 'n' *) then
        let r := strtol10 optarg in
        when r.2 (modify (with_errno ERANGE)) ;;
        let size := s32 r.1 in
        e ← gets errno;
        if (e =? ERANGE) || (size <? MIN_BLOCKS) then usage ;; mret None
        else parse_options rest size
      else usage ;; mret None
  end.

(** Formatting when asked for, then opening the disk; [None]: exit. *)
Definition prepare_disk (filename : string) (size : Z) : M st (option positive) :=
  ok ← (if truth size then format filename size else mret 1);
  if ok =? 0 then perror "Could not format disk." ;; mret None else
  diskFile ← fopen filename "a+b";
  match diskFile with
  | None => perror "Error opening file" ;; mret None
  | Some f => mret (Some f)
  end.

Context (CN_TEST_IDX CN_TEST_VAL : Z).

(** The bound socket; [None]: exit, with the disk closed. *)
Definition open_socket (diskFile : positive) : M st (option Z) :=
  s ← uworld socket_fd;
  if s =? -1 then perror "socket" ;; _ ← fclose diskFile; mret None else
  printf "subscribing to %u.%u" [PInt CN_TEST_IDX; PInt CN_TEST_VAL] ;;
  rc ← uworld (bind_rc s);
  if rc =? -1 then
    perror "bind" ;; _ ← uworld (close_rc s); _ ← fclose diskFile; mret None
  else mret (Some s).

(** What [do_work] would decode from the message. *)
Context (address opcode : list Z → Z).
Definition handle_message (diskFile : positive) (buf : list Z) : M st unit :=
  let type := array_member a buf nlmsghdr "nlmsg_type" in
  if type =? NLMSG_ERROR then printf "Warn message received." []
  else if type =? NLMSG_DONE then
    let data := drop (Z.to_nat NLMSG_HDRLEN) buf in
    let member name := PInt (array_member a data cn_msg_t name) in
    printf "[%x.%x] [%08u.%08u]." [member "idx"; member "val"; member "seq"; member "ack"] ;;
    r ← do_work diskFile (address data) (opcode data) data;
    when (r <? 0) (printf "Warn failed to do_work." [])
  else printf "Warn unknown nlmsg_type." [].

(** [memset(buf, 0, 2048)], then [recv] into it. *)
(** One turn of the loop; [true] when it is left by [break]. *)
Definition serve_round (diskFile : positive) : M st bool :=
  t ← poll_turn;
  match t with
  | Again => mret false
  | Leave => mret true
  | Receive =>
      len ← uworld recv_bytes;
      match len with
      | None => perror "recv buf" ;; mret false
      | Some bytes => handle_message diskFile (receive_buffer 2048 bytes) ;; mret false
      end
  end.

(** At most [rounds] turns; [true] when the loop has ended. *)
Fixpoint serve (rounds : nat) (diskFile : positive) : M st bool :=
  x ← gets need_exit;
  if truth x then mret true else
  match rounds with
  | O => mret false
  | S n => done ← serve_round diskFile; if done : bool then mret true else serve n diskFile
  end.

(** The program, followed for [rounds] turns of its loop: its exit status, or [None]
    when it is still serving.  [argv_file] is [argv[optind]] when there is one. *)
Definition main (rounds : nat) (opts : list (Z * string)) (argv_file : option string)
    : M st (option Z) :=
  alone ← single_instance;
  if negb alone then mret (Some EXIT_FAILURE) else
  size ← parse_options opts 0;
  match size with
  | None => mret (Some EXIT_FAILURE)
  | Some size =>
  match argv_file with
  | None => usage ;; mret (Some EXIT_FAILURE)
  | Some filename =>
      disk ← prepare_disk filename size;
      match disk with
      | None => mret (Some EXIT_FAILURE)
      | Some diskFile =>
          sock ← open_socket diskFile;
          match sock with
          | None => mret (Some EXIT_FAILURE)
          | Some s =>
              ended ← serve rounds diskFile;
              if (ended : bool) then
                rc ← uworld (close_rc s);
                when (rc =? -1) (perror "s close") ;;
                _ ← fclose diskFile;
                mret (Some EXIT_SUCCESS)
              else mret None
          end
      end
  end
  end.
End program.

(** ** The phases of [main] *)
Section phases.
Context {W : Type} `{!Libc W}.
Context (a : abi) (BLOCK_SIZE MIN_BLOCKS OPCODE_READ OPCODE_WRITE OPCODE_NOTIFY : Z).
Context (CN_TEST_IDX CN_TEST_VAL : Z) (address opcode : list Z → Z).
Abbreviation st := (ustate W).
Implicit Types (s : st) (J : res → Prop).

Lemma keeps_single_instance J : keeps J single_instance.
Proof. unfold single_instance. auto 10 with calm. Qed.

Lemma keeps_usage J : keeps (W:=W) J usage.
Proof. unfold usage. auto with calm. Qed.
#[local] Hint Resolve keeps_usage : calm.

Lemma keeps_parse_options J opts size : keeps J (parse_options MIN_BLOCKS opts size).
Proof.
  revert size; induction opts as [|[c optarg] rest IH]; intros size; cbn [parse_options];
    auto 10 with calm.
Qed.

(** How the handling of one array [buf] may stop: it holds a message without a NUL that
    [do_work] takes for a notification and prints. *)
Definition prints_past (buf : list Z) (r : stop) : Prop :=
  r = OutOfBounds ∧ array_member a buf nlmsghdr "nlmsg_type" = NLMSG_DONE ∧
  opcode (drop 16 buf) = OPCODE_NOTIFY ∧ 0 ∉ drop 16 buf.

Lemma ends_do_work m fs h f ad op buffer :
  ends (opened m fs h f) (λ r, r = OutOfBounds ∧ op = OPCODE_NOTIFY ∧ 0 ∉ buffer)
    (do_work BLOCK_SIZE OPCODE_READ OPCODE_WRITE OPCODE_NOTIFY f ad op buffer).
Proof.
  unfold do_work. apply ends_bind; [apply ends_keeps; auto with calm|intros rc].
  destruct (truth rc); [apply ends_keeps; auto with calm|].
  apply ends_bind; [|intros _; apply ends_keeps; auto with calm].
  destruct (op =? OPCODE_READ); [apply ends_keeps; auto with calm|].
  destruct (op =? OPCODE_WRITE); [apply ends_keeps; auto with calm|].
  destruct (Z.eqb_spec op OPCODE_NOTIFY) as [Hop|]; [|apply ends_keeps; auto with calm].
  destruct (c_string buffer) eqn:Hc; [apply ends_keeps; auto with calm|].
  intros s _. cbn. apply c_string_None in Hc. by repeat split.
Qed.

Lemma ends_handle_message m fs h f buf :
  ends (opened m fs h f) (prints_past buf)
    (handle_message a BLOCK_SIZE OPCODE_READ OPCODE_WRITE OPCODE_NOTIFY address opcode f buf).
Proof.
  unfold handle_message. destruct (_ =? NLMSG_ERROR); [apply ends_keeps; auto with calm|].
  destruct (Z.eqb_spec (array_member a buf nlmsghdr "nlmsg_type") NLMSG_DONE) as [Ht|];
    [|apply ends_keeps; auto with calm].
  apply ends_bind; [apply ends_keeps; auto with calm|intros _].
  apply ends_bind; [|intros r; apply ends_keeps; auto with calm].
  eapply ends_mono; [|apply ends_do_work]. intros r (-> & Hop & Hnul). by repeat split.
Qed.

(** The loop stops only at a frame that fills the array with such a message. *)
Definition serve_stop (r : stop) : Prop :=
  ∃ w bytes w', recv_bytes w = (Some bytes, w') ∧ prints_past (receive_buffer 2048 bytes) r.

Lemma ends_serve m fs h f rounds :
  ends (opened m fs h f) serve_stop
    (serve a BLOCK_SIZE OPCODE_READ OPCODE_WRITE OPCODE_NOTIFY address opcode rounds f).
Proof.
  induction rounds as [|n IH]; cbn [serve]; [apply ends_keeps; auto with calm|].
  apply ends_bind; [apply ends_keeps; auto with calm|intros x].
  destruct (truth x); [apply ends_keeps; auto with calm|].
  apply ends_bind; [|intros []; [apply ends_keeps; auto with calm|exact IH]]. unfold serve_round.
  apply ends_bind; [apply ends_keeps; auto with calm|].
  intros []; [apply ends_keeps; auto with calm..|].
  apply ends_uworld. intros w [bytes|] w' Hr; [|apply ends_keeps; auto with calm].
  apply ends_bind; [|intros _; apply ends_keeps; auto with calm].
  eapply ends_mono; [|apply ends_handle_message]. intros r Hp. by exists w, bytes, w'.
Qed.

(** The end of [main]: the socket and the disk are closed. *)
Lemma main_cleanup m fs h f fd s :
  m !! f = None → opened m fs h f (res_of s) →
  ∃ s', (rc ← uworld (close_rc fd);
    when (rc =? -1) (perror "s close") ;; _ ← fclose f; mret (Some EXIT_SUCCESS)) s
    = Ok (Some EXIT_SUCCESS) s' ∧ silent s s' ∧ u_streams s' = m.
Proof.
  intros Hf Hop.
  destruct (keeps_uworld (opened m fs h f) (close_rc fd) s Hop) as (rc & s1 & H1 & Hs1 & Hop1).
  rewrite (bind_ok _ _ _ _ _ H1).
  destruct (keeps_when (opened m fs h f) (rc =? -1) (perror "s close")
    (keeps_perror _ _) s1 Hop1) as (x & s2 & H2 & Hs2 & Hop2). rewrite (bind_ok _ _ _ _ _ H2).
  destruct (fclose_opened m fs h f s2 Hf Hop2) as (y & s3 & H3 & Hs3 & Hm).
  rewrite (bind_ok _ _ _ _ _ H3). exists s3. split; [done|]. split; [|done].
  etrans; [exact Hs1|]. by etrans.
Qed.
End phases.

(** ** Formatting *)
Section formatting.
Context {W : Type} `{!Libc W}.
Context (a : abi) (BLOCK_SIZE : Z).
Abbreviation st := (ustate W).
Abbreviation ptr_bytes := (sizeof_pointer a).
Implicit Types (s : st) (f : positive) (name : string) (h : heap).

(** [s] with the file [name] holding [n] zeros and the stream [f] at its end. *)
Definition zeros (f : positive) (name : string) (n : nat) (h : heap) (w : W) s : st :=
  UState h (<[name := replicate n 0]> (u_files s)) (<[f := Stream name "wb" (Z.of_nat n)]> (u_streams s))
    (Pos.succ f) (need_exit s) (seq s) (errno s) (u_log s) w.

Lemma write_zeros_at_end n k : write_at n (replicate k 0) (replicate n 0) = replicate (n + k) 0.
Proof.
  unfold write_at. rewrite length_replicate, Nat.sub_diag, app_nil_r, take_ge, drop_ge, app_nil_r
    by (rewrite length_replicate; lia). by rewrite replicate_add.
Qed.

Lemma fwrite_zeros b len f name n h w s :
  h_map h !! b = Some (replicate len 0) → 0 <= ptr_bytes <= Z.of_nat len →
  ∃ (j : nat) w', fwrite (Ptr b 0) ptr_bytes f (zeros f name n h w s)
    = Ok (Z.of_nat j) (zeros f name (n + j) h w' s) ∧ Z.of_nat j <= ptr_bytes ∧
      ((∀ m (v : W), m <= (fwrite_takes m v).1) → Z.of_nat j = ptr_bytes).
Proof.
  intros Hb Hlen. unfold fwrite. erewrite bind_ok.
  2: { apply (load_ok (S:=st)); [exact Hb|]. unfold in_bounds. rewrite length_replicate. lia. }
  rewrite drop_0, take_replicate, Nat.min_l by lia. unfold fwrite_bytes.
  erewrite bind_ok; [|unfold get_stream; cbn; rewrite lookup_insert_eq; reflexivity].
  erewrite bind_ok; [|apply uworld_eq]. cbn [u_world zeros].
  destruct (fwrite_takes ptr_bytes w) as [k w'] eqn:Hk. cbn [fst snd].
  erewrite bind_ok; [|reflexivity]. cbv zeta.
  rewrite take_replicate. set (j := (Z.to_nat k `min` Z.to_nat ptr_bytes)%nat).
  exists j, w'. split; [|split; [lia|]].
  2: { intros Hall. specialize (Hall ptr_bytes w). rewrite Hk in Hall. cbn in Hall. lia. }
  cbn [s_mode s_file s_pos]. rewrite decide_False by done.
  do 2 (erewrite bind_ok; [|reflexivity]).
  unfold mret, M_ret. rewrite length_replicate. f_equal. unfold zeros, with_streams, with_files,
    with_uworld. cbn. rewrite lookup_insert_eq, !insert_insert_eq. cbn.
  by rewrite Nat2Z.id, write_zeros_at_end.
Qed.

(** The turns of the loop from [i] on, and whether the library writes all it is given. *)
Definition turns (i size : Z) : Z := (Z.max 0 (size - i) + BLOCK_SIZE - 1) / BLOCK_SIZE.
Definition writes_fully : Prop := ∀ m (w : W), m <= (fwrite_takes m w).1.

Lemma turns_step i size : 0 < BLOCK_SIZE → i < size → turns i size = 1 + turns (i + BLOCK_SIZE) size.
Proof.
  intros HB Hlt. unfold turns. rewrite (Z.max_r 0 (size - i)) by lia.
  replace (size - i + BLOCK_SIZE - 1) with (size - i - 1 + 1 * BLOCK_SIZE) by lia.
  rewrite Z.div_add by lia. rewrite Z.add_comm. f_equal.
  destruct (Z.max_spec 0 (size - (i + BLOCK_SIZE))) as [[_ ->]|[Hm ->]]; [f_equal; lia|].
  rewrite !Z.div_small; lia.
Qed.

Lemma turns_nonneg i size : 0 < BLOCK_SIZE → 0 <= turns i size.
Proof. intros HB. apply Z.div_pos; lia. Qed.

(** The loop ends, and has written at most a pointer's worth in every turn - exactly as much
    when the library writes all it is given - or its counter leaves the range of an [int]. *)
Lemma zero_loop_ends fuel b len f name n h w s i size :
  h_map h !! b = Some (replicate len 0) → 0 <= ptr_bytes <= Z.of_nat len →
  0 < BLOCK_SIZE → (Z.to_nat (size - i) < fuel)%nat →
  wp (zero_loop a BLOCK_SIZE fuel (Ptr b 0) f i size)
    (λ _ s', ∃ (j : nat) w', s' = zeros f name (n + j) h w' s ∧
       Z.of_nat j <= ptr_bytes * turns i size ∧
       (writes_fully → Z.of_nat j = ptr_bytes * turns i size))
    (λ r, r = IntOverflow ∧ 2 ^ 31 < size + BLOCK_SIZE) (zeros f name n h w s).
Proof.
  intros Hb Hlen HB. revert i n w. induction fuel as [|fuel IH]; intros i n w Hfuel; [lia|].
  cbn [zero_loop]. destruct (Z.ltb_spec i size) as [Hlt|Hge].
  - destruct (fwrite_zeros b len f name n h w s Hb Hlen) as (j & w1 & Hw & Hj & Hfull).
    rewrite wp_bind, (wp_ok _ _ _ _ _ _ Hw), turns_step by done.
    destruct (Z.ltb_spec (i + BLOCK_SIZE) (2 ^ 31)) as [_|Hov]; [|apply wp_stop; split; [done|lia]].
    eapply wp_mono; [apply (IH (i + BLOCK_SIZE) (n + j)%nat w1); lia| |done].
    intros _ s' (j2 & w2 & -> & Hj2 & Hf2). exists (j + j2)%nat, w2.
    rewrite Nat.add_assoc. split; [done|]. split; [lia|]. intros Hall.
    specialize (Hf2 Hall). specialize (Hfull Hall). lia.
  - apply wp_ret. exists 0%nat, w. rewrite Nat.add_0_r. split; [done|].
    assert (turns i size = 0) as ->; [|lia]. unfold turns. rewrite Z.max_l by lia.
    apply Z.div_small. lia.
Qed.


(** What a call of [format] can do to the file: nothing, when it cannot be opened or there
    is no memory; a part of the first piece or all of it, when the library writes less or
    the second allocation fails; or a piece for the superblock and what the turns of the
    loop add, in full when the library writes in full.  Only then can it return 1. *)
Definition format_result (filename : string) (size r : Z) s s' : Prop :=
  u_streams s' = u_streams s ∧ (u_next s ≤ u_next s')%positive ∧ u_log s' = u_log s ∧
  ((r = 0 ∧ u_files s' = u_files s) ∨
   (∃ n : nat, u_files s' = <[filename := replicate n 0]> (u_files s) ∧ r = 0 ∧
      Z.of_nat n <= ptr_bytes) ∨
   ∃ n : nat, u_files s' = <[filename := replicate n 0]> (u_files s) ∧ (r = 0 ∨ r = 1) ∧
     ptr_bytes <= Z.of_nat n <= ptr_bytes * (1 + turns BLOCK_SIZE size) ∧
     (writes_fully → Z.of_nat n = ptr_bytes * (1 + turns BLOCK_SIZE size))).

Lemma fclose_zeros f name n h w s :
  u_streams s !! f = None →
  ∃ rc s', fclose f (zeros f name n h w s) = Ok rc s' ∧ u_streams s' = u_streams s ∧
    u_next s' = Pos.succ f ∧ u_log s' = u_log s ∧ u_files s' = <[name := replicate n 0]> (u_files s).
Proof.
  intros Hf. unfold fclose.
  erewrite bind_ok; [|unfold get_stream; cbn; rewrite lookup_insert_eq; reflexivity].
  erewrite bind_ok; [|reflexivity]. rewrite uworld_eq. eexists _, _. split; [reflexivity|].
  cbn. by rewrite delete_insert_id.
Qed.
Lemma fopen_wb_cases name s :
  ∃ w, fopen name "wb" s = Ok None (with_uworld w s) ∨
    fopen name "wb" s = Ok (Some (u_next s)) (zeros (u_next s) name 0 (u_heap s) w s).
Proof.
  exists (fopen_ok name "wb" (u_world s)).2. unfold fopen.
  rewrite (bind_ok _ _ _ _ _ (uworld_eq _ s)).
  destruct (fopen_ok name "wb" (u_world s)).1; [by right|by left].
Qed.

(** The last part of [format], on the open file with [n] zeros. *)
Lemma close_zeros filename size f n h w (r1 : Z → Z) s0 s :
  u_streams s !! f = None → u_streams s = u_streams s0 → u_log s = u_log s0 →
  u_files s = u_files s0 → (u_next s0 ≤ f)%positive → (∀ rc, r1 rc = 0 ∨ r1 rc = 1) →
  ((∀ rc, r1 rc = 0) ∧ Z.of_nat n <= ptr_bytes ∨
   ptr_bytes <= Z.of_nat n <= ptr_bytes * (1 + turns BLOCK_SIZE size) ∧
   (writes_fully → Z.of_nat n = ptr_bytes * (1 + turns BLOCK_SIZE size))) →
  wp (rc ← fclose f; mret (r1 rc)) (λ r s', format_result filename size r s0 s')
    (λ r, r = IntOverflow ∧ 2 ^ 31 < size + BLOCK_SIZE) (zeros f filename n h w s).
Proof.
  intros Hf Hst Hlg Hfi Hnx Hr1 Hn.
  destruct (fclose_zeros f filename n h w s Hf) as (rc & s' & Hcl & Hst' & Hnx' & Hlg' & Hfi').
  rewrite wp_bind, (wp_ok _ _ _ _ _ _ Hcl), wp_ret. split; [by rewrite Hst'|].
  split; [rewrite Hnx'; lia|]. split; [by rewrite Hlg'|]. right. rewrite Hfi' , Hfi.
  destruct Hn as [[H0 Hn]|[Hn Hfull]]; [left|right]; exists n; eauto.
Qed.

Lemma format_ends filename size s :
  x86 a → ptr_bytes <= BLOCK_SIZE → u_streams s !! u_next s = None →
  wp (format a BLOCK_SIZE filename size) (λ r s', format_result filename size r s s')
    (λ r, r = IntOverflow ∧ 2 ^ 31 < size + BLOCK_SIZE) s.
Proof.
  intros Ha HB Hfresh. unfold format.
  assert (0 < ptr_bytes <= sizeof_superblock a) as Hp
    by (destruct Ha as [-> | ->]; vm_compute; split; congruence).
  destruct (calloc_cases (sizeof_superblock a) s) as [w [Hc|Hc]];
    rewrite wp_bind, (wp_ok _ _ _ _ _ _ Hc); cbn [is_null]; [by repeat split; [|left]|].
  set (h1 := heap_alloc _ (u_heap s)). set (s1 := with_uheap h1 (with_uworld w s)).
  destruct (fopen_wb_cases filename s1) as [w1 [Ho|Ho]]; rewrite wp_bind, (wp_ok _ _ _ _ _ _ Ho);
    [by repeat split; [|left]|].
  set (f := u_next s1). change (u_heap s1) with h1.
  assert (u_streams s1 !! f = None) as Hf by done.
  destruct (fwrite_zeros (h_next (u_heap s)) (Z.to_nat (sizeof_superblock a)) f filename 0 h1 w1 s1)
    as (j & w2 & Hw & Hj & Hjf); [apply heap_alloc_lookup|lia|].
  rewrite wp_bind, (wp_ok _ _ _ _ _ _ Hw). cbn [Nat.add].
  destruct (Z.eqb_spec (Z.of_nat j) ptr_bytes) as [Hfull|Hpart]; cbn [negb];
    [|by apply (close_zeros filename size f j h1 w2 (λ _, 0) s s1); eauto].
  destruct (calloc_cases BLOCK_SIZE (zeros f filename j h1 w2 s1)) as [w3 [Hz|Hz]];
    rewrite wp_bind, (wp_ok _ _ _ _ _ _ Hz); cbn [is_null];
    [apply (close_zeros filename size f j h1 w3 (λ _, 0) s s1); try done; left; split; [done|lia]|].
  set (h2 := heap_alloc _ _) in Hz |- *. change (with_uheap h2 _) with (zeros f filename j h2 w3 s1).
  rewrite wp_bind. eapply wp_mono; [apply (zero_loop_ends (S (Z.to_nat size)) (h_next h1) (Z.to_nat BLOCK_SIZE) f filename
    j h2 w3 s1 BLOCK_SIZE size); [apply heap_alloc_lookup|lia..]| |done].
  intros _ s2 (k & w4 & -> & Hk & Hkf).
  apply (close_zeros filename size f (j + k) h2 w4 (λ rc, if truth rc then 0 else 1) s s1); try done.
  - intros rc. destruct (truth rc); auto.
  - right. split; [lia|]. intros Hall. specialize (Hkf Hall). lia.
Qed.
End formatting.

(** ** Starting up *)
Section starting.
Context {W : Type} `{!Libc W}.
Context (a : abi) (BLOCK_SIZE MIN_BLOCKS : Z) (CN_TEST_IDX CN_TEST_VAL : Z).
Abbreviation st := (ustate W).
Implicit Types (s : st).

(** The size that comes out of the options is one that was given to them. *)
Lemma parse_options_size opts size s n s' :
  parse_options MIN_BLOCKS opts size s = Ok (Some n) s' →
  n = size ∨ Exists (λ o, n = s32 (strtol10 o.2).1) opts.
Proof.
  revert size s; induction opts as [|[c optarg] rest IH]; intros size s; cbn.
  { intros [= -> _]. by left. }
  destruct (c =? 110).
  - intros (? & s1 & _ & Hk)%bind_inv. apply bind_inv in Hk as (e & s2 & _ & Hk).
    destruct (_ || _).
    + apply bind_inv in Hk as (? & ? & _ & Hk). discriminate Hk.
    + right. apply IH in Hk as [->|Hrest]; [by constructor|by apply Exists_cons_tl].
  - intros (? & s1 & _ & Hk)%bind_inv. discriminate Hk.
Qed.

(** Preparing the disk opens one stream more, or leaves the table alone. *)
Lemma prepare_disk_ends filename size s :
  x86 a → sizeof_pointer a <= BLOCK_SIZE → streams_wf s →
  wp (prepare_disk a BLOCK_SIZE filename size)
    (λ o s', silent s s' ∧
       match o with
       | None => u_streams s' = u_streams s
       | Some f => u_streams s !! f = None ∧
           opened (u_streams s) (u_files s') (u_heap s') f (res_of s')
       end)
    (λ r, r = IntOverflow ∧ 2 ^ 31 < size + BLOCK_SIZE ∧ size ≠ 0) s.
Proof.
  intros Ha HB Hwf. unfold prepare_disk. rewrite wp_bind.
  eapply wp_mono with (Q := λ _ s1, silent s s1 ∧ u_streams s1 = u_streams s ∧ streams_wf s1);
    [| |intros r Hr; exact Hr].
  { unfold truth. destruct (Z.eqb_spec size 0) as [|Hne]; cbn; [done|].
    eapply wp_mono; [apply format_ends; [done|done|by apply streams_wf_fresh]| |by intros r [-> ?]].
    intros r s1 (Hst & Hnx & Hlg & _). split; [by apply silent_same|].
    split; [done|by apply (streams_wf_grow s)]. }
  intros r s1 (H1 & Hst & Hwf1). destruct (r =? 0).
  { rewrite wp_bind. split; [|done]. etrans; [exact H1|]. by eapply silent_one. }
  rewrite <-Hst. destruct (fopen_cases filename "a+b" s1) as [(s2 & Ho & H2 & Hst2 & _)|(s2 & Ho & H2 & Hop)];
    rewrite wp_bind, (wp_ok _ _ _ _ _ _ Ho).
  - rewrite wp_bind. split; [|done]. etrans; [exact H1|]. etrans; [exact H2|]. by eapply silent_one.
  - split; [by etrans|]. split; [by apply streams_wf_fresh|done].
Qed.

(** Opening the socket keeps the disk open, or closes it. *)
Lemma open_socket_ends m fs h f s :
  m !! f = None → opened m fs h f (res_of s) →
  ∃ o s', open_socket CN_TEST_IDX CN_TEST_VAL f s = Ok o s' ∧ silent s s' ∧
    match o with None => u_streams s' = m | Some _ => opened m fs h f (res_of s') end.
Proof.
  intros Hf Hop.
  assert (∀ s1, silent s s1 → opened m fs h f (res_of s1) → ∃ s',
    (_ ← fclose f; mret (None : option Z)) s1 = Ok None s' ∧ silent s s' ∧ u_streams s' = m) as Hgive_up.
  { intros s1 H1 Ho1. destruct (fclose_opened m fs h f s1 Hf Ho1) as (rc & s2 & Hcl & H2 & Hst).
    rewrite (bind_ok _ _ _ _ _ Hcl). exists s2. split; [done|]. split; [by etrans|done]. }
  unfold open_socket. rewrite (bind_ok _ _ _ _ _ (uworld_eq _ s)).
  destruct (_ =? -1).
  { erewrite bind_ok; [|reflexivity].
    edestruct Hgive_up as (s2 & Hcl & H2 & Hst); [| |exists None, s2; by rewrite Hcl].
    - by eapply silent_one.
    - done. }
  erewrite bind_ok; [|reflexivity]. rewrite (bind_ok _ _ _ _ _ (uworld_eq _ _)).
  destruct (_ =? -1).
  - erewrite bind_ok; [|reflexivity]. rewrite (bind_ok _ _ _ _ _ (uworld_eq _ _)).
    edestruct Hgive_up as (s2 & Hcl & H2 & Hst); [| |exists None, s2; by rewrite Hcl].
    + eexists. split; [cbn; by rewrite <-app_assoc|]. by repeat constructor.
    + done.
  - eexists (Some _), _. split; [reflexivity|]. split; [by eapply silent_one|done].
Qed.
End starting.

(** ** Properties *)
Section user_properties.
Context {W : Type} `{!Libc W}.
Context (a : abi) (BLOCK_SIZE MIN_BLOCKS OPCODE_READ OPCODE_WRITE OPCODE_NOTIFY : Z).
Context (CN_TEST_IDX CN_TEST_VAL : Z) (address opcode : list Z → Z).
Abbreviation st := (ustate W).
Implicit Types (s : st).

(** C26: The helper never replies.  Whatever options it is given, whatever its library
    calls return and whatever arrives on the socket, for as many turns of its loop as one
    likes: as long as it runs the program sends nothing, and if it ends, its status is
    [EXIT_SUCCESS] or [EXIT_FAILURE] and the disk is closed.  It can fault in two ways only.
    A frame fills the rest of the array with a message that holds no NUL and that [do_work]
    takes for a notification: [%s] reads past the array.  Or an option [-n] gives a size
    so near to the largest [int] that the counter of [format] leaves its range. *)
Theorem main_never_replies (s : st) (rounds : nat) (opts : list (Z * string))
    (argv_file : option string) :
  x86 a → sizeof_pointer a <= BLOCK_SIZE → streams_wf s →
  match main a BLOCK_SIZE MIN_BLOCKS OPCODE_READ OPCODE_WRITE OPCODE_NOTIFY CN_TEST_IDX
      CN_TEST_VAL address opcode rounds opts argv_file s with
  | Ok r s' => silent s s' ∧
      (r = None ∨ (r = Some EXIT_SUCCESS ∨ r = Some EXIT_FAILURE) ∧ u_streams s' = u_streams s)
  | Stop OutOfBounds => ∃ w bytes w', recv_bytes w = (Some bytes, w') ∧
      let buf := receive_buffer 2048 bytes in
      array_member a buf nlmsghdr "nlmsg_type" = NLMSG_DONE ∧
      opcode (drop 16 buf) = OPCODE_NOTIFY ∧ 0 ∉ drop 16 buf
  | Stop IntOverflow =>
      Exists (λ o, 2 ^ 31 < s32 (strtol10 o.2).1 + BLOCK_SIZE) opts
  | Stop _ => False
  end.
Proof.
  intros Ha HB Hwf.
  enough (wp (main a BLOCK_SIZE MIN_BLOCKS OPCODE_READ OPCODE_WRITE OPCODE_NOTIFY CN_TEST_IDX
      CN_TEST_VAL address opcode rounds opts argv_file)
    (λ r s', silent s s' ∧
       (r = None ∨ (r = Some EXIT_SUCCESS ∨ r = Some EXIT_FAILURE) ∧ u_streams s' = u_streams s))
    (λ r, serve_stop a OPCODE_NOTIFY opcode r ∨
       r = IntOverflow ∧ Exists (λ o, 2 ^ 31 < s32 (strtol10 o.2).1 + BLOCK_SIZE) opts) s) as Hmain.
  { unfold wp in Hmain. destruct (main _ _ _ _ _ _ _ _ _ _ _ _ _ s) as [|r]; [done|].
    destruct Hmain as [(w & bytes & w' & Hr & -> & Hp)|[-> Ho]]; [by exists w, bytes, w'|done]. }
  unfold main.
  set (J r := r_streams r = u_streams s ∧ r_next r = u_next s).
  destruct (keeps_single_instance J s) as (alone & s1 & H1 & Hs1 & Hm1 & Hn1); [done|].
  rewrite wp_bind, (wp_ok _ _ _ _ _ _ H1). destruct alone; cbn [negb]; [|by split; eauto].
  destruct (keeps_parse_options MIN_BLOCKS J opts 0 s1) as (size & s2 & H2 & Hs2 & Hm2 & Hn2); [done|].
  cbn in Hm2, Hn2. rewrite wp_bind, (wp_ok _ _ _ _ _ _ H2).
  assert (silent s s2) as H02 by by etrans. destruct size as [size|]; [|by split; eauto].
  destruct argv_file as [filename|].
  2: { destruct (keeps_usage J s2) as (x & s3 & H3 & Hs3 & Hm3 & Hn3); [done|].
       rewrite wp_bind, (wp_ok _ _ _ _ _ _ H3). split; [by etrans|by eauto]. }
  rewrite wp_bind.
  eapply wp_mono; [apply prepare_disk_ends; [done|done|by apply (streams_wf_grow s); rewrite ?Hn2]| |].
  2: { intros r (-> & Hbig & Hne). right. split; [done|].
       apply parse_options_size in H2 as [|Hex]; [done|].
       eapply Exists_impl; [exact Hex|]. by intros o <-. }
  rewrite Hm2. intros [f|] s3 [Hs3 Hdisk]; assert (silent s s3) as H03 by (by etrans);
    [|by split; eauto]. destruct Hdisk as [Hf Hop].
  destruct (open_socket_ends CN_TEST_IDX CN_TEST_VAL _ _ _ f s3 Hf Hop) as (o & s4 & H4 & Hs4 & Hsock).
  assert (silent s s4) as H04 by by etrans.
  rewrite wp_bind, (wp_ok _ _ _ _ _ _ H4). destruct o as [fd|]; [|by split; eauto].
  rewrite wp_bind. eapply wp_mono; [by eapply ends_serve| |by left].
  intros ended s5 [Hs5 Hop5]. assert (silent s s5) as H05 by by etrans.
  destruct ended; [|by split; eauto].
  destruct (main_cleanup _ _ _ f fd s5 Hf Hop5) as (s6 & H6 & Hs6 & Hm6).
  rewrite (wp_ok _ _ _ _ _ _ H6). split; [by etrans|by eauto].
Qed.

End user_properties.

(** ** Witnesses *)

(** A read request for block 5 as the kernel module sends it, in its frame. *)
Definition request_packet : list Z :=
  encode_struct LP64 nlmsghdr [[41]; [NLMSG_DONE]; [0]; [9]; [0]] ++
  encode_struct LP64 cn_msg_t [[14]; [1110]; [9]; [0]; [3]; [0]] ++ [0; 53; 0].

Lemma main_never_replies_witness :
  match main LP64 1024 6 0 1 2 14 1110 (λ _, 0) (λ _, 0) 9 [(110, "2048")] (Some "disk")
      (user_start (Script [1; 0] [request_packet])) with
  | Ok r s' => silent (user_start (Script [1; 0] [request_packet])) s' ∧
      (r = None ∨ (r = Some EXIT_SUCCESS ∨ r = Some EXIT_FAILURE) ∧ u_streams s' = ∅)
  | Stop _ => False
  end.
Proof.
  pose proof (main_never_replies LP64 1024 6 0 1 2 14 1110 (λ _, 0) (λ _, 0)
    (user_start (Script [1; 0] [request_packet])) 9 [(110, "2048")] (Some "disk")
    (or_introl eq_refl) ltac:(by vm_compute) (user_start_wf _)) as Hmain.
  assert (∃ r s', main LP64 1024 6 0 1 2 14 1110 (λ _, 0) (λ _, 0) 9 [(110, "2048")] (Some "disk")
      (user_start (Script [1; 0] [request_packet])) = Ok r s') as (r & s' & Hrun)
    by (eexists _, _; vm_compute; reflexivity).
  rewrite Hrun in Hmain |- *. exact Hmain.
Defined.

(** The two faults: a notification that fills the array, and a disk too large to count. *)
Definition full_packet : list Z :=
  encode_struct LP64 nlmsghdr [[2048]; [NLMSG_DONE]; [0]; [9]; [0]] ++ replicate 2032 65.

Example main_overreads :
  main LP64 1024 6 0 1 2 14 1110 (λ _, 0) (λ _, 2) 9 [] (Some "disk")
    (user_start (Script [1; 0] [full_packet])) = Stop OutOfBounds.
Proof. by vm_compute. Qed.

Example loop_overflows :
  zero_loop (W:=script) LP64 (2 ^ 30) 9 (Ptr 1 0) 1 (2 ^ 30) (2 ^ 31 - 1)
    (UState (heap_alloc (replicate 8 0) empty_heap) ∅ {[1%positive := Stream "disk" "wb" 0]} 2 0 41 0 []
       (Script [] []))
  = Stop IntOverflow.
Proof. by vm_compute. Qed.

(** That run formats the disk, takes the request, and ends when [poll] returns 0. *)
Example main_run :
  ∃ s', main LP64 1024 6 0 1 2 14 1110 (λ _, 0) (λ _, 0) 9 [(110, "2049")] (Some "disk")
      (user_start (Script [1; 0] [request_packet])) = Ok (Some EXIT_SUCCESS) s' ∧
    u_files s' = {["disk" := replicate 24 0]} ∧
    u_log s' = [UPrintf "subscribing to %u.%u" [PInt 14; PInt 1110];
      UPrintf "[%x.%x] [%08u.%08u]." [PInt 14; PInt 1110; PInt 9; PInt 0]].
Proof. eexists. split; [vm_compute; reflexivity|]. by split; vm_compute. Qed.

