(* ===== verification/PlanAHelper.v ===== *)
(** * The user-space helper of plan A ([backup_plans/a/sjfs_helper.c])

    [do_work] serves a request packet of [PlanA] from a file named after the inode;
    [main] is the receive loop.  The C library and [netlink_send] are in [Userland]
    (here with an array of 128 bytes).  In [main] the call of [do_work] stands after
    the [break] of its case, so that it is never made; the model has it nowhere. *)
From S2P Require Import Prelude CLayout Blocks Memory Kernel Userland PlanA.

Module Helper.
Section program.
Context {W : Type} `{!Libc W}.
Context (a : abi) (DEBUG : bool) (CN_TEST_IDX : Z).
Abbreviation st := (ustate W).

(** The macro that prints when [DEBUG] is defined. *)
Definition ulog (fmt : string) (args : list printk_arg) : M st unit := when DEBUG (printf fmt args).

Definition CN_TEST_VAL : Z := 0x456.
Definition sizeof_response : Z := Z.of_nat (sizeof a PlanA.sjfs_response_packet_t).

(** Conversion to [size_t]. *)
Definition size_t (n : Z) : Z := wrap (8 * Z.of_nat (long_size a)) n.

(** ["/tmp/" + inode]: the string from a place in the literal on; [None] past it. *)
Definition tmp_path (inode : Z) : option string :=
  if (0 <=? inode) && (inode <=? 5) then Some (String.substring (Z.to_nat inode) 5 "/tmp/") else None.

(** [netlink_send], the text of [main.c] over an array of 128 bytes, [buf]. *)
Definition netlink_send : list Z → ptr → M st Z := netlink_send_with a ulog.

(** The case [SJFS_OPCODE_READ]; [msg + n] is [n] whole [struct cn_msg]s further on. *)
Definition reply (buf : list Z) (count : Z) (fd : positive) : M st unit :=
  msg ← calloc (size_t (sizeof_cn_msg + sizeof_response + count));
  store_member a msg cn_msg_t "idx" CN_TEST_IDX ;;
  store_member a msg cn_msg_t "val" CN_TEST_VAL ;;
  n ← gets seq;
  modify (with_seq (u32 (n + 1))) ;;
  store_member a msg cn_msg_t "seq" n ;;
  store_member a msg cn_msg_t "ack" 0 ;;
  store_member a msg cn_msg_t "len" (u16 (sizeof_cn_msg + sizeof_response + count)) ;;
  out_packet ← calloc sizeof_response;
  store_member a out_packet PlanA.sjfs_response_packet_t "count" count ;;
  memcpy (ptr_add msg (sizeof_cn_msg * sizeof_cn_msg)) out_packet sizeof_response ;;
  _ ← fread (ptr_add msg ((sizeof_cn_msg + sizeof_response) * sizeof_cn_msg)) (size_t count) fd;
  _ ← netlink_send buf msg;
  mret tt.

(** [buffer] is the rest of the receive array from the packet on. *)
Definition packet_member (buffer : list Z) (name : string) : Z :=
  array_member a buffer PlanA.sjfs_request_packet_t name.

(** The case [SJFS_OPCODE_WRITE] *)
Definition write_data (buffer : list Z) (count : Z) (fd : positive) : M st unit :=
  bs ← load_array (drop (sizeof a PlanA.sjfs_request_packet_t) buffer) (size_t count);
  _ ← fwrite_bytes bs (size_t count) fd;
  mret tt.

Definition do_work (buf buffer : list Z) : M st unit :=
  let count := swrap 64 (packet_member buffer "count") in
  path ← from_option_stop OutOfBounds (tmp_path (packet_member buffer "inode"));
  fd ← fopen path "wb";
  match fd with
  | None => mret tt
  | Some fd =>
      rc ← fseek fd count;
      if negb (truth rc) then mret tt else
      let opcode := packet_member buffer "opcode" in
      (if opcode =? PlanA.SJFS_OPCODE_READ then reply buf count fd
       else if opcode =? PlanA.SJFS_OPCODE_WRITE then write_data buffer count fd
       else mret tt) ;;
      _ ← fclose fd;
      mret tt
  end.

(** ** [main] *)
Definition handle_message (buf : list Z) : M st unit :=
  let type := array_member a buf nlmsghdr "nlmsg_type" in
  if type =? NLMSG_ERROR then printf "Error message received." []
  else if type =? NLMSG_DONE then
    let data := drop (Z.to_nat NLMSG_HDRLEN) buf in
    let member name := PInt (array_member a data cn_msg_t name) in
    printf "[%x.%x] [%08u.%08u]." [member "idx"; member "val"; member "seq"; member "ack"]
  else mret tt.

(** One turn of the loop: the exit status when [main] returns from inside it, and
    whether the loop is left. *)
Definition serve_round (s : Z) : M st (Z + bool) :=
  t ← poll_turn;
  match t with
  | Again => mret (inr false)
  | Leave => mret (inr true)
  | Receive =>
      len ← uworld recv_bytes;
      match len with
      | None => perror "recv buf" ;; _ ← uworld (close_rc s); mret (inl (-1))
      | Some bytes => handle_message (receive_buffer 65536 bytes) ;; mret (inr false)
      end
  end.

(** At most [rounds] turns, then the end of [main]; [None] when still serving. *)
Fixpoint serve (rounds : nat) (s : Z) : M st (option Z) :=
  x ← gets need_exit;
  if truth x then _ ← uworld (close_rc s); mret (Some 0) else
  match rounds with
  | O => mret None
  | S n =>
      r ← serve_round s;
      match r with
      | inl status => mret (Some status)
      | inr true => _ ← uworld (close_rc s); mret (Some 0)
      | inr false => serve n s
      end
  end.

Definition main (rounds : nat) : M st (option Z) :=
  s ← uworld socket_fd;
  if s =? -1 then perror "socket" ;; mret (Some (-1)) else
  ulog "subscribing to %u.%u" [PInt CN_TEST_IDX; PInt CN_TEST_VAL] ;;
  rc ← uworld (bind_rc s);
  if rc =? -1 then perror "bind" ;; _ ← uworld (close_rc s); mret (Some (-1)) else
  serve rounds s.
End program.

(** ** Lemmas *)


Section helper_lemmas.
Context {W : Type} `{!Libc W}.
Context (a : abi) (DEBUG : bool) (CN_TEST_IDX : Z).
Abbreviation st := (ustate W).
Implicit Types (s : st).

Lemma keeps_helper_serve J rounds sock : keeps (W:=W) J (serve a rounds sock).
Proof.
  induction rounds as [|n IH]; cbn [serve]; [auto 10 with calm|].
  apply keeps_bind; [auto with calm|intros x]. apply keeps_if; [auto 10 with calm|].
  apply keeps_bind; [|intros [?|[]]; auto 10 with calm]. unfold serve_round.
  apply keeps_bind; [auto with calm|]. intros []; [auto with calm..|].
  apply keeps_bind; [auto with calm|]. intros [bytes|]; [|auto 10 with calm].
  apply keeps_bind; [|auto with calm]. unfold handle_message. auto 10 with calm.
Qed.

Lemma keeps_debug J fmt args : keeps (W:=W) J (ulog DEBUG fmt args).
Proof. unfold ulog. auto with calm. Qed.
#[local] Hint Resolve keeps_debug : calm.

Lemma keeps_helper_main J rounds : keeps (W:=W) J (main a DEBUG CN_TEST_IDX rounds).
Proof.
  unfold main. apply keeps_bind; [auto with calm|intros s]. apply keeps_if; [auto with calm|].
  do 2 (apply keeps_bind; [auto with calm|intros ?]). apply keeps_if; [auto 10 with calm|].
  apply keeps_helper_serve.
Qed.















End helper_lemmas.

(** ** Properties *)
Section helper_properties.
Context {W : Type} `{!Libc W}.
Context (a : abi) (DEBUG : bool) (CN_TEST_IDX : Z).
Abbreviation st := (ustate W).
Implicit Types (s : st).

Definition exit_status (r : option Z) : Prop := r = None ∨ r = Some 0 ∨ r = Some (-1).

Lemma serve_status rounds sock s r s' :
  serve a rounds sock s = Ok r s' → exit_status r.
Proof.
  revert s; induction rounds as [|n IH]; intros s; cbn [serve];
    intros (x & s1 & _ & Hk)%bind_inv; destruct (truth x).
  1,3: apply bind_inv in Hk as (? & ? & _ & [= <- _]); by right; left.
  - injection Hk as <- _. by left.
  - apply bind_inv in Hk as (t & s2 & Ht & Hk). destruct t as [status|[]].
    + injection Hk as <- _. right; right. revert Ht. unfold serve_round.
      intros (t & s3 & _ & Ht)%bind_inv. destruct t; [discriminate Ht..|].
      apply bind_inv in Ht as ([bytes|] & s4 & _ & Ht); apply bind_inv in Ht as (? & s5 & _ & Ht).
      * discriminate Ht.
      * apply bind_inv in Ht as (? & s6 & _ & Ht). by injection Ht as <- _.
    + apply bind_inv in Hk as (? & ? & _ & [= <- _]). by right; left.
    + by apply (IH s2).
Qed.

(** C31: The helper of plan A never serves.  Whatever its library calls return and
    whatever arrives, for any number of turns of its loop, it runs without fault,
    sends nothing, opens and writes no file and allocates nothing; if it ends its
    status is 0, or -1 after an error. *)
Theorem helper_never_serves (s : st) (rounds : nat) :
  ∃ r s', main a DEBUG CN_TEST_IDX rounds s = Ok r s' ∧ silent s s' ∧ res_of s' = res_of s ∧
    exit_status r.
Proof.
  destruct (keeps_helper_main a DEBUG CN_TEST_IDX (λ x, x = res_of s) rounds s eq_refl)
    as (r & s' & Hrun & Hs & Hres).
  exists r, s'. split; [done|]. split; [done|]. split; [done|].
  revert Hrun. unfold main. intros (sock & s1 & _ & Hk)%bind_inv. destruct (sock =? -1).
  { apply bind_inv in Hk as (? & ? & _ & [= <- _]). by right; right. }
  apply bind_inv in Hk as (? & s2 & _ & Hk). apply bind_inv in Hk as (rc & s3 & _ & Hk).
  destruct (rc =? -1); [|by eapply serve_status].
  apply bind_inv in Hk as (? & s4 & _ & Hk). apply bind_inv in Hk as (? & ? & _ & [= <- _]).
  by right; right.
Qed.

End helper_properties.

(** ** Witness *)


Inductive no_seek : Type := NoSeek.
#[export] Instance no_seek_libc : Libc no_seek := {|
  pid := 1; strerror _ := "error"; strtol10 _ := (0, false);
  calloc_ok _ w := (true, w); fopen_ok _ _ w := (true, w); fwrite_takes n w := (n, w);
  fread_takes n w := (n, w); fclose_rc w := (0, w); fseek_rc _ w := (-1, w);
  open_fd _ w := (3, w); flock_rc _ w := ((0, 0), w); socket_fd w := (4, w);
  bind_rc _ w := (0, w); poll_rc w := ((0, 0), w); recv_bytes w := (None, w);
  send_rc _ w := ((0, 0), w); close_rc _ w := (0, w) |}.


(** The same request for inode 9: its name would start behind the literal. *)
Example do_work_past_literal :
  do_work LP64 false 14 (replicate 128 0)
    (encode_struct LP64 PlanA.sjfs_request_packet_t [[PlanA.SJFS_OPCODE_WRITE]; [9]; [0]; [3]])
    (UState empty_heap ∅ ∅ 1 0 0 0 [] NoSeek) = Stop OutOfBounds.
Proof. by vm_compute. Qed.
End Helper.
