(* ===== verification/System.v ===== *)
(** * Kernel module and user-space program together

    The kernel modules leave what happens on the connector to the class [Connector],
    the user-space programs leave what arrives on their socket to the class [Libc].
    Here each is the other's environment: a message the module hands to the connector
    is queued at the program's socket; while a thread of the module sleeps the program
    runs its receive loop until the queue is empty; and every frame it sends meanwhile
    comes back as a callback.  A program that faults counts as having sent nothing: its
    turns are made of code that has no send in it.  The connector itself - how it wraps
    a message into a frame and what it makes of one - is two arguments, [wire] and
    [unwire].

    With the programs of the repository no callback ever comes, whatever their library
    calls return: a read, and so a mount, sleeps for ever. *)
From S2P Require Import Prelude CLayout Blocks Memory Kernel Env Connector Protocol DiskStructs Vfs Super.
From S2P Require Import Userland UserApp RamInodes PlanA PlanAHelper.

(** ** The closed system *)

(** The socket of the program: the frames that have arrived; [ue_lib] is the state of
    the rest of the C library. *)
Record uenv (L : Type) : Type := UEnv { ue_lib : L; ue_queue : list (list Z) }.
Arguments UEnv {L}.
Arguments ue_lib {L}.
Arguments ue_queue {L}.

Section uenv.
Context {L : Type} `{!Libc L}.

Definition in_lib {A} (f : L → A * L) (w : uenv L) : A * uenv L :=
  ((f (ue_lib w)).1, UEnv (f (ue_lib w)).2 (ue_queue w)).

(** [poll] reports a frame that has arrived and [recv] takes the oldest. *)
#[export] Instance uenv_libc : Libc (uenv L) := {|
  pid := pid;
  strerror := strerror;
  strtol10 := strtol10;
  calloc_ok n := in_lib (calloc_ok n);
  fopen_ok name mode := in_lib (fopen_ok name mode);
  fwrite_takes n := in_lib (fwrite_takes n);
  fclose_rc := in_lib fclose_rc;
  fseek_rc off := in_lib (fseek_rc off);
  fread_takes n := in_lib (fread_takes n);
  open_fd name := in_lib (open_fd name);
  flock_rc fd := in_lib (flock_rc fd);
  socket_fd := in_lib socket_fd;
  bind_rc fd := in_lib (bind_rc fd);
  poll_rc w := match ue_queue w with [] => in_lib poll_rc w | _ :: _ => ((1, 0), w) end;
  recv_bytes w :=
    match ue_queue w with
    | [] => in_lib recv_bytes w
    | bs :: q => (Some bs, UEnv (ue_lib w) q)
    end;
  send_rc bs := in_lib (send_rc bs);
  close_rc fd := in_lib (close_rc fd) |}.
End uenv.

(** The environment of the module: the rest of the kernel, and the program. *)
Record closed (K L : Type) : Type := Closed { cl_kernel : K; cl_user : ustate (uenv L) }.
Arguments Closed {K L}.
Arguments cl_kernel {K L}.
Arguments cl_user {K L}.

(** The frames sent between two states of the program. *)
Definition sent_frames (l : list uevent) : list (list Z) :=
  omap (λ e, match e with USend bs => Some bs | _ => None end) l.
Definition frames_since {W} (u u' : ustate W) : list (list Z) :=
  sent_frames (drop (length (u_log u)) (u_log u')).

Section closed.
Context {K L A : Type} `{!Libc L}.
Context (prog : nat → M (ustate (uenv L)) A).
Context (wire : list Z → list Z) (unwire : list Z → option cn_msg).
Implicit Types (w : closed K L).

Definition in_kernel {B} (f : K → B * K) w : B * closed K L :=
  ((f (cl_kernel w)).1, Closed (f (cl_kernel w)).2 (cl_user w)).

#[export] Instance closed_allocator `{!Allocator K} : Allocator (closed K L) := {|
  k_malloc n := in_kernel (k_malloc n) |}.
#[export] Instance closed_clock `{!Clock K} : Clock (closed K L) := {|
  CURRENT_TIME := in_kernel CURRENT_TIME |}.
#[export] Instance closed_vfs `{!Vfs K} : Vfs (closed K L) := {|
  new_inode sb := in_kernel (new_inode sb);
  get_next_ino := in_kernel get_next_ino;
  inode_init_owner := inode_init_owner;
  inc_nlink := inc_nlink;
  set_nlink := set_nlink;
  i_uid_write := i_uid_write;
  i_gid_write := i_gid_write;
  i_size_write := i_size_write;
  init_special_inode := init_special_inode;
  d_instantiate d i w := Closed (d_instantiate d i (cl_kernel w)) (cl_user w);
  dget d w := Closed (dget d (cl_kernel w)) (cl_user w);
  d_inode d w := d_inode d (cl_kernel w);
  d_name d w := d_name d (cl_kernel w);
  mapping_set_gfp_mask i w := Closed (mapping_set_gfp_mask i (cl_kernel w)) (cl_user w);
  mapping_set_unevictable i w := Closed (mapping_set_unevictable i (cl_kernel w)) (cl_user w);
  d_make_root i := in_kernel (d_make_root i);
  kernel_call name args m w :=
    let r := kernel_call name args m (cl_kernel w) in (r.1, (r.2.1, Closed r.2.2 (cl_user w))) |}.
#[export] Instance closed_user_copy `{!UserCopy K} : UserCopy (closed K L) := {|
  copy_from_user from n := in_kernel (copy_from_user from n);
  copy_to_user to bs := in_kernel (copy_to_user to bs) |}.

(** A message for the program's socket. *)
Definition post (bs : list Z) (u : ustate (uenv L)) : ustate (uenv L) :=
  with_uworld (UEnv (ue_lib (u_world u)) (ue_queue (u_world u) ++ [bs])) u.

(** The program runs while the module sleeps, one turn of its loop for every frame
    that waits; of one that crashes in them nothing comes back. *)
Definition closed_deliver w : list cn_msg * closed K L :=
  match prog (length (ue_queue (u_world (cl_user w)))) (cl_user w) with
  | Ok _ u => (omap unwire (frames_since (cl_user w) u), Closed (cl_kernel w) u)
  | Stop _ => ([], w)
  end.

Definition closed_connector `{!Connector K} : Connector (closed K L) := {|
  CN_NETLINK_USERS := CN_NETLINK_USERS;
  cn_netlink_send bs w :=
    let r := cn_netlink_send bs (cl_kernel w) in
    (r.1, Closed r.2 (post (wire bs) (cl_user w)));
  cn_deliver := closed_deliver;
  cn_add_callback id name := in_kernel (cn_add_callback id name);
  cn_del_callback id w := Closed (cn_del_callback id (cl_kernel w)) (cl_user w) |}.
End closed.

(** ** Programs that send nothing *)
Section mute.
Context {W : Type}.
Abbreviation st := (ustate W).
Implicit Types (s : st).

(** Whatever state it is started in, if the computation ends it has sent nothing. *)
Definition mute {A} (m : M st A) : Prop := ∀ s,
  match m s with Ok _ s' => silent s s' | Stop _ => True end.

Lemma mute_keeps {A} (m : M st A) : keeps (λ _, True) m → mute m.
Proof. intros Hm s. by destruct (Hm s I) as (x & s' & -> & Hs & _). Qed.

Lemma mute_bind {A B} (m : M st A) (k : A → M st B) : mute m → (∀ x, mute (k x)) → mute (m ≫= k).
Proof.
  intros Hm Hk s. unfold mbind, M_bind. specialize (Hm s). destruct (m s) as [x s1|]; [|done].
  specialize (Hk x s1). destruct (k x s1); [by etrans|done].
Qed.
Lemma mute_if {A} (b : bool) (m n : M st A) : mute m → mute n → mute (if b then m else n).
Proof. by destruct b. Qed.
Lemma mute_when b m : mute m → mute (when b m).
Proof. destruct b; [done|]. intros _. apply mute_keeps, keeps_ret. Qed.
Lemma mute_stop {A} r : mute (stop_with r : M st A).
Proof. by intros s. Qed.
Lemma mute_option {A B} (o : option A) (m : A → M st B) n :
  (∀ x, mute (m x)) → mute n → mute (match o with Some x => m x | None => n end).
Proof. by destruct o. Qed.
Lemma mute_get_stream f : mute (get_stream f).
Proof. intros s. unfold get_stream. destruct (_ !! f); [apply silent_refl|done]. Qed.
Lemma mute_set_stream f x : mute (set_stream f x).
Proof. intros s. by apply silent_same. Qed.

Lemma mute_frames {A} (m : M st A) x s s' : mute m → m s = Ok x s' → frames_since s s' = [].
Proof.
  intros Hm Hrun. specialize (Hm s). rewrite Hrun in Hm. destruct Hm as (l & Hl & Hns).
  unfold frames_since. rewrite Hl, drop_app_length. clear Hl.
  induction Hns as [|e l He _ IH]; [done|]. by destruct e.
Qed.
End mute.

Create HintDb mute.
#[export] Hint Resolve mute_if mute_when mute_stop mute_option mute_get_stream mute_set_stream : mute.
#[export] Hint Extern 1 (mute (_ ≫= _)) => apply mute_bind; [|intros] : mute.
#[export] Hint Extern 2 (mute (mret _)) => apply mute_keeps, keeps_ret : mute.
#[export] Hint Extern 2 (mute (gets _)) => apply mute_keeps, keeps_gets : mute.
#[export] Hint Extern 2 (mute (uworld _)) => apply mute_keeps, keeps_uworld : mute.
#[export] Hint Extern 2 (mute (printf _ _)) => apply mute_keeps, keeps_printf : mute.
#[export] Hint Extern 2 (mute (perror _)) => apply mute_keeps, keeps_perror : mute.
#[export] Hint Extern 2 (mute poll_turn) => apply mute_keeps, keeps_poll_turn : mute.

Section programs.
Context {W : Type} `{!Libc W}.
Context (a : abi).

Lemma mute_serve BLOCK_SIZE OPCODE_READ OPCODE_WRITE OPCODE_NOTIFY address opcode rounds f :
  mute (W:=W) (serve a BLOCK_SIZE OPCODE_READ OPCODE_WRITE OPCODE_NOTIFY address opcode rounds f).
Proof.
  induction rounds as [|n IH]; cbn [serve]; [auto with mute|].
  apply mute_bind; [auto with mute|intros x]. apply mute_if; [auto with mute|].
  apply mute_bind; [|intros []; auto with mute]. unfold serve_round.
  apply mute_bind; [auto with mute|]. intros []; [auto with mute..|].
  apply mute_bind; [auto with mute|]. intros [bytes|]; [|auto with mute].
  unfold handle_message, do_work, fseek. auto 20 with mute.
Qed.

Lemma mute_helper_serve rounds sock : mute (W:=W) (Helper.serve a rounds sock).
Proof. apply mute_keeps, Helper.keeps_helper_serve. Qed.
End programs.

(** ** Lemmas *)
Section system_lemmas.
Context {K L : Type} `{!Libc L}.
Context (wire : list Z → list Z) (unwire : list Z → option cn_msg).

(** Nothing comes back from a program that sends nothing. *)
Lemma deliver_nothing {A} (prog : nat → M (ustate (uenv L)) A) (w : closed K L) :
  (∀ n, mute (prog n)) → ∃ w', closed_deliver prog unwire w = ([], w').
Proof.
  intros Hmute. unfold closed_deliver. destruct (prog _ _) as [x u|] eqn:Hrun; [|by eexists].
  rewrite (mute_frames _ _ _ _ (Hmute _) Hrun). by eexists.
Qed.

Lemma closed_memory `{!Allocator K} n (w : closed K L) :
  (∀ n (k : K), is_Some (k_malloc n k).1) → ∃ junk w', k_malloc n w = (Some junk, w').
Proof.
  intros Hmem. destruct (Hmem n (cl_kernel w)) as [junk Hj]. eexists junk, _.
  unfold k_malloc at 1, closed_allocator, in_kernel. by rewrite Hj.
Qed.
End system_lemmas.

Section handling.
Context {L : Type} `{!Libc L}.
Context (a : abi) (BLOCK_SIZE OPCODE_READ OPCODE_WRITE OPCODE_NOTIFY : Z)
  (address opcode : list Z → Z).
Abbreviation st := (ustate (uenv L)).
Implicit Types (u : st).

(** What the handling of one message leaves of the program's state. *)
Definition handled (u u' : st) (l : list uevent) : Prop :=
  u_log u' = u_log u ++ l ∧ need_exit u' = need_exit u ∧
  ue_queue (u_world u') = ue_queue (u_world u).

Lemma handled_silently u u' :
  u_log u' = u_log u → need_exit u' = need_exit u → ue_queue (u_world u') = ue_queue (u_world u) →
  handled u u' [].
Proof. intros. unfold handled. by rewrite app_nil_r. Qed.

Lemma fseek_ends f off u :
  is_Some (u_streams u !! f) → ∃ rc u', fseek f off u = Ok rc u' ∧ handled u u' [].
Proof.
  intros [x Hx]. unfold fseek, get_stream. unfold mbind at 1, M_bind at 1. rewrite Hx.
  rewrite (bind_ok _ _ _ _ _ (uworld_eq _ _)).
  destruct (truth _); eexists _, _; (split; [reflexivity|]); by apply handled_silently.
Qed.

Lemma do_work_ends f ad op buffer u :
  is_Some (u_streams u !! f) → c_string buffer ≠ None →
  ∃ rc u' l, do_work BLOCK_SIZE OPCODE_READ OPCODE_WRITE OPCODE_NOTIFY f ad op buffer u = Ok rc u' ∧
    handled u u' l.
Proof.
  intros Hf Hc. destruct (fseek_ends f (ad * BLOCK_SIZE) u Hf) as (rc & u1 & Hrun & Hl & Hn & Hq).
  rewrite app_nil_r in Hl. unfold do_work. rewrite (bind_ok _ _ _ _ _ Hrun).
  destruct (truth rc); [by exists (-1), u1, []; eauto using handled_silently|].
  destruct (_ =? _); [by eexists _, _, []; eauto using handled_silently|].
  destruct (_ =? _); [by eexists _, _, []; eauto using handled_silently|].
  destruct (c_string buffer); [clear Hc|done].
  destruct (_ =? _); eexists _, _, [_]; (split; [reflexivity|]);
    (split; [cbn; by rewrite Hl|by split]).
Qed.

(** The line printed for a message whose header has these members. *)
Definition message_line (idx val seq ack : Z) : uevent :=
  UPrintf "[%x.%x] [%08u.%08u]." [PInt idx; PInt val; PInt seq; PInt ack].

Lemma handle_done f buf u :
  is_Some (u_streams u !! f) → array_member a buf nlmsghdr "nlmsg_type" = NLMSG_DONE →
  c_string (drop 16 buf) ≠ None →
  let member := array_member a (drop 16 buf) cn_msg_t in
  ∃ u' l, handle_message a BLOCK_SIZE OPCODE_READ OPCODE_WRITE OPCODE_NOTIFY address opcode f buf u
      = Ok tt u' ∧
    handled u u' (message_line (member "idx") (member "val") (member "seq") (member "ack") :: l).
Proof.
  intros Hf Hd Hstr member. unfold handle_message. rewrite Hd.
  change (NLMSG_DONE =? NLMSG_ERROR) with false. change (NLMSG_DONE =? NLMSG_DONE) with true.
  cbv iota zeta. change (Z.to_nat NLMSG_HDRLEN) with 16%nat.
  set (line := message_line (member "idx") (member "val") (member "seq") (member "ack")). set (u1 := with_ulog (u_log u ++ [line]) u).
  erewrite (bind_ok _ _ _ _ u1); [|reflexivity].
  destruct (do_work_ends f (address (drop 16 buf)) (opcode (drop 16 buf)) (drop 16 buf) u1 Hf Hstr)
    as (rc & u2 & l & Hrun & Hl & Hn & Hq). rewrite (bind_ok _ _ _ _ _ Hrun).
  assert (u_log u2 = u_log u ++ line :: l) as Hlog by (rewrite Hl; cbn; by rewrite <-app_assoc).
  destruct (rc <? 0); cbn [when].
  - eexists _, (l ++ [_]). split; [reflexivity|]. split; [|by split].
    cbn. rewrite Hlog, <-app_assoc. reflexivity.
  - by exists u2, l.
Qed.

(** The array a frame is received into begins with the frame. *)
Lemma receive_prefix size bytes rest :
  (length bytes ≤ Z.to_nat size)%nat → ∃ tl, receive_buffer size (bytes ++ rest) = bytes ++ tl.
Proof.
  intros Hl. unfold receive_buffer. rewrite <-app_assoc, take_app_ge by done. by eexists.
Qed.

Lemma type_member hdr rest :
  length hdr = 16%nat →
  array_member a (hdr ++ rest) nlmsghdr "nlmsg_type" = array_member a hdr nlmsghdr "nlmsg_type".
Proof. intros Hl. by do 16 (destruct hdr as [|? hdr]; [done|]). Qed.

(** A request holds a zero byte, so that ["%s"] ends inside the array it is in. *)
Lemma request_terminated `{!Connector K} counter adr tl :
  c_string (request_bytes counter adr ++ tl) ≠ None.
Proof.
  apply c_string_app. rewrite c_string_None. intros Hno. apply Hno. unfold request_bytes.
  do 3 (apply elem_of_app; right). by left.
Qed.

(** The header a receiver finds in the message of a request. *)
Lemma request_header `{!Connector K} counter adr tl :
  0 <= CN_NETLINK_USERS + 3 < 2 ^ 32 → 0 <= counter < 2 ^ 32 →
  let member := array_member a (request_bytes counter adr ++ tl) cn_msg_t in
  member "idx" = CN_NETLINK_USERS + 3 ∧ member "val" = 0x456 ∧ member "seq" = counter ∧
  member "ack" = 0.
Proof.
  intros Hid Hc member.
  assert (∀ x, 0 <= x < 2 ^ 32 → le_decode (le_encode 4 x) = x) as Hdec.
  { intros x Hx. rewrite le_decode_encode. by apply Z.mod_small. }
  split; [by apply Hdec|]. split; [done|]. split; [by apply Hdec|done].
Qed.

(** One turn of the loop with a frame waiting handles it. *)
Lemma poll_waiting bytes q u :
  need_exit u = 0 → ue_queue (u_world u) = bytes :: q → poll_turn u = Ok Receive (with_errno 0 u).
Proof.
  intros Hn Hq. destruct u as [h fs str n e sq er lg [lib queue]]. cbn in Hn, Hq. by subst.
Qed.

Lemma serve_one f bytes u :
  need_exit u = 0 → ue_queue (u_world u) = [bytes] →
  serve a BLOCK_SIZE OPCODE_READ OPCODE_WRITE OPCODE_NOTIFY address opcode 1 f u
  = (handle_message a BLOCK_SIZE OPCODE_READ OPCODE_WRITE OPCODE_NOTIFY address opcode f
       (receive_buffer 2048 bytes) ;;
     x ← gets need_exit; if truth x then mret true else mret false)
      (with_uworld (UEnv (ue_lib (u_world u)) []) (with_errno 0 u)).
Proof.
  intros Hn Hq. cbn [serve]. erewrite bind_ok; [|reflexivity]. rewrite Hn. cbn [truth Z.eqb negb].
  unfold serve_round. rewrite mbind_assoc, (bind_ok _ _ _ _ _ (poll_waiting _ _ _ Hn Hq)).
  rewrite mbind_assoc. rewrite (bind_ok _ _ _ _ _ (uworld_eq _ _)). cbn [u_world with_errno].
  assert (recv_bytes (u_world u) = (Some bytes, UEnv (ue_lib (u_world u)) [])) as ->
    by (cbn; by rewrite Hq).
  cbn [fst snd]. by rewrite mbind_assoc.
Qed.

End handling.

(** ** The kernel module with [user_space_application/main.c] *)
Section main_system.
Context `{!Semaphore, !SemaphoreLaws} {K L : Type} `{!Libc L}
  `{!Allocator K, !Clock K, !Connector K, !Printf, !PrintfLaws, !Vfs K}.
Context (a : abi) (BLOCK_SIZE OPCODE_READ OPCODE_WRITE OPCODE_NOTIFY : Z)
  (address opcode : list Z → Z) (disk : positive).
Context (wire : list Z → list Z) (unwire : list Z → option cn_msg).

(** The loop of [main] on the open file [disk]. *)
Definition main_loop (rounds : nat) : M (ustate (uenv L)) bool :=
  serve a BLOCK_SIZE OPCODE_READ OPCODE_WRITE OPCODE_NOTIFY address opcode rounds disk.

#[local] Instance main_system : Connector (closed K L) := closed_connector main_loop wire unwire.

Abbreviation st := (kstate globals (closed K L)).
Implicit Types (s : st) (w : closed K L).

Lemma main_system_silent w : ∃ w', cn_deliver w = ([], w').
Proof. apply deliver_nothing. intros n. apply mute_serve. Qed.

Lemma system_read s adr block :
  (∀ n (k : K), is_Some (k_malloc n k).1) → ready s → sjfs_read_block a adr block s = Stop Blocked.
Proof.
  intros Hmem (Hwf & _ & Hcn & Hcb).
  destruct (closed_memory 25 (k_world s) Hmem) as (junk & w1 & Hm).
  destruct (request_sent a adr s junk w1 Hwf Hm Hcn Hcb) as (x & y & Hx & Hy & Hrun).
  unfold sjfs_read_block. apply bind_stop. rewrite Hrun.
  match goal with |- _ ?t = _ => destruct (main_system_silent (k_world t)) as [w' Hw] end.
  by eapply wait_no_reply.
Qed.

(** C7: The system of the repository does not run.  With enough memory and whatever the
    library calls of the user-space program return, a thread that reads a block - any
    block - through kernel module, connector and program sleeps for ever, holding the
    mutex of the socket level; so does every mount, in its first line. *)
Theorem system_never_reads (s : st) (adr : Z) (block : ptr) :
  (∀ n (k : K), is_Some (k_malloc n k).1) → ready s →
  sjfs_read_block a adr block s = Stop Blocked ∧
  ∀ max sb data silent, sjfs_fill_super a max sb data silent s = Stop Blocked.
Proof.
  intros Hmem Hr. split; [by apply system_read|]. intros max sb data silent.
  unfold sjfs_fill_super. apply bind_stop. unfold sjfs_get_disk_superblock.
  destruct (closed_memory sizeof_int (k_world s) Hmem) as (junk & w1 & Hm).
  rewrite (bind_ok _ _ _ _ _ (kmalloc_ok _ _ _ _ Hm)). cbn [is_null].
  apply bind_stop, system_read; [done|]. by apply ready_alloc.
Qed.

(** C27: A request arrives intact and is not answered.  When the program waits at an empty
    socket with its disk open, and the connector puts its header in front of a message,
    then a request for [adr] makes the program print exactly the identifier, sequence
    number and acknowledgement the module wrote into it; the frame is consumed, the
    program goes on waiting, and no callback results. *)
Theorem request_reaches_program (w : closed K L) (counter adr : Z) :
  (∀ bs, ∃ hdr pad, wire bs = hdr ++ bs ++ pad ∧ length hdr = 16%nat ∧
    array_member a hdr nlmsghdr "nlmsg_type" = NLMSG_DONE) →
  0 <= CN_NETLINK_USERS + 3 < 2 ^ 32 → 0 <= counter < 2 ^ 32 →
  ue_queue (u_world (cl_user w)) = [] → need_exit (cl_user w) = 0 →
  is_Some (u_streams (cl_user w) !! disk) →
  ∃ w' l, cn_deliver (cn_netlink_send (request_bytes counter adr) w).2 = ([], w') ∧
    u_log (cl_user w')
      = u_log (cl_user w) ++ message_line (CN_NETLINK_USERS + 3) 0x456 counter 0 :: l ∧
    need_exit (cl_user w') = 0 ∧ ue_queue (u_world (cl_user w')) = [].
Proof.
  intros Hwire Hid Hc Hq Hn Hf. destruct (Hwire (request_bytes counter adr)) as (hdr & pad & Hw & Hl & Ht).
  set (u := post (wire (request_bytes counter adr)) (cl_user w)).
  set (u1 := with_uworld (UEnv (ue_lib (u_world u)) []) (with_errno 0 u)).
  assert (ue_queue (u_world u) = [wire (request_bytes counter adr)]) as Hqu by (cbn; by rewrite Hq).
  destruct (receive_prefix 2048 (hdr ++ request_bytes counter adr) pad) as [tl Hbuf].
  { rewrite length_app, Hl, length_request_bytes.
    pose proof (length_request_payload adr). lia. }
  rewrite <-!app_assoc in Hbuf. rewrite <-Hw in Hbuf.
  destruct (handle_done a BLOCK_SIZE OPCODE_READ OPCODE_WRITE OPCODE_NOTIFY address opcode disk
    (receive_buffer 2048 (wire (request_bytes counter adr))) u1) as (u2 & l & Hrun & Hlog & Hn2 & Hq2);
    [exact Hf|by rewrite Hbuf, type_member
    |rewrite Hbuf, drop_app_length' by done; apply request_terminated|].
  destruct (request_header a counter adr tl Hid Hc) as (E1 & E2 & E3 & E4).
  rewrite Hbuf, drop_app_length', E1, E2, E3, E4 in Hlog by done.
  assert (main_loop 1 u = Ok false u2) as Hserve.
  { unfold main_loop. rewrite (serve_one _ _ _ _ _ _ _ _ _ u Hn Hqu). fold u1.
    rewrite (bind_ok _ _ _ _ _ Hrun). erewrite bind_ok; [|reflexivity].
    rewrite Hn2. cbn. by rewrite Hn. }
  set (w1 := (cn_netlink_send (request_bytes counter adr) w).2).
  exists (Closed (cl_kernel w1) u2), l. split.
  - change (cn_deliver w1) with (closed_deliver main_loop unwire w1). unfold closed_deliver.
    change (cl_user w1) with u. rewrite Hqu. cbn [length]. rewrite Hserve.
    by rewrite (mute_frames _ _ _ _ (mute_serve _ _ _ _ _ _ _ _ _) Hserve).
  - split; [exact Hlog|]. cbn. by rewrite Hn2, Hq2.
Qed.
End main_system.

(** ** The module of plan A with its helper *)
Section plan_a_system.
Context `{!Semaphore, !SemaphoreLaws} {K L : Type} `{!Libc L}
  `{!Allocator K, !Connector K, !Vfs K, !UserCopy K}.
Context (a : abi) (sock : Z) (wire : list Z → list Z) (unwire : list Z → option cn_msg).

#[local] Instance plan_a_system : Connector (closed K L) :=
  closed_connector (λ rounds, Helper.serve a rounds sock) wire unwire.

Abbreviation st := (kstate PlanA.globals (closed K L)).
Implicit Types (s : st) (w : closed K L).

Lemma plan_a_system_silent w : ∃ w', cn_deliver w = ([], w').
Proof. apply deliver_nothing. intros n. apply mute_helper_serve. Qed.

(** C28: Plan A does not run either.  A read of any file through the module of plan A and
    its helper sleeps for ever, with or without memory for the request and whatever the
    library calls of the helper return. *)
Theorem plan_a_never_reads (s : st) (ip : positive) (i : inode) (to count ppos : Z) :
  x86 a → heap_wf (k_heap s) → k_inodes s !! ip = Some i →
  sem_count (PlanA.cn_sem (k_glob s)) = 1%nat → sem_count (PlanA.cb_sem (k_glob s)) = 1%nat →
  PlanA.sjfs_fops_read a ip to count ppos s = Stop Blocked.
Proof.
  intros Ha Hwf Hi Hcn Hcb.
  destruct (k_malloc (sizeof_cn_msg + PlanA.sizeof_packet a) (k_world s)) as [[junk|] w1] eqn:Hm.
  - destruct (PlanA.read_sends a s ip i to count ppos junk w1 Ha Hwf Hi Hcn Hcb Hm)
      as (x & y & _ & Hy & ->).
    match goal with |- _ ?t = _ => destruct (plan_a_system_silent (k_world t)) as [w' Hw] end.
    by eapply PlanA.read_rest_unanswered.
  - destruct (plan_a_system_silent w1) as [w' Hw]. by eapply PlanA.read_no_memory_hangs.
Qed.
End plan_a_system.

(** ** Witnesses *)

(** The program at an empty socket, its disk open as stream 1. *)
Definition waiting_user : ustate (uenv script) :=
  UState empty_heap {["disk" := replicate 24 0]} {[1%positive := Stream "disk" "a+b" 0]} 2 0 41 0 []
    (UEnv (Script [] []) []).

(** A connector that writes a netlink header, and takes any frame for an empty message. *)
Definition demo_wire (bs : list Z) : list Z :=
  encode_struct LP64 nlmsghdr [[16 + Z.of_nat (length bs)]; [NLMSG_DONE]; [0]; [0]; [0]] ++ bs.
Definition demo_unwire (bs : list Z) : option cn_msg := Some (CnMsg 14 0x456 0 0 0 []).

#[local] Instance demo_served : Connector served := served_connector formatted.

Definition demo_system : Connector (closed served script) :=
  main_system LP64 1024 0 1 2 (λ _, 0) (λ _, 0) 1 demo_wire demo_unwire.

Definition demo_closed : kstate globals (closed served script) :=
  KState demo_heap ∅ 1 {[1%positive := fresh_super]} demo_globals
    (Closed (Served None) waiting_user) [].

Lemma system_never_reads_witness :
  sjfs_read_block (Connector0:=demo_system) LP64 42 (Ptr 1 0) demo_closed = Stop Blocked ∧
  ∀ max sb data silent,
    sjfs_fill_super (Connector0:=demo_system) LP64 max sb data silent demo_closed = Stop Blocked.
Proof.
  apply (system_never_reads LP64 1024 0 1 2 (λ _, 0) (λ _, 0) 1 demo_wire demo_unwire demo_closed
    42 (Ptr 1 0)); [intros n k; by eexists|].
  split; [apply demo_heap_wf|]. split; [reflexivity|done].
Defined.

Lemma request_reaches_program_witness :
  let w := k_world demo_closed in
  ∃ w' l, cn_deliver (Connector:=demo_system)
      (cn_netlink_send (Connector:=demo_system) (request_bytes (Connector0:=demo_system) 7 42) w).2 = ([], w') ∧
    u_log (cl_user w') = [] ++ message_line 14 0x456 7 0 :: l ∧
    need_exit (cl_user w') = 0 ∧ ue_queue (u_world (cl_user w')) = [].
Proof.
  refine (request_reaches_program LP64 1024 0 1 2 (λ _, 0) (λ _, 0) 1 demo_wire demo_unwire
    (k_world demo_closed) 7 42 _ (conj _ _) (conj _ _) eq_refl eq_refl _); try by vm_compute.
  - intros bs. eexists _, []. rewrite app_nil_r. by repeat split.
  - by eexists.
Defined.

(** The same run, executed: the program goes on to [do_work]. *)
Example request_run :
  let w := k_world demo_closed in
  ∃ w', cn_deliver (Connector:=demo_system)
      (cn_netlink_send (Connector:=demo_system) (request_bytes (Connector0:=demo_system) 7 42) w).2 = ([], w') ∧
    u_log (cl_user w') = [message_line 14 0x456 7 0].
Proof. eexists. split; [vm_compute; reflexivity|reflexivity]. Qed.

#[local] Existing Instance PlanA.sim_user_copy.

Definition demo_plan_a : kstate PlanA.globals (closed sim script) :=
  KState empty_heap {[1%positive := PlanA.demo_file]} 2 ∅ PlanA.demo_globals
    (Closed sim0 waiting_user) [].

Lemma plan_a_never_reads_witness :
  PlanA.sjfs_fops_read (Connector0:=plan_a_system LP64 4 demo_wire demo_unwire) LP64 1 0 3 0
    demo_plan_a = Stop Blocked.
Proof.
  apply (plan_a_never_reads LP64 4 demo_wire demo_unwire demo_plan_a 1 PlanA.demo_file 0 3 0);
    try reflexivity; [by left|apply heap_wf_empty].
Defined.
